(* ===== verification/_CoqProject ===== *)
-Q . S2P
Prelude.v
JsString.v
Html.v
JsNumber.v
JsArray.v
Book.v
Spine.v
Filter.v
Sync.v
Stats.v
Facets.v
Library.v
ImportExport.v
Modal.v
Catalog.v
AuthBoot.v
Summary.v
Dashboard.v
AuthForms.v
Cover.v
Scanner.v
Theme.v
Detail.v
Results.v
Page.v
Collections.v
