(* ===== verification/Prelude.v ===== *)
(** * ConnieReads: a verification development of the book-tracking client

    The program (src/app.js, src/firebase.js) is a single-page web client
    that keeps a user's books, collections and settings in a remote document
    store (Firebase Firestore), mirrors them in memory and in localStorage,
    and derives from the in-memory book list a filtered and sorted library
    view, facet lists for the filter panel, and the statistics of the
    dashboard and stats pages.  src/firebase.js hands each change of the
    signed-in user to the app's [window._onAuthReady], retrying with a
    timer until the app has defined it.

    ** Parts of the program and how they interact

    Control flow: firebase.js delivers auth changes to [_onAuthReady],
    which signs the session in or out; the remote store pushes snapshots
    to the listeners that [subscribeToData] installed; a snapshot replaces the in-memory [books];
    the render functions read [books] and never write it; the editing
    handlers ([saveBook], [deleteCurrentBook], imports) write the remote
    store, and their effect reaches [books] with the next snapshot.

    ** Files (in dependency order), and what they model

    - [Prelude.v] (this file): library imports, the [cr_scope] notation
      [x \in l] for [Array.prototype.includes], the [connie] hint databases,
      the [bool_to_prop] and [eval_closed] tactics, generic list lemmas.
    - [JsString.v], Module [JsString]: the ECMAScript string operations the
      code calls ([toLowerCase], [includes], [startsWith], [substring],
      [trim], [parseInt], [String(n)], [split], [join]) on strings of
      Latin-1 code units (one Stdlib [ascii] each); [includes] is proved to
      be substring search and [split] to invert [join].
    - [Html.v], Module [Html]: [escHtml] (app.js:6), the four global
      replaces every render function puts user text through, with the
      per-character escape [escape_ref] and the entity decoding [unescape]
      as references.
    - [JsNumber.v], Module [JsNumber]: JS numbers as IEEE 754 binary64
      values (the Standard Library's [SpecFloat], round to nearest even):
      the quotient [a / b] of two integers, the product by 100,
      [Math.round], [Math.floor], [Math.ceil] and [toFixed(1)], with their
      error analysis in integers (an [inbetween] location predicate in the
      style of Flocq).
    - [JsArray.v]: [Array.prototype.sort] with a comparator as a stable
      insertion sort [js_sort], with the class [ConsistentComparator]
      (ECMA-262's consistent comparator) and instances for the comparators
      the code builds; [js_sort_unique]: the stable sorted permutation is
      unique, so any conforming engine gives the same result.  [new Set] as
      [set_values]; insertion-ordered objects used as counters and
      [Object.entries] (integer-like keys first) with [count_entries_spec].
    - [Book.v]: the [Book], [Collection] and [Settings] objects as records.
    - [Spine.v], Module [Spine]: the placeholder spine of a book without a
      cover (app.js:1005-1031): the title hash of [getSpineColor] with the
      32-bit wrap of [<<] written out ([to_int32]), the palette index, and
      [bookSpineHTML] and [bookCoverImg] as views (colours and escaped
      texts).
    - [Filter.v], Module [Filter]: [_doRenderLibrary]'s filter callback
      [book_passes] and comparator [lib_compare], the view [library_view],
      the filter panel ([fpSetStatus] .. [clearAllFilters]) as the step
      [panel_handle] on [LibraryUi], and [updateFilterBadge].
    - [Sync.v], Module [Sync]: the session ([currentUser], [books],
      [collections], [settings], the unsubscribe handles, [syncTimeout], the
      remote settings documents and the localStorage mirror) as the record
      [Session], one function per handler ([_onAuthReady], [authSignOut],
      [subscribeToData] and its snapshot callbacks, [loadSettings],
      [saveLocal], [loadLocal], [save], [saveSettingsToFirestore], [saveGoal],
      [setTheme], [saveDisplayName]) and a [Tick] event that fires the
      debounce timer on a virtual clock; [step], [run] and the reachability
      relation [reachable].
    - [Stats.v], Module [Stats]: the counters of [refreshDashboard] and
      [renderStats]: year and month histograms, rating distribution,
      genre and author rankings, leaderboard, and the goal percentage
      [Math.min(100, Math.round((n / goal) * 100))] in binary64.
    - [Facets.v], Module [Facets]: [buildFilterOptions] and
      [updateOwnedCounts].
    - [Library.v], Module [Library]: the tag input, [saveBook],
      [deleteCurrentBook], [saveCollection], the Firestore writers and the
      activity log, as functions on [LibState], proved against the class
      [DocStore]/[DocStoreLaws] (the document store's contract) with the
      stdpp [gmap] instance [gmap_store].
    - [ImportExport.v], Module [ImportExport]: [parseCSV] (a character
      scanner with a quote flag), the Goodreads row mapping ([gr_book]:
      the author regex, the shelf to status map, shelves to tags) and the
      row loop [gr_batch], [importGoodreads], [importShelfwise] (the JSON
      backup as the record [Backup]; a file [JSON.parse] rejects is
      [None]), [exportData] as [exportCSV] and [exportJSON], and
      [clearAllData].  These write the store through [Library]'s writers
      and the settings through [Sync]'s [saveSettingsToFirestore]; the
      step [app_step] puts them beside the book modal's [lib_step] on the
      pair of library state and session.
    - [Modal.v], Module [Modal]: the book modal's inputs as a
      [Library.BookForm] that persists between openings:
      [clearBookForm], what [openAddModal] (with a search result, as from
      [addFromSearch]) and [openEditModal] write into the form,
      [renderCollectionCheckboxes] and [setRating], as steps [open_add],
      [open_edit], [rate] and [save_form] on the pair of library state
      and form.
    - [Catalog.v], Module [Catalog]: [searchBooks] with its fallback from
      Hardcover to Open Library, each provider's mapping of its JSON
      answer to a result ([hc_result], [ol_result]), and [addFromSearch]
      on the last results through [Modal.open_add].
    - [AuthBoot.v], Module [AuthBoot]: the [onAuthStateChanged] listener
      of src/firebase.js (24-42) with its 100 ms retry poller, on a state
      [Boot] (clock, whether app.js has set [_onAuthReady], the running
      pollers, the users delivered) and the JS timer queue ([fire_due]:
      due timers fire in due-time order, ties in creation order); the
      delivered users drive [Sync]'s session ([app_session]).
    - [Summary.v], Module [Summary]: the rest of [renderStats]
      (app.js:1531-1714): the four cards with the average rating, the
      most-read authors built in the object [authorData] (with the
      TypeError an author named like an [Object.prototype] property
      raises: [render_summary] is [None] then), the reading summary
      (pages read, average days per book from ISO dates) and the format
      counts.
    - [Dashboard.v], Module [Dashboard]: [refreshDashboard] with
      [updateLibCount] (app.js:1423-1528) as a function of the books,
      settings, collections, activity log and clock: the counts, the goal
      card with the days left, the books being read with their progress,
      the wish list, the activity list with [timeAgo] (8-14), the
      collection pills; and [renderCollections] (1390-1414).
    - [AuthForms.v], Module [AuthForms]: the sign-in page (app.js:309-393)
      on a state [AuthPage] that holds [Sync]'s session, the provider's
      user object, the header ([updateUserUI]), the forms' error lines,
      the toast and the provider calls awaiting an answer; the answers
      and the auth change ([_onAuthReady]) are events in any order; and
      [saveDisplayName] with its header refresh.
    - [Cover.v], Module [Cover]: [refreshCover] (app.js:772-838) as two
      steps around its awaits ([refreshCover_start] at the press,
      [refreshCover_finish] when both providers have answered), on a
      state [CoverState] (the press counter object
      [coverRefreshAttempts], the book form's inputs, the preview, the
      toasts and the requests sent); the candidate list and its [Set]
      dedup; [updateCoverPreview] (665-678) through [Spine];
      [encodeURIComponent]; the legacy [getBestCoverUrl] (842-853).
      Presses and answers are events of [cover_step], so a press may
      start while another awaits its answers.
    - [Scanner.v], Module [Scanner]: the barcode scanner's handlers
      (app.js:40-155) as they stand after the later declarations replace
      the stubs, in [JsM], a state-and-exception monad whose exceptions
      keep the effects made before them; reading an identifier no
      declaration binds throws a ReferenceError; [isbn_lookup] is the
      lookup the handler would make; [scan_step] and [scan_reachable]
      make the scanner a transition system.
    - [Theme.v], Module [Theme]: [applyTheme] (app.js:490-504) as the view
      [ThemeView] of the settings and [toggleTheme] (483-488) as a step
      of [Sync]'s session; the appearance panel's swatches (1722-1727);
      the page's load handler (159-169) as [domContentLoaded].
    - [Detail.v], Module [Detail]: [renderBookCard], [renderBookListItem]
      (1262-1305) and [openBookDetail] (1318-1363) as views of a book,
      with [String.prototype.repeat]'s RangeError and the texts the code
      leaves unescaped kept raw; [statusLabel] (7) with the inherited
      properties of its object literal.
    - [Results.v], Module [Results]: [renderSearchResults] (975-997) as
      the list of result cards, and [search_page], the page the outcome of
      [Catalog.searchBooks] leaves.
    - [Page.v], Module [Page]: [showPage] (441-461), [toggleSidebar],
      [setView] and the handlers that call [renderLibrary] (1307-1315),
      the books listener's conditional re-render (249-257), the 50 ms
      debounce of [renderLibrary] (1034-1039) as a timer on a clock, and
      [_doRenderLibrary]'s grid, class and empty state (1040-1099) as
      [doRenderLibrary] over [Filter.library_view] and [Detail]'s cards,
      with the filter badge and summary of [updateFilterBadge] (1146-1178);
      [nav_step] and [nav_reachable] make the page a transition system.
    - [Collections.v], Module [Collections]: the new-collection modal
      ([openNewCollectionModal], [selectEmoji], 1366-1379) as the record
      [ColModal], composed with [Library.saveCollection] (1381-1388).

    ** What the theorems show

    - Filter: [book_passes_iff] characterises the predicate clause by clause;
      the view is the filtered list stably sorted, neighbours in the order
      of the chosen key and ties in library order ([library_view_order]);
      the panel invariant holds in every reachable state ([panel_invariant]).
    - Sync: a snapshot replaces [books] by its documents ordered by
      [dateAdded], newest first, ties in snapshot order
      ([books_snapshot_replaces]); one listener per kind in every
      reachable session; a burst of saves gives one write of the last
      value; from any session with a write pending, sign-outs and then a
      sign-in write the old settings into the new user's document
      ([settings_leak_across_users]); an auth state turning to no user
      leaves every listener active, and its next snapshot refills
      [books] while signed out ([signed_out_listener_survives]).
    - JsNumber: [Math.round(a / b)] is the rational [a / b] rounded half
      up ([js_round_div]); [Math.floor] and [Math.ceil] of [a / b] are the
      integer quotients ([js_floor_div], [js_ceil_div]);
      [Math.round((n / g) * 100)] and [toFixed(1)] of [a / b] are the
      rational roundings except at exact ties, where the binary64 value
      may fall below and the result be one less ([js_round_pct],
      [tenths_div]).
    - Stats and Facets: each chart and facet list computed in closed form
      (bucket [i] counts exactly the books selecting [i]; rankings keep the
      top keys with their exact counts); the goal percentage lies in
      [[0, 100]], is 100 from [199 goal < 200 n] on, and is the rational
      rounding except at ties ([goal_pct_bounds]: 29 of 200 shows 14%).
    - AuthBoot: the pollers fire finitely often ([advance_terminates]);
      an auth change is delivered if the app becomes ready before the
      51st check ([auth_state_delivered], liveness); two auth changes
      less than 100 ms apart before the app is ready are both delivered,
      in the order their pollers next fire, so the older state arrives
      last exactly when [(r - a) mod 100 < b - a] and the app keeps it
      ([auth_race_signed_out]).
    - Summary: the average-rating card is [toFixed(1)] of the binary64
      mean ([avg_rating_card]); the authors list throws exactly on
      inherited keys and otherwise counts each author's read books
      ([most_read_authors_spec]); the reading summary's average days is
      the rounded mean of the positive spans ([reading_summary_spec]).
    - Dashboard: [timeAgo] computes what it means in integers
      ([timeAgo_spec]); the progress of a book being read is the rounded
      percentage and is not clamped above 100 ([progress_spec]); the whole
      dashboard renders with the counts, goal card, lists and pills in
      closed form, the pills agreeing with the collections page
      ([refreshDashboard_spec]).
    - AuthForms: the forms' guards call no provider ([auth_form_guards]);
      a sign-up name is saved or lost depending on whether the auth
      change precedes the provider's answer ([signup_name_race]); a
      renamed Google user keeps the Google name in the header
      ([saveDisplayName_header]).
    - Library: the effect of each handler on the store, its error paths
      (empty title, no user, an edit whose book has vanished), the store and
      list invariant over reachable states, the tag field round trip.
    - Import and export: the CSV export read back by [parseCSV] gives the
      exported fields ([csv_roundtrip]); a JSON backup restored into an
      empty account lists exactly the exported books at the next snapshot,
      stores every collection and restores the settings
      ([importShelfwise_restores]); the Goodreads import writes the kept
      rows, numbered, under fresh ids and nothing else
      ([importGoodreads_spec], via the equivalence [gr_batch_imap] of the
      loop with a filter); parse errors write nothing; [clearAllData]
      deletes exactly the in-memory books' documents; the library
      invariant survives the data tab ([app_invariant]); every imported
      Goodreads book has the shape of a fresh import ([gr_batch_shape]);
      and concrete runs
      show where the code departs from the spec (the author is never
      reordered, duplicates within one file are both imported, the app's
      own CSV is not re-importable without losing status and rating).
    - Modal: opening a book for editing and saving it unchanged writes
      the same book back ([edit_save_roundtrip], using [parseInt_of_Z]:
      [parseInt] reads back what [String(n)] prints); after a book with a
      description has been opened, saving a book without one, edited or
      new, stores that description ([stale_description]).
    - Catalog: [searchBooks_spec] gives the outcome of a search for every
      pair of provider answers; a failed lookup and an empty one end the
      same way.
    - Html and Spine: [escHtml] is the per-character escape, leaves no
      [<], [>] or double quote and decodes back ([escHtml_roundtrip]);
      the binary64 hash loop computes the integer hash exactly for
      titles up to 2^20 characters ([title_hash_exact]), which agrees
      with Java's [hashCode] modulo 2^32 ([title_hash_java]); every title
      gets a colour, so [bookSpineHTML] never destructures [undefined]
      ([spine_total]).
    - Cover: the [j]-th press shows the candidate at [(c + j) % n], so the
      first press skips the first candidate ([refreshCover_kth_press]); a
      second press during the lookup makes both show the same candidate
      ([refreshCover_double_press]); the candidates are never empty and
      [No covers found] is unreachable ([refreshCover_never_empty]); an
      ISBN named like an [Object.prototype] property gives the index NaN
      and the cover URL [undefined] ([refreshCover_proto_key]); the title
      enters the Open Library URL as one decodable path segment
      ([ol_title_url_segment]).
    - Scanner: in every reachable scanner state no book was scanned and
      the add form was never opened, since [handleISBNDetected] and
      [closeScanner] throw ReferenceErrors before any effect
      ([scanner_never_adds]).
    - Theme: the sidebar button says [Light Mode] under every theme but
      [light], but toggles to [light] only from [dark] or an unknown name
      ([toggleTheme_label]); the appearance panel marks the same swatch as
      [applyTheme] exactly for a theme of [THEMES]
      ([appearance_swatches_agree]); a reload restores from the local
      cache the books, collections and settings [saveLocal] wrote, and
      the settings toggle is on only for a stored [dark]
      ([reload_restores]).
    - Detail: a rating outside 0..5 makes the views throw (the card and
      list item below 0, the detail below 0 or above 5), and ratings
      0..5 give five stars ([openBookDetail_rating]); the detail escapes
      the title, author, genre, tags and notes but not the dates and the
      lender's name ([openBookDetail_markup]); the witnesses build the
      book with [ImportExport.gr_book] from a Goodreads row.
    - Results: every result gets its card, marked [In Library] exactly
      when a book has its ISBN or its title up to case, so after a
      Goodreads import every result without ISBN is marked
      ([results_in_library]).
    - Page: [page_inv], kept by every event, says that on the library
      page with no render pending the grid is up to date; so 50 ms
      without events settle the grid on the cards of the library view or
      the empty state ([library_grid_settles]); a concrete run shows a
      throwing card leaving a blank grid with no empty-state message; the
      active-filter summary is empty exactly when a search is the only
      filter ([filter_summary_search_only]).
    - Collections: a created collection carries the emoji chosen since the
      modal was last opened, or the default ([collection_emoji]).

    ** Bounds and fuel

    Every loop of the code is a structural recursion ([fold_left] over the
    array it iterates, [split_go] over the string it scans, with a counter
    of separator characters still to skip), except the JS timer queue of
    AuthBoot: [fire_due] takes fuel, and [advance] gives it the measure
    [measure] (the checks the running pollers have left, plus one per
    poller), which every firing decreases; [advance_terminates] proves
    that this fuel empties the queue and that more fuel changes nothing.
    Time is a virtual clock in milliseconds ([Z]), so the 800 ms debounce is
    exact.  Stored numbers are integer-valued ([Z]: ratings, counts, page
    counts, timestamps); the quotients the code computes from them are
    binary64 values ([JsNumber]).  The theorems on quotients assume the
    numerators below 2^51 (2^40 for percentages) and the divisors below
    2^53, bounds that keep every binary64 operation normal and exact up
    to its one rounding; timestamps differ by far less than 2^51 ms
    (71 000 years) and page counts and goals by far less than 2^40.
    The spine hash loop is modelled twice: on binary64 numbers, as the
    code runs it ([Spine.title_hash_num], with [SFsub], [SFadd] and
    ToInt32 before the shift), and in [Z] with only the shift wrapped to
    32 bits ([Spine.title_hash]); [title_hash_exact] shows the two agree
    at every step for titles up to 2^20 characters, the bound under which
    every value stays below 2^53 and no binary64 operation rounds
    ([JsNumber.js_add_exact], [JsNumber.js_sub_exact]).  The library's 50 ms render timer is a deadline on the same
    clock; [page_inv] bounds a pending deadline by the clock plus 50, so
    one tick 50 ms later always fires it.

    ** Not modelled

    DOM rendering and CSS (the charts' markup and bar sizes, the
    navigation items' highlight, the modal's labels and stars, the card's
    animation delay, the filter panel's option lists), toasts'
    presentation, the HTTP exchange with the catalogs (a provider's
    answer is an input of [searchBooks], [refreshCover] and
    [handleISBNDetected]: its parsed body or a failure), and the Firebase SDK
    and authentication provider are I/O or external collaborators: a
    provider call's answer and the auth state change it causes are
    events ([AuthForms.Answer], [Sync.AuthReady]).  [localeCompare] is a parameter with the laws of a
    consistent comparator.  [new Date(s)] is modelled for ISO
    [YYYY-MM-DD] strings only (other strings are [NaN] in the model), and
    [new Date(year, 11, 31) - new Date()] as a difference of local
    milliseconds with the zone offset taken equal at both instants.  In
    the import and export
    functions the file pickers, [FileReader], [downloadFile] and the JSON
    text are I/O: a backup is its parsed value.  The awaits of an import
    are taken in order with no snapshot in between; a snapshot arriving
    mid-import is a later [LSnapshot] step.  A Goodreads shelf named
    "constructor" or "__proto__" reads an inherited property of the
    status map and is not modelled.  The scanner's camera is never opened by the code
    ([openScanner] only shows a toast), so no camera I/O is modelled.
    The SDK setup of firebase.js and the tab switch of the sign-in page
    are configuration and presentation.  The page's markup (index.html)
    is not part of src/: the pages, the filter chips' values and the
    page as loaded ([Page.nav0], the dashboard) are taken from the spec,
    and the library theorems hold from any state the events reach. *)

From Stdlib Require Export ZArith Lia List String Ascii Permutation Sorted Bool.
From stdpp Require Export base list strings.
Export ListNotations.

Declare Scope cr_scope.
Delimit Scope cr_scope with cr.

Create HintDb connie.
Create Rewrite HintDb connie_rw.

(** ** Array.prototype.includes on strings (SameValueZero is string equality) *)

Definition js_includes (x : string) (l : list string) : bool :=
  existsb (String.eqb x) l.

Notation "x '\in' l" := (js_includes x l) (at level 70, no associativity) : cr_scope.

Open Scope cr_scope.

(** ** Boolean reflection *)

Ltac bool_to_prop :=
  repeat match goal with
    | H : (_ && _)%bool = true |- _ => apply andb_true_iff in H as [? ?]
    | H : (_ || _)%bool = false |- _ => apply orb_false_iff in H as [? ?]
    | H : negb _ = true |- _ => apply negb_true_iff in H
    | H : negb _ = false |- _ => apply negb_false_iff in H
    | H : String.eqb _ _ = true |- _ => apply String.eqb_eq in H
    | H : Z.eqb _ _ = true |- _ => apply Z.eqb_eq in H
    | H : Z.ltb _ _ = true |- _ => apply Z.ltb_lt in H
    | H : Z.ltb _ _ = false |- _ => apply Z.ltb_ge in H
    | H : Z.leb _ _ = true |- _ => apply Z.leb_le in H
    | H : Z.leb _ _ = false |- _ => apply Z.leb_gt in H
    end.

Lemma js_includes_In x l : js_includes x l = true <-> In x l.
Proof.
  unfold js_includes. rewrite existsb_exists. split.
  - intros [y [Hy Heq]]. apply String.eqb_eq in Heq. now subst.
  - intros Hx. exists x. split; [exact Hx | apply String.eqb_refl].
Qed.

Lemma js_includes_false x l : js_includes x l = false <-> ~ In x l.
Proof.
  rewrite <- js_includes_In. destruct (js_includes x l); split; congruence.
Qed.

#[export] Hint Rewrite js_includes_In : connie_rw.

(** Replace each closed application [f c] in the goal by its value. *)
Ltac eval_closed f :=
  repeat match goal with |- context [f ?c] =>
    let v := eval vm_compute in (f c) in change (f c) with v end.

(** ** Generic list lemmas *)

Section ListLemmas.
Context {A : Type}.

(** [List.filter] keeps an order-preserving subsequence. *)
Lemma filter_sublist (f : A -> bool) (l : list A) : sublist (List.filter f l) l.
  Proof.
    induction l as [|x l IH]; simpl; [constructor|].
    destruct (f x); [by apply sublist_skip | by apply sublist_cons].
  Qed.

Lemma filter_idem (f : A -> bool) (l : list A) :
    List.filter f (List.filter f l) = List.filter f l.
  Proof.
    induction l as [|x l IH]; simpl; [done|].
    destruct (f x) eqn:E; simpl; [rewrite E|]; congruence.
  Qed.

Lemma filter_ext_in (f g : A -> bool) (l : list A) :
    (forall x, In x l -> f x = g x) -> List.filter f l = List.filter g l.
  Proof.
    induction l as [|x l IH]; intros H; simpl; [done|].
    rewrite (H x (or_introl eq_refl)), IH by (intros; apply H; right; done).
    done.
  Qed.

Lemma filter_Permutation (f : A -> bool) (l l' : list A) :
    Permutation l l' -> Permutation (List.filter f l) (List.filter f l').
  Proof.
    induction 1; simpl; try constructor; auto.
    - destruct (f x); auto.
    - destruct (f x), (f y); try constructor; try apply Permutation_refl.
    - econstructor; eauto.
  Qed.

(** A list is the elements a test keeps followed by those it drops. *)
Lemma filter_split_perm (f : A -> bool) (l : list A) :
    Permutation l (List.filter f l ++ List.filter (fun x => negb (f x)) l).
  Proof.
    induction l as [|x l IH]; simpl; [done|].
    destruct (f x); simpl; [by constructor | by apply Permutation_cons_app].
  Qed.
(** A stronger test keeps fewer elements. *)
Lemma filter_length_mono (f g : A -> bool) (l : list A) :
    (forall x, f x = true -> g x = true) ->
    (length (List.filter f l) <= length (List.filter g l))%nat.
  Proof.
    intros H. induction l as [|x l IH]; simpl; [lia|].
    destruct (f x) eqn:E; [rewrite (H x E); simpl; lia|].
    destruct (g x); simpl; lia.
  Qed.

(** A prefix of a sorted list is sorted. *)
Lemma Sorted_firstn (R : A -> A -> Prop) n (l : list A) :
    Sorted R l -> Sorted R (firstn n l).
  Proof.
    revert l. induction n as [|n IH]; intros [|x l] H; simpl; try constructor.
    - apply IH. by inversion H.
    - inversion H as [|? ? _ Hd]; subst. destruct n, l; simpl; constructor.
      by inversion Hd.
  Qed.
Lemma filter_all (f : A -> bool) (l : list A) :
    (forall x, In x l -> f x = true) -> List.filter f l = l.
  Proof.
    induction l as [|x l IH]; intros H; simpl; [done|].
    rewrite (H x (or_introl eq_refl)), IH by (intros; apply H; right; done). done.
  Qed.

Lemma filter_none (f : A -> bool) (l : list A) :
    (forall x, In x l -> f x = false) -> List.filter f l = [].
  Proof.
    induction l as [|x l IH]; intros H; simpl; [done|].
    rewrite (H x (or_introl eq_refl)). apply IH. intros; apply H; by right.
  Qed.

(** Sortedness seen through adjacent pairs: any two neighbours of a
    sorted list are related. *)
Lemma Sorted_adjacent (R : A -> A -> Prop) (l l1 l2 : list A) a b :
    Sorted R l -> l = l1 ++ a :: b :: l2 -> R a b.
  Proof.
    intros Hs ->. induction l1 as [|x l1 IH]; simpl in Hs.
    - inversion Hs as [|? ? _ Hd]; subst. by inversion Hd.
    - apply IH. by inversion Hs.
  Qed.

End ListLemmas.

(** Two members of a list with the same key are equal when the keys are
    distinct. *)
Lemma NoDup_map_In_inj {A B} (f : A -> B) (l : list A) x y :
  List.NoDup (map f l) -> In x l -> In y l -> f x = f y -> x = y.
Proof.
  induction l as [|z l IH]; intros Hnd Hx Hy E; [done|]. simpl in *.
  inversion Hnd as [|? ? Hz Hl]; subst.
  destruct Hx as [<-|Hx], Hy as [<-|Hy]; [done| | |by apply IH].
  - destruct Hz. rewrite E. by apply in_map.
  - destruct Hz. rewrite <- E. by apply in_map.
Qed.

#[export] Hint Resolve filter_sublist filter_Permutation : connie.
