(* ===== verification/JsString.v ===== *)
(** * JsString: the ECMAScript string operations used by src/app.js

    A JS string is a sequence of UTF-16 code units; the model restricts it
    to code units 0..255 (Latin-1), one Stdlib [ascii] each.  On that range
    every operation below is the ECMAScript one:
    [String.prototype.toLowerCase], [includes], [startsWith], [substring],
    [trim], the global [parseInt] with no radix, [Number.prototype.toString]
    on integers, and the default order of [Array.prototype.sort], which
    compares code units. *)

From S2P Require Import Prelude.
From Stdlib Require Import DecimalString.
From Stdlib Require DecimalPos.
Local Open Scope string_scope.
Local Open Scope Z_scope.

Module JsString.

(** ** Case folding: [toLowerCase] on Latin-1 maps A-Z and U+00C0..U+00DE
    (except U+00D7, the multiplication sign) to the code unit 32 higher. *)

Definition lower_code (c : ascii) : ascii :=
  let n := nat_of_ascii c in
  if ((65 <=? n) && (n <=? 90))%nat
     || ((192 <=? n) && (n <=? 222) && negb (n =? 215))%nat
  then ascii_of_nat (n + 32) else c.

Fixpoint toLowerCase (s : string) : string :=
  match s with
  | EmptyString => EmptyString
  | String c s' => String (lower_code c) (toLowerCase s')
  end.

(** ** Search: [s.includes(q)] and [s.startsWith(p)] *)

Definition startsWith (s p : string) : bool := String.prefix p s.

Fixpoint includes (s q : string) : bool :=
  String.prefix q s ||
  match s with
  | EmptyString => false
  | String _ s' => includes s' q
  end.

(** ** [s.substring(a, b)]: both ends clamped to [0, length], swapped when
    [a > b].  The code only calls it with non-negative literal bounds. *)

Definition substring (s : string) (a b : nat) : string :=
  let len := String.length s in
  let a' := Nat.min a len in
  let b' := Nat.min b len in
  String.substring (Nat.min a' b') (Nat.max a' b' - Nat.min a' b') s.

(** ** [trim]: the white space of ECMAScript restricted to Latin-1 is TAB,
    LF, VT, FF, CR, SPACE and NO-BREAK SPACE. *)

Definition is_js_space (c : ascii) : bool :=
  let n := nat_of_ascii c in
  (((9 <=? n) && (n <=? 13)) || (n =? 32) || (n =? 160))%nat.

Fixpoint trimStart (s : string) : string :=
  match s with
  | EmptyString => EmptyString
  | String c s' => if is_js_space c then trimStart s' else s
  end.

Fixpoint trimEnd (s : string) : string :=
  match s with
  | EmptyString => EmptyString
  | String c s' =>
      let t := trimEnd s' in
      if is_js_space c && String.eqb t "" then "" else String c t
  end.

Definition trim (s : string) : string := trimEnd (trimStart s).

(** ** [parseInt(s)] with the radix left undefined (ECMA-262 19.2.5): skip
    leading white space, read an optional sign, strip a [0x]/[0X] prefix
    (radix 16) or use radix 10, then take the longest prefix of digits.
    [None] is NaN. *)

Definition digit_val (radix : Z) (c : ascii) : option Z :=
  let n := Z.of_nat (nat_of_ascii c) in
  let d := if (48 <=? n) && (n <=? 57) then n - 48
           else if (97 <=? n) && (n <=? 122) then n - 87
           else if (65 <=? n) && (n <=? 90) then n - 55
           else 99 in
  if d <? radix then Some d else None.

Fixpoint take_digits (radix : Z) (s : string) : list Z :=
  match s with
  | EmptyString => []
  | String c s' =>
      match digit_val radix c with
      | Some d => d :: take_digits radix s'
      | None => []
      end
  end.

Definition digits_value (radix : Z) (ds : list Z) : Z :=
  fold_left (fun acc d => acc * radix + d) ds 0.

Definition parseInt (s : string) : option Z :=
  let s1 := trimStart s in
  let '(sign, s2) :=
    match s1 with
    | String "-"%char t => (-1, t)
    | String "+"%char t => (1, t)
    | _ => (1, s1)
    end in
  let '(radix, s3) :=
    if String.prefix "0x" s2 || String.prefix "0X" s2
    then (16, String.substring 2 (String.length s2 - 2) s2)
    else (10, s2) in
  match take_digits radix s3 with
  | [] => None
  | ds => Some (sign * digits_value radix ds)
  end.

(** [parseInt(x) || 0]: NaN and 0 are falsy. *)
Definition parseInt_or0 (s : string) : Z :=
  match parseInt s with Some v => v | None => 0 end.

(** ** [n.toString()] on an integer, [String(n)] *)
Definition of_Z (z : Z) : string :=
  DecimalString.NilEmpty.string_of_int (Z.to_int z).

(** ** Default [Array.prototype.sort] order: code-unit lexicographic. *)
Definition code_unit_compare (a b : string) : comparison := String.compare a b.

(** ** [s.split(sep)] for a non-empty separator: scan left to right, cut at
    each occurrence of [sep] and resume after it; [skip] counts the code
    units of the separator still to pass.  ["".split(sep)] is [[""]]. *)
Fixpoint split_go (sep : string) (skip : nat) (acc : string) (s : string) : list string :=
  match s with
  | EmptyString => [acc]
  | String c r =>
      match skip with
      | S k => split_go sep k acc r
      | O => if String.prefix sep s then acc :: split_go sep (String.length sep - 1) "" r
             else split_go sep 0 (acc ++ String c "") r
      end
  end.

Definition split (s sep : string) : list string := split_go sep 0 "" s.

(** ** [arr.join(sep)] *)
Fixpoint join (sep : string) (l : list string) : string :=
  match l with
  | [] => ""
  | [x] => x
  | x :: r => x ++ sep ++ join sep r
  end.

End JsString.

(** ** Properties *)

Section JsStringFacts.
  Import JsString.

Lemma prefix_app (p r : string) : String.prefix p (p ++ r) = true.
  Proof. induction p; simpl; [destruct r|]; try done.
    destruct (ascii_dec a a); [done | congruence]. Qed.

Lemma prefix_spec (p s : string) :
    String.prefix p s = true <-> exists r, s = (p ++ r)%string.
  Proof.
    split.
    - revert s. induction p as [|c p IH]; intros s H; simpl.
      + by exists s.
      + destruct s as [|c' s]; [discriminate|]. simpl in H.
        destruct (ascii_dec c c'); [subst|discriminate].
        destruct (IH s H) as [r ->]. by exists r.
    - intros [r ->]. apply prefix_app.
  Qed.

(** [includes] is substring search: [s.includes(q)] holds exactly when
      [s] splits as [p ++ q ++ r]. *)
Lemma includes_spec (s q : string) :
    includes s q = true <-> exists p r, s = (p ++ q ++ r)%string.
  Proof.
    induction s as [|c s IH]; cbn [includes]; rewrite orb_true_iff, prefix_spec.
    - split.
      + intros [[r Hr]|H]; [exists "", r; exact Hr | discriminate].
      + intros [p [r Hs]]. destruct p; [left; exists r; exact Hs | discriminate].
    - rewrite IH. split.
      + intros [[r Hr]|[p [r Hr]]].
        * exists "", r. exact Hr.
        * exists (String c p), r. simpl. by rewrite Hr.
      + intros [p [r Hs]]. destruct p as [|c' p].
        * left. exists r. exact Hs.
        * right. injection Hs as -> Hs. exists p, r. exact Hs.
  Qed.

Lemma lower_code_idem c : lower_code (lower_code c) = lower_code c.
  Proof. destruct c as [[] [] [] [] [] [] [] []]; reflexivity. Qed.

(** Lower-casing is idempotent, so a lower-cased query compared with
      lower-cased fields is case-insensitive. *)
Lemma toLowerCase_idem s : toLowerCase (toLowerCase s) = toLowerCase s.
  Proof. induction s; simpl; [done|]. by rewrite lower_code_idem, IHs. Qed.

Lemma trimStart_no_space s c t :
    trimStart s = String c t -> is_js_space c = false.
  Proof.
    induction s as [|c' s IH]; simpl; [discriminate|].
    destruct (is_js_space c') eqn:E; [exact IH|]. intros H. by injection H as -> _.
  Qed.
Lemma string_app_assoc (a b c : string) : ((a ++ b) ++ c)%string = (a ++ b ++ c)%string.
  Proof. induction a as [|ch a IH]; [done|exact (f_equal (String ch) IH)]. Qed.

Lemma string_app_nil (a : string) : (a ++ "")%string = a.
  Proof. induction a as [|ch a IH]; [done|exact (f_equal (String ch) IH)]. Qed.

(** Passing over the rest of a separator. *)
Lemma split_go_skip sep x r acc :
    split_go sep (String.length x) acc (x ++ r) = split_go sep 0 acc r.
  Proof. induction x; simpl; auto. Qed.

(** A piece with no code unit equal to the separator's first one is
      copied to the current field. *)
Lemma split_go_plain c0 sep' t r acc :
    (forall n, String.get n t <> Some c0) ->
    split_go (String c0 sep') 0 acc (t ++ r) = split_go (String c0 sep') 0 (acc ++ t) r.
  Proof.
    revert acc. induction t as [|c t IH]; intros acc H; simpl.
    - by rewrite string_app_nil.
    - destruct (ascii_dec c0 c) as [->|_]; [by destruct (H 0%nat)|].
      rewrite IH by (intros n; apply (H (S n))). by rewrite string_app_assoc.
  Qed.

(** [join] then [split] gives back a non-empty list of pieces none of
      which contains the separator's first code unit. *)
Lemma split_join c0 sep' l :
    l <> [] -> (forall t n, In t l -> String.get n t <> Some c0) ->
    split (join (String c0 sep') l) (String c0 sep') = l.
  Proof.
    unfold split. induction l as [|x [|y l] IH]; intros Hne H; [done| |].
    - simpl. rewrite <- (string_app_nil x) at 1. rewrite split_go_plain; [done|].
      intros n; apply H; left; done.
    - change (join _ (x :: y :: l)) with (x ++ String c0 sep' ++ join (String c0 sep') (y :: l))%string.
      rewrite split_go_plain by (intros n; apply H; left; done). simpl.
      rewrite prefix_app, Nat.sub_0_r, split_go_skip.
      destruct (ascii_dec c0 c0) as [_|]; [|congruence].
      f_equal. apply IH; [done|]. intros t n Ht. apply H. by right.
  Qed.

(** ** [parseInt] reads back what [String(n)] prints *)

Lemma digits_acc d acc :
    fold_left (fun a x => a * 10 + x)
      (take_digits 10 (DecimalString.NilEmpty.string_of_uint d)) (Zpos acc)
    = Zpos (Pos.of_uint_acc d acc).
  Proof.
    revert acc. induction d; intros acc; simpl; [reflexivity|..]; rewrite <- IHd; f_equal;
      eval_closed nat_of_ascii; lia.
  Qed.

Lemma digits_value_uint d :
    digits_value 10 (take_digits 10 (DecimalString.NilEmpty.string_of_uint d)) =
    Z.of_N (Pos.of_uint d).
  Proof. unfold digits_value. induction d; simpl; try exact IHd; try reflexivity; apply digits_acc. Qed.

Lemma parseInt_uint d :
    d <> Decimal.Nil ->
    parseInt (DecimalString.NilEmpty.string_of_uint d) = Some (Z.of_N (Pos.of_uint d)).
  Proof.
    intros Hd. rewrite <- digits_value_uint.
    destruct d as [|d|d|d|d|d|d|d|d|d|d]; [congruence|..]; unfold parseInt;
      cbn [DecimalString.NilEmpty.string_of_uint trimStart]; eval_closed is_js_space;
      cbn -[take_digits digits_value]; try (destruct d; cbn -[take_digits digits_value]);
      cbn [take_digits]; eval_closed (digit_val 10); f_equal; apply Z.mul_1_l.
  Qed.

Lemma parseInt_of_Z z : 0 < z -> parseInt (of_Z z) = Some z.
  Proof.
    intros Hz. destruct z as [|p|p]; try lia. unfold of_Z. simpl.
    rewrite parseInt_uint, DecimalPos.Unsigned.of_to; [reflexivity|].
    intros E. pose proof (DecimalPos.Unsigned.of_to p) as F. rewrite E in F. discriminate.
  Qed.
End JsStringFacts.

#[export] Hint Resolve toLowerCase_idem prefix_app : connie.

Example parseInt_examples :
  JsString.parseInt "2024-05-01" = Some 2024%Z /\
  JsString.parseInt "  -12abc" = Some (-12)%Z /\
  JsString.parseInt "0x1A" = Some 26%Z /\
  JsString.parseInt "" = None /\
  JsString.parseInt "05" = Some 5%Z.
Proof. vm_compute. repeat split. Qed.
