(* ===== verification/Html.v ===== *)
(** * Html: [escHtml] (src/app.js:6)

    Every render function puts user text into HTML through [escHtml],
    which replaces [&], [<], [>] and the double quote by their entities, in
    that order, with four [String.prototype.replace] calls on global
    regular expressions of one character.  [escHtml] is proved equal to
    the escape of each character on its own, to leave no markup
    character in its output, and to be undone by the entity decoding a
    browser applies to text ([unescape]). *)

From S2P Require Import Prelude.
Local Open Scope string_scope.

Module Html.

Definition dq : ascii := "034"%char.

(** [s.replace(/c/g, rep)] for a one-character pattern [c]. *)
Fixpoint replace_char (c : ascii) (rep : string) (s : string) : string :=
  match s with
  | EmptyString => EmptyString
  | String x r => if Ascii.eqb x c then rep ++ replace_char c rep r else String x (replace_char c rep r)
  end.

(** [String(s||'').replace(/&/g,'&amp;').replace(/</g,'&lt;').replace(/>/g,'&gt;')] followed by
    the replace of the double quote by [&quot;]. *)
Definition escHtml (s : string) : string :=
  replace_char dq "&quot;" (replace_char ">" "&gt;" (replace_char "<" "&lt;" (replace_char "&" "&amp;" s))).

(** ** Reference definitions *)

(** The entity of one character. *)
Definition esc_char (c : ascii) : string :=
  if Ascii.eqb c "&" then "&amp;"
  else if Ascii.eqb c "<" then "&lt;"
  else if Ascii.eqb c ">" then "&gt;"
  else if Ascii.eqb c dq then "&quot;"
  else String c EmptyString.

Fixpoint escape_ref (s : string) : string :=
  match s with
  | EmptyString => EmptyString
  | String c r => esc_char c ++ escape_ref r
  end.

(** The decoding of the four entities in HTML text. *)
Fixpoint unescape (s : string) : string :=
  match s with
  | String "&" (String "a" (String "m" (String "p" (String ";" r)))) => String "&" (unescape r)
  | String "&" (String "l" (String "t" (String ";" r))) => String "<" (unescape r)
  | String "&" (String "g" (String "t" (String ";" r))) => String ">" (unescape r)
  | String "&" (String "q" (String "u" (String "o" (String "t" (String ";" r))))) => String dq (unescape r)
  | String c r => String c (unescape r)
  | EmptyString => EmptyString
  end.

(** ** Lemmas *)

Lemma str_app_assoc (a b c : string) : a ++ (b ++ c) = (a ++ b) ++ c.
Proof.
  induction a as [|x a IH]; [done|].
  change (String x (a ++ (b ++ c)) = String x ((a ++ b) ++ c)). by rewrite IH.
Qed.

Lemma replace_char_app c rep a b :
  replace_char c rep (a ++ b) = replace_char c rep a ++ replace_char c rep b.
Proof.
  induction a as [|x a IH]; [done|].
  change (String x a ++ b) with (String x (a ++ b)). cbn [replace_char]. rewrite IH.
  destruct (Ascii.eqb x c); [|done]. by rewrite str_app_assoc.
Qed.

Lemma string_cons c r : String c r = String c EmptyString ++ r.
Proof. done. Qed.

Lemma escHtml_app a b : escHtml (a ++ b) = escHtml a ++ escHtml b.
Proof. unfold escHtml. by rewrite !replace_char_app. Qed.

(** One character at a time: the ascii cases split on the four specials. *)
Lemma escHtml_char c : escHtml (String c EmptyString) = esc_char c.
Proof.
  unfold escHtml, esc_char.
  destruct (Ascii.eqb_spec c "&") as [->|H1]; [done|].
  destruct (Ascii.eqb_spec c "<") as [->|H2]; [done|].
  destruct (Ascii.eqb_spec c ">") as [->|H3]; [done|].
  destruct (Ascii.eqb_spec c dq) as [->|H4]; [done|].
  repeat (cbn [replace_char];
          match goal with |- context [Ascii.eqb c ?d] => destruct (Ascii.eqb_spec c d); [congruence|] end).
  done.
Qed.

(** [escHtml] is the escape of each character. *)
Lemma escHtml_spec s : escHtml s = escape_ref s.
Proof.
  induction s as [|c r IH]; [done|]. rewrite string_cons, escHtml_app, escHtml_char, IH. done.
Qed.

(** A character other than [&] starts no entity. *)
Lemma unescape_cons c r : c <> "&"%char -> unescape (String c r) = String c (unescape r).
Proof.
  intros Hc. destruct c as [[] [] [] [] [] [] [] []]; try reflexivity. by destruct Hc.
Qed.

(** No character escapes to text with [<], [>] or a double quote. *)
Lemma esc_char_safe c d : (d = "<" \/ d = ">" \/ d = dq)%char ->
  ~ In d (list_ascii_of_string (esc_char c)).
Proof.
  intros Hd. unfold esc_char.
  destruct (Ascii.eqb_spec c "&"); [destruct Hd as [->|[-> | ->]]; cbn; intuition discriminate|].
  destruct (Ascii.eqb_spec c "<"); [destruct Hd as [->|[-> | ->]]; cbn; intuition discriminate|].
  destruct (Ascii.eqb_spec c ">"); [destruct Hd as [->|[-> | ->]]; cbn; intuition discriminate|].
  destruct (Ascii.eqb_spec c dq); [destruct Hd as [->|[-> | ->]]; cbn; intuition discriminate|].
  cbn. intros [<-|[]]. intuition.
Qed.

Lemma list_ascii_app a b :
  list_ascii_of_string (a ++ b) = (list_ascii_of_string a ++ list_ascii_of_string b)%list.
Proof.
  induction a as [|x a IH]; [done|].
  change (x :: list_ascii_of_string (a ++ b) = x :: (list_ascii_of_string a ++ list_ascii_of_string b))%list.
  by rewrite IH.
Qed.

Lemma unescape_escape s : unescape (escape_ref s) = s.
Proof.
  induction s as [|c r IH]; [done|]. cbn [escape_ref]. unfold esc_char.
  destruct (Ascii.eqb_spec c "&") as [->|H1];
    [cbv beta iota fix delta [String.append]; cbn [unescape]; by rewrite IH|].
  destruct (Ascii.eqb_spec c "<") as [->|H2];
    [cbv beta iota fix delta [String.append]; cbn [unescape]; by rewrite IH|].
  destruct (Ascii.eqb_spec c ">") as [->|H3];
    [cbv beta iota fix delta [String.append]; cbn [unescape]; by rewrite IH|].
  destruct (Ascii.eqb_spec c dq) as [->|H4];
    [cbv beta iota fix delta [String.append]; cbn [unescape]; by rewrite IH|].
  change (unescape (String c (escape_ref r)) = String c r). by rewrite unescape_cons, IH.
Qed.

(** The output of [escHtml] holds no [<], [>] or double quote. *)
Lemma escHtml_no_markup s d : (d = "<" \/ d = ">" \/ d = dq)%char ->
  ~ In d (list_ascii_of_string (escHtml s)).
Proof.
  intros Hd. rewrite escHtml_spec. induction s as [|c r IH]; [by intros []|]. cbn [escape_ref].
  rewrite list_ascii_app, in_app_iff. intros [H|H]; [by apply (esc_char_safe c d)|by apply IH].
Qed.

(** ** Properties *)

(** C2: [escHtml], four global replaces in a row, is the entity escape
    of each character on its own (the [&] replace comes first, so the
    entities it inserts are not escaped again); its output holds no
    [<], [>] or double quote, so user text cannot open a tag or leave an
    attribute value; and the browser's decoding of the four entities
    gives the text back. *)
Theorem escHtml_roundtrip s :
  escHtml s = escape_ref s /\
  (forall d, (d = "<" \/ d = ">" \/ d = dq)%char -> ~ In d (list_ascii_of_string (escHtml s))) /\
  unescape (escHtml s) = s.
Proof.
  split_and!; [apply escHtml_spec|apply escHtml_no_markup|].
  rewrite escHtml_spec. apply unescape_escape.
Qed.

(** Ampersands, tags and quotes in a title. *)
Example escHtml_sample :
  escHtml ("Tom & Jerry <b>" ++ String dq "x") = "Tom &amp; Jerry &lt;b&gt;&quot;x".
Proof. reflexivity. Qed.

(** A tag in a title is shown as text and decodes back. *)
Lemma escHtml_roundtrip_witness :
  ~ In "<"%char (list_ascii_of_string (escHtml "<b>")) /\ unescape (escHtml "<b>") = "<b>".
Proof.
  destruct (escHtml_roundtrip "<b>") as (_ & Hs & Hu). split; [apply Hs; by left|exact Hu].
Defined.

End Html.
