(* ===== verification/JsNumber.v ===== *)
(** * JsNumber: JS numbers as IEEE-754 binary64 values

    The statistics divide integers ([sum / count], [pages / 1000],
    [100 * read / goal]) and then round the quotient with [Math.round] or
    print it with [toFixed(1)].  JS numbers are binary64 floats, so the
    quotient is the correctly rounded binary64 value, not the rational.
    This file models [Number(n)] for an integer and the division with the
    Standard Library's executable binary64 specification
    ([Floats.SpecFloat]: [binary_normalize], [SFdiv] at precision 53 and
    maximal exponent 1024), [Math.round] and [Number.prototype.toFixed(1)]
    exactly on the binary value (ECMA-262 21.3.2.28 and 21.1.3.3).

    [js_div_spec] bounds the error of the division of two integers below
    2^53 by half an ulp; from it, [js_round_div] shows that [Math.round]
    of the quotient is the rational rounding half up for numerators below
    2^51, ties included (a tie is exactly representable), and
    [tenths_div] that [toFixed(1)] prints the rational rounding half up
    except at the ties [x.x5], where the binary value decides.

    The spine hash adds and subtracts integers as binary64 numbers:
    [js_add_exact] and [js_sub_exact] show that [SFadd] and [SFsub] of
    two integers below 2^53 in magnitude give [Number] of the exact
    integer result, and [js_trunc] (the truncation ToInt32 starts with)
    gives the integer back ([js_trunc_num]). *)

From Stdlib Require Import Floats.SpecFloat.
From S2P Require Import Prelude JsString.
Local Open Scope Z_scope.

Module JsNumber.

Definition prec : Z := 53.
Definition emax : Z := 1024.

(** [Number(z)] for an integer [z] (exact when |z| <= 2^53). *)
Definition js_num (z : Z) : spec_float := binary_normalize prec emax z 0 false.

(** [a / b] on two integer-valued numbers. *)
Definition js_div (a b : Z) : spec_float := SFdiv prec emax (js_num a) (js_num b).

(** [x * y] on two numbers. *)
Definition js_mul (x y : spec_float) : spec_float := SFmul prec emax x y.

(** floor(m * 2^e * k + 1/2), computed exactly. *)
Definition half_up (m e k : Z) : Z :=
  if 0 <=? e then m * 2 ^ e * k else (2 * m * k + 2 ^ (- e)) / 2 ^ (1 - e).

(** [Math.round(x)]: the integer closest to [x], ties towards +oo; [None]
    for NaN and the infinities. *)
Definition js_round (x : spec_float) : option Z :=
  match x with
  | S754_zero _ => Some 0
  | S754_finite s m e => Some (half_up (cond_Zopp s (Zpos m)) e 1)
  | _ => None
  end.

Definition below_1e21 (m : positive) (e : Z) : bool :=
  if 0 <=? e then Zpos m * 2 ^ e <? 10 ^ 21 else Zpos m <? 10 ^ 21 * 2 ^ (- e).

(** The digits of [n / 10] with one decimal. *)
Definition fixed1 (n : Z) : string :=
  (JsString.of_Z (n / 10) ++ "." ++ JsString.of_Z (n mod 10))%string.

(** [x.toFixed(1)]: [n] is the integer for which [n / 10 - x] is closest
    to zero, the larger one at a tie; a negative [x] is printed as [-]
    followed by [(-x).toFixed(1)].  Values of magnitude 10^21 or more are
    printed by [Number::toString], which is not modelled ([None]). *)
Definition toFixed1 (x : spec_float) : option string :=
  match x with
  | S754_nan => Some "NaN"
  | S754_infinity s => Some (if s then "-Infinity" else "Infinity")
  | S754_zero _ => Some "0.0"
  | S754_finite s m e =>
      if below_1e21 m e then Some ((if s then "-" else "") ++ fixed1 (half_up (Zpos m) e 10))%string
      else None
  end.

(** The tenths [toFixed(1)] prints for a finite non-negative [x]. *)
Definition tenths (x : spec_float) : option Z :=
  match x with
  | S754_zero _ => Some 0
  | S754_finite false m e => Some (half_up (Zpos m) e 10)
  | _ => None
  end.

(** [Math.floor(x)] and [Math.ceil(x)] of a finite [x]; [None] for NaN
    and the infinities.  [Math.ceil] of a negative [x] above [-1] is [-0],
    which prints as [0] like [0]. *)
Definition js_floor (x : spec_float) : option Z :=
  match x with
  | S754_zero _ => Some 0
  | S754_finite s m e =>
      Some (if 0 <=? e then cond_Zopp s (Zpos m) * 2 ^ e else cond_Zopp s (Zpos m) / 2 ^ (- e))
  | _ => None
  end.

Definition js_ceil (x : spec_float) : option Z :=
  match x with
  | S754_zero _ => Some 0
  | S754_finite s m e =>
      Some (if 0 <=? e then cond_Zopp s (Zpos m) * 2 ^ e else - (- cond_Zopp s (Zpos m) / 2 ^ (- e)))
  | _ => None
  end.

(** ToInt32's truncation of a binary64 value ([NaN], the infinities and
    the zeros give 0). *)
Definition js_trunc (x : spec_float) : Z :=
  match x with
  | S754_finite s m e => cond_Zopp s (if 0 <=? e then Zpos m * 2 ^ e else Zpos m / 2 ^ (- e))
  | _ => 0
  end.

(** ** Binary digits *)

Lemma digits2_pos_size p : digits2_pos p = Pos.size p.
Proof. induction p; simpl; congruence. Qed.

Lemma size_bounds p : 2 ^ (Zpos (Pos.size p) - 1) <= Zpos p < 2 ^ Zpos (Pos.size p).
Proof.
  induction p as [p IH|p IH|]; cbn [Pos.size]; [| |cbn; lia];
    rewrite Pos2Z.inj_succ, Z.pow_succ_r by lia;
    replace (Z.succ (Zpos (Pos.size p)) - 1) with (Z.succ (Zpos (Pos.size p) - 1)) by lia;
    rewrite Z.pow_succ_r by lia; lia.
Qed.

Lemma size_unique p d : 0 < d -> 2 ^ (d - 1) <= Zpos p < 2 ^ d -> Zpos (Pos.size p) = d.
Proof.
  intros Hd Hb. pose proof (size_bounds p) as Hs.
  destruct (Z.lt_trichotomy (Zpos (Pos.size p)) d) as [Hl|[Hl|Hl]]; [|done|].
  - assert (2 ^ Zpos (Pos.size p) <= 2 ^ (d - 1)) by (apply Z.pow_le_mono_r; lia). lia.
  - assert (2 ^ d <= 2 ^ (Zpos (Pos.size p) - 1)) by (apply Z.pow_le_mono_r; lia). lia.
Qed.

Lemma Zdigits2_53 m : 2 ^ 52 <= Zpos m < 2 ^ 53 -> Zdigits2 (Zpos m) = 53.
Proof. intros Hm. cbn [Zdigits2]. rewrite digits2_pos_size. by apply size_unique. Qed.

Lemma iter_xO p n : Zpos (Pos.iter xO p n) = Zpos p * 2 ^ Zpos n.
Proof.
  induction n as [|n IH] using Pos.peano_ind; [cbn; lia|].
  rewrite Pos.iter_succ, Pos2Z.inj_xO, IH, Pos2Z.inj_succ, Z.pow_succ_r by lia. lia.
Qed.

Lemma fexp_normal e : -1021 <= e -> fexp prec emax e = e - prec.
Proof. intros He. unfold fexp, emin, prec, emax. lia. Qed.

(** Cancel a positive factor on both sides. *)
Lemma mul_le_cancel_l p x y : 0 < p -> p * x <= p * y -> x <= y.
Proof. intros Hp H. by apply (Z.mul_le_mono_pos_l x y p). Qed.

Lemma lt_cancel_l p x y : 0 < p -> p * x < p * y -> x < y.
Proof. intros Hp H. by apply (Z.mul_lt_mono_pos_l p). Qed.


(** The second half of [binary_round_aux]: renormalise the rounded
    mantissa and check for overflow. *)
Definition round_tail (m e : Z) : spec_float :=
  let '(mrs, e') := shr_fexp prec emax m e loc_Exact in
  match shr_m mrs with
  | Z0 => S754_zero false
  | Zpos m => if e' <=? emax - prec then S754_finite false m e' else S754_infinity false
  | Zneg _ => S754_nan
  end.

Lemma binary_round_aux_tail mx ex lx :
  binary_round_aux prec emax false mx ex lx =
  let '(mrs, e') := shr_fexp prec emax mx ex lx in
  round_tail (round_nearest_even (shr_m mrs) (loc_of_shr_record mrs)) e'.
Proof. unfold binary_round_aux. by destruct (shr_fexp prec emax mx ex lx). Qed.

Lemma shr_fexp_53 m e l : 2 ^ 52 <= Zpos m < 2 ^ 53 -> -1021 <= 53 + e ->
  shr_fexp prec emax (Zpos m) e l = (shr_record_of_loc (Zpos m) l, e).
Proof.
  intros Hm He. unfold shr_fexp. rewrite Zdigits2_53, fexp_normal by lia.
  by replace (53 + e - prec - e) with 0 by (unfold prec; lia).
Qed.

Lemma round_tail_53 m e : 2 ^ 52 <= Zpos m < 2 ^ 53 -> -1074 <= e <= 971 ->
  round_tail (Zpos m) e = S754_finite false m e.
Proof.
  intros Hm He. unfold round_tail. rewrite shr_fexp_53 by lia. cbn [shr_record_of_loc shr_m].
  unfold prec, emax. by replace (e <=? 1024 - 53) with true by lia.
Qed.

Lemma round_tail_carry e : -1074 <= e <= 970 ->
  round_tail (2 ^ 53) e = S754_finite false (2 ^ 52) (e + 1).
Proof.
  intros He. unfold round_tail, shr_fexp. cbn [shr_record_of_loc].
  change (Zdigits2 (2 ^ 53)) with 54. rewrite fexp_normal by lia.
  replace (54 + e - prec - e) with 1 by (unfold prec; lia). cbn [shr].
  change (@SpecFloat.iter_pos _ shr_1 1%positive {| shr_m := 2 ^ 53; shr_r := false; shr_s := false |})
    with {| shr_m := 2 ^ 52; shr_r := false; shr_s := false |}. cbn [shr_m].
  unfold prec, emax. by replace (e + 1 <=? 1024 - 53) with true by lia.
Qed.

Lemma round_exact53 m e : 2 ^ 52 <= Zpos m < 2 ^ 53 -> -1074 <= e <= 971 ->
  binary_round_aux prec emax false (Zpos m) e loc_Exact = S754_finite false m e.
Proof.
  intros Hm He. rewrite binary_round_aux_tail, shr_fexp_53 by lia. by apply round_tail_53.
Qed.

(** [Number(a)] for [0 < a < 2^53]: the mantissa is [a] shifted to 53 bits. *)
Lemma js_num_spec a : 0 < a < 2 ^ 53 ->
  exists m k, js_num a = S754_finite false m (- k) /\ 0 <= k <= 52 /\
              Zpos m = a * 2 ^ k /\ 2 ^ 52 <= Zpos m < 2 ^ 53.
Proof.
  intros Ha. destruct a as [|p|p]; [lia| |lia].
  pose proof (size_bounds p) as Hs. set (d := Zpos (Pos.size p)) in Hs.
  assert (Hd : 1 <= d <= 53).
  { split; [lia|]. destruct (Z.le_gt_cases d 53) as [|Hg]; [done|].
    assert (2 ^ 53 <= 2 ^ (d - 1)) by (apply Z.pow_le_mono_r; lia). lia. }
  unfold js_num, binary_normalize, binary_round, shl_align.
  rewrite digits2_pos_size. fold d. rewrite fexp_normal by lia.
  destruct (Z.eq_dec d 53) as [E|E].
  - replace (d + 0 - prec - 0) with 0 by (unfold prec; lia). cbv iota.
    rewrite E in Hs. replace (53 - 1) with 52 in Hs by lia.
    rewrite round_exact53 by lia. exists p, 0. rewrite Z.pow_0_r. split_and!; [done|lia..].
  - replace (d + 0 - prec - 0) with (Zneg (Pos.of_nat (Z.to_nat (53 - d)))) by (unfold prec; lia).
    cbv iota.
    assert (Hk : Zpos (Pos.of_nat (Z.to_nat (53 - d))) = 53 - d) by lia.
    assert (Hm : 2 ^ 52 <= Zpos (Pos.iter xO p (Pos.of_nat (Z.to_nat (53 - d)))) < 2 ^ 53).
    { rewrite iter_xO, Hk.
      replace (2 ^ 52) with (2 ^ (d - 1) * 2 ^ (53 - d)) by (rewrite <- Z.pow_add_r by lia; f_equal; lia).
      replace (2 ^ 53) with (2 ^ d * 2 ^ (53 - d)) by (rewrite <- Z.pow_add_r by lia; f_equal; lia).
      assert (0 < 2 ^ (53 - d)) by (apply Z.pow_pos_nonneg; lia).
      split; [apply Z.mul_le_mono_nonneg_r|apply Z.mul_lt_mono_pos_r]; lia. }
    rewrite round_exact53 by (unfold prec; lia). replace (d + 0 - prec) with (- (53 - d)) by (unfold prec; lia).
    eexists _, (53 - d). split; [reflexivity|]. rewrite iter_xO, Hk in Hm |- *. split; [lia|]. split; [done|]. done.
Qed.

(** ** Where the exact value lies between two mantissas *)

(** The rational [num / den] lies in [[m, m + 1)], at the place [l] says:
    on [m], below, at or above the midpoint. *)
Definition inbetween (m : Z) (l : location) (num den : Z) : Prop :=
  m * den <= num < (m + 1) * den /\
  match l with
  | loc_Exact => num = m * den
  | loc_Inexact Lt => m * den < num /\ 2 * (num - m * den) < den
  | loc_Inexact Eq => 2 * (num - m * den) = den
  | loc_Inexact Gt => 2 * (num - m * den) > den
  end.

Lemma loc_of_record m l : loc_of_shr_record (shr_record_of_loc m l) = l.
Proof. by destruct l as [|[]]. Qed.

Lemma shr_m_of_loc m l : shr_m (shr_record_of_loc m l) = m.
Proof. by destruct l as [|[]]. Qed.

(** The remainder of the long division gives the location. *)
Lemma new_location_inb q r den : 0 <= r < den ->
  inbetween q (new_location den r) (q * den + r) den.
Proof.
  intros Hr. unfold new_location.
  destruct (Z.even den) eqn:Ev; unfold new_location_even, new_location_odd; cbv beta;
    (destruct (r =? 0) eqn:Er; [apply Z.eqb_eq in Er as ->; unfold inbetween; cbv iota; lia
                              |apply Z.eqb_neq in Er]).
  - destruct (Z.compare_spec (2 * r) den); unfold inbetween; cbv iota; lia.
  - assert (2 * r <> den) by (intros <-; by rewrite Z.even_mul in Ev).
    destruct (Z.compare_spec (2 * r + 1) den); unfold inbetween; cbv iota; lia.
Qed.

Lemma shr_1_div2 m r st : 0 <= m ->
  shr_1 {| shr_m := m; shr_r := r; shr_s := st |} = {| shr_m := Z.div2 m; shr_r := Z.odd m; shr_s := r || st |}.
Proof. intros Hm. by destruct m as [|[p|p|]|p]; [..|lia]. Qed.

(** One right shift halves the mantissa and keeps track of the location. *)
Lemma shr_1_inb mrs num den : 0 < den -> 0 <= shr_m mrs ->
  inbetween (shr_m mrs) (loc_of_shr_record mrs) num den ->
  0 <= shr_m (shr_1 mrs) /\
  inbetween (shr_m (shr_1 mrs)) (loc_of_shr_record (shr_1 mrs)) num (2 * den).
Proof.
  destruct mrs as [m r st]. cbn [shr_m]. intros Hd Hm. rewrite shr_1_div2 by done. cbn [shr_m].
  pose proof (Z.div2_odd m) as Hdiv. revert Hdiv. generalize (Z.div2 m) (Z.odd m). intros h b ->.
  destruct b, r, st; cbn [loc_of_shr_record orb Z.b2z] in *; unfold inbetween; cbv iota; lia.
Qed.

(** Rounding to nearest, ties to even, is within half a unit. *)
Lemma round_nearest_even_inb m l num den : 0 < den -> inbetween m l num den ->
  let m' := round_nearest_even m l in
  2 * Z.abs (m' * den - num) <= den /\ m <= m' <= m + 1.
Proof.
  intros Hd. unfold inbetween. destruct l as [|[]]; cbn zeta; unfold round_nearest_even; cbv iota;
    [|destruct (Z.even m)| |]; lia.
Qed.

Ltac pow2_num :=
  change (2 ^ 52) with 4503599627370496 in *; change (2 ^ 53) with 9007199254740992 in *;
  change (2 ^ 54) with 18014398509481984 in *.

(** The last rounding step of a renormalised mantissa [m] in
    [[2^52, 2^53]] at location [num / den]. *)
Lemma round_tail_spec m e num den : 0 < den -> 2 ^ 52 <= m <= 2 ^ 53 -> -1000 <= e <= 960 ->
  2 * Z.abs (m * den - num) <= den ->
  exists M c, round_tail m e = S754_finite false M (e + c) /\ 0 <= c <= 1 /\
              Zpos M * 2 ^ c = m /\ 2 ^ 52 <= Zpos M < 2 ^ 53.
Proof.
  intros Hd Hm He Hr. destruct (Z.eq_dec m (2 ^ 53)) as [->|Hne].
  - rewrite round_tail_carry by lia. exists (2 ^ 52)%positive, 1. by split_and!.
  - destruct m as [|M|]; [pow2_num; lia| |pow2_num; lia].
    rewrite round_tail_53 by lia. exists M, 0. rewrite Z.add_0_r, Z.mul_1_r. split_and!; done || lia.
Qed.

(** [binary_round_aux] on a mantissa [q] of 53 or 54 bits whose exact
    value, at exponent [e], is [num / den]: the result is [M * 2^(e+g)]
    within half a unit of the [n]-th bit, [n] the bits shifted out. *)
Lemma iter_pos_nat {A} (f : A -> A) p x : SpecFloat.iter_pos f p x = Nat.iter (Pos.to_nat p) f x.
Proof.
  revert x. induction p as [p IH|p IH|]; intros x; cbn [SpecFloat.iter_pos]; [| |done].
  - rewrite !IH, Pos2Nat.inj_xI, <- Nat.iter_add, <- Nat.iter_succ_r. f_equal. lia.
  - rewrite !IH, Pos2Nat.inj_xO, <- Nat.iter_add. f_equal. lia.
Qed.

(** [k] right shifts divide the mantissa by [2^k], keeping the location. *)
Lemma shr_iter_inb k mrs num den : 0 < den -> 0 <= shr_m mrs ->
  inbetween (shr_m mrs) (loc_of_shr_record mrs) num den ->
  0 <= shr_m (Nat.iter k shr_1 mrs) /\
  inbetween (shr_m (Nat.iter k shr_1 mrs)) (loc_of_shr_record (Nat.iter k shr_1 mrs)) num (2 ^ Z.of_nat k * den).
Proof.
  intros Hd. induction k as [|k IH]; intros Hm Hin; [by rewrite Z.mul_1_l|].
  destruct (IH Hm Hin) as [Hm' Hin']. rewrite Nat.iter_succ.
  replace (2 ^ Z.of_nat (S k) * den) with (2 * (2 ^ Z.of_nat k * den))
    by (rewrite Nat2Z.inj_succ, Z.pow_succ_r by lia; ring).
  apply shr_1_inb; [|done|done]. pose proof (Z.pow_pos_nonneg 2 (Z.of_nat k)). lia.
Qed.

Lemma shr_fexp_gen p e l d : 53 <= d -> 2 ^ (d - 1) <= Zpos p < 2 ^ d -> -1021 <= d + e ->
  shr_fexp prec emax (Zpos p) e l =
  (Nat.iter (Z.to_nat (d - 53)) shr_1 (shr_record_of_loc (Zpos p) l), e + (d - 53)).
Proof.
  intros Hd Hp He. unfold shr_fexp. cbn [Zdigits2]. rewrite digits2_pos_size, (size_unique p d) by lia.
  rewrite fexp_normal by lia. replace (d + e - prec - e) with (d - 53) by (unfold prec; lia).
  destruct (Z.eq_dec d 53) as [->|Hne]; [cbn; by rewrite Z.add_0_r|].
  destruct (d - 53) as [|P|P] eqn:Es; [lia| |lia]. cbn [shr].
  by rewrite iter_pos_nat, Z2Nat.inj_pos.
Qed.

(** [binary_round_aux] on a mantissa [q] of [d >= 53] bits whose exact
    value at exponent [e] is [num / den]: the result [M * 2^(e+g)] is
    within half a unit of the 53rd bit. *)
Lemma round_aux_gen q e l num den d : 0 < den -> 53 <= d -> 2 ^ (d - 1) <= q < 2 ^ d ->
  -1000 <= e + d - 53 <= 960 -> inbetween q l num den ->
  exists M g, binary_round_aux prec emax false q e l = S754_finite false M (e + g) /\
    2 ^ 52 <= Zpos M < 2 ^ 53 /\ d - 53 <= g <= d - 52 /\
    2 * Z.abs (Zpos M * 2 ^ g * den - num) <= 2 ^ (d - 53) * den /\ 2 ^ (d - 1) * den <= num.
Proof.
  intros Hd Hd53 Hq He Hin. rewrite binary_round_aux_tail.
  assert (0 < 2 ^ (d - 1)) by (apply Z.pow_pos_nonneg; lia).
  destruct q as [|p|p]; [lia| |lia]. rewrite (shr_fexp_gen p e l d) by lia.
  set (s := d - 53) in *.
  destruct (shr_iter_inb (Z.to_nat s) (shr_record_of_loc (Zpos p) l) num den) as [H0 Hin1];
    [done|rewrite shr_m_of_loc; lia|by rewrite shr_m_of_loc, loc_of_record|].
  rewrite Z2Nat.id in Hin1 by lia.
  set (r := Nat.iter (Z.to_nat s) shr_1 (shr_record_of_loc (Zpos p) l)) in *.
  pose proof (Z.pow_pos_nonneg 2 s ltac:(lia) ltac:(lia)). set (P := 2 ^ s * den) in *.
  assert (HP : 0 < P) by (unfold P; lia).
  assert (HP1 : 2 ^ (d - 1) * den = 2 ^ 52 * P) by (unfold P, s; rewrite Z.mul_assoc, <- Z.pow_add_r by lia; f_equal; f_equal; lia).
  assert (HP2 : 2 ^ d * den = 2 ^ 53 * P) by (unfold P, s; rewrite Z.mul_assoc, <- Z.pow_add_r by lia; f_equal; f_equal; lia).
  assert (Hlow : 2 ^ (d - 1) * den <= num).
  { destruct Hin as [[Hin _] _]. assert (2 ^ (d - 1) * den <= Zpos p * den) by (apply Z.mul_le_mono_nonneg_r; lia). lia. }
  assert (Hhigh : num < 2 ^ d * den).
  { destruct Hin as [[_ Hin] _]. assert ((Zpos p + 1) * den <= 2 ^ d * den) by (apply Z.mul_le_mono_nonneg_r; lia). lia. }
  assert (Hr : 2 ^ 52 <= shr_m r < 2 ^ 53).
  { destruct Hin1 as [[Hl Hh] _]. split.
    - enough (2 ^ 52 < shr_m r + 1) by lia. apply (lt_cancel_l P); [done|]. lia.
    - apply (lt_cancel_l P); [done|]. lia. }
  destruct (round_nearest_even_inb _ _ num P HP Hin1) as [Hre Hb]. cbn zeta in Hre, Hb.
  destruct (round_tail_spec (round_nearest_even (shr_m r) (loc_of_shr_record r)) (e + s) num P)
    as (M & c & -> & Hc & HM & HMb); [done|lia|lia|done|].
  exists M, (s + c). rewrite Z.add_assoc. do 3 (split; [done || lia|]). split; [|done].
  rewrite Z.pow_add_r by lia.
  replace (Zpos M * (2 ^ s * 2 ^ c) * den) with (Zpos M * 2 ^ c * P) by (unfold P; ring).
  rewrite HM. done.
Qed.

Lemma round_aux_spec q e l num den : 0 < den -> 2 ^ 52 <= q < 2 ^ 54 -> -1000 <= e <= 900 ->
  inbetween q l num den ->
  exists M g n, binary_round_aux prec emax false q e l = S754_finite false M (e + g) /\
    2 ^ 52 <= Zpos M < 2 ^ 53 /\ 0 <= n <= 1 /\ n <= g <= n + 1 /\
    2 * Z.abs (Zpos M * 2 ^ g * den - num) <= 2 ^ n * den /\ 2 ^ (52 + n) * den <= num.
Proof.
  intros Hd Hq He Hin. destruct (Z.lt_ge_cases q (2 ^ 53)).
  - destruct (round_aux_gen q e l num den 53) as (M & g & -> & HM & Hg & Herr & Hlow); [done|lia|lia|lia|done|].
    exists M, g, 0. split_and!; try done; lia.
  - destruct (round_aux_gen q e l num den 54) as (M & g & -> & HM & Hg & Herr & Hlow); [done|lia|lia|lia|done|].
    exists M, g, 1. split_and!; try done; lia.
Qed.

Lemma div_core_spec m1 m2 e1 e2 : 2 ^ 52 <= Zpos m1 < 2 ^ 53 -> 2 ^ 52 <= Zpos m2 < 2 ^ 53 ->
  -900 <= e1 - e2 <= 900 ->
  SFdiv_core_binary prec emax (Zpos m1) e1 (Zpos m2) e2 =
  (Zpos m1 * 2 ^ 53 / Zpos m2, e1 - e2 - 53,
   new_location (Zpos m2) (Zpos m1 * 2 ^ 53 mod Zpos m2)).
Proof.
  intros H1 H2 He. unfold SFdiv_core_binary. cbv zeta. rewrite !Zdigits2_53 by done.
  rewrite fexp_normal by lia.
  replace (Z.min (53 + e1 - (53 + e2) - prec) (e1 - e2)) with (e1 - e2 - 53) by (unfold prec; lia).
  replace (e1 - e2 - (e1 - e2 - 53)) with 53 by lia. cbv iota.
  rewrite Z.shiftl_mul_pow2 by lia. unfold Z.div, Z.modulo. by destruct (Z.div_eucl _ _).
Qed.


(** The division of two integers [0 < a < 2^52] and [0 < b < 2^53]
    returns [M * 2^-E], within half a unit of the 53rd bit of [a / b]:
    [|M / 2^E - a / b| <= 1 / (2 * 2^E)], and [a / b >= 2^51 / 2^E]. *)
Lemma js_div_spec a b : 0 < a < 2 ^ 52 -> 0 < b < 2 ^ 53 ->
  exists M E, js_div a b = S754_finite false M (- E) /\ 0 <= E /\ 2 ^ 52 <= Zpos M < 2 ^ 53 /\
    2 * Z.abs (Zpos M * b - a * 2 ^ E) <= b /\ 2 ^ 51 * b <= a * 2 ^ E.
Proof.
  intros Ha Hb.
  destruct (js_num_spec a) as (m1 & k1 & E1 & Hk1 & Hm1 & Hb1); [pow2_num; lia|].
  destruct (js_num_spec b) as (m2 & k2 & E2 & Hk2 & Hm2 & Hb2); [done|].
  assert (Hk1' : 1 <= k1).
  { destruct (Z.eq_dec k1 0) as [->|]; [rewrite Z.pow_0_r in Hm1; lia|lia]. }
  unfold js_div. rewrite E1, E2. unfold SFdiv. rewrite div_core_spec by lia. cbn [xorb].
  set (num := Zpos m1 * 2 ^ 53). set (den := Zpos m2).
  assert (Hd : 0 < den) by lia.
  assert (Hq : 2 ^ 52 <= num / den < 2 ^ 54).
  { unfold num, den. pow2_num. split.
    - apply Z.div_le_lower_bound; lia.
    - apply Z.div_lt_upper_bound; lia. }
  assert (Hin : inbetween (num / den) (new_location den (num mod den)) num den).
  { rewrite (Z.div_mod num den) at 3 by lia. rewrite Z.mul_comm.
    apply new_location_inb, Z.mod_pos_bound, Hd. }
  destruct (round_aux_spec _ (- k1 - - k2 - 53) _ _ _ Hd Hq ltac:(lia) Hin) as (M & g & n & -> & HMb & Hn & Hg & Herr & Hlow).
  exists M, (k1 - k2 + 53 - g). split; [f_equal; lia|]. split; [lia|]. split; [done|].
  set (E := k1 - k2 + 53 - g).
  assert (HP : 2 ^ (k1 + 53) = 2 ^ k2 * 2 ^ g * 2 ^ E) by (rewrite <- !Z.pow_add_r by lia; f_equal; lia).
  assert (Hnum : num = 2 ^ k2 * 2 ^ g * (a * 2 ^ E)).
  { unfold num. rewrite Hm1, <- Z.mul_assoc, <- Z.pow_add_r, HP by lia. ring. }
  assert (Hden : den = 2 ^ k2 * b) by (unfold den; rewrite Hm2; ring).
  assert (0 < 2 ^ k2) by (apply Z.pow_pos_nonneg; lia).
  assert (0 < 2 ^ g) by (apply Z.pow_pos_nonneg; lia).
  assert (0 <= 2 ^ k2 * b) by lia.
  assert (HPG : 0 < 2 ^ k2 * 2 ^ g) by lia.
  assert (2 ^ n * (2 ^ k2 * b) <= 2 ^ g * (2 ^ k2 * b))
    by (apply Z.mul_le_mono_nonneg_r; [lia|apply Z.pow_le_mono_r; lia]).
  assert (2 ^ g * (2 ^ k2 * b) <= 2 * 2 ^ n * (2 ^ k2 * b))
    by (apply Z.mul_le_mono_nonneg_r; [lia|rewrite <- Z.pow_succ_r by lia; apply Z.pow_le_mono_r; lia]).
  split.
  - rewrite Hnum, Hden in Herr.
    replace (Zpos M * 2 ^ g * (2 ^ k2 * b) - 2 ^ k2 * 2 ^ g * (a * 2 ^ E))
      with (2 ^ k2 * 2 ^ g * (Zpos M * b - a * 2 ^ E)) in Herr by ring.
    rewrite Z.abs_mul, (Z.abs_eq (2 ^ k2 * 2 ^ g)) in Herr by lia.
    apply (mul_le_cancel_l _ _ _ HPG). lia.
  - rewrite Hnum, Hden, Z.pow_add_r in Hlow by lia.
    apply (mul_le_cancel_l _ _ _ HPG). change (2 ^ 52) with (2 * 2 ^ 51) in Hlow. lia.
Qed.

(** ** Rounding the quotient *)

Lemma half_up_neg M E k : 0 <= E -> half_up M (- E) k = (2 * M * k + 2 ^ E) / (2 * 2 ^ E).
Proof.
  intros HE. unfold half_up. destruct (Z.leb_spec 0 (- E)).
  - replace E with 0 by lia. rewrite !Z.pow_0_r. apply Z.div_unique with 1; lia.
  - rewrite Z.opp_involutive. replace (1 - - E) with (1 + E) by lia. by rewrite Z.pow_add_r, Z.pow_1_r by lia.
Qed.


(** If [b * X] is [W * N] up to an error below [W], then
    [floor(X / (2 W))] is [floor(N / (2 b))], or one less when [N / (2 b)]
    is an integer (a tie of the rounding half up). *)
Lemma round_near b W N X err : 0 < b -> 0 < W -> b * X = W * N + err -> Z.abs err < W ->
  (N mod (2 * b) <> 0 -> X / (2 * W) = N / (2 * b)) /\
  (X / (2 * W) = N / (2 * b) \/ X / (2 * W) = N / (2 * b) - 1).
Proof.
  intros Hb HW HX He.
  pose proof (Z.div_mod N (2 * b) ltac:(lia)) as Hdm. pose proof (Z.mod_pos_bound N (2 * b) ltac:(lia)) as Hr.
  set (q := N / (2 * b)) in *. set (rho := N mod (2 * b)) in *.
  assert (I : b * X = 2 * b * (W * q) + (W * rho + err)) by (rewrite HX, Hdm; ring).
  assert (W * rho <= W * (2 * b - 1)) by (apply Z.mul_le_mono_nonneg_l; lia).
  assert (0 <= W * rho) by (apply Z.mul_nonneg_nonneg; lia).
  assert (W <= b * W) by (rewrite <- (Z.mul_1_l W) at 1; apply Z.mul_le_mono_nonneg_r; lia).
  assert (X < 2 * W * (q + 1)) by (apply (lt_cancel_l b); lia).
  assert (2 * W * (q - 1) <= X) by (apply (mul_le_cancel_l b); lia).
  assert (X / (2 * W) < q + 1) by (apply Z.div_lt_upper_bound; lia).
  assert (q - 1 <= X / (2 * W)) by (apply Z.div_le_lower_bound; lia).
  split; [|lia]. intros Hne.
  assert (W <= W * rho) by (rewrite <- (Z.mul_1_r W) at 1; apply Z.mul_le_mono_nonneg_l; lia).
  assert (2 * W * q <= X) by (apply (mul_le_cancel_l b); lia).
  assert (q <= X / (2 * W)) by (apply Z.div_le_lower_bound; lia). lia.
Qed.

(** [floor(k * a / b + 1/2)] from the binary quotient: exact unless
    [k * a / b] is a tie [j + 1/2], where it may be one less. *)
Lemma half_up_div a b k : 0 < a -> 0 < k -> k * a < 2 ^ 51 -> 0 < b < 2 ^ 53 ->
  exists M E, js_div a b = S754_finite false M (- E) /\ 0 <= E /\
    2 * Z.abs (Zpos M * b - a * 2 ^ E) <= b /\ 2 ^ 51 * b <= a * 2 ^ E /\
    let n := half_up (Zpos M) (- E) k in
    ((2 * k * a + b) mod (2 * b) <> 0 -> n = (2 * k * a + b) / (2 * b)) /\
    (n = (2 * k * a + b) / (2 * b) \/ n = (2 * k * a + b) / (2 * b) - 1).
Proof.
  intros Ha Hk Hka Hb.
  destruct (js_div_spec a b) as (M & E & Hdiv & HE & _ & Herr & Hlow);
    [pow2_num; change (2 ^ 51) with 2251799813685248 in *; nia|done|].
  exists M, E. do 4 (split; [done|]). cbv zeta. rewrite half_up_neg by done.
  pose proof (Z.pow_pos_nonneg 2 E ltac:(lia) HE) as HT. set (T := 2 ^ E) in *.
  assert (k * (2 ^ 51 * b) <= k * (a * T)) by (apply Z.mul_le_mono_nonneg_l; lia).
  assert (k * a * T < 2 ^ 51 * T) by (apply Z.mul_lt_mono_pos_r; lia).
  assert (Hkb : k * b < T) by (change (2 ^ 51) with 2251799813685248 in *; lia).
  apply (round_near b T _ _ (2 * k * (Zpos M * b - a * T))); [lia|lia|ring|].
  rewrite Z.abs_mul, (Z.abs_eq (2 * k)) by lia.
  assert (k * (2 * Z.abs (Zpos M * b - a * T)) <= k * b) by (apply Z.mul_le_mono_nonneg_l; lia). lia.
Qed.

Lemma js_div_0 b : 0 < b < 2 ^ 53 -> js_div 0 b = S754_zero false.
Proof.
  intros Hb. destruct (js_num_spec b) as (m & k & E & _); [done|].
  unfold js_div. rewrite E. reflexivity.
Qed.

(** An integer multiple of [b] of absolute value at most [b / 2] is zero. *)
Lemma small_multiple b x : 0 < b -> 2 * Z.abs (b * x) <= b -> x = 0.
Proof.
  intros Hb H. rewrite Z.abs_mul, Z.abs_eq in H by lia.
  destruct (Z.eq_dec x 0) as [|Hx]; [done|].
  assert (b * 1 <= b * Z.abs x) by (apply Z.mul_le_mono_nonneg_l; lia). lia.
Qed.

(** [Math.round(a / b)] is [a / b] rounded half up, ties included: a tie
    [j + 1/2] with [a < 2^51] is a binary number, so the division is
    exact there. *)
Theorem js_round_div a b : 0 <= a < 2 ^ 51 -> 0 < b < 2 ^ 53 ->
  js_round (js_div a b) = Some ((2 * a + b) / (2 * b)).
Proof.
  intros Ha Hb. destruct (Z.eq_dec a 0) as [->|Ha0].
  { rewrite js_div_0 by done. cbn [js_round]. f_equal. symmetry. apply Z.div_small. lia. }
  destruct (half_up_div a b 1) as (M & E & Hdiv & HE & Herr & Hlow & Hn & _); [lia..|done|].
  unfold js_round. rewrite Hdiv. cbn [cond_Zopp]. f_equal. rewrite Z.mul_1_r in Hn.
  destruct (Z.eq_dec ((2 * a + b) mod (2 * b)) 0) as [Ht|Ht]; [|by apply Hn].
  pose proof (Z.div_mod (2 * a + b) (2 * b) ltac:(lia)) as Hdm. rewrite Ht, Z.add_0_r in Hdm.
  set (q := (2 * a + b) / (2 * b)) in *.
  assert (HE1 : 1 <= E).
  { destruct (Z.eq_dec E 0) as [->|]; [|lia]. rewrite Z.pow_0_r in Hlow.
    change (2 ^ 51) with 2251799813685248 in *. lia. }
  assert (HT : 2 ^ E = 2 * 2 ^ (E - 1)) by (rewrite <- Z.pow_succ_r by lia; f_equal; lia).
  set (h := 2 ^ (E - 1)) in *. rewrite HT in Herr.
  replace (Zpos M * b - a * (2 * h)) with (b * (Zpos M - (2 * q - 1) * h)) in Herr.
  2: { replace (a * (2 * h)) with ((2 * a) * h) by ring.
       replace (2 * a) with (2 * b * q - b) by lia. ring. }
  apply small_multiple in Herr; [|lia].
  assert (0 < h) by (apply Z.pow_pos_nonneg; lia).
  rewrite half_up_neg, HT by lia. symmetry. apply Z.div_unique with 0; lia.
Qed.

(** [toFixed(1)] of [a / b] prints [10 * a / b] rounded half up, except at
    a tie [j + 1/2], where the binary quotient lies on either side and the
    digit printed may be one less. *)
Theorem tenths_div a b : 0 <= a -> 10 * a < 2 ^ 51 -> 0 < b < 2 ^ 53 ->
  exists n, tenths (js_div a b) = Some n /\
    ((20 * a + b) mod (2 * b) <> 0 -> n = (20 * a + b) / (2 * b)) /\
    (n = (20 * a + b) / (2 * b) \/ n = (20 * a + b) / (2 * b) - 1).
Proof.
  intros Ha Hka Hb. destruct (Z.eq_dec a 0) as [->|Ha0].
  { rewrite js_div_0 by done. exists 0. rewrite Z.div_small by lia. split_and!; [done|done|by left]. }
  destruct (half_up_div a b 10) as (M & E & Hdiv & HE & Herr & Hlow & Hn); [lia..|done|].
  exists (half_up (Zpos M) (- E) 10). rewrite Hdiv. replace (20 * a) with (2 * 10 * a) by lia.
  by split.
Qed.

(** For such quotients [toFixed(1)] prints the tenths as digits. *)
Lemma toFixed1_div a b : 0 <= a -> 10 * a < 2 ^ 51 -> 0 < b < 2 ^ 53 ->
  exists n, tenths (js_div a b) = Some n /\ toFixed1 (js_div a b) = Some (fixed1 n).
Proof.
  intros Ha Hka Hb. destruct (Z.eq_dec a 0) as [->|Ha0].
  { rewrite js_div_0 by done. by exists 0. }
  destruct (js_div_spec a b) as (M & E & Hdiv & HE & _ & Herr & Hlow);
    [change (2 ^ 51) with 2251799813685248 in *; change (2 ^ 52) with 4503599627370496; lia|done|].
  rewrite Hdiv. eexists. split; [reflexivity|]. cbn [toFixed1].
  replace (below_1e21 M (- E)) with true; [done|]. symmetry. unfold below_1e21.
  pose proof (Z.pow_pos_nonneg 2 E ltac:(lia) HE). rewrite Z.opp_involutive.
  assert (0 <= a * 2 ^ E * (b - 1)) by (apply Z.mul_nonneg_nonneg; nia).
  assert (HM : Zpos M * b <= (a * 2 ^ E + 1) * b) by lia.
  apply Z.mul_le_mono_pos_r in HM; [|lia].
  change (2 ^ 51) with 2251799813685248 in *.
  destruct (Z.leb_spec 0 (- E)); apply Z.ltb_lt; [replace E with 0 in * by lia; rewrite Z.pow_0_r in *|]; nia.
Qed.

(** A quotient that is an integer is computed exactly: [(q * b) / b] is [q]. *)
Lemma js_div_exact q b : 0 < q -> q * b < 2 ^ 52 -> 0 < b < 2 ^ 53 ->
  exists M E, js_div (q * b) b = S754_finite false M (- E) /\ 0 <= E /\ Zpos M = q * 2 ^ E.
Proof.
  intros Hq Hqb Hb.
  destruct (js_div_spec (q * b) b) as (M & E & Hdiv & HE & _ & Herr & _); [nia|done|].
  exists M, E. split_and!; [done|done|].
  replace (Zpos M * b - q * b * 2 ^ E) with (b * (Zpos M - q * 2 ^ E)) in Herr by ring.
  apply small_multiple in Herr; lia.
Qed.

(** ** The product of a quotient and 100 *)

Lemma js_num_100 : js_num 100 = S754_finite false 7036874417766400 (-46).
Proof. reflexivity. Qed.

(** The product of two 53-bit mantissas, rounded to 53 bits. *)
Lemma js_mul_spec M1 E1 M2 E2 : 2 ^ 52 <= Zpos M1 < 2 ^ 53 -> 2 ^ 52 <= Zpos M2 < 2 ^ 53 ->
  -900 <= - E1 + - E2 + 53 <= 900 ->
  exists M g, js_mul (S754_finite false M1 (- E1)) (S754_finite false M2 (- E2)) =
              S754_finite false M (- E1 + - E2 + g) /\ 52 <= g <= 54 /\
              2 * Z.abs (Zpos M * 2 ^ g - Zpos M1 * Zpos M2) <= 2 ^ 53.
Proof.
  intros H1 H2 He. unfold js_mul, SFmul. cbn [xorb]. rewrite <- Pos2Z.inj_mul in *.
  assert (Hin : inbetween (Zpos (M1 * M2)) loc_Exact (Zpos (M1 * M2)) 1) by (unfold inbetween; lia).
  assert (Hp : 2 ^ 104 <= Zpos (M1 * M2) < 2 ^ 106).
  { rewrite Pos2Z.inj_mul. change (2 ^ 104) with (2 ^ 52 * 2 ^ 52). change (2 ^ 106) with (2 ^ 53 * 2 ^ 53).
    split; [apply Z.mul_le_mono_nonneg|apply Z.mul_lt_mono_nonneg]; lia. }
  destruct (Z.lt_ge_cases (Zpos (M1 * M2)) (2 ^ 105)).
  - destruct (round_aux_gen (Zpos (M1 * M2)) (- E1 + - E2) loc_Exact (Zpos (M1 * M2)) 1 105)
      as (M & g & -> & _ & Hg & Herr & _); [lia|lia|change (2 ^ (105 - 1)) with (2 ^ 104); lia|lia|done|].
    exists M, g. rewrite !Z.mul_1_r in Herr. rewrite Pos2Z.inj_mul in Herr.
    change (2 ^ (105 - 53)) with 4503599627370496 in Herr. change (2 ^ 53) with 9007199254740992.
    split_and!; [done|lia|lia|lia].
  - destruct (round_aux_gen (Zpos (M1 * M2)) (- E1 + - E2) loc_Exact (Zpos (M1 * M2)) 1 106)
      as (M & g & -> & _ & Hg & Herr & _); [lia|lia|change (2 ^ (106 - 1)) with (2 ^ 105); lia|lia|done|].
    exists M, g. rewrite !Z.mul_1_r in Herr. rewrite Pos2Z.inj_mul in Herr.
    change (2 ^ (106 - 53)) with 9007199254740992 in Herr. change (2 ^ 53) with 9007199254740992.
    split_and!; [done|lia|lia|lia].
Qed.

(** [Math.round((n / g) * 100)] for [0 <= n < 2^40] and [0 < g < 2^53]:
    the percentage [100 n / g] rounded half up, except at a tie
    [j + 1/2], where the two roundings may give [j]. *)
Theorem js_round_pct n g : 0 <= n < 2 ^ 40 -> 0 < g < 2 ^ 53 ->
  exists v, js_round (js_mul (js_div n g) (js_num 100)) = Some v /\
    ((200 * n + g) mod (2 * g) <> 0 -> v = (200 * n + g) / (2 * g)) /\
    (v = (200 * n + g) / (2 * g) \/ v = (200 * n + g) / (2 * g) - 1).
Proof.
  intros Hn Hg. destruct (Z.eq_dec n 0) as [->|Hn0].
  { rewrite js_div_0, js_num_100 by done. exists 0. rewrite Z.div_small by lia.
    split_and!; [done|done|by left]. }
  destruct (js_div_spec n g) as (M1 & E1 & Hdiv & HE1 & HM1 & Herr1 & Hlow1);
    [change (2 ^ 40) with 1099511627776 in *; change (2 ^ 52) with 4503599627370496; lia|done|].
  pose proof (Z.pow_pos_nonneg 2 E1 ltac:(lia) HE1) as HT1. set (T1 := 2 ^ E1) in *.
  assert (HT : 2048 * g < T1).
  { apply (lt_cancel_l (2 ^ 40)); [lia|]. change (2 ^ 51) with (2 ^ 40 * 2048) in Hlow1.
    assert (n * T1 < 2 ^ 40 * T1) by (apply Z.mul_lt_mono_pos_r; lia). lia. }
  assert (HE1' : 12 <= E1 <= 200).
  { split.
    - destruct (Z.lt_ge_cases E1 12) as [Hlt|]; [|done].
      assert (T1 <= 2 ^ 11) by (apply Z.pow_le_mono_r; lia). lia.
    - destruct (Z.lt_ge_cases 200 E1) as [Hlt|]; [|done].
      assert (2 ^ 200 <= T1) by (apply Z.pow_le_mono_r; lia).
      assert (T1 <= n * T1) by nia.
      assert (Zpos M1 * g < 2 ^ 53 * 2 ^ 53) by (apply Z.mul_lt_mono_nonneg; lia).
      change (2 ^ 53) with 9007199254740992 in *. change (2 ^ 200) with (2 ^ 100 * 2 ^ 100) in *.
      change (2 ^ 100) with 1267650600228229401496703205376 in *. lia. }
  rewrite Hdiv, js_num_100.
  destruct (js_mul_spec M1 E1 7036874417766400 46) as (M & gg & Hmul & Hgg & Herr2); [done|lia|lia|].
  change (S754_finite false 7036874417766400 (-46)) with (S754_finite false 7036874417766400 (Z.opp 46)). rewrite Hmul. cbn [js_round cond_Zopp]. eexists. split; [reflexivity|].
  set (F := E1 + 46 - gg). replace (- E1 + - (46) + gg) with (- F) by lia. rewrite half_up_neg by lia.
  pose proof (Z.pow_pos_nonneg 2 F ltac:(lia) ltac:(lia)). pose proof (Z.pow_pos_nonneg 2 gg ltac:(lia) ltac:(lia)).
  assert (HW : 2 ^ F * 2 ^ gg = T1 * 2 ^ 46) by (unfold T1; rewrite <- !Z.pow_add_r by lia; f_equal; lia).
  rewrite <- (Z.div_mul_cancel_r _ _ (2 ^ gg)) by lia.
  replace ((2 * Zpos M * 1 + 2 ^ F) * 2 ^ gg) with (2 * (Zpos M * 2 ^ gg) + T1 * 2 ^ 46) by (rewrite <- HW; ring).
  replace (2 * 2 ^ F * 2 ^ gg) with (2 * (T1 * 2 ^ 46)) by (rewrite <- HW; ring).
  set (e1 := 2 * (Zpos M1 * g) - 2 * (n * T1)).
  set (e2 := 2 * (Zpos M * 2 ^ gg) - 2 * (Zpos M1 * 7036874417766400)).
  apply (round_near g (T1 * 2 ^ 46) _ _ (7036874417766400 * e1 + g * e2)); [lia|lia|unfold e1, e2; ring|].
  assert (7036874417766400 * Z.abs e1 <= 7036874417766400 * g) by (unfold e1; apply Z.mul_le_mono_nonneg_l; lia).
  assert (g * Z.abs e2 <= g * 2 ^ 53) by (unfold e2; apply Z.mul_le_mono_nonneg_l; lia).
  assert (Z.abs (7036874417766400 * e1 + g * e2) <= 7036874417766400 * Z.abs e1 + g * Z.abs e2)
    by (rewrite <- (Z.abs_eq 7036874417766400) at 2 by lia; rewrite <- (Z.abs_eq g) at 2 by lia;
        rewrite <- !Z.abs_mul; apply Z.abs_triangle).
  change (2 ^ 46) with 70368744177664. change (2 ^ 53) with 9007199254740992 in *. lia.
Qed.

(** ** Floor and ceiling of a quotient *)

(** Rounding to nearest is symmetric: the sign only labels the result. *)
Lemma binary_round_aux_opp s m e l :
  binary_round_aux prec emax (negb s) m e l = SFopp (binary_round_aux prec emax s m e l).
Proof.
  unfold binary_round_aux.
  destruct (shr_fexp prec emax m e l) as [r1 e1].
  destruct (shr_fexp prec emax _ e1 loc_Exact) as [r2 e2].
  by destruct (shr_m r2) as [|p|p]; [|destruct (e2 <=? emax - prec)|].
Qed.

Lemma SFdiv_opp x y : SFdiv prec emax (SFopp x) y = SFopp (SFdiv prec emax x y).
Proof.
  destruct x as [sx|sx| |sx mx ex], y as [sy|sy| |sy my ey]; cbn [SFdiv SFopp]; try done;
    try by destruct sx, sy.
  destruct (SFdiv_core_binary _ _ _ _) as [[mq eq] lq].
  replace (xorb (negb sx) sy) with (negb (xorb sx sy)) by by destruct sx, sy.
  apply binary_round_aux_opp.
Qed.

Lemma js_div_opp a b : 0 < a -> js_div (- a) b = SFopp (js_div a b).
Proof.
  intros Ha. destruct a as [|p|p]; try lia. unfold js_div, js_num.
  change (- Z.pos p) with (Z.neg p). cbn [binary_normalize].
  unfold binary_round. destruct (shl_align _ _ _) as [mz ez].
  change true with (negb false). by rewrite binary_round_aux_opp, SFdiv_opp.
Qed.

(** A mantissa [M] within [b / 2] of [a 2^E / b], with [b <= 2^E], has
    the floor of [a / b] as its integral part. *)
Lemma floor_near a b M T : 0 < b -> b <= T -> 2 * Z.abs (M * b - a * T) <= b -> M / T = a / b.
Proof.
  intros Hb HT Herr.
  pose proof (Z.div_mod a b ltac:(lia)) as Hdm. pose proof (Z.mod_pos_bound a b ltac:(lia)) as Hr.
  set (q := a / b) in *. set (r := a mod b) in *.
  destruct (Z.eq_dec r 0) as [Hr0|Hr0].
  - replace (M * b - a * T) with (b * (M - q * T)) in Herr by (rewrite Hdm, Hr0; ring).
    apply small_multiple in Herr; [|lia]. symmetry. apply Z.div_unique with 0; lia.
  - assert (T * 1 <= T * r) by (apply Z.mul_le_mono_nonneg_l; lia).
    assert (T * r <= T * (b - 1)) by (apply Z.mul_le_mono_nonneg_l; lia).
    assert (q * T <= M) by (apply (mul_le_cancel_l b); [lia|]; rewrite Hdm in Herr; lia).
    assert (M < (q + 1) * T) by (apply (lt_cancel_l b); [lia|]; rewrite Hdm in Herr; lia).
    symmetry. apply Z.div_unique with (M - q * T); lia.
Qed.

(** The quotient of [0 < a < 2^51] by [0 < b < 2^53] has an exponent
    large enough for [floor_near]. *)
Lemma js_div_near a b : 0 < a < 2 ^ 51 -> 0 < b < 2 ^ 53 ->
  exists M E, js_div a b = S754_finite false M (- E) /\ 0 <= E /\ b <= 2 ^ E /\
    2 * Z.abs (Zpos M * b - a * 2 ^ E) <= b.
Proof.
  intros Ha Hb.
  destruct (js_div_spec a b) as (M & E & Hdiv & HE & _ & Herr & Hlow);
    [change (2 ^ 51) with 2251799813685248 in *; change (2 ^ 52) with 4503599627370496; lia|done|].
  exists M, E. split_and!; [done|done| |done].
  pose proof (Z.pow_pos_nonneg 2 E ltac:(lia) HE).
  assert (a * 2 ^ E < 2 ^ 51 * 2 ^ E) by (apply Z.mul_lt_mono_pos_r; lia).
  assert (2 ^ 51 * b < 2 ^ 51 * 2 ^ E) by lia. apply Z.lt_le_incl, (lt_cancel_l (2 ^ 51)); lia.
Qed.

Lemma half_up_neg_floor M E : 0 <= E -> (if 0 <=? - E then M * 2 ^ (- E) else M / 2 ^ (- - E)) = M / 2 ^ E.
Proof.
  intros HE. destruct (Z.leb_spec 0 (- E)).
  - replace E with 0 by lia. rewrite Z.pow_0_r, Z.mul_1_r, Z.div_1_r. done.
  - by rewrite Z.opp_involutive.
Qed.

Lemma neg_exp_ceil M E : 0 <= E ->
  (if 0 <=? - E then M * 2 ^ (- E) else - (- M / 2 ^ (- - E))) = - (- M / 2 ^ E).
Proof.
  intros HE. destruct (Z.leb_spec 0 (- E)).
  - replace E with 0 by lia. rewrite Z.pow_0_r, Z.mul_1_r, Z.div_1_r. lia.
  - by rewrite Z.opp_involutive.
Qed.

(** A non-zero quotient with [|a| < 2^51], signed. *)
Lemma js_div_signed a b : 0 < Z.abs a < 2 ^ 51 -> 0 < b < 2 ^ 53 ->
  exists s M E, js_div a b = S754_finite s M (- E) /\ 0 <= E /\ b <= 2 ^ E /\
    2 * Z.abs (cond_Zopp s (Zpos M) * b - a * 2 ^ E) <= b.
Proof.
  intros Ha Hb. destruct (Z.lt_ge_cases 0 a) as [Hp|Hn].
  - destruct (js_div_near a b) as (M & E & ? & ? & ? & ?); [lia|done|]. by exists false, M, E.
  - destruct (js_div_near (- a) b) as (M & E & Hd & ? & ? & Herr); [lia|done|].
    exists true, M, E. rewrite <- (Z.opp_involutive a), js_div_opp, Hd by lia. split_and!; [done|done|done|].
    cbn [cond_Zopp]. replace (- Zpos M * b - - - a * 2 ^ E) with (- (Zpos M * b - - a * 2 ^ E)) by ring.
    by rewrite Z.abs_opp.
Qed.

(** [Math.floor(a / b)] is the integer quotient [a / b] (rounded towards
    -oo) for [|a| < 2^51] and [0 < b < 2^53]: the binary quotient never
    crosses an integer. *)
Theorem js_floor_div a b : Z.abs a < 2 ^ 51 -> 0 < b < 2 ^ 53 -> js_floor (js_div a b) = Some (a / b).
Proof.
  intros Ha Hb. destruct (Z.eq_dec a 0) as [->|Ha0].
  { rewrite js_div_0 by done. by rewrite Z.div_0_l by lia. }
  destruct (js_div_signed a b) as (s & M & E & -> & HE & HbE & Herr); [lia|done|].
  cbn [js_floor]. rewrite half_up_neg_floor by done. f_equal. apply floor_near; [lia|done|done].
Qed.

(** [Math.ceil(a / b)] is [-((-a) / b)], the integer quotient rounded
    towards +oo, under the same bounds. *)
Theorem js_ceil_div a b : Z.abs a < 2 ^ 51 -> 0 < b < 2 ^ 53 -> js_ceil (js_div a b) = Some (- (- a / b)).
Proof.
  intros Ha Hb. destruct (Z.eq_dec a 0) as [->|Ha0].
  { rewrite js_div_0 by done. by rewrite Z.div_0_l by lia. }
  destruct (js_div_signed a b) as (s & M & E & -> & HE & HbE & Herr); [lia|done|].
  cbn [js_ceil]. rewrite neg_exp_ceil by done. do 2 f_equal. apply floor_near; [lia|done|].
  replace (- cond_Zopp s (Zpos M) * b - - a * 2 ^ E) with (- (cond_Zopp s (Zpos M) * b - a * 2 ^ E)) by ring.
  by rewrite Z.abs_opp.
Qed.

(** ** Exact integer arithmetic

    A binary64 number holding an integer below 2^53 has a nonpositive
    exponent, so [SFadd] and [SFsub] align both operands on an integer
    multiple of 2^-K and [binary_normalize] of that multiple is the
    rounding of the exact integer sum ([binary_normalize_scale]). *)
Lemma iter_xO_nat n q : Zpos (Nat.iter n xO q) = Zpos q * 2 ^ Z.of_nat n.
Proof.
  induction n as [|n IH]; [cbn; lia|].
  rewrite Nat.iter_succ, Pos2Z.inj_xO, IH, Nat2Z.inj_succ, Z.pow_succ_r by lia. lia.
Qed.

Lemma digits2_iter_xO n q : Zpos (digits2_pos (Nat.iter n xO q)) = Zpos (digits2_pos q) + Z.of_nat n.
Proof.
  induction n as [|n IH]; [cbn; lia|].
  rewrite Nat.iter_succ. cbn [digits2_pos]. rewrite Pos2Z.inj_succ, IH. lia.
Qed.

Lemma shr_1_iter_xO n q :
  Nat.iter n shr_1 (Build_shr_record (Zpos (Nat.iter n xO q)) false false) = Build_shr_record (Zpos q) false false.
Proof.
  induction n as [|n IH]; [done|]. rewrite Nat.iter_succ_r, Nat.iter_succ. exact IH.
Qed.

Lemma round_aux_scale s q n f : f <= fexp prec emax (Zpos (digits2_pos q) + f) ->
  binary_round_aux prec emax s (Zpos (Nat.iter n xO q)) (f - Z.of_nat n) loc_Exact =
  binary_round_aux prec emax s (Zpos q) f loc_Exact.
Proof.
  intros Hf. unfold binary_round_aux.
  enough (E : shr_fexp prec emax (Zpos (Nat.iter n xO q)) (f - Z.of_nat n) loc_Exact =
              shr_fexp prec emax (Zpos q) f loc_Exact) by (rewrite E; done).
  unfold shr_fexp. cbn [Zdigits2 shr_record_of_loc]. rewrite digits2_iter_xO.
  replace (Zpos (digits2_pos q) + Z.of_nat n + (f - Z.of_nat n)) with (Zpos (digits2_pos q) + f) by lia.
  set (F := fexp prec emax (Zpos (digits2_pos q) + f)) in *.
  destruct n as [|n]; [by rewrite Z.sub_0_r|].
  unfold shr. destruct (F - (f - Z.of_nat (S n))) as [|p|p] eqn:E1; [lia| |lia].
  rewrite iter_pos_nat.
  assert (Hp : Pos.to_nat p = (Pos.to_nat p - S n + S n)%nat) by lia.
  rewrite Hp, Nat.iter_add, shr_1_iter_xO.
  destruct (F - f) as [|p2|p2] eqn:E2; [| |lia].
  - replace (Pos.to_nat p - S n)%nat with 0%nat by lia. f_equal. lia.
  - rewrite iter_pos_nat. replace (Pos.to_nat p - S n)%nat with (Pos.to_nat p2) by lia. f_equal. lia.
Qed.

Lemma pos_eq p q : Zpos p = Zpos q -> p = q.
Proof. by injection 1. Qed.

Lemma iter_xO_pos_nat p d : Pos.iter xO p d = Nat.iter (Pos.to_nat d) xO p.
Proof. apply pos_eq. rewrite iter_xO, iter_xO_nat, positive_nat_Z. done. Qed.

Lemma binary_round_scale s p n e :
  binary_round prec emax s (Nat.iter n xO p) (e - Z.of_nat n) = binary_round prec emax s p e.
Proof.
  unfold binary_round. rewrite digits2_iter_xO.
  replace (Zpos (digits2_pos p) + Z.of_nat n + (e - Z.of_nat n)) with (Zpos (digits2_pos p) + e) by lia.
  set (F := fexp prec emax (Zpos (digits2_pos p) + e)). unfold shl_align.
  destruct (F - e) as [|d1|d1] eqn:E1.
  - destruct (F - (e - Z.of_nat n)) eqn:E2; try lia; apply round_aux_scale; lia.
  - destruct (F - (e - Z.of_nat n)) eqn:E2; try lia; apply round_aux_scale; lia.
  - destruct (F - (e - Z.of_nat n)) as [|d2|d2] eqn:E2.
    + (* [n = e - F]: the scaled mantissa is the aligned one *)
      replace (Nat.iter n xO p) with (Pos.iter xO p d1); [f_equal; lia|].
      apply pos_eq. rewrite iter_xO, iter_xO_nat. f_equal. f_equal. lia.
    + set (q := Pos.iter xO p d1).
      replace (Nat.iter n xO p) with (Nat.iter (Z.to_nat (Zpos d2)) xO q).
      * replace (e - Z.of_nat n) with (F - Z.of_nat (Z.to_nat (Zpos d2))) by lia.
        apply round_aux_scale. subst q. rewrite iter_xO_pos_nat, digits2_iter_xO, positive_nat_Z.
        replace (Zpos (digits2_pos p) + Zpos d1 + F) with (Zpos (digits2_pos p) + e) by lia. lia.
      * apply pos_eq. rewrite iter_xO_nat. subst q. rewrite iter_xO, iter_xO_nat, <- Z.mul_assoc, <- Z.pow_add_r by lia.
        f_equal. f_equal. lia.
    + replace (Pos.iter xO (Nat.iter n xO p) d2) with (Pos.iter xO p d1); [done|].
      apply pos_eq. rewrite !iter_xO, iter_xO_nat, <- Z.mul_assoc, <- Z.pow_add_r by lia.
      f_equal. f_equal. lia.
Qed.

Lemma binary_normalize_scale z n :
  binary_normalize prec emax (z * 2 ^ Z.of_nat n) (- Z.of_nat n) false = js_num z.
Proof.
  unfold js_num. destruct z as [|p|p]; [done| |].
  - rewrite <- iter_xO_nat. cbn [binary_normalize]. rewrite <- (binary_round_scale false p n 0). done.
  - change (Zneg p) with (- Zpos p). rewrite Z.mul_opp_l, <- iter_xO_nat. cbn [binary_normalize Z.opp].
    rewrite !Pos2Z.opp_pos. cbn [binary_normalize].
    rewrite <- (binary_round_scale true p n 0). done.
Qed.

Lemma binary_round_opp s p e :
  binary_round prec emax (negb s) p e = SFopp (binary_round prec emax s p e).
Proof. unfold binary_round. destruct (shl_align _ _ _). apply binary_round_aux_opp. Qed.

Lemma js_num_opp z : z <> 0 -> js_num (- z) = SFopp (js_num z).
Proof.
  intros Hz. unfold js_num. destruct z as [|p|p]; [done| |]; cbn [Z.opp binary_normalize].
  - apply (binary_round_opp false).
  - rewrite <- (binary_round_opp true). done.
Qed.

(** A nonzero integer below 2^53 is a finite binary64 number whose
    mantissa is its magnitude scaled by 2^k. *)
Lemma js_num_int z : z <> 0 -> Z.abs z < 2 ^ 53 ->
  exists m k, js_num z = S754_finite (z <? 0) m (- k) /\ 0 <= k <= 52 /\ Zpos m = Z.abs z * 2 ^ k.
Proof.
  intros Hz Ha. destruct (Z.ltb_spec z 0).
  - destruct (js_num_spec (- z)) as (m & k & E & Hk & Hm & _); [lia|].
    exists m, k. split; [|split; [done|lia]].
    replace z with (- - z) by lia. rewrite js_num_opp, E by lia. done.
  - destruct (js_num_spec z) as (m & k & E & Hk & Hm & _); [lia|]. exists m, k. split; [done|split; [done|lia]].
Qed.

Lemma shl_align_val m e e' : e' <= e -> Zpos (fst (shl_align m e e')) = Zpos m * 2 ^ (e - e').
Proof.
  intros He. unfold shl_align. destruct (e' - e) as [|d|d] eqn:E; cbn [fst].
  - replace (e - e') with 0 by lia. lia.
  - lia.
  - rewrite iter_xO. f_equal. f_equal. lia.
Qed.

(** The two operands of [SFadd] and [SFsub] brought to the smaller
    exponent are the integers times 2^K. *)
Lemma aligned_int x y : x <> 0 -> Z.abs x < 2 ^ 53 -> y <> 0 -> Z.abs y < 2 ^ 53 ->
  exists mx my ex ey K, js_num x = S754_finite (x <? 0) mx ex /\ js_num y = S754_finite (y <? 0) my ey /\
    Z.min ex ey = - Z.of_nat K /\
    cond_Zopp (x <? 0) (Zpos (fst (shl_align mx ex (Z.min ex ey)))) = x * 2 ^ Z.of_nat K /\
    cond_Zopp (y <? 0) (Zpos (fst (shl_align my ey (Z.min ex ey)))) = y * 2 ^ Z.of_nat K.
Proof.
  intros Hx Hxa Hy Hya.
  destruct (js_num_int x) as (mx & kx & Ex & Hkx & Hmx); [done..|].
  destruct (js_num_int y) as (my & ky & Ey & Hky & Hmy); [done..|].
  exists mx, my, (- kx), (- ky), (Z.to_nat (Z.max kx ky)). split; [done|split; [done|split; [lia|split]]];
    rewrite shl_align_val by lia; [rewrite Hmx|rewrite Hmy];
    rewrite <- Z.mul_assoc, <- Z.pow_add_r, Z2Nat.id by lia;
    [destruct (Z.ltb_spec x 0)|destruct (Z.ltb_spec y 0)]; cbn [cond_Zopp];
    (replace (kx + (- kx - Z.min (- kx) (- ky))) with (Z.max kx ky) by lia) ||
    (replace (ky + (- ky - Z.min (- kx) (- ky))) with (Z.max kx ky) by lia);
    rewrite ?Z.abs_neq, ?Z.abs_eq by lia; lia.
Qed.

(** Binary64 addition of two integers below 2^53 in magnitude is the
    rounding of their exact sum. *)
Lemma js_add_exact x y : Z.abs x < 2 ^ 53 -> Z.abs y < 2 ^ 53 ->
  SFadd prec emax (js_num x) (js_num y) = js_num (x + y).
Proof.
  intros Hx Hy. destruct (Z.eq_dec x 0) as [->|Nx]; [|destruct (Z.eq_dec y 0) as [->|Ny]].
  - destruct (Z.eq_dec y 0) as [->|Ny]; [done|].
    destruct (js_num_int y) as (m & k & E & _); [done..|]. by rewrite E.
  - destruct (js_num_int x) as (m & k & E & _); [done..|]. rewrite Z.add_0_r, E. done.
  - destruct (aligned_int x y) as (mx & my & ex & ey & K & Ex & Ey & Ez & Ax & Ay); [done..|].
    rewrite Ex, Ey. cbn [SFadd]. rewrite Ax, Ay, Ez, <- Z.mul_add_distr_r. apply binary_normalize_scale.
Qed.

Lemma js_sub_exact x y : Z.abs x < 2 ^ 53 -> Z.abs y < 2 ^ 53 ->
  SFsub prec emax (js_num x) (js_num y) = js_num (x - y).
Proof.
  intros Hx Hy. destruct (Z.eq_dec x 0) as [->|Nx]; [|destruct (Z.eq_dec y 0) as [->|Ny]].
  - destruct (Z.eq_dec y 0) as [->|Ny]; [done|].
    rewrite Z.sub_0_l, js_num_opp by done.
    destruct (js_num_int y) as (m & k & E & _); [done..|]. by rewrite E.
  - destruct (js_num_int x) as (m & k & E & _); [done..|]. rewrite Z.sub_0_r, E. done.
  - destruct (aligned_int x y) as (mx & my & ex & ey & K & Ex & Ey & Ez & Ax & Ay); [done..|].
    rewrite Ex, Ey. cbn [SFsub]. rewrite Ax, Ay, Ez, <- Z.mul_sub_distr_r. apply binary_normalize_scale.
Qed.

Lemma js_trunc_num z : Z.abs z < 2 ^ 53 -> js_trunc (js_num z) = z.
Proof.
  intros Ha. destruct (Z.eq_dec z 0) as [->|Nz]; [done|].
  destruct (js_num_int z) as (m & k & -> & Hk & Hm); [done..|]. cbn [js_trunc].
  replace (if 0 <=? - k then Zpos m * 2 ^ (- k) else Zpos m / 2 ^ (- - k)) with (Z.abs z).
  - destruct (Z.ltb_spec z 0); cbn [cond_Zopp]; lia.
  - rewrite Hm. destruct (Z.leb_spec 0 (- k)).
    + replace k with 0 by lia. cbn. lia.
    + rewrite Z.opp_involutive, Z.div_mul; [done|]. apply Z.pow_nonzero; lia.
Qed.

End JsNumber.
