(* ===== verification/JsArray.v ===== *)
(** * JsArray: [Array.prototype.sort], [new Set] and plain objects as maps

    - [js_sort cmp l] is [l.slice().sort(cmp)].  ECMAScript (since 2019)
      requires the sort to be stable; for a consistent comparator (the class
      [ConsistentComparator], ECMA-262 23.1.3.30.2) the result is then
      determined: it is the unique sorted, stable permutation
      ([js_sort_unique]).  The model is a stable insertion sort.
    - [set_values l] is [[...new Set(l)]]: first occurrences, in order.
    - An object used as a counter map ([m[k] = (m[k]||0)+1]) is an
      association list in insertion order ([obj_incr]); [Object.entries]
      lists the array-index keys first in ascending numeric order, then the
      other string keys in insertion order ([object_entries]). *)

From S2P Require Import Prelude JsString.
Local Open Scope string_scope.
Local Open Scope Z_scope.

(** ** Comparators *)

(** A consistent comparator (ECMA-262): the sign is antisymmetric and
    "[cmp a b <= 0]" is transitive. *)
Class ConsistentComparator {A : Type} (cmp : A -> A -> Z) : Prop := {
  cmp_sgn_antisym : forall a b, Z.sgn (cmp b a) = - Z.sgn (cmp a b);
  cmp_le_trans : forall a b c, cmp a b <= 0 -> cmp b c <= 0 -> cmp a c <= 0
}.

(** [(a, b) => f(a) - f(b)] and [(a, b) => f(b) - f(a)] *)
Definition cmp_asc {A} (f : A -> Z) : A -> A -> Z := fun a b => f a - f b.
Definition cmp_desc {A} (f : A -> Z) : A -> A -> Z := fun a b => f b - f a.
(** [(a, b) => c(g(a), g(b))] and [(a, b) => c(g(b), g(a))] *)
Definition cmp_on {A B} (c : B -> B -> Z) (g : A -> B) : A -> A -> Z :=
  fun a b => c (g a) (g b).
Definition cmp_on_rev {A B} (c : B -> B -> Z) (g : A -> B) : A -> A -> Z :=
  fun a b => c (g b) (g a).

#[export] Instance cmp_asc_consistent {A} (f : A -> Z) :
  ConsistentComparator (cmp_asc f).
Proof. split; unfold cmp_asc; intros; [rewrite <- Z.sgn_opp; f_equal |]; lia. Qed.

#[export] Instance cmp_desc_consistent {A} (f : A -> Z) :
  ConsistentComparator (cmp_desc f).
Proof. split; unfold cmp_desc; intros; [rewrite <- Z.sgn_opp; f_equal |]; lia. Qed.

#[export] Instance cmp_on_consistent {A B} (c : B -> B -> Z) (g : A -> B) :
  ConsistentComparator c -> ConsistentComparator (cmp_on c g).
Proof.
  intros Hc. split; unfold cmp_on; intros.
  - apply cmp_sgn_antisym.
  - eapply cmp_le_trans; eauto.
Qed.

#[export] Instance cmp_on_rev_consistent {A B} (c : B -> B -> Z) (g : A -> B) :
  ConsistentComparator c -> ConsistentComparator (cmp_on_rev c g).
Proof.
  intros Hc. split; unfold cmp_on_rev; intros.
  - apply cmp_sgn_antisym.
  - eapply cmp_le_trans; eauto.
Qed.

(** [(a, b) => { if (c1(a, b) !== 0) return c1(a, b); return c2(a, b); }] *)
Definition cmp_lex {A} (c1 c2 : A -> A -> Z) : A -> A -> Z :=
  fun a b => if c1 a b =? 0 then c2 a b else c1 a b.

Lemma consistent_tied_sym {A} (c : A -> A -> Z) `{!ConsistentComparator c} a b :
  c a b = 0 -> c b a = 0.
Proof.
  intros H. pose proof (cmp_sgn_antisym a b) as S. rewrite H in S.
  simpl in S. by apply Z.sgn_null_iff.
Qed.

Lemma consistent_le_flip {A} (c : A -> A -> Z) `{!ConsistentComparator c} a b :
  c a b < 0 -> c b a > 0.
Proof.
  intros H. pose proof (cmp_sgn_antisym a b) as S.
  rewrite (proj2 (Z.sgn_neg_iff _) H) in S. apply Z.lt_gt, Z.sgn_pos_iff. lia.
Qed.

#[export] Instance cmp_lex_consistent {A} (c1 c2 : A -> A -> Z) :
  ConsistentComparator c1 -> ConsistentComparator c2 -> ConsistentComparator (cmp_lex c1 c2).
Proof.
  intros H1 H2. split; unfold cmp_lex.
  - intros a b. destruct (Z.eqb_spec (c1 a b) 0) as [E1|E1], (Z.eqb_spec (c1 b a) 0) as [E2|E2].
    + apply cmp_sgn_antisym.
    + exfalso. apply E2. by apply consistent_tied_sym.
    + exfalso. apply E1. by apply consistent_tied_sym.
    + apply cmp_sgn_antisym.
  - intros a b c.
    destruct (Z.eqb_spec (c1 a b) 0) as [Eab|Eab], (Z.eqb_spec (c1 b c) 0) as [Ebc|Ebc],
      (Z.eqb_spec (c1 a c) 0) as [Eac|Eac]; intros Hab Hbc.
    + eapply cmp_le_trans; eauto.
    + exfalso. apply Eac. (* a ~ b ~ c in c1 *)
      pose proof (cmp_le_trans (cmp:=c1) a b c ltac:(lia) ltac:(lia)).
      pose proof (cmp_le_trans (cmp:=c1) c b a
        ltac:(rewrite (consistent_tied_sym c1 b c Ebc); lia)
        ltac:(rewrite (consistent_tied_sym c1 a b Eab); lia)).
      destruct (Z.lt_trichotomy (c1 a c) 0) as [L|[L|L]]; [|exact L|lia].
      pose proof (consistent_le_flip c1 a c L). lia.
    + exfalso. pose proof (cmp_le_trans (cmp:=c1) c a b
        ltac:(rewrite (consistent_tied_sym c1 a c Eac); lia) ltac:(lia)).
      destruct (Z.lt_trichotomy (c1 c b) 0) as [L|[L|L]];
        [pose proof (consistent_le_flip c1 c b L); lia
        |apply Ebc; by apply consistent_tied_sym|lia].
    + pose proof (cmp_le_trans (cmp:=c1) a b c ltac:(lia) ltac:(lia)). lia.
    + exfalso. pose proof (cmp_le_trans (cmp:=c1) b c a ltac:(lia)
        ltac:(rewrite (consistent_tied_sym c1 a c Eac); lia)).
      destruct (Z.lt_trichotomy (c1 b a) 0) as [L|[L|L]];
        [pose proof (consistent_le_flip c1 b a L); lia
        |apply Eab; by apply consistent_tied_sym|lia].
    + pose proof (cmp_le_trans (cmp:=c1) a b c ltac:(lia) ltac:(lia)). lia.
    + exfalso. pose proof (consistent_tied_sym c1 a c Eac).
      pose proof (cmp_le_trans (cmp:=c1) c a b ltac:(lia) ltac:(lia)).
      pose proof (consistent_le_flip c1 b c ltac:(lia)). lia.
    + pose proof (cmp_le_trans (cmp:=c1) a b c ltac:(lia) ltac:(lia)). lia.
Qed.

(** The order of [Array.prototype.sort()] with no comparator on strings:
    code units compared lexicographically. *)
Definition code_unit_cmp (a b : string) : Z :=
  match String.compare a b with Lt => -1 | Eq => 0 | Gt => 1 end.

Lemma ascii_compare_N (c d : ascii) :
  Ascii.compare c d = N.compare (N_of_ascii c) (N_of_ascii d).
Proof. reflexivity. Qed.

Lemma string_compare_le_trans (a b c : string) :
  String.compare a b <> Gt -> String.compare b c <> Gt -> String.compare a c <> Gt.
Proof.
  revert b c. induction a as [|x a IH]; intros [|y b] [|z c]; simpl; try congruence.
  rewrite !ascii_compare_N.
  destruct (N.compare_spec (N_of_ascii x) (N_of_ascii y)) as [Exy|Exy|Exy],
           (N.compare_spec (N_of_ascii y) (N_of_ascii z)) as [Eyz|Eyz|Eyz];
    try congruence;
    destruct (N.compare_spec (N_of_ascii x) (N_of_ascii z)); try congruence; try lia.
  intros H1 H2. apply (IH b c H1 H2).
Qed.

#[export] Instance code_unit_cmp_consistent : ConsistentComparator code_unit_cmp.
Proof.
  split; unfold code_unit_cmp; intros a b.
  - rewrite (String.compare_antisym b a). by destruct (String.compare a b).
  - intros c H1 H2. pose proof (string_compare_le_trans a b c).
    destruct (String.compare a b), (String.compare b c), (String.compare a c);
      simpl in *; try lia; exfalso; apply H; congruence.
Qed.

(** ** The stable sort *)

Section Sort.
Context {A : Type} (cmp : A -> A -> Z).

Fixpoint insert_by (x : A) (l : list A) : list A :=
    match l with
    | [] => [x]
    | y :: ys => if cmp x y <=? 0 then x :: y :: ys else y :: insert_by x ys
    end.

Fixpoint js_sort (l : list A) : list A :=
    match l with
    | [] => []
    | x :: xs => insert_by x (js_sort xs)
    end.

(** [slice(0, n)] *)
Definition js_slice (n : nat) (l : list A) : list A := firstn n l.

Definition cmp_le (a b : A) : Prop := cmp a b <= 0.

(** Two elements are tied when the comparator returns 0. *)
Definition tied (x y : A) : bool := cmp x y =? 0.

Lemma insert_by_perm x l : Permutation (insert_by x l) (x :: l).
  Proof.
    induction l as [|y l IH]; simpl; [done|].
    destruct (cmp x y <=? 0); [done|].
    rewrite IH. apply perm_swap.
  Qed.

Lemma js_sort_perm l : Permutation (js_sort l) l.
  Proof.
    induction l as [|x l IH]; simpl; [done|].
    rewrite insert_by_perm. by constructor.
  Qed.

Context `{!ConsistentComparator cmp}.

Lemma cmp_refl a : cmp a a = 0.
  Proof. pose proof (cmp_sgn_antisym a a). destruct (cmp a a); simpl in *; lia. Qed.

Lemma cmp_gt_flip a b : cmp a b > 0 -> cmp b a < 0.
  Proof.
    intros H. pose proof (cmp_sgn_antisym a b) as S.
    rewrite (Z.sgn_pos (cmp a b)) in S by lia. apply Z.sgn_neg_iff. lia.
  Qed.

Lemma cmp_le_flip a b : cmp a b <= 0 -> cmp b a >= 0.
  Proof.
    intros H. pose proof (cmp_sgn_antisym a b) as S.
    destruct (Z.lt_trichotomy (cmp b a) 0) as [Hl|[Hl|Hl]]; [|lia|lia].
    rewrite (proj2 (Z.sgn_neg_iff _) Hl) in S.
    assert (Z.sgn (cmp a b) = 1) as E by lia. apply Z.sgn_pos_iff in E. lia.
  Qed.

Lemma tied_sym a b : cmp a b = 0 -> cmp b a = 0.
  Proof.
    intros H. pose proof (cmp_sgn_antisym a b) as S. rewrite H in S.
    simpl in S. by apply Z.sgn_null_iff.
  Qed.

Lemma tied_trans a b c : cmp a b = 0 -> cmp b c = 0 -> cmp a c = 0.
  Proof.
    intros H1 H2.
    pose proof (tied_sym a b H1). pose proof (tied_sym b c H2).
    assert (cmp a c <= 0) by (apply (cmp_le_trans a b c); lia).
    assert (cmp c a <= 0) by (apply (cmp_le_trans c b a); lia).
    pose proof (cmp_le_flip c a). lia.
  Qed.

Lemma insert_by_sorted x l :
    Sorted cmp_le l -> Sorted cmp_le (insert_by x l).
  Proof.
    induction 1 as [|y l Hs IH Hhd]; simpl; [repeat constructor|].
    destruct (cmp x y <=? 0) eqn:E; bool_to_prop.
    - constructor; [by constructor|]. constructor. exact E.
    - constructor; [exact IH|].
      destruct l as [|z l]; simpl.
      + constructor. unfold cmp_le. pose proof (cmp_gt_flip x y). lia.
      + inversion Hhd; subst. destruct (cmp x z <=? 0); constructor; [|done].
        unfold cmp_le. pose proof (cmp_gt_flip x y). lia.
  Qed.

Theorem js_sort_sorted l : Sorted cmp_le (js_sort l).
  Proof. induction l; simpl; [constructor | by apply insert_by_sorted]. Qed.

Lemma filter_tied_insert x a l :
    List.filter (tied x) (insert_by a l) =
    if tied x a then a :: List.filter (tied x) l else List.filter (tied x) l.
  Proof.
    induction l as [|y l IH]; simpl; [destruct (tied x a); done|].
    destruct (cmp a y <=? 0) eqn:E; simpl; [destruct (tied x a); done|].
    rewrite IH. bool_to_prop. unfold tied.
    destruct (cmp x a =? 0) eqn:Ea, (cmp x y =? 0) eqn:Ey; bool_to_prop; try done.
    exfalso. pose proof (tied_trans a x y (tied_sym x a Ea) Ey). lia.
  Qed.

(** Stability: the elements tied with any [x] keep their input order. *)
Theorem js_sort_stable x l :
    List.filter (tied x) (js_sort l) = List.filter (tied x) l.
  Proof.
    induction l as [|a l IH]; simpl; [done|].
    rewrite filter_tied_insert, IH. done.
  Qed.

Lemma sorted_head_min a r y :
    Sorted cmp_le (a :: r) -> In y (a :: r) -> cmp a y <= 0.
  Proof.
    intros Hs [->|Hy]; [rewrite cmp_refl; lia|].
    apply Sorted_StronglySorted in Hs; [|intros ? ? ?; apply cmp_le_trans].
    apply StronglySorted_inv in Hs as [_ Hall].
    rewrite List.Forall_forall in Hall. by apply Hall.
  Qed.

Lemma sorted_stable_perm_eq l1 l2 :
    Sorted cmp_le l1 -> Sorted cmp_le l2 -> Permutation l1 l2 ->
    (forall x, List.filter (tied x) l1 = List.filter (tied x) l2) -> l1 = l2.
  Proof.
    revert l2. induction l1 as [|a r1 IH]; intros l2 S1 S2 P F.
    { symmetry. by apply Permutation_nil. }
    destruct l2 as [|b r2]; [by apply Permutation_sym, Permutation_nil_cons in P|].
    assert (cmp a b <= 0) by (apply (sorted_head_min a r1 b S1);
      apply (Permutation_in _ (Permutation_sym P)); left; done).
    assert (cmp b a <= 0) by (apply (sorted_head_min b r2 a S2);
      apply (Permutation_in _ P); left; done).
    pose proof (cmp_le_flip b a). assert (Hab : cmp a b = 0) by lia.
    pose proof (F a) as Fa. simpl in Fa.
    assert (Ta : tied a a = true) by (unfold tied; rewrite cmp_refl; done).
    assert (Tb : tied a b = true) by (unfold tied; rewrite Hab; done).
    rewrite Ta, Tb in Fa. injection Fa as <- _.
    f_equal. apply IH.
    - by apply Sorted_inv in S1 as [].
    - by apply Sorted_inv in S2 as [].
    - by apply Permutation_cons_inv in P.
    - intros x. specialize (F x). simpl in F. destruct (tied x a); [|done].
      by injection F.
  Qed.

(** The abstract contract of a stable sort (ECMA-262 with a consistent
      comparator): a sorted permutation keeping tied elements in order.
      [js_sort] is the only list that meets it. *)
Definition stable_sort_of (l l' : list A) : Prop :=
    Permutation l' l /\ Sorted cmp_le l' /\
    forall x, List.filter (tied x) l' = List.filter (tied x) l.

Theorem js_sort_unique l l' : stable_sort_of l l' <-> l' = js_sort l.
  Proof.
    split.
    - intros (P & S & F). apply sorted_stable_perm_eq; [done|apply js_sort_sorted| |].
      + rewrite P. symmetry. apply js_sort_perm.
      + intros x. by rewrite F, js_sort_stable.
    - intros ->. split; [apply js_sort_perm|]. split; [apply js_sort_sorted|].
      intros x. apply js_sort_stable.
  Qed.

(** Everything kept by [slice(0, n)] of the sorted list ranks no lower
      than everything it drops. *)
Theorem js_slice_top n l x y :
    In x (js_slice n (js_sort l)) -> In y (skipn n (js_sort l)) -> cmp x y <= 0.
  Proof.
    unfold js_slice. intros Hx Hy.
    pose proof (js_sort_sorted l) as S. rewrite <- (firstn_skipn n (js_sort l)) in S.
    apply Sorted_StronglySorted in S; [|intros ? ? ?; apply cmp_le_trans].
    revert S Hx Hy. generalize (firstn n (js_sort l)), (skipn n (js_sort l)).
    intros p q S Hx Hy. induction p as [|a p IH]; [destruct Hx|].
    simpl in S. apply StronglySorted_inv in S as [S Hall].
    destruct Hx as [<-|Hx]; [|by apply IH].
    rewrite List.Forall_forall in Hall. apply Hall, in_or_app. by right.
  Qed.
Lemma js_slice_In n l x : In x (js_slice n (js_sort l)) -> In x l.
  Proof.
    unfold js_slice. intros H. apply (Permutation_in _ (js_sort_perm l)).
    rewrite <- (firstn_skipn n (js_sort l)). apply in_or_app. by left.
  Qed.

(** An element of the input that [slice(0, n)] drops ranks no higher than
      any element it keeps. *)
Lemma js_slice_dropped n l x y :
    In x (js_slice n (js_sort l)) -> In y l -> ~ In y (js_slice n (js_sort l)) ->
    cmp x y <= 0.
  Proof.
    intros Hx Hy Hn. apply (js_slice_top n l x y Hx).
    apply (Permutation_in _ (Permutation_sym (js_sort_perm l))) in Hy.
    rewrite <- (firstn_skipn n (js_sort l)) in Hy.
    apply in_app_or in Hy as [Hy|Hy]; [by destruct Hn|done].
  Qed.
End Sort.

#[export] Hint Resolve js_sort_perm js_sort_sorted : connie.

(** ** [[...new Set(l)]] *)

Fixpoint set_values_from (seen : list string) (l : list string) : list string :=
  match l with
  | [] => []
  | x :: xs =>
      if js_includes x seen then set_values_from seen xs
      else x :: set_values_from (x :: seen) xs
  end.

Definition set_values (l : list string) : list string := set_values_from [] l.

Lemma set_values_from_In seen l x :
  In x (set_values_from seen l) <-> In x l /\ ~ In x seen.
Proof.
  revert seen. induction l as [|y l IH]; intros seen; simpl; [tauto|].
  destruct (js_includes y seen) eqn:E.
  - apply js_includes_In in E. rewrite IH. split; [tauto|].
    intros [[->|H] N]; [contradiction | tauto].
  - apply js_includes_false in E. simpl. rewrite IH. simpl.
    destruct (String.eqb_spec y x); subst; [tauto|]. split; [|tauto].
    intros [?|[? ?]]; [contradiction|]. split; [right|]; tauto.
Qed.

Lemma set_values_from_NoDup seen l : List.NoDup (set_values_from seen l).
Proof.
  revert seen. induction l as [|y l IH]; intros seen; simpl; [constructor|].
  destruct (js_includes y seen); [apply IH|].
  apply List.NoDup_cons; [|apply IH]. rewrite set_values_from_In. simpl. tauto.
Qed.

(** [[...new Set(l)]] has no duplicates and the same elements as [l]. *)
Lemma set_values_spec l : List.NoDup (set_values l) /\ forall x, In x (set_values l) <-> In x l.
Proof.
  split; [apply set_values_from_NoDup|]. intros x. unfold set_values.
  rewrite set_values_from_In. simpl. tauto.
Qed.

(** ** Objects used as maps: insertion-ordered association lists *)

(** Counters: objects whose values are numbers. *)

Definition obj := list (string * Z).

Fixpoint obj_get {V} (k : string) (m : list (string * V)) : option V :=
  match m with
  | [] => None
  | (k', v) :: m' => if String.eqb k' k then Some v else obj_get k m'
  end.

(** [m[k] = v]: an existing key keeps its position, a new one goes last. *)
Fixpoint obj_set {V} (k : string) (v : V) (m : list (string * V)) : list (string * V) :=
  match m with
  | [] => [(k, v)]
  | (k', v') :: m' => if String.eqb k' k then (k', v) :: m' else (k', v') :: obj_set k v m'
  end.

(** [m[k] = (m[k] || 0) + 1] *)
Definition obj_incr (k : string) (m : obj) : obj :=
  obj_set k (match obj_get k m with Some v => v | None => 0 end + 1) m.

(** [ks.forEach(k => { if (k) m[k] = (m[k] || 0) + 1; })] from an empty object *)
Definition count_into (m : obj) (ks : list string) : obj :=
  fold_left (fun m k => if String.eqb k "" then m else obj_incr k m) ks m.

(** A key is an array index when it is the canonical decimal form of an
    integer in [0, 2^32 - 2] (ECMA-262 6.1.7). *)
Definition array_index (k : string) : option Z :=
  let ds := JsString.take_digits 10 k in
  match k with
  | EmptyString => None
  | String c _ =>
      if (length ds =? String.length k)%nat
         && (String.eqb k "0" || negb (Ascii.eqb c "0"%char))
         && (JsString.digits_value 10 ds <? 4294967295)
      then Some (JsString.digits_value 10 ds) else None
  end.

Definition is_array_index {V} (e : string * V) : bool :=
  match array_index (fst e) with Some _ => true | None => false end.

Definition index_of_entry {V} (e : string * V) : Z :=
  match array_index (fst e) with Some v => v | None => 0 end.

(** [Object.entries(m)] (OrdinaryOwnPropertyKeys, ECMA-262 10.1.11.1) for
    an object with values of type [V]. *)
Definition object_entries {V} (m : list (string * V)) : list (string * V) :=
  (js_sort (cmp_asc index_of_entry) (List.filter is_array_index m)
   ++ List.filter (fun e => negb (is_array_index e)) m)%list.

(** ** Counter objects *)

Definition opt0 (o : option Z) : Z := match o with Some v => v | None => 0 end.

(** How many times [k] occurs in [ks]. *)
Definition occurrences (k : string) (ks : list string) : Z :=
  Z.of_nat (length (List.filter (String.eqb k) ks)).

Lemma obj_get_set {V} k k' (v : V) m :
  obj_get k' (obj_set k v m) = if String.eqb k k' then Some v else obj_get k' m.
Proof.
  induction m as [|[k0 v0] m IH]; simpl.
  - by destruct (String.eqb k k').
  - destruct (String.eqb_spec k0 k) as [->|Hne]; simpl.
    + destruct (String.eqb k k'); reflexivity.
    + rewrite IH. destruct (String.eqb_spec k0 k'), (String.eqb_spec k k'); congruence.
Qed.

Lemma obj_set_keys {V} k (v : V) m :
  forall x, In x (map fst (obj_set k v m)) <-> In x (map fst m) \/ x = k.
Proof.
  induction m as [|[k0 v0] m IH]; intros x; simpl; [intuition|].
  destruct (String.eqb_spec k0 k) as [->|Hne]; simpl; [intuition|].
  rewrite IH. intuition.
Qed.

Lemma obj_set_NoDup {V} k (v : V) m :
  List.NoDup (map fst m) -> List.NoDup (map fst (obj_set k v m)).
Proof.
  induction m as [|[k0 v0] m IH]; intros H; simpl; [repeat constructor; simpl; tauto|].
  inversion H as [|? ? Hn Hnd]; subst.
  destruct (String.eqb_spec k0 k) as [->|Hne]; simpl; [by constructor|].
  constructor; [|by apply IH]. rewrite obj_set_keys. intuition.
Qed.

Lemma obj_set_In {V} k (v : V) m k' v' :
  List.NoDup (map fst m) ->
  In (k', v') (obj_set k v m) <-> (k' = k /\ v' = v) \/ (k' <> k /\ In (k', v') m).
Proof.
  induction m as [|[k0 v0] m IH]; intros Hnd; simpl; [intuition congruence|].
  inversion Hnd as [|? ? Hn Hnd']; subst.
  destruct (String.eqb_spec k0 k) as [->|Hne]; simpl.
  - split; [intros [E|Hin]; [left; by injection E as -> ->|]|].
    + right. split; [|by right]. intros ->. apply Hn. by apply (in_map fst) in Hin.
    + intros [[-> ->]|[Hk [E|Hin]]]; [by left|by injection E as -> ->; congruence|by right].
  - rewrite IH by done. split.
    + intros [E|[[-> ->]|[Hk Hin]]]; [injection E as -> ->; right; split; [congruence|by left]|by left|].
      right. split; [done|by right].
    + intros [[-> ->]|[Hk [E|Hin]]]; [right; by left|by left|right; right; by split].
Qed.

Lemma obj_get_In {V} k (v : V) m :
  List.NoDup (map fst m) -> In (k, v) m -> obj_get k m = Some v.
Proof.
  induction m as [|[k0 v0] m IH]; intros Hnd Hin; [destruct Hin|].
  inversion Hnd as [|? ? Hn Hnd']; subst. simpl.
  destruct Hin as [E|Hin].
  - injection E as -> ->. by rewrite String.eqb_refl.
  - destruct (String.eqb_spec k0 k) as [->|]; [|by apply IH].
    exfalso. apply Hn. apply (in_map fst) in Hin. exact Hin.
Qed.

Lemma count_into_cons m k ks :
  count_into m (k :: ks) = count_into (if String.eqb k "" then m else obj_incr k m) ks.
Proof. reflexivity. Qed.

Lemma count_into_NoDup m ks :
  List.NoDup (map fst m) -> List.NoDup (map fst (count_into m ks)).
Proof.
  revert m. induction ks as [|k ks IH]; intros m H; [exact H|].
  rewrite count_into_cons. apply IH. destruct (String.eqb k ""); [exact H|]. by apply obj_set_NoDup.
Qed.

Lemma count_into_keys m ks x :
  In x (map fst (count_into m ks)) -> In x (map fst m) \/ (x <> "" /\ In x ks).
Proof.
  revert m. induction ks as [|k ks IH]; intros m H; [by left|].
  rewrite count_into_cons in H.
  destruct (IH _ H) as [Hm|[Hx Hks]]; [|right; split; [done|right; done]].
  destruct (String.eqb k "") eqn:E; [by left|].
  unfold obj_incr in Hm. apply obj_set_keys in Hm. destruct Hm as [Hm|Hm]; [by left|].
  subst. right. split; [by apply String.eqb_neq | by left].
Qed.

(** [ks.forEach(k => { if (k) m[k] = (m[k]||0)+1 })] adds to each non-empty
    key its number of occurrences. *)
Lemma count_into_get m ks k :
  k <> "" -> opt0 (obj_get k (count_into m ks)) = opt0 (obj_get k m) + occurrences k ks.
Proof.
  unfold occurrences. revert m. induction ks as [|k' ks IH]; intros m Hk; [simpl; lia|].
  rewrite count_into_cons, IH by exact Hk. simpl.
  destruct (String.eqb_spec k' "") as [->|Hne].
  - replace (String.eqb k "") with false by (symmetry; by apply String.eqb_neq). lia.
  - unfold obj_incr. rewrite obj_get_set.
    destruct (String.eqb_spec k' k) as [->|Hkk]; rewrite ?String.eqb_refl.
    + simpl. rewrite Nat2Z.inj_succ. destruct (obj_get k m); simpl; lia.
    + replace (String.eqb k k') with false by (symmetry; apply String.eqb_neq; congruence). lia.
Qed.

Lemma object_entries_perm {V} (m : list (string * V)) : Permutation (object_entries m) m.
Proof.
  unfold object_entries. rewrite js_sort_perm. symmetry. apply filter_split_perm.
Qed.

Lemma object_entries_In {V} (m : list (string * V)) e : In e (object_entries m) <-> In e m.
Proof. split; apply Permutation_in; [|symmetry]; apply object_entries_perm. Qed.

Lemma obj_get_Some_In {V} k (v : V) m : obj_get k m = Some v -> In (k, v) m.
Proof.
  induction m as [|[k0 v0] m IH]; simpl; [discriminate|].
  destruct (String.eqb_spec k0 k) as [->|]; [intros E; injection E as ->; by left|].
  intros H. right. by apply IH.
Qed.

Lemma occurrences_pos k ks : In k ks -> 0 < occurrences k ks.
Proof.
  intros H. unfold occurrences.
  assert (In k (List.filter (String.eqb k) ks)) by (apply filter_In; split; [done|apply String.eqb_refl]).
  destruct (List.filter (String.eqb k) ks); [destruct H0|]. simpl. lia.
Qed.

(** An entry of the counter object built from an empty object is a
    non-empty key of [ks] with its number of occurrences, and every such key
    has its entry. *)
Theorem count_entries_spec ks k v :
  In (k, v) (object_entries (count_into [] ks)) <-> k <> "" /\ In k ks /\ v = occurrences k ks.
Proof.
  rewrite object_entries_In.
  pose proof (count_into_NoDup [] ks (List.NoDup_nil _)) as Hnd. split.
  - intros Hin. assert (Hk : In k (map fst (count_into [] ks)))
      by (apply (in_map fst) in Hin; exact Hin).
    destruct (count_into_keys [] ks k Hk) as [[]|[Hne Hks]].
    split_and!; [done|done|].
    pose proof (count_into_get [] ks k Hne) as G. rewrite (obj_get_In k v _ Hnd Hin) in G.
    simpl in G. lia.
  - intros (Hne & Hks & ->). apply obj_get_Some_In.
    pose proof (count_into_get [] ks k Hne) as G. pose proof (occurrences_pos k ks Hks).
    destruct (obj_get k (count_into [] ks)); simpl in G; [f_equal; lia | lia].
Qed.
