(* ===== verification/Book.v ===== *)
(** * Book: the data model of src/app.js

    Books, collections and settings are loose JS objects in the source.  A
    [Book] record has one field per property that [saveBook] writes
    (src/app.js, [bookData] plus [id], [dateAdded], [updatedAt]); a property
    that a stored object lacks holds the value the code's [x || default]
    reads give it ([''], [0], [false], [[]]), which every read in the
    modelled code treats the same way as the absent property.  Ratings,
    page counts and timestamps are JS numbers holding integers: [Z]. *)

From S2P Require Import Prelude.
Local Open Scope string_scope.
Local Open Scope Z_scope.

Record Book := mkBook {
  id : string;
  title : string;
  author : string;
  genre : string;
  isbn : string;
  status : string;
  dateRead : string;
  dateStarted : string;
  tags : list string;
  pages : Z;
  pagesRead : Z;
  rating : Z;
  ownPhysical : bool;
  ownDigital : bool;
  ownBorrowed : bool;
  copies : Z;
  borrowedFrom : string;
  notes : string;
  coverUrl : string;
  collections : list string;
  description : string;
  dateAdded : Z;
  updatedAt : Z
}.

(** [{ ...book, id }]: a document's data with its id overwritten, as the
    snapshot handlers build it ([{ ...d.data(), id: d.id }]). *)
Definition with_id (i : string) (b : Book) : Book :=
  {| id := i; title := title b; author := author b; genre := genre b;
     isbn := isbn b; status := status b; dateRead := dateRead b;
     dateStarted := dateStarted b; tags := tags b; pages := pages b;
     pagesRead := pagesRead b; rating := rating b;
     ownPhysical := ownPhysical b; ownDigital := ownDigital b;
     ownBorrowed := ownBorrowed b; copies := copies b;
     borrowedFrom := borrowedFrom b; notes := notes b;
     coverUrl := coverUrl b; collections := collections b;
     description := description b; dateAdded := dateAdded b;
     updatedAt := updatedAt b |}.

(** The status values of the [f-status] select. *)
Definition st_want := "want".
Definition st_reading := "reading".
Definition st_read := "read".
Definition st_dnf := "dnf".
Definition st_borrowed := "borrowed".

Record Collection := mkCollection {
  col_id : string;
  col_name : string;
  col_emoji : string;
  col_createdAt : Z
}.

(** The settings object: [{ theme, goal, goalYear }] plus the optional
    [displayName] that [authSignUp] and [saveDisplayName] add. *)
Record Settings := mkSettings {
  theme : string;
  goal : Z;
  goalYear : Z;
  displayName : option string
}.

(** A settings document as stored remotely: each property may be absent.
    [{ ...settings, ...patch }] overwrites the properties the patch has. *)
Record SettingsPatch := mkSettingsPatch {
  p_theme : option string;
  p_goal : option Z;
  p_goalYear : option Z;
  p_displayName : option string
}.

Definition opt_or {A} (o : option A) (d : A) : A :=
  match o with Some x => x | None => d end.

Definition merge_settings (s : Settings) (p : SettingsPatch) : Settings :=
  {| theme := opt_or (p_theme p) (theme s);
     goal := opt_or (p_goal p) (goal s);
     goalYear := opt_or (p_goalYear p) (goalYear s);
     displayName := match p_displayName p with
                    | Some n => Some n
                    | None => displayName s
                    end |}.

(** Writing a whole settings object stores every property it has. *)
Definition settings_doc (s : Settings) : SettingsPatch :=
  {| p_theme := Some (theme s); p_goal := Some (goal s);
     p_goalYear := Some (goalYear s); p_displayName := displayName s |}.

(** A book with the given descriptive fields and the defaults of an empty
    form: used to build concrete libraries. *)
Definition sample_book (i t a g st : string) (r : Z) (tg : list string)
  (dr : string) (added : Z) : Book :=
  {| id := i; title := t; author := a; genre := g; isbn := "";
     status := st; dateRead := dr; dateStarted := ""; tags := tg;
     pages := 0; pagesRead := 0; rating := r;
     ownPhysical := false; ownDigital := false; ownBorrowed := false;
     copies := 0; borrowedFrom := ""; notes := ""; coverUrl := "";
     collections := []; description := ""; dateAdded := added;
     updatedAt := added |}.

(** A settings document carries every property but an absent display
    name, so spreading it restores the settings it was taken from unless
    that name is missing and the current settings have one (a backup, or
    the local cache read on a fresh page). *)
Lemma merge_settings_doc x st : displayName x = None -> merge_settings x (settings_doc st) = st.
Proof. destruct x, st as [? ? ? []]; simpl; intros ->; reflexivity. Qed.
