(* ===== verification/Spine.v ===== *)
(** * Spine: the placeholder spine of a book without a cover

    [getSpineColor] (src/app.js:1005-1016) hashes the title with
    [hash = ((hash << 5) - hash) + title.charCodeAt(i)] and picks
    [SPINE_COLORS[Math.abs(hash) % SPINE_COLORS.length]];
    [bookSpineHTML] (1018-1024) draws the spine in those two colours with
    the escaped title and author, and [bookCoverImg] (1026-1031) draws
    the cover image with the spine as its fallback.  The views take the
    strings the code reads ([book.title || ''], [book.author || ''],
    [book.coverUrl]).

    [<<] works on 32-bit integers: it converts its operand with ToInt32
    ([to_int32], the wrap to [[-2^31, 2^31)] written out) and its result
    is again an int32.  The subtraction and the addition are binary64
    operations: [title_hash_num] runs the loop on binary64 numbers
    ([SFsub], [SFadd], ToInt32 as [js_trunc] and the wrap), and
    [title_hash_exact] shows that for every title of at most 2^20
    characters each value of that loop is [Number] of the integer hash
    [title_hash] (in [Z]) of the prefix read so far, which stays below
    2^53 in magnitude; the palette index is taken on [title_hash].  A destructuring of [undefined]
    ([const [bg1, bg2] = SPINE_COLORS[i]] off the palette) throws; the
    model returns [None] there, which [spine_total] excludes. *)

From Stdlib Require Import Floats.SpecFloat.
From S2P Require Import Prelude JsString Html JsNumber.
Local Open Scope string_scope.
Local Open Scope Z_scope.

Module Spine.
Import JsNumber.

(** ** 32-bit integers *)

(** ToInt32 on an integer: the representative of [x] modulo 2^32 in
    [[-2^31, 2^31)]. *)
Definition to_int32 (x : Z) : Z :=
  let m := x mod 2 ^ 32 in if m <? 2 ^ 31 then m else m - 2 ^ 32.

(** ** The hash and the palette *)

(** [hash = ((hash << 5) - hash) + title.charCodeAt(i)] *)
Definition hash_step (h : Z) (c : ascii) : Z :=
  to_int32 (Z.shiftl (to_int32 h) 5) - h + Z.of_nat (nat_of_ascii c).

(** [let hash = 0; for (...) hash = ...] over the code units of the title. *)
Definition title_hash (t : string) : Z := fold_left hash_step (list_ascii_of_string t) 0.

(** The same step on the binary64 number [hash] holds: [<<] applies
    ToInt32 ([js_trunc], then the wrap) and gives an int32, [-] and [+]
    are binary64 subtraction and addition. *)
Definition hash_step_num (h : spec_float) (c : ascii) : spec_float :=
  SFadd prec emax (SFsub prec emax (js_num (to_int32 (Z.shiftl (to_int32 (js_trunc h)) 5))) h)
    (js_num (Z.of_nat (nat_of_ascii c))).

(** The loop of [getSpineColor] on binary64 numbers, from [hash = 0]. *)
Definition title_hash_num (t : string) : spec_float :=
  fold_left hash_step_num (list_ascii_of_string t) (js_num 0).

Definition SPINE_COLORS : list (string * string) :=
  [("#7c3f1e","#a0552a"); ("#1e3a5f","#2a5080"); ("#2d5a1b","#3d7a26");
   ("#5a1e3f","#7a2a55"); ("#3f3f1e","#5a5a2a"); ("#1e4a4a","#2a6a6a");
   ("#5a2d1e","#7a3f2a"); ("#1e1e5a","#2a2a7a"); ("#4a1e5a","#6a2a7a");
   ("#5a1e1e","#7a2a2a"); ("#1e5a3a","#2a7a50"); ("#3a1e5a","#502a7a")].

(** [arr[i]] for a number [i]: [undefined] ([None]) off the indices. *)
Definition js_index {A} (l : list A) (i : Z) : option A :=
  if 0 <=? i then nth_error l (Z.to_nat i) else None.

(** [Math.abs(hash) % SPINE_COLORS.length]: [%] keeps the sign of the
    dividend, as [Z.rem] does. *)
Definition spine_index (t : string) : Z :=
  Z.rem (Z.abs (title_hash t)) (Z.of_nat (length SPINE_COLORS)).

(** [getSpineColor(title)] *)
Definition getSpineColor (title : string) : option (string * string) :=
  js_index SPINE_COLORS (spine_index title).

(** ** The spine and the cover *)

(** What [bookSpineHTML] draws: the size class, the two colours of the
    gradient, and the escaped title and author. *)
Record SpineView := mkSpineView {
  sp_class : string; sp_bg1 : string; sp_bg2 : string; sp_title : string; sp_author : string }.

(** [bookSpineHTML(book, sizeClass)] with [book.title || ''] and
    [book.author || '']; [None] is the TypeError of destructuring
    [undefined]. *)
Definition bookSpineHTML (title author sizeClass : string) : option SpineView :=
  match getSpineColor title with
  | Some (bg1, bg2) => Some (mkSpineView sizeClass bg1 bg2 (Html.escHtml title) (Html.escHtml author))
  | None => None
  end.

(** [bookCoverImg(book, cls)] on the three fields it reads ([coverUrl],
    [title], [author]): the image (escaped source and alt text) over a
    hidden spine, or the spine alone without a cover URL. *)
Inductive CoverView := CoverImg (src alt : string) (fallback : SpineView) | CoverSpine (sp : SpineView).

Definition bookCoverImg (title author coverUrl cls : string) : option CoverView :=
  sp ← bookSpineHTML title author cls;
  Some (if String.eqb coverUrl "" then CoverSpine sp
        else CoverImg (Html.escHtml coverUrl) (Html.escHtml title) sp).

(** ** Reference: Java's [String.hashCode] *)

Definition java_hash (t : string) : Z :=
  fold_left (fun h c => 31 * h + Z.of_nat (nat_of_ascii c)) (list_ascii_of_string t) 0.

(** ** ToInt32 *)

Lemma to_int32_range x : - 2 ^ 31 <= to_int32 x < 2 ^ 31.
Proof.
  unfold to_int32. pose proof (Z.mod_pos_bound x (2 ^ 32) ltac:(lia)).
  destruct (Z.ltb_spec (x mod 2 ^ 32) (2 ^ 31)); lia.
Qed.

(** [to_int32 x] is congruent to [x] modulo 2^32. *)
Lemma to_int32_mod x : to_int32 x mod 2 ^ 32 = x mod 2 ^ 32.
Proof.
  unfold to_int32. destruct (Z.ltb_spec (x mod 2 ^ 32) (2 ^ 31)).
  - apply Z.mod_mod. lia.
  - replace (x mod 2 ^ 32 - 2 ^ 32) with (x mod 2 ^ 32 + (-1) * 2 ^ 32) by ring.
    rewrite Z.mod_add, Z.mod_mod; lia.
Qed.

Lemma to_int32_eq x y : x mod 2 ^ 32 = y mod 2 ^ 32 -> to_int32 x = to_int32 y.
Proof. unfold to_int32. by intros ->. Qed.

(** The shift by 5 of an int32 is its product by 32. *)
Lemma shiftl_5 x : Z.shiftl x 5 = x * 32.
Proof. by rewrite Z.shiftl_mul_pow2 by lia. Qed.

Lemma to_int32_shift x : exists k, to_int32 x = x + k * 2 ^ 32.
Proof.
  unfold to_int32. pose proof (Z.div_mod x (2 ^ 32) ltac:(lia)).
  destruct (Z.ltb_spec (x mod 2 ^ 32) (2 ^ 31)).
  - exists (- (x / 2 ^ 32)). lia.
  - exists (- (x / 2 ^ 32) - 1). lia.
Qed.

Lemma char_code_bound c : 0 <= Z.of_nat (nat_of_ascii c) < 256.
Proof. pose proof (Ascii.nat_ascii_bounded c). lia. Qed.

Lemma length_list_ascii t : length (list_ascii_of_string t) = String.length t.
Proof. induction t as [|c t IH]; [done|]. simpl. by rewrite IH. Qed.

(** ** The hash *)

(** One step moves the hash by at most 2^31 + 255. *)
Lemma hash_step_bound h c : Z.abs (hash_step h c) <= Z.abs h + (2 ^ 31 + 255).
Proof.
  unfold hash_step. pose proof (to_int32_range (Z.shiftl (to_int32 h) 5)).
  pose proof (char_code_bound c). lia.
Qed.

Lemma hash_fold_bound l h :
  Z.abs (fold_left hash_step l h) <= Z.abs h + Z.of_nat (length l) * (2 ^ 31 + 255).
Proof.
  revert h. induction l as [|c l IH]; intros h; cbn [fold_left length]; [lia|].
  specialize (IH (hash_step h c)). pose proof (hash_step_bound h c). lia.
Qed.

(** Below 2^53 minus one step's growth, the binary64 step is the integer
    step: ToInt32 reads the integer back and [-] and [+] do not round. *)
Lemma hash_step_num_exact h c : Z.abs h + (2 ^ 31 + 255) < 2 ^ 53 ->
  hash_step_num (js_num h) c = js_num (hash_step h c).
Proof.
  intros H. pose proof (to_int32_range (Z.shiftl (to_int32 h) 5)). pose proof (char_code_bound c).
  unfold hash_step_num, hash_step. rewrite js_trunc_num by lia.
  rewrite js_sub_exact, js_add_exact by lia. done.
Qed.

Lemma hash_fold_num l h : Z.abs h + Z.of_nat (length l) * (2 ^ 31 + 255) < 2 ^ 53 ->
  fold_left hash_step_num l (js_num h) = js_num (fold_left hash_step l h).
Proof.
  revert h. induction l as [|c l IH]; intros h H; cbn [fold_left length] in *; [done|].
  rewrite hash_step_num_exact by lia. apply IH. pose proof (hash_step_bound h c). lia.
Qed.

(** One step is Java's [31 h + c] up to a multiple of 2^32. *)
Lemma hash_step_java h c :
  exists k, hash_step h c = 31 * h + Z.of_nat (nat_of_ascii c) + k * 2 ^ 32.
Proof.
  unfold hash_step. rewrite shiftl_5.
  destruct (to_int32_shift h) as [k1 E1]. rewrite E1.
  destruct (to_int32_shift ((h + k1 * 2 ^ 32) * 32)) as [k2 E2]. rewrite E2.
  exists (32 * k1 + k2). ring.
Qed.

Lemma hash_fold_java l h j k0 : h = j + k0 * 2 ^ 32 ->
  exists k, fold_left hash_step l h =
            fold_left (fun h c => 31 * h + Z.of_nat (nat_of_ascii c)) l j + k * 2 ^ 32.
Proof.
  revert h j k0. induction l as [|c l IH]; intros h j k0 Eh; cbn [fold_left]; [by exists k0|].
  destruct (hash_step_java h c) as [k E]. apply (IH _ _ (31 * k0 + k)). rewrite E, Eh. ring.
Qed.

(** ** The palette lookup never misses *)

Lemma spine_index_range title : 0 <= spine_index title < 12.
Proof. unfold spine_index. cbn [length SPINE_COLORS Z.of_nat]. apply Z.rem_bound_pos; lia. Qed.

Lemma getSpineColor_some title : exists bg1 bg2, getSpineColor title = Some (bg1, bg2).
Proof.
  pose proof (spine_index_range title) as Hi. unfold getSpineColor, js_index.
  destruct (Z.leb_spec 0 (spine_index title)); [|lia].
  destruct (nth_error SPINE_COLORS (Z.to_nat (spine_index title))) as [[bg1 bg2]|] eqn:E.
  - by exists bg1, bg2.
  - apply nth_error_None in E. cbn in E. lia.
Qed.

Lemma bookSpineHTML_some title author cls : exists v, bookSpineHTML title author cls = Some v.
Proof.
  destruct (getSpineColor_some title) as (bg1 & bg2 & E). unfold bookSpineHTML. rewrite E. by eexists.
Qed.

Lemma bookCoverImg_some title author url cls : exists v, bookCoverImg title author url cls = Some v.
Proof.
  destruct (bookSpineHTML_some title author cls) as [v E]. unfold bookCoverImg. rewrite E. by eexists.
Qed.

(** ** Properties *)

(** C37: the binary64 loop of [getSpineColor] computes the integer
    hash exactly for every title of at most 2^20 characters: the number
    it ends with is [Number(title_hash t)], and after each prefix of the
    title the loop holds [Number] of the integer hash of that prefix,
    whose magnitude plus one step's growth (2^31 + 255) stays below 2^53,
    so no subtraction or addition of the loop rounds. *)
Theorem title_hash_exact t :
  Z.of_nat (String.length t) <= 2 ^ 20 ->
  title_hash_num t = js_num (title_hash t) /\
  (forall n, let cs := firstn n (list_ascii_of_string t) in
    fold_left hash_step_num cs (js_num 0) = js_num (fold_left hash_step cs 0) /\
    Z.abs (fold_left hash_step cs 0) + 2 ^ 31 + 255 < 2 ^ 53).
Proof.
  intros Hl. assert (Hn : forall cs, (length cs <= String.length t)%nat ->
    fold_left hash_step_num cs (js_num 0) = js_num (fold_left hash_step cs 0) /\
    Z.abs (fold_left hash_step cs 0) + 2 ^ 31 + 255 < 2 ^ 53).
  { intros cs Hc. pose proof (hash_fold_bound cs 0). split; [apply hash_fold_num|];
    change (2 ^ 53) with 9007199254740992 in *; change (2 ^ 31) with 2147483648 in *;
    change (2 ^ 20) with 1048576 in *; nia. }
  split; [apply Hn; by rewrite length_list_ascii|].
  intros n. apply Hn. rewrite <- length_list_ascii. rewrite length_firstn. lia.
Qed.

(** The int32 value of the hash is Java's [String.hashCode] of the
    title: [(hash << 5) - hash] is [31 * hash] modulo 2^32.  The palette
    index is taken on the hash before the wrap, not on this value. *)
Theorem title_hash_java t : to_int32 (title_hash t) = to_int32 (java_hash t).
Proof.
  unfold title_hash, java_hash.
  destruct (hash_fold_java (list_ascii_of_string t) 0 0 0) as [k E]; [lia|].
  apply to_int32_eq. rewrite E, Z.mod_add by lia. done.
Qed.

(** C15: every title has a colour: the index [Math.abs(hash) % 12] lies
    in [0, 12), so [SPINE_COLORS[i]] is defined and [bookSpineHTML]
    never destructures [undefined]; it draws the spine in that colour
    with the title and author escaped. *)
Theorem spine_total title author cls :
  0 <= spine_index title < 12 /\
  exists bg1 bg2, getSpineColor title = Some (bg1, bg2) /\
    bookSpineHTML title author cls =
      Some (mkSpineView cls bg1 bg2 (Html.escHtml title) (Html.escHtml author)).
Proof.
  split; [apply spine_index_range|].
  destruct (getSpineColor_some title) as (bg1 & bg2 & E). exists bg1, bg2.
  unfold bookSpineHTML. by rewrite E.
Qed.

(** ** Witnesses *)

(** [Dune] takes the first colour. *)
Lemma spine_total_witness : getSpineColor "Dune" = Some ("#7c3f1e", "#a0552a").
Proof.
  destruct (spine_total "Dune" "Frank Herbert" "") as [_ (bg1 & bg2 & E & _)].
  rewrite E. vm_compute in E. symmetry. exact E.
Defined.

Lemma title_hash_exact_witness : title_hash_num "Dune" = js_num 2141736.
Proof. apply (proj1 (title_hash_exact "Dune" ltac:(vm_compute; discriminate))). Defined.

End Spine.
