(* ===== verification/Filter.v ===== *)
(** * Filter: the library view of src/app.js

    [_doRenderLibrary] (src/app.js:1040-1099) filters the in-memory books
    with the filter-panel state [fp] and the search box, then sorts them by
    [currentSortBy].  [book_passes] is the filter callback, clause by
    clause in the source's order of early returns; [lib_compare] is the sort
    callback; [library_view] composes them.  The filter-panel handlers
    ([fpSetStatus], [fpToggle*], [setOwnershipFilter], [fpSetRating],
    [clearAllFilters], src/app.js:1186-1260) are transitions of the panel
    state, and [filter_badge_count] is the count of [updateFilterBadge].

    The theorems: the predicate meets the spec's characterisation of a
    passing book ([book_passes_iff]); the view is a sub-list of the books,
    idempotent, a permutation of the filtered books and sorted stably by the
    chosen key; the rating sentinel; the panel invariant over every
    reachable panel state, and what the badge count means. *)

From S2P Require Import Prelude JsString JsArray Book.
Local Open Scope string_scope.
Local Open Scope Z_scope.

Module Filter.

(** The filter panel state [fp] (src/app.js:180). *)
Record FilterPanel := mkFilterPanel {
  fp_status : string;
  fp_ownership : list string;
  fp_genres : list string;
  fp_authors : list string;
  fp_tags : list string;
  fp_rating : Z
}.

Definition fp_init : FilterPanel :=
  {| fp_status := "all"; fp_ownership := []; fp_genres := []; fp_authors := [];
     fp_tags := []; fp_rating := -1 |}.

(** [(document.getElementById('lib-search')?.value || '').toLowerCase().trim()] *)
Definition search_query (raw : string) : string :=
  JsString.trim (JsString.toLowerCase raw).

(** [[b.title, b.author, b.genre, ...(b.tags||[])]] *)
Definition search_fields (b : Book) : list string :=
  title b :: author b :: genre b :: tags b.

Definition nonempty {A} (l : list A) : bool :=
  match l with [] => false | _ => true end.

(** The callback of [books.filter] in [_doRenderLibrary] (src/app.js:1046-1065). *)
Definition book_passes (searchQ : string) (fp : FilterPanel) (b : Book) : bool :=
  if negb (String.eqb searchQ "")
     && negb (existsb (fun s => JsString.includes (JsString.toLowerCase s) searchQ)
                      (search_fields b))
  then false
  else if negb (String.eqb (fp_status fp) "all") && negb (String.eqb (status b) (fp_status fp))
  then false
  else if ("physical" \in fp_ownership fp) && negb (ownPhysical b) then false
  else if ("digital" \in fp_ownership fp) && negb (ownDigital b) then false
  else if ("borrowed" \in fp_ownership fp) && negb (ownBorrowed b) then false
  else if nonempty (fp_genres fp) && negb (genre b \in fp_genres fp) then false
  else if nonempty (fp_authors fp) && negb (author b \in fp_authors fp) then false
  else if nonempty (fp_tags fp) && negb (existsb (fun t => t \in tags b) (fp_tags fp))
  then false
  else if (fp_rating fp =? 0) && (rating b >? 0) then false
  else if (fp_rating fp >? 0) && (rating b <? fp_rating fp) then false
  else true.

Definition filter_books (searchQ : string) (fp : FilterPanel) (bs : list Book) : list Book :=
  List.filter (book_passes searchQ fp) bs.

(** ** The spec's characterisation of a passing book (spec 4.1) *)
Definition passes_spec (q : string) (fp : FilterPanel) (b : Book) : Prop :=
  (q <> "" -> exists s, In s (search_fields b) /\
                  exists p r, JsString.toLowerCase s = (p ++ q ++ r)%string) /\
  (fp_status fp <> "all" -> status b = fp_status fp) /\
  (In "physical" (fp_ownership fp) -> ownPhysical b = true) /\
  (In "digital" (fp_ownership fp) -> ownDigital b = true) /\
  (In "borrowed" (fp_ownership fp) -> ownBorrowed b = true) /\
  (fp_genres fp <> [] -> In (genre b) (fp_genres fp)) /\
  (fp_authors fp <> [] -> In (author b) (fp_authors fp)) /\
  (fp_tags fp <> [] -> exists t, In t (fp_tags fp) /\ In t (tags b)) /\
  (fp_rating fp = 0 -> rating b <= 0) /\
  (fp_rating fp > 0 -> rating b >= fp_rating fp).

(** ** Each early return of the callback against its clause of the spec *)

Lemma if_false_else (c r : bool) : (if c then false else r) = true <-> c = false /\ r = true.
Proof. destruct c, r; intuition congruence. Qed.

Lemma andb_false_impl (a b : bool) : (a && b) = false <-> (a = true -> b = false).
Proof. destruct a, b; intuition congruence. Qed.

Lemma negb_eqb_true (x y : string) : negb (String.eqb x y) = true <-> x <> y.
Proof. rewrite negb_true_iff. apply String.eqb_neq. Qed.

Lemma nonempty_true {A} (l : list A) : nonempty l = true <-> l <> [].
Proof. destruct l; simpl; intuition congruence. Qed.

Lemma search_clause q b :
  (negb (String.eqb q "") &&
   negb (existsb (fun s => JsString.includes (JsString.toLowerCase s) q) (search_fields b)))
  = false <->
  (q <> "" -> exists s, In s (search_fields b) /\
                 exists p r, JsString.toLowerCase s = (p ++ q ++ r)%string).
Proof.
  rewrite andb_false_impl, negb_eqb_true, negb_false_iff, existsb_exists.
  setoid_rewrite includes_spec. reflexivity.
Qed.

Lemma status_clause (f st : string) :
  (negb (String.eqb f "all") && negb (String.eqb st f)) = false <-> (f <> "all" -> st = f).
Proof. rewrite andb_false_impl, negb_eqb_true, negb_false_iff, String.eqb_eq. reflexivity. Qed.

Lemma member_clause (x : string) (l : list string) (flag : bool) :
  ((x \in l) && negb flag) = false <-> (In x l -> flag = true).
Proof. rewrite andb_false_impl, js_includes_In, negb_false_iff. reflexivity. Qed.

Lemma facet_clause (x : string) (l : list string) :
  (nonempty l && negb (x \in l)) = false <-> (l <> [] -> In x l).
Proof. rewrite andb_false_impl, nonempty_true, negb_false_iff, js_includes_In. reflexivity. Qed.

Lemma tags_clause (l tg : list string) :
  (nonempty l && negb (existsb (fun t => t \in tg) l)) = false <->
  (l <> [] -> exists t, In t l /\ In t tg).
Proof.
  rewrite andb_false_impl, nonempty_true, negb_false_iff, existsb_exists.
  setoid_rewrite js_includes_In. reflexivity.
Qed.

Lemma unrated_clause (f r : Z) : ((f =? 0) && (r >? 0)) = false <-> (f = 0 -> r <= 0).
Proof. rewrite andb_false_impl, Z.eqb_eq, Z.gtb_ltb, Z.ltb_ge. lia. Qed.

Lemma min_rating_clause (f r : Z) : ((f >? 0) && (r <? f)) = false <-> (f > 0 -> r >= f).
Proof. rewrite andb_false_impl, Z.gtb_ltb, Z.ltb_lt, Z.ltb_ge. lia. Qed.

(** C1: the filter callback of [_doRenderLibrary] accepts a book exactly
    when every clause of the spec's characterisation (spec 4.1) holds. *)
Theorem book_passes_iff q fp b : book_passes q fp b = true <-> passes_spec q fp b.
Proof.
  unfold book_passes, passes_spec. rewrite !if_false_else.
  rewrite search_clause, status_clause, !member_clause, !facet_clause, tags_clause,
    unrated_clause, min_rating_clause.
  intuition.
Qed.

(** ** The sort callback (src/app.js:1067-1073), given the host's
    [String.prototype.localeCompare]. *)
Section View.
Context (localeCompare : string -> string -> Z).

Definition lib_compare (sortBy : string) (a b : Book) : Z :=
    if String.eqb sortBy "title" then localeCompare (title a) (title b)
    else if String.eqb sortBy "author" then localeCompare (author a) (author b)
    else if String.eqb sortBy "rating" then rating b - rating a
    else if String.eqb sortBy "dateRead" then localeCompare (dateRead b) (dateRead a)
    else dateAdded b - dateAdded a.

(** [filtered] after [filtered.sort(...)] in [_doRenderLibrary]. *)
Definition library_view (sortBy rawSearch : string) (fp : FilterPanel)
      (bs : list Book) : list Book :=
    js_sort (lib_compare sortBy) (filter_books (search_query rawSearch) fp bs).

Context `{!ConsistentComparator localeCompare}.

(** Every sort key gives a consistent comparator, whatever the locale's
      collation, so [Array.prototype.sort] is determined. *)
#[export] Instance lib_compare_consistent sortBy :
    ConsistentComparator (lib_compare sortBy).
  Proof.
    unfold lib_compare.
    destruct (String.eqb sortBy "title"); [exact (cmp_on_consistent _ _ _)|].
    destruct (String.eqb sortBy "author"); [exact (cmp_on_consistent _ _ _)|].
    destruct (String.eqb sortBy "rating"); [exact (cmp_desc_consistent rating)|].
    destruct (String.eqb sortBy "dateRead"); [exact (cmp_on_rev_consistent _ _ _)|].
    exact (cmp_desc_consistent dateAdded).
  Qed.

(** A book is shown in the library view exactly when it is in the
      library and passes every clause of the filter; sorting changes no
      membership. *)
Theorem library_view_members sortBy raw fp bs b :
    In b (library_view sortBy raw fp bs) <->
    In b bs /\ passes_spec (search_query raw) fp b.
  Proof.
    unfold library_view, filter_books.
    rewrite <- book_passes_iff, <- filter_In.
    split; apply Permutation_in; [|symmetry]; apply js_sort_perm.
  Qed.

(** The view is the stable sort of the filtered books by the chosen
      comparator: a list meets the contract of a stable sort of the filtered books
      (a permutation, sorted, tied books in library order) exactly when it
      is the view. *)
Theorem library_view_stable_sort sortBy raw fp bs l :
    stable_sort_of (lib_compare sortBy) (filter_books (search_query raw) fp bs) l <->
    l = library_view sortBy raw fp bs.
  Proof. apply js_sort_unique. exact _. Qed.

(** The order each key puts two neighbours in, read off [lib_compare]. *)
Lemma lib_compare_le sortBy a b :
    lib_compare sortBy a b <= 0 ->
    (sortBy = "title" -> localeCompare (title a) (title b) <= 0) /\
    (sortBy = "author" -> localeCompare (author a) (author b) <= 0) /\
    (sortBy = "rating" -> rating b <= rating a) /\
    (sortBy = "dateRead" -> localeCompare (dateRead b) (dateRead a) <= 0) /\
    (~ In sortBy ["title"; "author"; "rating"; "dateRead"] -> dateAdded b <= dateAdded a).
  Proof.
    unfold lib_compare. intros H. split_and!; intros Hs; subst; cbn in H; try lia.
    destruct (String.eqb_spec sortBy "title"); [subst; cbn in Hs; tauto|].
    destruct (String.eqb_spec sortBy "author"); [subst; cbn in Hs; tauto|].
    destruct (String.eqb_spec sortBy "rating"); [subst; cbn in Hs; tauto|].
    destruct (String.eqb_spec sortBy "dateRead"); [subst; cbn in Hs; tauto|]. lia.
  Qed.

(** C3: the library view lists exactly the filtered books, in the order
      of spec 4.1: any two neighbours are in ascending [localeCompare]
      order of title or author, descending order of rating, descending
      [localeCompare] order of [dateRead], or (for any other key)
      descending [dateAdded]; and books the key ties keep their library
      order. *)
Theorem library_view_order sortBy raw fp bs :
    let v := library_view sortBy raw fp bs in
    Permutation v (filter_books (search_query raw) fp bs) /\
    (forall l1 a b l2, v = (l1 ++ a :: b :: l2)%list ->
      (sortBy = "title" -> localeCompare (title a) (title b) <= 0) /\
      (sortBy = "author" -> localeCompare (author a) (author b) <= 0) /\
      (sortBy = "rating" -> rating b <= rating a) /\
      (sortBy = "dateRead" -> localeCompare (dateRead b) (dateRead a) <= 0) /\
      (~ In sortBy ["title"; "author"; "rating"; "dateRead"] -> dateAdded b <= dateAdded a)) /\
    (forall x, List.filter (tied (lib_compare sortBy) x) v =
               List.filter (tied (lib_compare sortBy) x) (filter_books (search_query raw) fp bs)).
  Proof.
    intros v. destruct (proj2 (library_view_stable_sort sortBy raw fp bs v) eq_refl) as (Hp & Hs & Ht).
    split_and!; [exact Hp| |exact Ht]. intros l1 a b l2 Hv.
    apply lib_compare_le. exact (Sorted_adjacent _ _ _ _ _ _ Hs Hv).
  Qed.
End View.

(** Filtering keeps an order-preserving sub-list of the library, and
    filtering the filtered list again with the same state changes nothing. *)
Theorem filter_books_sublist_idem q fp bs :
  sublist (filter_books q fp bs) bs /\
  filter_books q fp (filter_books q fp bs) = filter_books q fp bs.
Proof. split; [apply filter_sublist | apply filter_idem]. Qed.

(** The panel with only the rating chip [r] selected. *)
Definition rating_only (r : Z) : FilterPanel :=
  {| fp_status := "all"; fp_ownership := []; fp_genres := []; fp_authors := [];
     fp_tags := []; fp_rating := r |}.

(** The rating sentinel.  With no other filter, the chip 0 selects
    exactly the unrated books and a chip [n > 0] the books rated [n] or
    more, for ratings in the range the form produces (0..5). *)
Theorem rating_sentinel bs n :
  Forall (fun b => 0 <= rating b) bs ->
  filter_books "" (rating_only 0) bs = List.filter (fun b => rating b =? 0) bs /\
  (0 < n -> filter_books "" (rating_only n) bs = List.filter (fun b => n <=? rating b) bs).
Proof.
  intros Hall. rewrite List.Forall_forall in Hall. unfold filter_books.
  split; [|intros Hn]; apply filter_ext_in; intros b Hb; specialize (Hall b Hb);
    unfold book_passes; simpl.
  - destruct (rating b >? 0) eqn:E1, (rating b =? 0) eqn:E2; bool_to_prop;
      rewrite ?Z.gtb_ltb in E1; bool_to_prop; try done; lia.
  - destruct (n =? 0) eqn:E0; bool_to_prop; [lia|].
    replace (n >? 0) with true by (symmetry; rewrite Z.gtb_ltb; by apply Z.ltb_lt).
    simpl. destruct (rating b <? n) eqn:E1, (n <=? rating b) eqn:E2; bool_to_prop;
      try done; lia.
Qed.

(** ** The filter-panel handlers (src/app.js:1186-1260) *)

(** The library page's UI state: the panel, the search box, the sort key. *)
Record LibraryUi := mkLibraryUi {
  ui_fp : FilterPanel;
  ui_search : string;
  ui_sortBy : string
}.

Definition ui_init : LibraryUi :=
  {| ui_fp := fp_init; ui_search := ""; ui_sortBy := "dateAdded" |}.

(** [l.splice(l.indexOf(x), 1)]: drop the first occurrence. *)
Fixpoint remove_first (x : string) (l : list string) : list string :=
  match l with
  | [] => []
  | y :: ys => if String.eqb y x then ys else y :: remove_first x ys
  end.

(** [idx >= 0 ? l.splice(idx, 1) : l.push(x)] *)
Definition toggle_in (x : string) (l : list string) : list string :=
  if x \in l then remove_first x l else (l ++ [x])%list.

Definition set_status (s : string) (f : FilterPanel) : FilterPanel :=
  {| fp_status := s; fp_ownership := fp_ownership f; fp_genres := fp_genres f;
     fp_authors := fp_authors f; fp_tags := fp_tags f; fp_rating := fp_rating f |}.
Definition set_ownership (o : list string) (f : FilterPanel) : FilterPanel :=
  {| fp_status := fp_status f; fp_ownership := o; fp_genres := fp_genres f;
     fp_authors := fp_authors f; fp_tags := fp_tags f; fp_rating := fp_rating f |}.
Definition set_genres (g : list string) (f : FilterPanel) : FilterPanel :=
  {| fp_status := fp_status f; fp_ownership := fp_ownership f; fp_genres := g;
     fp_authors := fp_authors f; fp_tags := fp_tags f; fp_rating := fp_rating f |}.
Definition set_authors (a : list string) (f : FilterPanel) : FilterPanel :=
  {| fp_status := fp_status f; fp_ownership := fp_ownership f; fp_genres := fp_genres f;
     fp_authors := a; fp_tags := fp_tags f; fp_rating := fp_rating f |}.
Definition set_tags (t : list string) (f : FilterPanel) : FilterPanel :=
  {| fp_status := fp_status f; fp_ownership := fp_ownership f; fp_genres := fp_genres f;
     fp_authors := fp_authors f; fp_tags := t; fp_rating := fp_rating f |}.
Definition set_rating (r : Z) (f : FilterPanel) : FilterPanel :=
  {| fp_status := fp_status f; fp_ownership := fp_ownership f; fp_genres := fp_genres f;
     fp_authors := fp_authors f; fp_tags := fp_tags f; fp_rating := r |}.

Definition fpSetStatus (s : string) (f : FilterPanel) : FilterPanel := set_status s f.
Definition fpToggleOwn (o : string) (f : FilterPanel) : FilterPanel :=
  set_ownership (toggle_in o (fp_ownership f)) f.
Definition setOwnershipFilter (o : string) (f : FilterPanel) : FilterPanel :=
  if String.eqb o "all" then set_ownership [] f
  else set_ownership (if o \in fp_ownership f then [] else [o]) f.
Definition fpToggleGenre (g : string) (f : FilterPanel) : FilterPanel :=
  set_genres (toggle_in g (fp_genres f)) f.
Definition fpToggleAuthor (a : string) (f : FilterPanel) : FilterPanel :=
  set_authors (toggle_in a (fp_authors f)) f.
Definition fpToggleTag (t : string) (f : FilterPanel) : FilterPanel :=
  set_tags (toggle_in t (fp_tags f)) f.
Definition fpSetRating (r : Z) (f : FilterPanel) : FilterPanel :=
  set_rating (if fp_rating f =? r then -1 else r) f.

Inductive PanelEvent :=
| EvSetStatus (s : string)
| EvToggleOwn (o : string)
| EvSetOwnership (o : string)
| EvToggleGenre (g : string)
| EvToggleAuthor (a : string)
| EvToggleTag (t : string)
| EvSetRating (r : Z)
| EvClearAll
| EvSearch (raw : string)
| EvSortBy (v : string).

Definition with_fp (f : FilterPanel) (u : LibraryUi) : LibraryUi :=
  {| ui_fp := f; ui_search := ui_search u; ui_sortBy := ui_sortBy u |}.

Definition panel_handle (e : PanelEvent) (u : LibraryUi) : LibraryUi :=
  match e with
  | EvSetStatus s => with_fp (fpSetStatus s (ui_fp u)) u
  | EvToggleOwn o => with_fp (fpToggleOwn o (ui_fp u)) u
  | EvSetOwnership o => with_fp (setOwnershipFilter o (ui_fp u)) u
  | EvToggleGenre g => with_fp (fpToggleGenre g (ui_fp u)) u
  | EvToggleAuthor a => with_fp (fpToggleAuthor a (ui_fp u)) u
  | EvToggleTag t => with_fp (fpToggleTag t (ui_fp u)) u
  | EvSetRating r => with_fp (fpSetRating r (ui_fp u)) u
  | EvClearAll => {| ui_fp := fp_init; ui_search := ""; ui_sortBy := ui_sortBy u |}
  | EvSearch raw => {| ui_fp := ui_fp u; ui_search := raw; ui_sortBy := ui_sortBy u |}
  | EvSortBy v => {| ui_fp := ui_fp u; ui_search := ui_search u; ui_sortBy := v |}
  end.

(** The values the panel's chips pass (the chips are in index.html, which
    is not part of the sources: the values are those of the spec, 3 and
    4.1): ownership facets and rating chips 0..5. *)
Definition ownership_facets : list string := ["physical"; "digital"; "borrowed"].

Inductive chip_ok : PanelEvent -> Prop :=
| ok_status s : chip_ok (EvSetStatus s)
| ok_own o : In o ownership_facets -> chip_ok (EvToggleOwn o)
| ok_setown o : In o ("all" :: ownership_facets) -> chip_ok (EvSetOwnership o)
| ok_genre g : chip_ok (EvToggleGenre g)
| ok_author a : chip_ok (EvToggleAuthor a)
| ok_tag t : chip_ok (EvToggleTag t)
| ok_rating r : 0 <= r <= 5 -> chip_ok (EvSetRating r)
| ok_clear : chip_ok EvClearAll
| ok_search raw : chip_ok (EvSearch raw)
| ok_sort v : chip_ok (EvSortBy v).

Inductive ui_reachable : LibraryUi -> Prop :=
| ui_reach_init : ui_reachable ui_init
| ui_reach_step e u : ui_reachable u -> chip_ok e -> ui_reachable (panel_handle e u).

(** [updateFilterBadge] (src/app.js:1146-1156) *)
Definition filter_badge_count (u : LibraryUi) : nat :=
  let f := ui_fp u in
  ((if String.eqb (fp_status f) "all" then 0 else 1)
   + length (fp_ownership f) + length (fp_genres f) + length (fp_authors f)
   + length (fp_tags f)
   + (if fp_rating f >=? 0 then 1 else 0)
   + (if String.eqb (JsString.trim (ui_search u)) "" then 0 else 1))%nat.

(** The panel invariant: no facet lists a value twice, ownership values are
    the three facets, the rating sentinel is -1 or a chip value. *)
Definition panel_wf (f : FilterPanel) : Prop :=
  List.NoDup (fp_ownership f) /\ List.NoDup (fp_genres f) /\
  List.NoDup (fp_authors f) /\ List.NoDup (fp_tags f) /\
  incl (fp_ownership f) ownership_facets /\ -1 <= fp_rating f <= 5.

Lemma remove_first_In x y l :
  List.NoDup l -> In y (remove_first x l) <-> In y l /\ y <> x.
Proof.
  intros Hnd. induction Hnd as [|z l Hz Hnd IH]; simpl; [tauto|].
  destruct (String.eqb_spec z x) as [->|Hne]; simpl.
  - split; [intros H; split; [by right | intros ->; contradiction]|].
    intros [[<-|H] N]; [congruence|exact H].
  - rewrite IH. split.
    + intros [<-|[H N]]; [split; [by left|done] | split; [by right|done]].
    + intros [[<-|H] N]; [by left | by right].
Qed.

Lemma remove_first_NoDup x l : List.NoDup l -> List.NoDup (remove_first x l).
Proof.
  intros Hnd. induction Hnd as [|z l Hz Hnd IH]; simpl; [constructor|].
  destruct (String.eqb z x); [exact Hnd|].
  constructor; [|exact IH]. rewrite remove_first_In by exact Hnd. tauto.
Qed.

(** A toggle flips the membership of its value and keeps the others. *)
Lemma toggle_in_In x y l :
  List.NoDup l ->
  In y (toggle_in x l) <-> (y = x /\ ~ In x l) \/ (y <> x /\ In y l).
Proof.
  intros Hnd. unfold toggle_in. destruct (x \in l) eqn:E.
  - apply js_includes_In in E. rewrite remove_first_In by exact Hnd.
    split; [tauto|]. intros [[-> ?]|[? ?]]; [contradiction|tauto].
  - apply js_includes_false in E. rewrite in_app_iff. simpl.
    destruct (String.eqb_spec y x) as [->|Hne]; [tauto|]. intuition congruence.
Qed.

Lemma toggle_in_NoDup x l : List.NoDup l -> List.NoDup (toggle_in x l).
Proof.
  intros Hnd. unfold toggle_in. destruct (x \in l) eqn:E.
  - by apply remove_first_NoDup.
  - apply js_includes_false in E.
    apply (Permutation_NoDup (Permutation_cons_append l x)). by constructor.
Qed.

Lemma toggle_in_incl x l univ :
  List.NoDup l -> In x univ -> incl l univ -> incl (toggle_in x l) univ.
Proof.
  intros Hnd Hx Hl y Hy. apply toggle_in_In in Hy; [|exact Hnd].
  destruct Hy as [[-> _]|[_ Hy]]; [exact Hx|by apply Hl].
Qed.

#[local] Hint Resolve toggle_in_NoDup toggle_in_incl NoDup_nil incl_nil_l : connie.

Lemma panel_wf_init : panel_wf fp_init.
Proof.
  unfold panel_wf; simpl. split_and!; try apply List.NoDup_nil; try apply incl_nil_l; lia.
Qed.

Lemma setOwnershipFilter_wf o own :
  In o ("all" :: ownership_facets) ->
  List.NoDup (if String.eqb o "all" then [] else if o \in own then [] else [o]) /\
  incl (if String.eqb o "all" then [] else if o \in own then [] else [o]) ownership_facets.
Proof.
  intros Ho. destruct (String.eqb o "all") eqn:Eo; [split; [constructor|apply incl_nil_l]|].
  apply String.eqb_neq in Eo.
  destruct (o \in own); [split; [constructor|apply incl_nil_l]|].
  split; [repeat constructor; simpl; tauto|].
  intros y [<-|[]]. destruct Ho as [Ho|Ho]; [congruence|exact Ho].
Qed.

Lemma fpSetRating_range (cur r : Z) :
  0 <= r <= 5 -> -1 <= (if cur =? r then -1 else r) <= 5.
Proof. intros. destruct (cur =? r); lia. Qed.

(** Each handler, fed a chip value, keeps the panel invariant. *)
Lemma panel_handle_wf e u :
  panel_wf (ui_fp u) -> chip_ok e -> panel_wf (ui_fp (panel_handle e u)).
Proof.
  intros (H1 & H2 & H3 & H4 & H5 & H6) Hok.
  destruct Hok as [s|o Ho|o Ho|g|a|t|r Hr| | |]; unfold panel_wf; simpl.
  - split_and!; auto; lia.
  - split_and!; auto with connie; lia.
  - unfold setOwnershipFilter. destruct (setOwnershipFilter_wf o (fp_ownership (ui_fp u)) Ho).
    destruct (String.eqb o "all"); simpl; split_and!; auto; lia.
  - split_and!; auto with connie; lia.
  - split_and!; auto with connie; lia.
  - split_and!; auto with connie; lia.
  - pose proof (fpSetRating_range (fp_rating (ui_fp u)) r Hr). split_and!; auto; lia.
  - apply panel_wf_init.
  - split_and!; auto; lia.
  - split_and!; auto; lia.
Qed.

(** C6: every panel state reachable from the initial one by the handlers,
    fed the values the chips pass, satisfies the panel invariant. *)
Theorem panel_invariant u : ui_reachable u -> panel_wf (ui_fp u).
Proof.
  induction 1 as [|e u _ IH Hok]; [apply panel_wf_init | by apply panel_handle_wf].
Qed.

(** On every well-formed panel the filter badge shows 0 exactly when no
    filter is active: the panel is the initial one and the search box is
    blank. *)
Theorem badge_zero_iff u :
  panel_wf (ui_fp u) ->
  filter_badge_count u = 0%nat <->
  ui_fp u = fp_init /\ JsString.trim (ui_search u) = "".
Proof.
  destruct u as [[st own gs aus tgs r] srch sb]. unfold panel_wf, filter_badge_count, fp_init.
  simpl. intros (_ & _ & _ & _ & _ & Hr). split.
  - destruct (String.eqb_spec st "all"), own, gs, aus, tgs, (r >=? 0) eqn:E,
      (String.eqb_spec (JsString.trim srch) ""); simpl; try discriminate.
    subst. rewrite Z.geb_leb, Z.leb_gt in E. by replace r with (-1) by lia.
  - intros [Hf Hs]. injection Hf as -> -> -> -> -> ->. rewrite Hs. reflexivity.
Qed.

(** Clearing all filters shows every book of the library. *)
Lemma clear_all_passes bs : filter_books (search_query "") fp_init bs = bs.
Proof.
  induction bs as [|b bs IH]; [done|]. unfold filter_books in *. simpl.
  rewrite IH. unfold book_passes. simpl. by destruct (rating b >? 0).
Qed.

(** ** Concrete libraries and witnesses *)

Definition lib_dune := sample_book "1" "Dune" "Frank Herbert" "SciFi" st_read 5
                         ["classic"] "2024-03-01" 10.
Definition lib_emma := sample_book "2" "Emma" "Jane Austen" "Romance" st_want 0
                         [] "" 20.
Definition lib_ubik := sample_book "3" "Ubik" "Philip K. Dick" "SciFi" st_read 4
                         ["classic"] "2023-07-15" 30.
Definition sample_library := [lib_dune; lib_emma; lib_ubik].

Lemma library_view_members_witness :
  In lib_dune (library_view code_unit_cmp "title" "DUNE " fp_init sample_library) /\
  library_view code_unit_cmp "title" "DUNE " fp_init sample_library = [lib_dune].
Proof.
  split; [|vm_compute; reflexivity].
  apply (proj2 (library_view_members code_unit_cmp "title" "DUNE " fp_init sample_library lib_dune)).
  split; [left; reflexivity|]. apply book_passes_iff. vm_compute. reflexivity.
Defined.

Lemma library_view_stable_sort_witness :
  stable_sort_of (lib_compare code_unit_cmp "rating")
    (filter_books (search_query "") fp_init sample_library)
    [lib_dune; lib_ubik; lib_emma].
Proof.
  apply (proj2 (library_view_stable_sort code_unit_cmp "rating" "" fp_init sample_library _)).
  vm_compute. reflexivity.
Defined.

(** Sorted by rating, Dune (5) comes just before Ubik (4). *)
Lemma library_view_order_witness : rating lib_ubik <= rating lib_dune.
Proof.
  destruct (library_view_order code_unit_cmp "rating" "" fp_init sample_library) as (_ & Hadj & _).
  destruct (Hadj [] lib_dune lib_ubik [lib_emma]) as (_ & _ & Hr & _); [vm_compute; reflexivity|].
  exact (Hr eq_refl).
Defined.

Lemma rating_sentinel_witness :
  filter_books "" (rating_only 0) sample_library = [lib_emma] /\
  filter_books "" (rating_only 5) sample_library = [lib_dune].
Proof.
  assert (Hall : Forall (fun b => 0 <= rating b) sample_library)
    by (repeat constructor; vm_compute; discriminate).
  destruct (rating_sentinel sample_library 5 Hall) as [H0 H5].
  rewrite H0, (H5 ltac:(lia)). split; vm_compute; reflexivity.
Defined.

Definition sample_ui : LibraryUi :=
  panel_handle (EvSetRating 4) (panel_handle (EvToggleOwn "physical") ui_init).

Lemma panel_invariant_witness : panel_wf (ui_fp sample_ui).
Proof.
  apply panel_invariant. unfold sample_ui.
  apply ui_reach_step; [apply ui_reach_step; [apply ui_reach_init|]|].
  - apply ok_own. left. reflexivity.
  - apply ok_rating. lia.
Defined.

Lemma badge_zero_iff_witness :
  filter_badge_count sample_ui = 2%nat /\ filter_badge_count ui_init = 0%nat.
Proof.
  split; [vm_compute; reflexivity|].
  apply (proj2 (badge_zero_iff ui_init panel_wf_init)). split; reflexivity.
Defined.

End Filter.
