(* ===== verification/Sync.v ===== *)
(** * Sync: the reconciliation layer of src/app.js

    The session state is the module-level state of src/app.js
    (src/app.js:172-188): [books], [collections], [settings], [currentUser],
    the two unsubscribe handles [unsubscribeBooks]/[unsubscribeCollections],
    the debounce handle [syncTimeout]; together with what the code talks to:
    the listeners the remote store has registered, the remote settings
    documents, the log of settings writes, and localStorage.  Time is a
    virtual clock in milliseconds; a [Tick] advances it and fires the
    pending [setTimeout] callback when its deadline has passed.

    Each event is one handler run to completion (the event loop is
    single-threaded); the awaits inside [_onAuthReady] are resolved inside
    the step, and any other interleaving is a different order of events. *)

From S2P Require Import Prelude JsString JsArray Book.
Local Open Scope string_scope.
Local Open Scope Z_scope.

Module Sync.

Inductive Kind := KBooks | KCollections.

#[export] Instance Kind_eq_dec : EqDecision Kind.
Proof. solve_decision. Defined.

(** A listener installed by [fb().onSnapshot(path, ...)]: the user whose
    path it watches and the kind of collection. *)
Definition Listener := (nat * (string * Kind))%type.

Definition listener_user (l : Listener) : string := fst (snd l).
Definition listener_kind (l : Listener) : Kind := snd (snd l).

Record Session := mkSession {
  s_books : list Book;
  s_collections : list Collection;
  s_settings : Settings;
  s_user : option string;
(** the registration each unsubscribe variable refers to, if any *)
  s_unsubBooks : option Listener;
  s_unsubCollections : option Listener;
(** the listeners the remote store delivers snapshots to *)
  s_active : list Listener;
(** the id the next registration gets *)
  s_next : nat;
(** the deadline of the pending [syncTimeout], if any *)
  s_timer : option Z;
(** remote settings documents [users/{uid}/config/settings] *)
  s_remote : list (string * Settings);
(** every settings write that reached the store, in order *)
  s_writes : list (string * Settings);
(** localStorage [sw_books], [sw_collections], [sw_settings] *)
  s_local : option (list Book * list Collection * Settings);
  s_now : Z
}.

(** The settings of a fresh page ([let settings = ...], src/app.js:174). *)
Definition default_settings (year : Z) : Settings :=
  {| theme := "dark"; goal := 0; goalYear := year; displayName := None |}.

Definition init_session (year now : Z) : Session :=
  {| s_books := []; s_collections := []; s_settings := default_settings year;
     s_user := None; s_unsubBooks := None; s_unsubCollections := None;
     s_active := []; s_next := 0; s_timer := None; s_remote := []; s_writes := [];
     s_local := None; s_now := now |}.

(** ** Small updates of the state *)

Definition set_books (b : list Book) (s : Session) : Session :=
  {| s_books := b; s_collections := s_collections s;
     s_settings := s_settings s; s_user := s_user s;
     s_unsubBooks := s_unsubBooks s;
     s_unsubCollections := s_unsubCollections s; s_active := s_active s;
     s_next := s_next s; s_timer := s_timer s; s_remote := s_remote s;
     s_writes := s_writes s; s_local := s_local s; s_now := s_now s |}.

Definition set_collections (c : list Collection) (s : Session) : Session :=
  {| s_books := s_books s; s_collections := c; s_settings := s_settings s;
     s_user := s_user s; s_unsubBooks := s_unsubBooks s;
     s_unsubCollections := s_unsubCollections s; s_active := s_active s;
     s_next := s_next s; s_timer := s_timer s; s_remote := s_remote s;
     s_writes := s_writes s; s_local := s_local s; s_now := s_now s |}.

Definition set_settings (x : Settings) (s : Session) : Session :=
  {| s_books := s_books s; s_collections := s_collections s;
     s_settings := x; s_user := s_user s; s_unsubBooks := s_unsubBooks s;
     s_unsubCollections := s_unsubCollections s; s_active := s_active s;
     s_next := s_next s; s_timer := s_timer s; s_remote := s_remote s;
     s_writes := s_writes s; s_local := s_local s; s_now := s_now s |}.

Definition set_user (u : option string) (s : Session) : Session :=
  {| s_books := s_books s; s_collections := s_collections s;
     s_settings := s_settings s; s_user := u;
     s_unsubBooks := s_unsubBooks s;
     s_unsubCollections := s_unsubCollections s; s_active := s_active s;
     s_next := s_next s; s_timer := s_timer s; s_remote := s_remote s;
     s_writes := s_writes s; s_local := s_local s; s_now := s_now s |}.

Definition set_timer (t : option Z) (s : Session) : Session :=
  {| s_books := s_books s; s_collections := s_collections s;
     s_settings := s_settings s; s_user := s_user s;
     s_unsubBooks := s_unsubBooks s;
     s_unsubCollections := s_unsubCollections s; s_active := s_active s;
     s_next := s_next s; s_timer := t; s_remote := s_remote s;
     s_writes := s_writes s; s_local := s_local s; s_now := s_now s |}.

Definition set_local (l : option (list Book * list Collection * Settings)) (s : Session) : Session :=
  {| s_books := s_books s; s_collections := s_collections s;
     s_settings := s_settings s; s_user := s_user s;
     s_unsubBooks := s_unsubBooks s;
     s_unsubCollections := s_unsubCollections s; s_active := s_active s;
     s_next := s_next s; s_timer := s_timer s; s_remote := s_remote s;
     s_writes := s_writes s; s_local := l; s_now := s_now s |}.

Definition set_listeners (ub uc : option Listener) (act : list Listener) (n : nat) (s : Session) : Session :=
  {| s_books := s_books s; s_collections := s_collections s;
     s_settings := s_settings s; s_user := s_user s; s_unsubBooks := ub;
     s_unsubCollections := uc; s_active := act; s_next := n;
     s_timer := s_timer s; s_remote := s_remote s; s_writes := s_writes s;
     s_local := s_local s; s_now := s_now s |}.

Definition set_clock (now : Z) (s : Session) : Session :=
  {| s_books := s_books s; s_collections := s_collections s;
     s_settings := s_settings s; s_user := s_user s;
     s_unsubBooks := s_unsubBooks s;
     s_unsubCollections := s_unsubCollections s; s_active := s_active s;
     s_next := s_next s; s_timer := s_timer s; s_remote := s_remote s;
     s_writes := s_writes s; s_local := s_local s; s_now := now |}.

(** [setDoc(settingsDoc(), settings)] for user [u]: replaces the document
    and records the write. *)
Definition write_settings (u : string) (s : Session) : Session :=
  {| s_books := s_books s; s_collections := s_collections s;
     s_settings := s_settings s; s_user := s_user s;
     s_unsubBooks := s_unsubBooks s;
     s_unsubCollections := s_unsubCollections s; s_active := s_active s;
     s_next := s_next s; s_timer := s_timer s;
     s_remote := (u, s_settings s) ::
       List.filter (fun e => negb (String.eqb (fst e) u)) (s_remote s);
     s_writes := (s_writes s ++ [(u, s_settings s)])%list;
     s_local := s_local s; s_now := s_now s |}.

Fixpoint remote_doc (u : string) (r : list (string * Settings)) : option Settings :=
  match r with
  | [] => None
  | (u', x) :: r' => if String.eqb u' u then Some x else remote_doc u r'
  end.

(** ** Handlers *)

(** [if (unsubscribe) unsubscribe();]: drops that registration. *)
Definition unsubscribe (h : option Listener) (act : list Listener) : list Listener :=
  match h with
  | None => act
  | Some l => List.filter (fun l' => negb (Nat.eqb (fst l') (fst l))) act
  end.

(** [subscribeToData] (src/app.js:243-269) for the user [uid()] = [u]. *)
Definition subscribeToData (u : string) (s : Session) : Session :=
  let act := unsubscribe (s_unsubCollections s) (unsubscribe (s_unsubBooks s) (s_active s)) in
  let n := s_next s in
  let lb : Listener := (n, (u, KBooks)) in
  let lc : Listener := (S n, (u, KCollections)) in
  set_listeners (Some lb) (Some lc) (act ++ [lb; lc])%list (S (S n)) s.

(** [loadSettings] (src/app.js:271-282): [settings = { ...settings, ...snap.data() }]
    when the user's document exists. *)
Definition loadSettings (s : Session) : Session :=
  match s_user s with
  | None => s
  | Some u =>
      match remote_doc u (s_remote s) with
      | Some d => set_settings (merge_settings (s_settings s) (settings_doc d)) s
      | None => s
      end
  end.

(** [window._onAuthReady] (src/app.js:414-437). *)
Definition onAuthReady (user : option string) (s : Session) : Session :=
  match user with
  | Some u => subscribeToData u (loadSettings (set_user (Some u) s))
  | None => set_collections [] (set_books [] (set_user None s))
  end.

(** [authSignOut] after the confirmation (src/app.js:368-374), up to the
    call of [signOut]; the auth state change it causes is the event
    [AuthReady None]. *)
Definition authSignOut (s : Session) : Session :=
  let act := unsubscribe (s_unsubCollections s) (unsubscribe (s_unsubBooks s) (s_active s)) in
  set_collections [] (set_books []
    (set_listeners (s_unsubBooks s) (s_unsubCollections s) act (s_next s) s)).

(** The books snapshot callback (src/app.js:249-259). *)
Definition books_of_snapshot (docs : list (string * Book)) : list Book :=
  js_sort (cmp_desc dateAdded) (map (fun d => with_id (fst d) (snd d)) docs).

Definition col_with_id (i : string) (c : Collection) : Collection :=
  {| col_id := i; col_name := col_name c; col_emoji := col_emoji c;
     col_createdAt := col_createdAt c |}.

Definition onBooksSnapshot (l : Listener) (docs : list (string * Book)) (s : Session) :
  Session :=
  if existsb (fun l' => Nat.eqb (fst l') (fst l)) (s_active s)
  then set_books (books_of_snapshot docs) s else s.

(** The collections snapshot callback (src/app.js:264-268). *)
Definition onCollectionsSnapshot (l : Listener) (docs : list (string * Collection))
  (s : Session) : Session :=
  if existsb (fun l' => Nat.eqb (fst l') (fst l)) (s_active s)
  then set_collections (map (fun d => col_with_id (fst d) (snd d)) docs) s else s.

(** [saveLocal] (src/app.js:285-291). *)
Definition saveLocal (s : Session) : Session :=
  set_local (Some (s_books s, s_collections s, s_settings s)) s.

(** [loadLocal] (src/app.js:292-301), run once when the page loads: the
    cached books and collections replace the lists in memory and the
    cached settings object is spread over the current one.  The three
    keys are written together by [saveLocal], so they are present
    together. *)
Definition loadLocal (s : Session) : Session :=
  match s_local s with
  | None => s
  | Some (b, c, st) =>
      set_settings (merge_settings (s_settings s) (settings_doc st))
        (set_collections c (set_books b s))
  end.

(** [saveSettingsToFirestore] (src/app.js:232-240): no user, no timer;
    otherwise [clearTimeout] and a new 800 ms timer. *)
Definition saveSettingsToFirestore (s : Session) : Session :=
  match s_user s with
  | None => s
  | Some _ => set_timer (Some (s_now s + 800)) s
  end.

(** [save] (src/app.js:303-306). *)
Definition save (s : Session) : Session := saveSettingsToFirestore (saveLocal s).

(** [saveGoal] (src/app.js:1746-1754), with the goal input's text and the
    current year. *)
Definition saveGoal (raw : string) (year : Z) (s : Session) : Session :=
  match JsString.parseInt raw with
  | Some v =>
      if v <? 1 then s
      else let x := s_settings s in
           save (set_settings {| theme := theme x; goal := v; goalYear := year;
                                 displayName := displayName x |} s)
  | None => s
  end.

(** [setTheme] (src/app.js:477-481). *)
Definition setTheme (name : string) (s : Session) : Session :=
  let x := s_settings s in
  save (set_settings {| theme := name; goal := goal x; goalYear := goalYear x;
                        displayName := displayName x |} s).

(** [saveDisplayName] (src/app.js:1736-1744). *)
Definition saveDisplayName (raw : string) (s : Session) : Session :=
  let name := JsString.trim raw in
  if String.eqb name "" then s
  else let x := s_settings s in
       save (set_settings {| theme := theme x; goal := goal x; goalYear := goalYear x;
                             displayName := Some name |} s).

(** The virtual clock reaches [t]: the pending [syncTimeout] callback runs
    if its deadline has passed, writing the settings of that moment to the
    document of the user signed in at that moment ([settingsDoc()] reads
    [uid()] when it runs; with no user the call throws and is caught). *)
Definition tick (t : Z) (s : Session) : Session :=
  if t <? s_now s then s
  else
    let s1 := set_clock t s in
    match s_timer s with
    | Some d =>
        if d <=? t then
          let s2 := set_timer None s1 in
          match s_user s with Some u => write_settings u s2 | None => s2 end
        else s1
    | None => s1
    end.

Inductive Event :=
| AuthReady (user : option string)
| SignOut
| BooksSnapshot (l : Listener) (docs : list (string * Book))
| CollectionsSnapshot (l : Listener) (docs : list (string * Collection))
| SaveGoal (raw : string) (year : Z)
| SetTheme (name : string)
| SaveDisplayName (raw : string)
| Tick (t : Z).

Definition step (e : Event) (s : Session) : Session :=
  match e with
  | AuthReady u => onAuthReady u s
  | SignOut => authSignOut s
  | BooksSnapshot l docs => onBooksSnapshot l docs s
  | CollectionsSnapshot l docs => onCollectionsSnapshot l docs s
  | SaveGoal raw y => saveGoal raw y s
  | SetTheme n => setTheme n s
  | SaveDisplayName raw => saveDisplayName raw s
  | Tick t => tick t s
  end.

Definition run (es : list Event) (s : Session) : Session := fold_left (fun s e => step e s) es s.

Lemma classic_event e :
  (exists u, e = AuthReady (Some u)) \/ e = SignOut \/
  ((forall u, e <> AuthReady (Some u)) /\ e <> SignOut).
Proof.
  destruct e as [[u|]| | | | | | |]; try (left; by exists u); try (right; left; done);
    right; right; split; congruence.
Qed.

Inductive reachable : Session -> Prop :=
| reach_init year now : reachable (init_session year now)
| reach_step e s : reachable s -> reachable (step e s).

(** ** Snapshots replace the in-memory array *)

Definition is_active (l : Listener) (s : Session) : bool :=
  existsb (fun l' => Nat.eqb (fst l') (fst l)) (s_active s).

(** The documents of a snapshot as books, each with its document's id. *)
Definition snapshot_books (docs : list (string * Book)) : list Book :=
  map (fun d => with_id (fst d) (snd d)) docs.

Lemma books_of_snapshot_stable docs :
  stable_sort_of (cmp_desc dateAdded) (snapshot_books docs) (books_of_snapshot docs).
Proof. apply js_sort_unique; try exact _. reflexivity. Qed.

Lemma tied_desc_dateAdded x b :
  tied (cmp_desc dateAdded) x b = (dateAdded b =? dateAdded x).
Proof.
  unfold tied, cmp_desc.
  destruct (Z.eqb_spec (dateAdded b - dateAdded x) 0), (Z.eqb_spec (dateAdded b) (dateAdded x)); lia.
Qed.

(** C8: a books snapshot delivered to an active listener replaces the
    in-memory books, whatever they were before, by the snapshot's
    documents (each with its document's id), newest [dateAdded] first,
    books added at the same time in the snapshot's order; it does not
    touch the localStorage mirror, and delivering it again changes
    nothing.  A snapshot of an inactive listener changes nothing. *)
Theorem books_snapshot_replaces l docs s :
  let s' := step (BooksSnapshot l docs) s in
  (is_active l s = true ->
   Permutation (s_books s') (snapshot_books docs) /\
   (forall l1 a b l2, s_books s' = (l1 ++ a :: b :: l2)%list -> dateAdded b <= dateAdded a) /\
   (forall t, List.filter (fun b => dateAdded b =? t) (s_books s') =
              List.filter (fun b => dateAdded b =? t) (snapshot_books docs)) /\
   s_local s' = s_local s /\ step (BooksSnapshot l docs) s' = s') /\
  (is_active l s = false -> s' = s).
Proof.
  intros s'. subst s'. cbn [step]. unfold onBooksSnapshot. fold (is_active l s).
  split; intros H; rewrite H; [|done].
  destruct (books_of_snapshot_stable docs) as (Hp & Hs & Ht). cbn [s_books set_books].
  split_and!; [exact Hp| | |done|].
  - intros l1 a b l2 Hv. pose proof (Sorted_adjacent _ _ _ _ _ _ Hs Hv) as Hab.
    unfold cmp_le, cmp_desc in Hab. lia.
  - intros t. set (x := sample_book "" "" "" "" "" 0 [] "" t).
    specialize (Ht x). rewrite (filter_ext _ _ (tied_desc_dateAdded x) (books_of_snapshot docs)),
      (filter_ext _ _ (tied_desc_dateAdded x) (snapshot_books docs)) in Ht. exact Ht.
  - cbn [step onBooksSnapshot]. fold (is_active l (set_books (books_of_snapshot docs) s)).
    unfold is_active in *. cbn [s_active set_books]. by rewrite H.
Qed.

(** ** One listener per kind *)

(** Every active listener is the one its kind's unsubscribe variable holds. *)
Definition listeners_ok (s : Session) : Prop :=
  forall l, In l (s_active s) ->
    (s_unsubBooks s = Some l /\ listener_kind l = KBooks) \/
    (s_unsubCollections s = Some l /\ listener_kind l = KCollections).

Lemma unsubscribe_In h act l :
  In l (unsubscribe h act) <-> In l act /\ match h with Some l' => fst l <> fst l' | None => True end.
Proof.
  destruct h as [l'|]; simpl; [|tauto]. rewrite filter_In, negb_true_iff, Nat.eqb_neq. tauto.
Qed.

Lemma unsubscribe_all s :
  listeners_ok s ->
  unsubscribe (s_unsubCollections s) (unsubscribe (s_unsubBooks s) (s_active s)) = [].
Proof.
  intros H. destruct (unsubscribe _ _) as [|l r] eqn:E; [done|].
  assert (Hl : In l (l :: r)) by (left; done). rewrite <- E in Hl.
  apply unsubscribe_In in Hl as [Hl H2]. apply unsubscribe_In in Hl as [Hl H1].
  destruct (H l Hl) as [[E1 _]|[E1 _]]; [rewrite E1 in H1 | rewrite E1 in H2]; contradiction.
Qed.

Lemma subscribeToData_active u s :
  listeners_ok s ->
  s_active (subscribeToData u s) = [(s_next s, (u, KBooks)); (S (s_next s), (u, KCollections))].
Proof. intros H. unfold subscribeToData. simpl. by rewrite unsubscribe_all. Qed.

Lemma loadSettings_listeners s :
  s_active (loadSettings s) = s_active s /\ s_unsubBooks (loadSettings s) = s_unsubBooks s /\
  s_unsubCollections (loadSettings s) = s_unsubCollections s /\ s_next (loadSettings s) = s_next s.
Proof.
  unfold loadSettings. destruct (s_user s); [|done].
  destruct (remote_doc _ _); done.
Qed.

(** Events other than sign-in and sign-out leave the listeners alone. *)
Lemma step_listeners_frame e s :
  (forall u, e <> AuthReady (Some u)) -> e <> SignOut ->
  s_active (step e s) = s_active s /\ s_unsubBooks (step e s) = s_unsubBooks s /\
  s_unsubCollections (step e s) = s_unsubCollections s.
Proof.
  intros Ha Hs. destruct e as [[u|]| | | | | | |]; simpl;
    try congruence; try (exfalso; by apply (Ha u));
    unfold onBooksSnapshot, onCollectionsSnapshot, saveGoal, setTheme, saveDisplayName,
      save, saveSettingsToFirestore, tick;
    repeat (case_match; simpl); done.
Qed.

Lemma listeners_ok_step e s : listeners_ok s -> listeners_ok (step e s).
Proof.
  intros H. destruct (classic_event e) as [[u ->]|[-> | [Ha Hs]]].
  - simpl. intros l. rewrite subscribeToData_active.
    + intros [<-|[<-|[]]]; [left|right]; done.
    + intros l'. destruct (loadSettings_listeners (set_user (Some u) s)) as (E1 & E2 & E3 & _).
      rewrite E1, E2, E3. apply H.
  - intros l Hl. simpl in Hl. rewrite unsubscribe_all in Hl by exact H. destruct Hl.
  - destruct (step_listeners_frame e s Ha Hs) as (E1 & E2 & E3).
    intros l. rewrite E1, E2, E3. apply H.
Qed.

Lemma listeners_ok_init year now : listeners_ok (init_session year now).
Proof. intros l []. Qed.

Lemma reachable_listeners_ok s : reachable s -> listeners_ok s.
Proof.
  induction 1; [apply listeners_ok_init | by apply listeners_ok_step].
Qed.

#[export] Hint Resolve reachable_listeners_ok : connie.

(** In every reachable session at most one listener per kind is
    active: [subscribeToData] always cancels the previous registration
    before installing a new one. *)
Theorem one_listener_per_kind s l1 l2 :
  reachable s -> In l1 (s_active s) -> In l2 (s_active s) ->
  listener_kind l1 = listener_kind l2 -> l1 = l2.
Proof.
  intros Hr H1 H2 Hk. pose proof (reachable_listeners_ok s Hr) as Hok.
  destruct (Hok l1 H1) as [[E1 K1]|[E1 K1]], (Hok l2 H2) as [[E2 K2]|[E2 K2]];
    congruence.
Qed.

(** Signing in as [u] leaves exactly two active listeners, the books
    and the collections of [u], whatever was active before. *)
Theorem sign_in_listeners s u :
  reachable s ->
  s_active (step (AuthReady (Some u)) s) =
  [(s_next s, (u, KBooks)); (S (s_next s), (u, KCollections))].
Proof.
  intros Hr. pose proof (reachable_listeners_ok s Hr) as Hok.
  change (step (AuthReady (Some u)) s) with (subscribeToData u (loadSettings (set_user (Some u) s))).
  destruct (loadSettings_listeners (set_user (Some u) s)) as (E1 & E2 & E3 & E4).
  rewrite subscribeToData_active, E4; [done|].
  intros l. rewrite E1, E2, E3. apply Hok.
Qed.

(** Signing out ([authSignOut], then the auth state change to no user)
    clears the in-memory books and collections and leaves no listener
    active. *)
Theorem sign_out_clears s :
  reachable s ->
  let s' := step (AuthReady None) (step SignOut s) in
  s_books s' = [] /\ s_collections s' = [] /\ s_active s' = [] /\ s_user s' = None.
Proof.
  intros Hr. pose proof (reachable_listeners_ok s Hr) as Hok. simpl.
  rewrite unsubscribe_all by exact Hok. done.
Qed.

(** ** Debounced settings writes *)

(** A burst of goal edits: at each time [t], the clock reaches [t] and
    [saveGoal] runs with the input text. *)
Definition burst (year : Z) (ts : list (Z * string)) : list Event :=
  flat_map (fun p => [Tick (fst p); SaveGoal (snd p) year]) ts.

(** Consecutive edits less than 800 ms apart. *)
Fixpoint rapid (ts : list (Z * string)) : Prop :=
  match ts with
  | p1 :: ((p2 :: _) as r) => fst p1 <= fst p2 < fst p1 + 800 /\ rapid r
  | _ => True
  end.

Definition valid_goal (raw : string) : Prop :=
  exists v, JsString.parseInt raw = Some v /\ 1 <= v.

(** The clock can reach [t] without firing the pending timer. *)
Definition quiet_until (s : Session) (t : Z) : Prop :=
  s_now s <= t /\ match s_timer s with None => True | Some d => t < d end.

Lemma run_app es1 es2 s : run (es1 ++ es2) s = run es2 (run es1 s).
Proof. unfold run. apply fold_left_app. Qed.

Lemma tick_quiet t s : quiet_until s t -> tick t s = set_clock t s.
Proof.
  intros [H1 H2]. unfold tick. replace (t <? s_now s) with false by (symmetry; apply Z.ltb_ge; lia).
  destruct (s_timer s) as [d|]; [|done]. by replace (d <=? t) with false by (symmetry; apply Z.leb_gt; lia).
Qed.

Lemma tick_fire t s u :
  s_timer s = Some t -> s_now s <= t -> s_user s = Some u ->
  s_writes (tick t s) = (s_writes s ++ [(u, s_settings s)])%list.
Proof.
  intros Ht Hn Hu. unfold tick. replace (t <? s_now s) with false by (symmetry; apply Z.ltb_ge; lia).
  rewrite Ht, Z.leb_refl, Hu. reflexivity.
Qed.

Lemma saveGoal_valid raw v y s u :
  JsString.parseInt raw = Some v -> 1 <= v -> s_user s = Some u ->
  let s' := saveGoal raw y s in
  s_timer s' = Some (s_now s + 800) /\ s_writes s' = s_writes s /\ s_user s' = Some u /\
  s_now s' = s_now s /\ goal (s_settings s') = v.
Proof.
  intros Hp Hv Hu. unfold saveGoal. rewrite Hp.
  replace (v <? 1) with false by (symmetry; apply Z.ltb_ge; lia).
  unfold save, saveSettingsToFirestore. simpl. rewrite Hu. done.
Qed.

Lemma burst_state ts : forall s u y,
  s_user s = Some u -> ts <> [] -> quiet_until s (fst (hd (0, "") ts)) -> rapid ts ->
  Forall (fun p => valid_goal (snd p)) ts ->
  let s' := run (burst y ts) s in
  let tl := fst (List.last ts (0, "")) in
  s_writes s' = s_writes s /\ s_user s' = Some u /\ s_timer s' = Some (tl + 800) /\
  s_now s' = tl /\ goal (s_settings s') = JsString.parseInt_or0 (snd (List.last ts (0, ""))).
Proof.
  induction ts as [|[t raw] ts IH]; intros s u y Hu Hne Hq Hr Hv; [done|].
  inversion Hv as [|? ? [v [Hp Hv1]] Hvs]; subst. simpl in Hq, Hp.
  change (burst y ((t, raw) :: ts)) with ([Tick t; SaveGoal raw y] ++ burst y ts)%list.
  rewrite run_app. cbn [run fold_left step]. rewrite tick_quiet by exact Hq.
  destruct (saveGoal_valid raw v y (set_clock t s) u Hp Hv1 Hu) as (T & W & U & N & G).
  destruct ts as [|[t' raw'] ts].
  - simpl. unfold JsString.parseInt_or0. rewrite Hp. simpl in *. rewrite T, N. done.
  - destruct Hr as [Hgap Hr].
    destruct (IH (saveGoal raw y (set_clock t s)) u y U ltac:(discriminate)) as (W' & U' & T' & N' & G');
      [unfold quiet_until; rewrite T, N; simpl in *; lia | exact Hr | exact Hvs |].
    rewrite W in W'. simpl in W'. split_and!; done.
Qed.

(** C12: a burst of [saveGoal] calls, each within 800 ms of the previous
    one, writes nothing to the store while it lasts; when the clock reaches
    800 ms after the last call, exactly one settings write happens, for the
    signed-in user, and it carries the goal of the last call. *)
Theorem debounce_single_write ts s u y :
  s_user s = Some u -> ts <> [] -> quiet_until s (fst (hd (0, "") ts)) -> rapid ts ->
  Forall (fun p => valid_goal (snd p)) ts ->
  let s' := run (burst y ts) s in
  let tl := fst (List.last ts (0, "")) in
  s_writes s' = s_writes s /\
  s_writes (step (Tick (tl + 800)) s') = (s_writes s ++ [(u, s_settings s')])%list /\
  goal (s_settings s') = JsString.parseInt_or0 (snd (List.last ts (0, ""))).
Proof.
  intros Hu Hne Hq Hr Hv s' tl.
  destruct (burst_state ts s u y Hu Hne Hq Hr Hv) as (W & U & T & N & G).
  split_and!; [exact W| |exact G].
  simpl. rewrite (tick_fire (tl + 800) s' u T); [unfold s'; by rewrite W | | exact U].
  unfold s', tl. rewrite N. lia.
Qed.

Lemma run_reachable es s : reachable s -> reachable (run es s).
Proof.
  revert s. induction es as [|e es IH]; intros s Hs; [exact Hs|].
  apply IH. by apply reach_step.
Qed.

(** ** What happens across users *)

(** The parts of the session a sign-out leaves alone: the pending
    settings write, the clock, the settings and the remote documents. *)
Definition settings_frame (s s' : Session) : Prop :=
  s_timer s' = s_timer s /\ s_now s' = s_now s /\ s_settings s' = s_settings s /\
  s_remote s' = s_remote s /\ s_writes s' = s_writes s.

Lemma signout_events_frame pre s :
  Forall (fun e => e = SignOut \/ e = AuthReady None) pre -> settings_frame s (run pre s).
Proof.
  revert s. induction pre as [|e pre IH]; intros s Hf; [done|].
  inversion Hf as [|? ? He Hf']; subst.
  destruct (IH (step e s) Hf') as (T & N & St & R & W).
  change (run (e :: pre) s) with (run pre (step e s)). unfold settings_frame.
  rewrite T, N, St, R, W. by destruct He as [-> | ->].
Qed.

(** C13: a settings write pending when a session ends reaches the next
    user's document.  Whatever sign-out events come first ([authSignOut],
    the auth state turning to no user), neither clears [settings] nor
    cancels [syncTimeout]; when the next user [b] signs in, the timer's
    callback, reading [uid()] and [settings] when it runs, writes the
    previous session's settings (merged with [b]'s document, if [b] has
    one) into [b]'s document, and they are [b]'s settings in memory.
    When [b] has no document yet, [b] gets exactly the previous user's
    goal, theme and display name. *)
Theorem settings_leak_across_users s pre b t d :
  s_timer s = Some d -> s_now s <= t -> d <= t ->
  Forall (fun e => e = SignOut \/ e = AuthReady None) pre ->
  let st := match remote_doc b (s_remote s) with
            | Some x => merge_settings (s_settings s) (settings_doc x)
            | None => s_settings s
            end in
  let s' := run (pre ++ [AuthReady (Some b); Tick t]) s in
  s_user s' = Some b /\ s_settings s' = st /\ s_timer s' = None /\
  s_writes s' = (s_writes s ++ [(b, st)])%list /\ remote_doc b (s_remote s') = Some st.
Proof.
  intros Hd Hn Ht Hpre st s'. subst s'. rewrite run_app.
  destruct (signout_events_frame pre s Hpre) as (T & N & St & R & W).
  set (s1 := run pre s) in *. cbn [run fold_left step onAuthReady].
  unfold tick, loadSettings. cbn [s_user set_user s_remote].
  rewrite R. subst st. destruct (remote_doc b (s_remote s)) as [x|];
    cbn [subscribeToData set_listeners set_settings set_user s_now s_timer s_user s_settings s_writes s_remote];
    rewrite N, T, Hd, (proj2 (Z.ltb_ge t (s_now s)) Hn), (proj2 (Z.leb_le d t) Ht);
    cbn; rewrite ?St, ?W, String.eqb_refl; split_and!; done.
Qed.

(** C14: when the auth state turns to no user without [authSignOut] (the
    session ends elsewhere), [_onAuthReady(null)] empties the arrays but
    does not unsubscribe: every active listener stays active, and the next
    snapshot of the previous user's books listener refills the books
    while no one is signed in. *)
Theorem signed_out_listener_survives s l docs :
  In l (s_active s) ->
  let s1 := step (AuthReady None) s in
  s_user s1 = None /\ s_books s1 = [] /\ s_active s1 = s_active s /\
  s_user (step (BooksSnapshot l docs) s1) = None /\
  s_books (step (BooksSnapshot l docs) s1) = books_of_snapshot docs.
Proof.
  intros Hl s1. subst s1. cbn [step]. unfold onAuthReady, onBooksSnapshot.
  assert (existsb (fun l' => Nat.eqb (fst l') (fst l)) (s_active s) = true) as Ha.
  { apply existsb_exists. exists l. split; [exact Hl|apply Nat.eqb_refl]. }
  cbn [s_active s_user s_books set_books set_collections set_user]. rewrite Ha. by split_and!.
Qed.

(** The cache round trip: a page that loads what [saveLocal] stored gets
    the same books, collections and settings back. *)
Lemma loadLocal_saveLocal s :
  s_books (loadLocal (saveLocal s)) = s_books s /\
  s_collections (loadLocal (saveLocal s)) = s_collections s /\
  s_settings (loadLocal (saveLocal s)) = s_settings s.
Proof.
  split_and!; [done|done|]. simpl. destruct (s_settings s) as [? ? ? []]; reflexivity.
Qed.

(** ** Witnesses *)

Definition signed_in_alice : Session := run [AuthReady (Some "alice")] (init_session 2026 0).

(** Emma added at 1 and Ubik at 2, in that order in the snapshot. *)
Definition two_docs : list (string * Book) :=
  [("x", sample_book "" "Emma" "Jane Austen" "" "want" 0 [] "" 1);
   ("y", sample_book "" "Ubik" "Philip K. Dick" "" "read" 4 [] "" 2)].

(** Ubik, the newer, comes first. *)
Lemma books_snapshot_replaces_witness :
  map title (s_books (step (BooksSnapshot (0%nat, ("alice", KBooks)) two_docs) signed_in_alice)) =
    ["Ubik"; "Emma"] /\
  dateAdded (with_id "x" (snd (nth 0 two_docs ("", sample_book "" "" "" "" "" 0 [] "" 0)))) <=
  dateAdded (with_id "y" (snd (nth 1 two_docs ("", sample_book "" "" "" "" "" 0 [] "" 0)))).
Proof.
  destruct (books_snapshot_replaces (0%nat, ("alice", KBooks)) two_docs signed_in_alice) as [Ha _].
  destruct Ha as (_ & Hadj & _); [vm_compute; reflexivity|].
  split; [vm_compute; reflexivity|].
  apply (Hadj [] _ _ []). vm_compute. reflexivity.
Defined.

(** Alice saves a goal and a display name; the write is due at 800 ms. *)
Definition alice_saved : Session :=
  run [AuthReady (Some "alice"); SaveGoal "30" 2026; SaveDisplayName "Alice"] (init_session 2026 0).

(** Alice signs out and Bob, who has no settings document, signs in
    within 800 ms: Bob's document gets Alice's goal and display name. *)
Lemma settings_leak_across_users_witness :
  remote_doc "bob" (s_remote (run ([SignOut; AuthReady None] ++ [AuthReady (Some "bob"); Tick 800])
                                  alice_saved)) =
  Some {| theme := "dark"; goal := 30; goalYear := 2026; displayName := Some "Alice" |}.
Proof.
  destruct (settings_leak_across_users alice_saved [SignOut; AuthReady None] "bob" 800 800)
    as (_ & _ & _ & _ & H); [reflexivity|vm_compute; intros [=]|lia| |].
  - constructor; [left|constructor; [right|constructor]]; reflexivity.
  - rewrite H. vm_compute. reflexivity.
Defined.

(** Alice's session ends elsewhere; her books listener then delivers Dune. *)
Lemma signed_out_listener_survives_witness :
  s_user (step (BooksSnapshot (0%nat, ("alice", KBooks))
                 [("b1", sample_book "" "Dune" "Frank Herbert" "SciFi" "read" 5 [] "2024-03-01" 10)])
               (step (AuthReady None) signed_in_alice)) = None /\
  map title (s_books (step (BooksSnapshot (0%nat, ("alice", KBooks))
                 [("b1", sample_book "" "Dune" "Frank Herbert" "SciFi" "read" 5 [] "2024-03-01" 10)])
               (step (AuthReady None) signed_in_alice))) = ["Dune"].
Proof.
  destruct (signed_out_listener_survives signed_in_alice (0%nat, ("alice", KBooks))
              [("b1", sample_book "" "Dune" "Frank Herbert" "SciFi" "read" 5 [] "2024-03-01" 10)])
    as (_ & _ & _ & Hu & Hb); [vm_compute; left; reflexivity|].
  split; [exact Hu|]. rewrite Hb. vm_compute. reflexivity.
Defined.

Lemma reachable_signed_in_alice : reachable signed_in_alice.
Proof. apply run_reachable, reach_init. Qed.

Lemma one_listener_per_kind_witness :
  (0%nat, ("alice", KBooks)) = (0%nat, ("alice", KBooks)).
Proof.
  apply (one_listener_per_kind signed_in_alice); [apply run_reachable, reach_init | | |];
    vm_compute; auto.
Defined.

Lemma sign_in_listeners_witness :
  s_active (step (AuthReady (Some "bob")) signed_in_alice) =
  [(2%nat, ("bob", KBooks)); (3%nat, ("bob", KCollections))].
Proof. apply (sign_in_listeners signed_in_alice "bob"). apply run_reachable, reach_init. Defined.

Lemma sign_out_clears_witness :
  s_active (step (AuthReady None) (step SignOut signed_in_alice)) = [].
Proof.
  destruct (sign_out_clears signed_in_alice) as (_ & _ & H & _);
    [apply run_reachable, reach_init | exact H].
Defined.

(** The spec's scenario: five goal edits 100 ms apart give one write. *)
Definition five_edits : list (Z * string) :=
  [(0, "10"); (100, "20"); (200, "30"); (300, "40"); (400, "50")].

Lemma five_edits_valid : Forall (fun p => valid_goal (snd p)) five_edits.
Proof.
  unfold five_edits, valid_goal. repeat constructor.
  all: simpl; eexists; split; [vm_compute; reflexivity | lia].
Qed.

Lemma debounce_single_write_witness :
  let s' := run (burst 2026 five_edits) signed_in_alice in
  s_writes (step (Tick 1200) s') = [("alice", s_settings s')] /\ goal (s_settings s') = 50.
Proof.
  destruct (debounce_single_write five_edits signed_in_alice "alice" 2026) as (_ & W & G).
  - reflexivity.
  - discriminate.
  - vm_compute. split; [discriminate | exact I].
  - simpl. lia.
  - apply five_edits_valid.
  - split; [exact W | exact G].
Defined.

End Sync.
