(* ===== verification/Stats.v ===== *)
(** * Stats: the statistics of src/app.js

    [renderStats] (src/app.js:1531-1715) and the counters of
    [refreshDashboard] (src/app.js:1423-1445) derive from the in-memory
    books, without changing them: the status counts, the 5-year histogram,
    the monthly histogram of the current year, the genre and author
    rankings, the rating distribution, the best-rated leaderboard and the
    goal percentage.  Each is a function of the book list (and of the
    current year, which the code reads from [new Date()]).

    Counting loops of the form [arr[i]++] over a fixed-size array are the
    generic [bucket_counts]; object counters and their [Object.entries] are
    those of [JsArray]. *)

From S2P Require Import Prelude JsString JsNumber JsArray Book.
Local Open Scope string_scope.
Local Open Scope Z_scope.

Module Stats.

(** A JS string is truthy when it is not empty. *)
Definition truthy (s : string) : bool := negb (String.eqb s "").

(** [books.filter(b => b.status === 'read')] *)
Definition readBooks (bs : list Book) : list Book :=
  List.filter (fun b => String.eqb (status b) st_read) bs.

Definition count_status (st : string) (bs : list Book) : nat :=
  length (List.filter (fun b => String.eqb (status b) st) bs).

(** [readBooks.filter(b => b.dateRead && b.dateRead.startsWith(year.toString()))] *)
Definition read_in_year (year : Z) (b : Book) : bool :=
  truthy (dateRead b) && JsString.startsWith (dateRead b) (JsString.of_Z year).

Definition readThisYear (year : Z) (bs : list Book) : list Book :=
  List.filter (read_in_year year) (readBooks bs).

(** ** The 5-year histogram (src/app.js:1544-1552) *)

(** [for (let y = curYear - 4; y <= curYear; y++) yearCounts[y] = 0;]: the
    keys are integers, which [Object.entries] lists in ascending order, the
    order they are created in. *)
Definition year_window (cy : Z) : list Z := [cy - 4; cy - 3; cy - 2; cy - 1; cy].

(** [parseInt(b.dateRead.substring(0, 4))] *)
Definition year_of (b : Book) : option Z :=
  JsString.parseInt (JsString.substring (dateRead b) 0 4).

(** [if (yearCounts[y] !== undefined) yearCounts[y]++] *)
Fixpoint bump_key (y : Z) (m : list (Z * Z)) : list (Z * Z) :=
  match m with
  | [] => []
  | (k, v) :: r => if k =? y then (k, v + 1) :: r else (k, v) :: bump_key y r
  end.

Definition year_step (m : list (Z * Z)) (b : Book) : list (Z * Z) :=
  if truthy (dateRead b) then
    match year_of b with Some y => bump_key y m | None => m end
  else m.

Definition year_counts (cy : Z) (bs : list Book) : list (Z * Z) :=
  fold_left year_step (readBooks bs) (map (fun y => (y, 0)) (year_window cy)).

(** A read book counts for year [y]. *)
Definition year_hit (y : Z) (b : Book) : bool :=
  truthy (dateRead b) && match year_of b with Some y' => y' =? y | None => false end.

(** ** Fixed-size counters [arr[i]++] *)

(** [arr[i]++] for [0 <= i < arr.length]. *)
Fixpoint nth_bump (i : nat) (arr : list Z) : list Z :=
  match arr, i with
  | [], _ => []
  | x :: r, O => (x + 1) :: r
  | x :: r, S j => x :: nth_bump j r
  end.

(** [l.forEach(x => { const j = sel(x); if (j >= 0 && j < n) arr[j]++; })]
    from [n] zeros; [sel x = None] is a skipped element or NaN. *)
Definition bucket_step (n : nat) {A} (sel : A -> option Z) (arr : list Z) (x : A) : list Z :=
  match sel x with
  | Some j => if (0 <=? j) && (j <? Z.of_nat n) then nth_bump (Z.to_nat j) arr else arr
  | None => arr
  end.

Definition bucket_counts (n : nat) {A} (sel : A -> option Z) (l : list A) : list Z :=
  fold_left (bucket_step n sel) l (repeat 0 n).

(** ** The monthly histogram (src/app.js:1563-1569) *)

(** [parseInt(b.dateRead.substring(5, 7)) - 1] for the books of [curYear]. *)
Definition month_index (cy : Z) (b : Book) : option Z :=
  if read_in_year cy b then
    match JsString.parseInt (JsString.substring (dateRead b) 5 7) with
    | Some m => Some (m - 1)
    | None => None
    end
  else None.

Definition monthly_counts (cy : Z) (bs : list Book) : list Z :=
  bucket_counts 12 (month_index cy) (readBooks bs).

(** ** The rating distribution (src/app.js:1536, 1610-1611) *)

(** [readBooks.filter(b => b.rating && b.rating > 0)] *)
Definition rated (bs : list Book) : list Book :=
  List.filter (fun b => negb (rating b =? 0) && (rating b >? 0)) (readBooks bs).

(** [if (b.rating >= 1 && b.rating <= 5) ratingDist[b.rating-1]++] *)
Definition rating_index (b : Book) : option Z :=
  if (rating b >=? 1) && (rating b <=? 5) then Some (rating b - 1) else None.

Definition rating_dist (bs : list Book) : list Z :=
  bucket_counts 5 rating_index (rated bs).

(** ** Genre and author rankings (src/app.js:1579-1581, 1595-1597) *)

(** [Object.entries(counter).sort((a,b) => b[1]-a[1]).slice(0, n)] where the
    counter counts the non-empty [keys]. *)
Definition ranking (keys : list string) (n : nat) : list (string * Z) :=
  js_slice n (js_sort (cmp_desc snd) (object_entries (count_into [] keys))).

Definition top_genres (bs : list Book) : list (string * Z) :=
  ranking (map genre (readBooks bs)) 6.

Definition top_authors (bs : list Book) : list (string * Z) :=
  ranking (map author (readBooks bs)) 5.

(** ** The best-rated leaderboard (src/app.js:1622-1625) *)

Section Leaderboard.
Context (localeCompare : string -> string -> Z).

Definition leader_cmp (a b : Book) : Z :=
    if negb (rating b =? rating a) then rating b - rating a
    else localeCompare (dateRead b) (dateRead a).

Definition leaderboard (bs : list Book) : list Book :=
    js_slice 10 (js_sort leader_cmp (List.filter (fun b => rating b >? 0) (readBooks bs))).
End Leaderboard.

(** ** The reading goal (src/app.js:1435-1439) *)

(** [Math.min(100, Math.round((readThisYear.length / goal) * 100))] for
    [goal > 0]: the division and the product are binary64 operations
    ([JsNumber]).  [None] stands for NaN or an infinity, which a positive
    goal never gives. *)
Definition goal_pct (n g : Z) : option Z :=
  option_map (Z.min 100) (JsNumber.js_round (JsNumber.js_mul (JsNumber.js_div n g) (JsNumber.js_num 100))).

(** ** Counter lemmas *)

(** [sel x] selects bucket [i]. *)
Definition sel_is {A} (sel : A -> option Z) (i : nat) (x : A) : bool :=
  match sel x with Some j => j =? Z.of_nat i | None => false end.

Definition count_sel {A} (sel : A -> option Z) (l : list A) (i : nat) : Z :=
  Z.of_nat (length (List.filter (sel_is sel i) l)).

Lemma filter_length_cons {A} (f : A -> bool) x l :
  Z.of_nat (length (List.filter f (x :: l))) =
  (if f x then 1 else 0) + Z.of_nat (length (List.filter f l)).
Proof. simpl. destruct (f x); simpl; lia. Qed.

Lemma repeat_as_map n s : repeat 0 n = map (fun _ => 0) (seq s n).
Proof. revert s; induction n; intros s; simpl; f_equal; auto. Qed.

Lemma nth_bump_map (g : nat -> Z) n s j :
  nth_bump j (map g (seq s n)) =
  map (fun i => g i + if Nat.eqb i (s + j) then 1 else 0) (seq s n).
Proof.
  revert s j. induction n as [|n IH]; intros s j; [by destruct j|]. simpl.
  destruct j as [|j]; simpl.
  - rewrite Nat.add_0_r, Nat.eqb_refl. f_equal.
    apply map_ext_in. intros i Hi%in_seq.
    destruct (Nat.eqb_spec i s); [lia|]. lia.
  - rewrite IH. f_equal; [destruct (Nat.eqb_spec s (s + S j)); lia|].
    by replace (S s + j)%nat with (s + S j)%nat by lia.
Qed.

Lemma bucket_step_map n {A} (sel : A -> option Z) (g : nat -> Z) x :
  bucket_step n sel (map g (seq 0 n)) x =
  map (fun i => g i + if sel_is sel i x then 1 else 0) (seq 0 n).
Proof.
  unfold bucket_step, sel_is. destruct (sel x) as [j|];
    [|apply map_ext_in; intros; lia].
  destruct ((0 <=? j) && (j <? Z.of_nat n)) eqn:R.
  - apply andb_true_iff in R as [R1%Z.leb_le R2%Z.ltb_lt].
    rewrite nth_bump_map. apply map_ext_in. intros i _. simpl.
    destruct (Nat.eqb_spec i (Z.to_nat j)), (Z.eqb_spec j (Z.of_nat i)); lia.
  - apply map_ext_in. intros i Hi%in_seq.
    destruct (Z.eqb_spec j (Z.of_nat i)); [|lia]. exfalso.
    apply andb_false_iff in R as [R%Z.leb_gt|R%Z.ltb_ge]; lia.
Qed.

Lemma bucket_fold n {A} (sel : A -> option Z) l (g : nat -> Z) :
  fold_left (bucket_step n sel) l (map g (seq 0 n)) =
  map (fun i => g i + count_sel sel l i) (seq 0 n).
Proof.
  revert g. induction l as [|x l IH]; intros g; simpl.
  - apply map_ext. intros; unfold count_sel; simpl; lia.
  - rewrite bucket_step_map, IH. apply map_ext. intros i.
    unfold count_sel. rewrite filter_length_cons. lia.
Qed.

(** The fixed-size counter holds, in bucket [i], the number of elements
    that select [i]. *)
Lemma bucket_counts_spec n {A} (sel : A -> option Z) l :
  bucket_counts n sel l = map (count_sel sel l) (seq 0 n).
Proof.
  unfold bucket_counts. rewrite (repeat_as_map n 0), bucket_fold.
  apply map_ext. intros; lia.
Qed.

Lemma bump_key_map (g : Z -> Z) y w :
  List.NoDup w ->
  bump_key y (map (fun k => (k, g k)) w) =
  map (fun k => (k, g k + if k =? y then 1 else 0)) w.
Proof.
  induction w as [|k w IH]; intros Hnd; [done|]. inversion Hnd; subst. simpl.
  destruct (Z.eqb_spec k y) as [->|Hne].
  - f_equal. apply map_ext_in. intros k Hk.
    destruct (Z.eqb_spec k y); [congruence|]. f_equal; lia.
  - rewrite IH by done. f_equal. f_equal. lia.
Qed.

Lemma year_fold w l (g : Z -> Z) :
  List.NoDup w ->
  fold_left year_step l (map (fun y => (y, g y)) w) =
  map (fun y => (y, g y + Z.of_nat (length (List.filter (year_hit y) l)))) w.
Proof.
  intros Hnd. revert g. induction l as [|b l IH]; intros g; simpl.
  - apply map_ext. intros; f_equal; lia.
  - assert (E : year_step (map (fun y => (y, g y)) w) b =
                map (fun y => (y, g y + if year_hit y b then 1 else 0)) w).
    { unfold year_step, year_hit. destruct (truthy (dateRead b)); simpl.
      - destruct (year_of b) as [y'|].
        + rewrite bump_key_map by done. apply map_ext. intros k.
          by rewrite Z.eqb_sym.
        + apply map_ext. intros; f_equal; lia.
      - apply map_ext. intros; f_equal; lia. }
    rewrite E, (IH (fun y => g y + if year_hit y b then 1 else 0)).
    apply map_ext. intros y. f_equal. destruct (year_hit y b); simpl; lia.
Qed.

Lemma year_window_NoDup cy : List.NoDup (year_window cy).
Proof. unfold year_window. repeat constructor; simpl; intuition lia. Qed.

Definition zsum (l : list Z) : Z := fold_right Z.add 0 l.

(** [sel x] is a valid index of an [n]-bucket counter. *)
Definition in_range (n : nat) {A} (sel : A -> option Z) (x : A) : bool :=
  match sel x with Some j => (0 <=? j) && (j <? Z.of_nat n) | None => false end.

Lemma nth_bump_length i arr : length (nth_bump i arr) = length arr.
Proof. revert i; induction arr; intros [|i]; simpl; auto. Qed.

Lemma nth_bump_sum i arr :
  zsum (nth_bump i arr) = zsum arr + if Nat.ltb i (length arr) then 1 else 0.
Proof.
  revert i; induction arr as [|x arr IH]; intros [|i]; simpl; try lia.
  rewrite IH. destruct (Nat.ltb_spec i (length arr)),
    (Nat.ltb_spec (S i) (S (length arr))); lia.
Qed.

Lemma bucket_step_sum n {A} (sel : A -> option Z) arr x :
  length arr = n ->
  length (bucket_step n sel arr x) = n /\
  zsum (bucket_step n sel arr x) = zsum arr + if in_range n sel x then 1 else 0.
Proof.
  intros Hl. unfold bucket_step, in_range. destruct (sel x) as [j|]; [|lia].
  destruct ((0 <=? j) && (j <? Z.of_nat n)) eqn:R; [|lia].
  apply andb_true_iff in R as [R1%Z.leb_le R2%Z.ltb_lt].
  rewrite nth_bump_length, nth_bump_sum.
  destruct (Nat.ltb_spec (Z.to_nat j) (length arr)); lia.
Qed.

Lemma zsum_repeat0 n : zsum (repeat 0 n) = 0.
Proof. induction n as [|n IH]; [done|]. exact IH. Qed.

Lemma bucket_counts_sum n {A} (sel : A -> option Z) l :
  zsum (bucket_counts n sel l) = Z.of_nat (length (List.filter (in_range n sel) l)).
Proof.
  unfold bucket_counts.
  assert (G : forall arr, length arr = n ->
    zsum (fold_left (bucket_step n sel) l arr) =
    zsum arr + Z.of_nat (length (List.filter (in_range n sel) l))).
  { induction l as [|x l IH]; intros arr Hl; simpl; [lia|].
    destruct (bucket_step_sum n sel arr x Hl) as [Hl' Hs'].
    rewrite (IH _ Hl'), Hs'. destruct (in_range n sel x); simpl; lia. }
  rewrite G by apply repeat_length. rewrite zsum_repeat0. lia.
Qed.

Lemma nth_map_seq {B} (f : nat -> B) n i d :
  (i < n)%nat -> nth i (map f (seq 0 n)) d = f i.
Proof.
  intros Hi. rewrite (nth_indep _ d (f 0%nat)) by (rewrite length_map, length_seq; lia).
  by rewrite map_nth, seq_nth.
Qed.

(** Counting with [n] buckets: the counter has [n] buckets, bucket [i]
    counts the elements that select [i], and the total counts the elements
    whose index is in range. *)
Lemma bucket_counts_nth n {A} (sel : A -> option Z) l i :
  (i < n)%nat -> nth i (bucket_counts n sel l) 0 = count_sel sel l i.
Proof. intros Hi. rewrite bucket_counts_spec. by apply nth_map_seq. Qed.

Lemma bucket_counts_length n {A} (sel : A -> option Z) l :
  length (bucket_counts n sel l) = n.
Proof. by rewrite bucket_counts_spec, length_map, length_seq. Qed.

(** ** The 5-year histogram *)

(** The year chart has one bar per year of the window
    [curYear-4 .. curYear], in that order, and the bar of year [y] counts
    the read books whose [dateRead] is non-empty and whose first four
    characters parse to [y]; books of other years are not counted. *)
Theorem year_counts_spec cy bs :
  year_counts cy bs =
  map (fun y => (y, Z.of_nat (length (List.filter (year_hit y) (readBooks bs)))))
      (year_window cy).
Proof.
  unfold year_counts.
  pose proof (year_fold (year_window cy) (readBooks bs) (fun _ => 0)
                (year_window_NoDup cy)) as E.
  cbn beta in E. rewrite E. apply map_ext. intros; f_equal; lia.
Qed.

(** ** The monthly histogram *)

Lemma month_index_sel cy b i :
  sel_is (month_index cy) i b =
  read_in_year cy b &&
  match JsString.parseInt (JsString.substring (dateRead b) 5 7) with
  | Some m => m =? Z.of_nat i + 1 | None => false end.
Proof.
  unfold sel_is, month_index. destruct (read_in_year cy b); [|done].
  destruct (JsString.parseInt _) as [m|]; [|done]. simpl.
  destruct (Z.eqb_spec (m - 1) (Z.of_nat i)), (Z.eqb_spec m (Z.of_nat i + 1)); lia.
Qed.

(** The monthly chart has 12 bars; bar [i] counts the read books of
    the current year whose characters 5-7 of [dateRead] parse to month
    [i+1]; and the bars together count at most the books read this year
    (a book whose month does not parse to 1..12 is in no bar). *)
Theorem monthly_counts_spec cy bs :
  length (monthly_counts cy bs) = 12%nat /\
  (forall i, (i < 12)%nat ->
     nth i (monthly_counts cy bs) 0 =
     Z.of_nat (length (List.filter (fun b =>
       read_in_year cy b &&
       match JsString.parseInt (JsString.substring (dateRead b) 5 7) with
       | Some m => m =? Z.of_nat i + 1 | None => false end) (readBooks bs)))) /\
  zsum (monthly_counts cy bs) <= Z.of_nat (length (readThisYear cy bs)).
Proof.
  unfold monthly_counts. split_and!; [apply bucket_counts_length| |].
  - intros i Hi. rewrite bucket_counts_nth by done. unfold count_sel.
    f_equal; f_equal. apply filter_ext_in. intros b _. apply month_index_sel.
  - rewrite bucket_counts_sum. unfold readThisYear. apply inj_le, filter_length_mono.
    intros b. unfold in_range, month_index. by destruct (read_in_year cy b).
Qed.

(** ** The rating distribution *)

Lemma rated_pos bs b : In b (rated bs) -> rating b > 0.
Proof. unfold rated. intros [_ H]%filter_In. bool_to_prop. lia. Qed.

(** The rating chart has 5 bars; bar [i] counts the rated read books
    whose rating is exactly [i+1]; the bars together count the rated read
    books whose rating is at most 5 (a rating above 5 is in no bar). *)
Theorem rating_dist_spec bs :
  length (rating_dist bs) = 5%nat /\
  (forall i, (i < 5)%nat ->
     nth i (rating_dist bs) 0 =
     Z.of_nat (length (List.filter (fun b => rating b =? Z.of_nat i + 1) (rated bs)))) /\
  zsum (rating_dist bs) = Z.of_nat (length (List.filter (fun b => rating b <=? 5) (rated bs))).
Proof.
  unfold rating_dist. split_and!; [apply bucket_counts_length| |].
  - intros i Hi. rewrite bucket_counts_nth by done. unfold count_sel.
    f_equal; f_equal. apply filter_ext_in. intros b Hb%rated_pos.
    unfold sel_is, rating_index.
    destruct (Z.geb_spec (rating b) 1), (Z.leb_spec (rating b) 5); simpl;
      destruct (Z.eqb_spec (rating b) (Z.of_nat i + 1)); try lia;
      destruct (Z.eqb_spec (rating b - 1) (Z.of_nat i)); lia.
  - rewrite bucket_counts_sum. f_equal; f_equal. apply filter_ext_in.
    intros b Hb%rated_pos. unfold in_range, rating_index.
    destruct (Z.geb_spec (rating b) 1), (Z.leb_spec (rating b) 5); simpl; try lia.
    apply andb_true_iff; split; [apply Z.leb_le|apply Z.ltb_lt]; lia.
Qed.

(** ** Rankings *)

Lemma ranking_entries keys :
  List.NoDup (map fst (js_sort (cmp_desc snd) (object_entries (count_into [] keys)))).
Proof.
  eapply Permutation_NoDup; [apply Permutation_map; symmetry|].
  - rewrite js_sort_perm. apply object_entries_perm.
  - apply count_into_NoDup. constructor.
Qed.

(** The properties of a ranking, shared by the statistics and the facets. *)
Lemma ranking_props keys n :
  (length (ranking keys n) <= n)%nat /\
  Sorted (cmp_le (cmp_desc snd)) (ranking keys n) /\
  List.NoDup (map fst (ranking keys n)) /\
  (forall k v, In (k, v) (ranking keys n) ->
     k <> "" /\ In k keys /\ v = occurrences k keys) /\
  (forall k v k', In (k, v) (ranking keys n) -> k' <> "" -> In k' keys ->
     ~ In k' (map fst (ranking keys n)) -> occurrences k' keys <= v).
Proof.
  unfold ranking. split_and!.
  - unfold js_slice. rewrite length_firstn. lia.
  - apply Sorted_firstn, js_sort_sorted; apply _.
  - unfold js_slice. rewrite <- firstn_map. apply NoDup_ListNoDup.
    eapply sublist_NoDup; [apply NoDup_ListNoDup, ranking_entries|apply sublist_take].
  - intros k v H%js_slice_In. by apply count_entries_spec.
  - intros k v k' Hk Hne Hin Hout.
    assert (Hy : In (k', occurrences k' keys) (object_entries (count_into [] keys)))
      by (apply count_entries_spec; done).
    pose proof (js_slice_dropped _ n _ _ _ Hk Hy) as D. unfold cmp_desc in D. simpl in D.
    enough (occurrences k' keys - v <= 0) by lia.
    apply D. intros Hk'. apply Hout. by apply (in_map fst) in Hk'.
Qed.

(** [Object.entries(count).sort(by count desc).slice(0, n)]: at most
    [n] entries, sorted by decreasing count, with distinct keys; each entry
    is a non-empty key of the input with its number of occurrences; and a
    non-empty key left out occurs no more often than any key kept. *)
Theorem ranking_spec keys n :
  (length (ranking keys n) <= n)%nat /\
  Sorted (cmp_le (cmp_desc snd)) (ranking keys n) /\
  List.NoDup (map fst (ranking keys n)) /\
  (forall k v, In (k, v) (ranking keys n) ->
     k <> "" /\ In k keys /\ v = occurrences k keys) /\
  (forall k v k', In (k, v) (ranking keys n) -> k' <> "" -> In k' keys ->
     ~ In k' (map fst (ranking keys n)) -> occurrences k' keys <= v).
Proof. apply ranking_props. Qed.

(** ** The leaderboard *)

Section LeaderboardFacts.
Context (localeCompare : string -> string -> Z)
    `{!ConsistentComparator localeCompare}.

Lemma leader_cmp_lex a b :
    leader_cmp localeCompare a b =
    cmp_lex (cmp_desc rating) (cmp_on_rev localeCompare dateRead) a b.
  Proof.
    unfold leader_cmp, cmp_lex, cmp_desc, cmp_on_rev.
    destruct (Z.eqb_spec (rating b) (rating a)), (Z.eqb_spec (rating b - rating a) 0);
      simpl; lia.
  Qed.

#[export] Instance leader_cmp_consistent :
    ConsistentComparator (leader_cmp localeCompare).
  Proof.
    split; intros *; rewrite !leader_cmp_lex; [apply cmp_sgn_antisym|apply cmp_le_trans].
  Qed.

(** The leaderboard lists at most 10 read books with a positive
      rating, best first (rating descending, then [dateRead] descending by
      [localeCompare]); a read book with a positive rating that is left out
      has a rating no higher than any book listed. *)
Theorem leaderboard_top bs :
    (length (leaderboard localeCompare bs) <= 10)%nat /\
    Sorted (cmp_le (leader_cmp localeCompare)) (leaderboard localeCompare bs) /\
    (forall b, In b (leaderboard localeCompare bs) ->
       In b bs /\ status b = st_read /\ rating b > 0) /\
    (forall b b', In b (leaderboard localeCompare bs) -> In b' bs ->
       status b' = st_read -> rating b' > 0 ->
       ~ In b' (leaderboard localeCompare bs) -> rating b' <= rating b).
  Proof.
    unfold leaderboard. split_and!.
    - unfold js_slice. rewrite length_firstn. lia.
    - apply Sorted_firstn, js_sort_sorted; apply _.
    - intros b H%js_slice_In. unfold readBooks in H.
      apply filter_In in H as [[H1 H2]%filter_In H3]. bool_to_prop. split_and!; auto; lia.
    - intros b b' Hb Hin Hst Hr Hout.
      assert (Hy : In b' (List.filter (fun b => rating b >? 0) (readBooks bs))).
      { unfold readBooks. apply filter_In. split; [|apply Z.gtb_lt; lia].
        apply filter_In. split; [done|by apply String.eqb_eq]. }
      pose proof (js_slice_dropped _ 10 _ _ _ Hb Hy Hout) as D.
      unfold leader_cmp in D. destruct (Z.eqb_spec (rating b') (rating b)); simpl in D; lia.
  Qed.
End LeaderboardFacts.

(** ** The reading goal *)

(** C20: With a goal [0 < g < 2^53] and [n < 2^40] books read this year,
    the progress percentage computed in binary64 lies in [0, 100]; it is
    [100 n / g] rounded half up (capped at 100) except when [100 n / g] is
    a tie [j + 1/2], where it may be [j]; it is 100 when [n / g > 0.995]
    (so from [g = 200] on one book short of the goal shows 100%), below 100
    when [n / g < 0.995], 0 when [n / g < 0.005] and at least 1 when
    [n / g > 0.005]. *)
Theorem goal_pct_bounds n g :
  0 <= n < 2 ^ 40 -> 0 < g < 2 ^ 53 ->
  exists p, goal_pct n g = Some p /\ 0 <= p <= 100 /\
    ((200 * n + g) mod (2 * g) <> 0 -> p = Z.min 100 ((200 * n + g) / (2 * g))) /\
    (199 * g < 200 * n -> p = 100) /\ (200 * n < 199 * g -> p < 100) /\
    (200 * n < g -> p = 0) /\ (g < 200 * n -> 1 <= p).
Proof.
  intros Hn Hg. destruct (JsNumber.js_round_pct n g Hn Hg) as (v & Ev & Hnt & Hv).
  exists (Z.min 100 v). unfold goal_pct. rewrite Ev. split; [done|].
  pose proof (Z.div_mod (200 * n + g) (2 * g) ltac:(lia)) as Hdm.
  pose proof (Z.mod_pos_bound (200 * n + g) (2 * g) ltac:(lia)) as Hr.
  set (T := (200 * n + g) / (2 * g)) in *. set (r := (200 * n + g) mod (2 * g)) in *.
  assert (Hv' : r = 0 -> 1 <= T) by nia.
  assert (HT0 : 0 <= T) by nia.
  split_and!.
  - destruct Hv; subst; [lia|]. destruct (Z.eq_dec r 0); [specialize (Hv' ltac:(done)); lia|].
    rewrite Hnt by done. lia.
  - destruct Hv; lia.
  - intros Hne. by rewrite Hnt.
  - intros Hlt. assert (100 <= T) by nia.
    destruct (Z.eq_dec r 0) as [Hr0|Hr0]; [|rewrite Hnt by done; lia].
    assert (101 <= T) by nia. destruct Hv; lia.
  - intros Hlt. assert (T <= 99) by nia. destruct Hv; lia.
  - intros Hlt. assert (T = 0) by nia. assert (r <> 0) by nia. rewrite Hnt by done. lia.
  - intros Hlt. assert (1 <= T) by nia.
    destruct (Z.eq_dec r 0) as [Hr0|Hr0]; [|rewrite Hnt by done; lia].
    assert (2 <= T) by nia. destruct Hv; lia.
Qed.

(** ** Concrete runs *)

Definition stats_sample : list Book :=
  [sample_book "1" "Dune" "Frank Herbert" "SciFi" st_read 5 [] "2024-03-02" 1;
   sample_book "2" "Ubik" "Philip K. Dick" "SciFi" st_read 4 [] "2024-05-10" 2;
   sample_book "3" "Emma" "Jane Austen" "Romance" st_read 4 [] "2021-07-01" 3;
   sample_book "4" "Kindred" "Octavia Butler" "" st_read 7 [] "2024-13-01" 4;
   sample_book "5" "Beloved" "Toni Morrison" "Fiction" st_want 0 [] "" 5].

(** Eleven read books: ten rated 5, the last rated 3. *)
Definition eleven_rated : list Book :=
  map (fun i : nat => sample_book (JsString.of_Z (Z.of_nat i)) "T" "A" "G" st_read
         (if (i <? 10)%nat then 5 else 3) [] "2024-01-01" (Z.of_nat i)) (seq 0 11).

Definition no_book : Book := sample_book "" "" "" "" "" 0 [] "" 0.

Example year_counts_sample :
  year_counts 2024 stats_sample = [(2020, 0); (2021, 1); (2022, 0); (2023, 0); (2024, 3)].
Proof. vm_compute. reflexivity. Qed.

Lemma monthly_counts_spec_witness :
  nth 4 (monthly_counts 2024 stats_sample) 0 = 1 /\
  zsum (monthly_counts 2024 stats_sample) <=
    Z.of_nat (length (readThisYear 2024 stats_sample)).
Proof.
  destruct (monthly_counts_spec 2024 stats_sample) as [_ [H B]]. split; [|exact B].
  rewrite (H 4%nat) by lia. vm_compute. reflexivity.
Defined.

Lemma rating_dist_spec_witness :
  nth 3 (rating_dist stats_sample) 0 = 2 /\ zsum (rating_dist stats_sample) = 3.
Proof.
  destruct (rating_dist_spec stats_sample) as [_ [H E]].
  split; [rewrite (H 3%nat) by lia | rewrite E]; vm_compute; reflexivity.
Defined.

Lemma ranking_spec_witness :
  ranking ["a"; "b"; "a"; "c"] 1 = [("a", 2)] /\
  occurrences "b" ["a"; "b"; "a"; "c"] <= 2.
Proof.
  split; [vm_compute; reflexivity|].
  destruct (ranking_spec ["a"; "b"; "a"; "c"] 1) as [_ [_ [_ [_ T]]]].
  apply (T "a" 2 "b").
  - vm_compute. left. reflexivity.
  - discriminate.
  - simpl. auto.
  - vm_compute. intros [H|[]]. discriminate H.
Defined.

Lemma leaderboard_top_witness :
  length (leaderboard code_unit_cmp eleven_rated) = 10%nat /\
  rating (nth 10 eleven_rated no_book) <= rating (nth 0 eleven_rated no_book).
Proof.
  split; [vm_compute; reflexivity|].
  destruct (leaderboard_top code_unit_cmp eleven_rated) as [_ [_ [_ T]]].
  apply T.
  - vm_compute. left. reflexivity.
  - apply nth_In. simpl. lia.
  - reflexivity.
  - vm_compute. reflexivity.
  - vm_compute. intros H. repeat (destruct H as [H|H]; [discriminate H|]). exact H.
Defined.

Lemma goal_pct_bounds_witness : goal_pct 200 201 = Some 100.
Proof.
  destruct (goal_pct_bounds 200 201) as (p & E & _ & _ & H & _); [lia|lia|]. rewrite E, H by lia. reflexivity.
Defined.

(** The quotient [29 / 200 = 0.145] is stored just below 0.145, so the
    goal shows 14% where the rational rounding gives 15%; one book short of
    a goal of 200 already shows 100%. *)
Example goal_pct_float_ties :
  goal_pct 29 200 = Some 14 /\ (200 * 29 + 200) / (2 * 200) = 15 /\ goal_pct 199 200 = Some 100.
Proof. split_and!; vm_compute; reflexivity. Qed.

(** Keys that look like array indices come first in [Object.entries], so a
    tie between a genre named "1984" and one met before it is broken in
    favour of "1984". *)
Example ranking_index_key_first :
  ranking ["Fantasy"; "1984"] 6 = [("1984", 1); ("Fantasy", 1)].
Proof. vm_compute. reflexivity. Qed.

End Stats.
