(* ===== verification/Facets.v ===== *)
(** * Facets: the option lists of the filter panel

    [buildFilterOptions] (src/app.js:1101-1133) derives the chips the
    filter panel offers from the full book list: the distinct non-empty
    genres sorted by [Array.prototype.sort]'s default order (UTF-16 code
    units), the authors of the 12 most frequent author keys, and the
    distinct tags sorted the same way.  [updateOwnedCounts]
    (src/app.js:1135-1144) counts the books per ownership flag.  All are
    functions of the whole library, not of the filtered view. *)

From S2P Require Import Prelude JsString JsArray Book Stats.
Local Open Scope string_scope.
Local Open Scope Z_scope.

Module Facets.
Import Stats.

(** [[...new Set(books.map(b => b.genre).filter(Boolean))].sort()] *)
Definition genre_facets (bs : list Book) : list string :=
  js_sort code_unit_cmp (set_values (List.filter truthy (map genre bs))).

(** [Object.entries(authorMap).sort((a,b)=>b[1]-a[1]).slice(0,12).map(e=>e[0])] *)
Definition author_facets (bs : list Book) : list string :=
  map fst (ranking (map author bs) 12).

(** [books.forEach(b => (b.tags||[]).forEach(t => tagSet.add(t)));
     [...tagSet].sort()] *)
Definition tag_facets (bs : list Book) : list string :=
  js_sort code_unit_cmp (set_values (concat (map tags bs))).

Record OwnedCounts := { oc_all : nat; oc_physical : nat; oc_digital : nat; oc_borrowed : nat }.

Definition updateOwnedCounts (bs : list Book) : OwnedCounts :=
  {| oc_all := length bs;
     oc_physical := length (List.filter ownPhysical bs);
     oc_digital := length (List.filter ownDigital bs);
     oc_borrowed := length (List.filter ownBorrowed bs) |}.

(** ** Sorted distinct values *)

Lemma sorted_set_values l :
  List.NoDup (js_sort code_unit_cmp (set_values l)) /\
  Sorted (cmp_le code_unit_cmp) (js_sort code_unit_cmp (set_values l)) /\
  forall x, In x (js_sort code_unit_cmp (set_values l)) <-> In x l.
Proof.
  destruct (set_values_spec l) as [Hnd Hin]. split_and!.
  - eapply Permutation_NoDup; [symmetry; apply js_sort_perm|done].
  - apply js_sort_sorted; apply _.
  - intros x. rewrite <- Hin. split; apply Permutation_in;
      [|symmetry]; apply js_sort_perm.
Qed.

(** The genre chips are sorted by code units, have no duplicates,
    and are exactly the non-empty genres of the books in the library. *)
Theorem genre_facets_spec bs :
  List.NoDup (genre_facets bs) /\
  Sorted (cmp_le code_unit_cmp) (genre_facets bs) /\
  forall g, In g (genre_facets bs) <-> g <> "" /\ exists b, In b bs /\ genre b = g.
Proof.
  unfold genre_facets. destruct (sorted_set_values (List.filter truthy (map genre bs)))
    as [H1 [H2 H3]]. split_and!; [done|done|]. intros g. rewrite H3, filter_In, in_map_iff.
  unfold truthy. rewrite negb_true_iff, String.eqb_neq. firstorder.
Qed.

(** The tag chips are sorted by code units, have no duplicates, and
    are exactly the tags of the books in the library (the empty tag
    included, since tags are not filtered here). *)
Theorem tag_facets_spec bs :
  List.NoDup (tag_facets bs) /\
  Sorted (cmp_le code_unit_cmp) (tag_facets bs) /\
  forall t, In t (tag_facets bs) <-> exists b, In b bs /\ In t (tags b).
Proof.
  unfold tag_facets. destruct (sorted_set_values (concat (map tags bs)))
    as [H1 [H2 H3]]. split_and!; [done|done|]. intros t. rewrite H3, in_concat.
  split.
  - intros [l [[b [<- Hb]]%in_map_iff Ht]]. eauto.
  - intros [b [Hb Ht]]. exists (tags b). split; [apply in_map|]; done.
Qed.

(** At most 12 author chips, distinct, each the author of a book of
    the library; an author left out has no more books than any author
    shown. *)
Theorem author_facets_top bs :
  (length (author_facets bs) <= 12)%nat /\
  List.NoDup (author_facets bs) /\
  (forall a, In a (author_facets bs) -> a <> "" /\ exists b, In b bs /\ author b = a) /\
  (forall a a', In a (author_facets bs) -> a' <> "" -> (exists b, In b bs /\ author b = a') ->
     ~ In a' (author_facets bs) ->
     occurrences a' (map author bs) <= occurrences a (map author bs)).
Proof.
  unfold author_facets.
  destruct (ranking_props (map author bs) 12) as [L [_ [N [M T]]]].
  split_and!; [by rewrite length_map|done| |].
  - intros a [[a0 v] [<- Hin]]%in_map_iff. destruct (M _ _ Hin) as [Hne [Ha _]].
    split; [done|]. apply in_map_iff in Ha as [b [? ?]]. eauto.
  - intros a a' [[a0 v] [<- Hin]]%in_map_iff Hne [b [Hb <-]] Hout. simpl.
    destruct (M _ _ Hin) as [_ [_ ->]]. apply (T _ _ _ Hin Hne); [|done].
    by apply in_map.
Qed.

(** Thirteen read books by thirteen different authors. *)
Definition thirteen_authors : list Book :=
  map (fun i : nat => sample_book (JsString.of_Z (Z.of_nat i)) "T"
         ("A" ++ JsString.of_Z (Z.of_nat i)) "G" st_read 0 [] "" (Z.of_nat i)) (seq 0 13).

Lemma author_facets_top_witness :
  occurrences "A12" (map author thirteen_authors) <= occurrences "A0" (map author thirteen_authors).
Proof.
  destruct (author_facets_top thirteen_authors) as [_ [_ [_ T]]]. apply T.
  - vm_compute. left. reflexivity.
  - discriminate.
  - exists (nth 12 thirteen_authors no_book). split; [apply nth_In; simpl; lia|].
    vm_compute. reflexivity.
  - vm_compute. intros H. repeat (destruct H as [H|H]; [discriminate H|]). exact H.
Defined.

End Facets.
