(* ===== verification/Library.v ===== *)
(** * Library: editing the book collection

    The book modal and its writers (src/app.js): the tag input
    ([getTagsFromInput], [setTagsInForm], [addTag], [removeTag],
    [handleTagInput], 587-629), [saveBook] (712-758), [deleteCurrentBook]
    (760-769), the Firestore writers [saveBookToFirestore],
    [deleteBookFromFirestore], [saveCollectionToFirestore] (207-230),
    [saveCollection] (1381-1388), the activity log [addActivity]
    (1417-1421) and the modal openers [openAddModal] and [openEditModal]
    (511-542), whose effect on the state is the editing id and the current
    rating.

    The remote document store is an external collaborator: the class
    [DocStore] states what the code relies on ([setDoc] replaces the
    document under a key, [deleteDoc] removes it, a snapshot lists each
    document once), the theorems are proved against it, and the instance
    [gmap_store] (per-user [gmap]s of stdpp) discharges it.  The in-memory
    [books] array changes only when the books listener delivers a snapshot
    of the store ([Sync.books_of_snapshot]). *)

From stdpp Require Import gmap.
From S2P Require Import Prelude JsString JsArray Book Sync Stats.
Local Open Scope string_scope.
Local Open Scope Z_scope.

(** ** The document store *)

Class DocStore (S : Type) := {
  doc_get : S -> string -> string -> option Book;
  doc_set : string -> string -> Book -> S -> S;
  doc_delete : string -> string -> S -> S;
  doc_list : S -> string -> list (string * Book)
}.

Class DocStoreLaws (S : Type) `{DocStore S} : Prop := {
  doc_get_set u k b s u' k' :
    doc_get (doc_set u k b s) u' k' = if decide ((u', k') = (u, k)) then Some b else doc_get s u' k';
  doc_get_delete u k s u' k' :
    doc_get (doc_delete u k s) u' k' = if decide ((u', k') = (u, k)) then None else doc_get s u' k';
  doc_list_In s u k b : In (k, b) (doc_list s u) <-> doc_get s u k = Some b;
  doc_list_NoDup s u : List.NoDup (map fst (doc_list s u))
}.

(** Firestore [users/{uid}/books] as one [gmap] of documents per user. *)
Abbreviation GStore := (gmap string (gmap string Book)).

Definition user_docs (s : GStore) (u : string) : gmap string Book :=
  default ∅ (s !! u).

#[export] Instance gmap_store : DocStore GStore := {
  doc_get s u k := user_docs s u !! k;
  doc_set u k b s := <[u := <[k := b]> (user_docs s u)]> s;
  doc_delete u k s := <[u := delete k (user_docs s u)]> s;
  doc_list s u := map_to_list (user_docs s u)
}.

Lemma gstore_get_set u k b (s : GStore) u' k' :
  user_docs (<[u := <[k := b]> (user_docs s u)]> s) u' !! k' =
  if decide ((u', k') = (u, k)) then Some b else user_docs s u' !! k'.
Proof.
  unfold user_docs. rewrite lookup_insert.
  destruct (decide (u = u')) as [<-|Hu]; simpl.
  - rewrite lookup_insert. destruct (decide (k = k')) as [<-|Hk];
      destruct (decide _); congruence.
  - destruct (decide _); congruence.
Qed.

Lemma gstore_get_delete u k (s : GStore) u' k' :
  user_docs (<[u := delete k (user_docs s u)]> s) u' !! k' =
  if decide ((u', k') = (u, k)) then None else user_docs s u' !! k'.
Proof.
  unfold user_docs. rewrite lookup_insert.
  destruct (decide (u = u')) as [<-|Hu]; simpl.
  - rewrite lookup_delete. destruct (decide (k = k')) as [<-|Hk];
      destruct (decide _); congruence.
  - destruct (decide _); congruence.
Qed.

#[export] Instance gmap_store_laws : DocStoreLaws GStore.
Proof.
  split.
  - exact gstore_get_set.
  - exact gstore_get_delete.
  - intros s u k b. change (In (k, b) (map_to_list (user_docs s u)) <-> user_docs s u !! k = Some b).
    by rewrite <- list_elem_of_In, elem_of_map_to_list.
  - intros s u. apply NoDup_ListNoDup, NoDup_fst_map_to_list.
Qed.

Module Library.
Import Stats.

(** ** The tag input: a hidden field holding the tags joined by ["|||"] *)

Definition tag_sep := "|||".

(** [hidden.value ? hidden.value.split('|||').filter(Boolean) : []] *)
Definition getTagsFromInput (hidden : string) : list string :=
  if String.eqb hidden "" then [] else List.filter truthy (JsString.split hidden tag_sep).

(** [hidden.value = tags.join('|||')] *)
Definition setTagsInForm (tags : list string) : string := JsString.join tag_sep tags.

Definition addTag (tag hidden : string) : string :=
  let tags := getTagsFromInput hidden in
  if tag \in tags then hidden else setTagsInForm (tags ++ [tag])%list.

Definition removeTag (tag hidden : string) : string :=
  setTagsInForm (List.filter (fun t => negb (String.eqb t tag)) (getTagsFromInput hidden)).

(** [.replace(/,$/, '')] *)
Definition strip_trailing_comma (s : string) : string :=
  if String.eqb (JsString.substring s (String.length s - 1) (String.length s)) ","
  then JsString.substring s 0 (String.length s - 1) else s.

(** [handleTagInput] on a key press: the new hidden field and text box. *)
Definition handleTagInput (key value hidden : string) : string * string :=
  if String.eqb key "Enter" || String.eqb key "," then
    let v := strip_trailing_comma (JsString.trim value) in
    ((if String.eqb v "" then hidden else addTag v hidden), "")
  else if String.eqb key "Backspace" && String.eqb value "" then
    match List.rev (getTagsFromInput hidden) with
    | t :: _ => (removeTag t hidden, value)
    | [] => (hidden, value)
    end
  else (hidden, value).

(** ** The book form and [bookData] *)

Record BookForm := {
  f_title : string; f_author : string; f_genre : string; f_isbn : string;
  f_status : string; f_date_read : string; f_date_started : string;
  f_tags : string; f_pages : string; f_pages_read : string;
  f_own_physical : bool; f_own_digital : bool; f_own_borrowed : bool;
  f_copies : string; f_borrowed_from : string; f_notes : string;
  f_cover_url : string; f_collections : list string; f_desc : string
}.

(** [parseInt(x) || d]: NaN and 0 fall back to [d]. *)
Definition int_or (s : string) (d : Z) : Z :=
  match JsString.parseInt s with Some v => if v =? 0 then d else v | None => d end.

(** [{ ...base, ...bookData }]: the form's fields over [base]. *)
Definition bookData (fm : BookForm) (currentRating : Z) (base : Book) : Book :=
  let a := JsString.trim (f_author fm) in
  {| id := id base; title := JsString.trim (f_title fm);
     author := if String.eqb a "" then "Unknown" else a;
     genre := JsString.trim (f_genre fm); isbn := JsString.trim (f_isbn fm);
     status := f_status fm; dateRead := f_date_read fm;
     dateStarted := f_date_started fm; tags := getTagsFromInput (f_tags fm);
     pages := int_or (f_pages fm) 0; pagesRead := int_or (f_pages_read fm) 0;
     rating := currentRating;
     ownPhysical := f_own_physical fm; ownDigital := f_own_digital fm;
     ownBorrowed := f_own_borrowed fm;
     copies := int_or (f_copies fm) (if f_own_physical fm then 1 else 0);
     borrowedFrom := JsString.trim (f_borrowed_from fm);
     notes := JsString.trim (f_notes fm); coverUrl := JsString.trim (f_cover_url fm);
     collections := f_collections fm; description := f_desc fm;
     dateAdded := dateAdded base; updatedAt := updatedAt base |}.

(** [{ ...b, updatedAt: t }] *)
Definition set_updatedAt (t : Z) (b : Book) : Book :=
  {| id := id b; title := title b; author := author b; genre := genre b;
     isbn := isbn b; status := status b; dateRead := dateRead b;
     dateStarted := dateStarted b; tags := tags b; pages := pages b;
     pagesRead := pagesRead b; rating := rating b;
     ownPhysical := ownPhysical b; ownDigital := ownDigital b;
     ownBorrowed := ownBorrowed b; copies := copies b;
     borrowedFrom := borrowedFrom b; notes := notes b;
     coverUrl := coverUrl b; collections := collections b;
     description := description b; dateAdded := dateAdded b; updatedAt := t |}.

(** [{ id: genId(), ...bookData, dateAdded: Date.now() }] before
    [bookData] is spread over it. *)
Definition new_book_base (newId : string) (now : Z) : Book :=
  sample_book newId "" "" "" "" 0 [] "" now.

(** ** The state the handlers read and write *)

Inductive SyncDot := DotSynced | DotSyncing | DotError.

Record Activity := { act_text : string; act_time : Z }.

Section Handlers.
Context {S : Type} `{DocStore S}.

Record LibState := {
    ls_user : option string;            (* [currentUser?.uid] *)
    ls_books : list Book;               (* [books] *)
    ls_store : S;                       (* [users/{uid}/books] *)
    ls_cols : list (string * string * Collection);  (* [users/{uid}/collections] *)
    ls_editing : option string;         (* [editingBookId] *)
    ls_rating : Z;                      (* [currentRating] *)
    ls_sync : SyncDot;                  (* the sync dot *)
    ls_activity : list Activity;        (* [activityLog] *)
    ls_toast : option (string * string);(* the last [showToast] *)
    ls_now : Z                          (* [Date.now()] *)
  }.

Definition set_store (st : S) (s : LibState) : LibState :=
    {| ls_user := ls_user s; ls_books := ls_books s; ls_store := st; ls_cols := ls_cols s;
       ls_editing := ls_editing s; ls_rating := ls_rating s; ls_sync := ls_sync s;
       ls_activity := ls_activity s; ls_toast := ls_toast s; ls_now := ls_now s |}.

Definition set_sync (d : SyncDot) (s : LibState) : LibState :=
    {| ls_user := ls_user s; ls_books := ls_books s; ls_store := ls_store s; ls_cols := ls_cols s;
       ls_editing := ls_editing s; ls_rating := ls_rating s; ls_sync := d;
       ls_activity := ls_activity s; ls_toast := ls_toast s; ls_now := ls_now s |}.

Definition set_activity (a : list Activity) (s : LibState) : LibState :=
    {| ls_user := ls_user s; ls_books := ls_books s; ls_store := ls_store s; ls_cols := ls_cols s;
       ls_editing := ls_editing s; ls_rating := ls_rating s; ls_sync := ls_sync s;
       ls_activity := a; ls_toast := ls_toast s; ls_now := ls_now s |}.

Definition showToast (msg kind : string) (s : LibState) : LibState :=
    {| ls_user := ls_user s; ls_books := ls_books s; ls_store := ls_store s; ls_cols := ls_cols s;
       ls_editing := ls_editing s; ls_rating := ls_rating s; ls_sync := ls_sync s;
       ls_activity := ls_activity s; ls_toast := Some (msg, kind); ls_now := ls_now s |}.

Definition set_modal (e : option string) (r : Z) (s : LibState) : LibState :=
    {| ls_user := ls_user s; ls_books := ls_books s; ls_store := ls_store s; ls_cols := ls_cols s;
       ls_editing := e; ls_rating := r; ls_sync := ls_sync s;
       ls_activity := ls_activity s; ls_toast := ls_toast s; ls_now := ls_now s |}.

Definition set_lib_books (bs : list Book) (s : LibState) : LibState :=
    {| ls_user := ls_user s; ls_books := bs; ls_store := ls_store s; ls_cols := ls_cols s;
       ls_editing := ls_editing s; ls_rating := ls_rating s; ls_sync := ls_sync s;
       ls_activity := ls_activity s; ls_toast := ls_toast s; ls_now := ls_now s |}.

(** [setDoc] of a collection document: replaces the one under the same
    key, or adds it. *)
Fixpoint col_set (k : string * string) (c : Collection)
    (m : list (string * string * Collection)) : list (string * string * Collection) :=
  match m with
  | [] => [(k, c)]
  | (k', c') :: r => if decide (k' = k) then (k, c) :: r else (k', c') :: col_set k c r
  end.

Definition set_cols (m : list (string * string * Collection)) (s : LibState) : LibState :=
    {| ls_user := ls_user s; ls_books := ls_books s; ls_store := ls_store s;
       ls_cols := m;
       ls_editing := ls_editing s; ls_rating := ls_rating s; ls_sync := ls_sync s;
       ls_activity := ls_activity s; ls_toast := ls_toast s; ls_now := ls_now s |}.

(** [saveCollectionToFirestore] (src/app.js:225-230): no user, no write. *)
Definition saveCollectionToFirestore (c : Collection) (s : LibState) : LibState :=
  match ls_user s with
  | None => s
  | Some u => set_cols (col_set (u, col_id c) c (ls_cols s)) s
  end.

(** [activityLog.unshift(...); if (activityLog.length > 20) activityLog.pop();] *)
Definition addActivity (text : string) (s : LibState) : LibState :=
    let l := {| act_text := text; act_time := ls_now s |} :: ls_activity s in
    set_activity (if (20 <? length l)%nat then removelast l else l) s.

(** [saveBookToFirestore]: no user, no write; otherwise [setDoc] of the
      book with the server's timestamp under its id. *)
Definition saveBookToFirestore (b : Book) (s : LibState) : LibState :=
    match ls_user s with
    | None => s
    | Some u => set_sync DotSynced
                  (set_store (doc_set u (id b) (set_updatedAt (ls_now s) b) (ls_store s)) s)
    end.

(** The edit of a book that is no longer in [books]: [{...undefined,
      ...bookData}] has no [id], [doc(booksCol(), undefined)] throws inside
      the [try], and the dot turns to error. *)
Definition saveBookToFirestore_noid (s : LibState) : LibState :=
    match ls_user s with None => s | Some _ => set_sync DotError s end.

Definition deleteBookFromFirestore (k : string) (s : LibState) : LibState :=
    match ls_user s with
    | None => s
    | Some u => set_sync DotSynced (set_store (doc_delete u k (ls_store s)) s)
    end.

Definition find_book (k : string) (bs : list Book) : option Book :=
    List.find (fun b => String.eqb (id b) k) bs.

(** [saveBook]: [newId] is the value [genId()] returns. *)
Definition saveBook (fm : BookForm) (newId : string) (s : LibState) : LibState :=
    let t := JsString.trim (f_title fm) in
    let a := JsString.trim (f_author fm) in
    if String.eqb t "" then showToast "Please enter a book title" "error" s
    else match ls_user s with
    | None => showToast "Please sign in to save books" "error" s
    | Some _ =>
        match ls_editing s with
        | Some eid =>
            let s1 := match find_book eid (ls_books s) with
                      | Some e => saveBookToFirestore
                                    (set_updatedAt (ls_now s) (bookData fm (ls_rating s) e)) s
                      | None => saveBookToFirestore_noid s
                      end in
            addActivity ("Updated <strong>" ++ t ++ "</strong>")
              (showToast (String "034" (t ++ String "034" " updated")) "success" s1)
        | None =>
            let b := bookData fm (ls_rating s) (new_book_base newId (ls_now s)) in
            addActivity ("Added <strong>" ++ t ++ "</strong> by " ++
                         (if String.eqb a "" then "Unknown" else a))
              (showToast (String "034" (t ++ String "034" " added to library")) "success"
                 (saveBookToFirestore b s))
        end
    end.

(** [deleteCurrentBook]; [confirmed] is the answer to [confirm(...)]. *)
Definition deleteCurrentBook (confirmed : bool) (s : LibState) : LibState :=
    match ls_editing s with
    | None => s
    | Some eid =>
        match find_book eid (ls_books s) with
        | None => s
        | Some b =>
            if negb confirmed then s else
            showToast (String "034" (title b ++ String "034" " deleted")) "info"
              (deleteBookFromFirestore eid
                 (addActivity ("Removed <strong>" ++ title b ++ "</strong>") s))
        end
    end.

(** [saveCollection] with [saveCollectionToFirestore]. *)
Definition saveCollection (rawName emoji newId : string) (s : LibState) : LibState :=
    let name := JsString.trim rawName in
    if String.eqb name "" then showToast "Enter a collection name" "error" s
    else
      let col := {| col_id := newId; col_name := name; col_emoji := emoji;
                    col_createdAt := ls_now s |} in
      showToast ("Collection " ++ String "034" (name ++ String "034" " created")) "success"
        (saveCollectionToFirestore col s).

(** [openAddModal] and [openEditModal] as far as they change the state. *)
Definition openAddModal (s : LibState) : LibState := set_modal None 0 s.

Definition openEditModal (bookId : string) (s : LibState) : LibState :=
    match find_book bookId (ls_books s) with
    | None => s
    | Some b => set_modal (Some bookId) (rating b) s
    end.

(** The books listener delivering the current user's documents. *)
Definition books_snapshot (s : LibState) : LibState :=
    match ls_user s with
    | None => s
    | Some u => set_lib_books (Sync.books_of_snapshot (doc_list (ls_store s) u)) s
    end.

Inductive LibEvent :=
  | LSaveBook (fm : BookForm) (newId : string)
  | LDelete (confirmed : bool)
  | LSaveCollection (name emoji newId : string)
  | LOpenAdd
  | LOpenEdit (bookId : string)
  | LSnapshot.

Definition lib_step (s : LibState) (e : LibEvent) : LibState :=
    match e with
    | LSaveBook fm k => saveBook fm k s
    | LDelete c => deleteCurrentBook c s
    | LSaveCollection n em k => saveCollection n em k s
    | LOpenAdd => openAddModal s
    | LOpenEdit k => openEditModal k s
    | LSnapshot => books_snapshot s
    end.
End Handlers.

(** ** The tag input *)

(** A tag the hidden field carries faithfully: non-empty, without ['|']. *)
Definition tag_ok (t : string) : Prop :=
  t <> "" /\ forall n, String.get n t <> Some "|"%char.

Lemma filter_truthy_id l : (forall t, In t l -> t <> "") -> List.filter truthy l = l.
Proof.
  induction l as [|t l IH]; intros H; simpl; [done|].
  unfold truthy at 1. destruct (String.eqb_spec t "") as [E|_]; simpl.
  - by destruct (H t (or_introl eq_refl)).
  - f_equal. apply IH. intros; apply H; by right.
Qed.

Lemma join_nonempty sep t l : t <> "" -> JsString.join sep (t :: l) <> "".
Proof. destruct l; simpl; [done|]. destruct t; [done|discriminate]. Qed.

Lemma tags_roundtrip ts :
  (forall t, In t ts -> tag_ok t) -> getTagsFromInput (setTagsInForm ts) = ts.
Proof.
  intros H. destruct ts as [|t0 ts]; [reflexivity|].
  unfold getTagsFromInput, setTagsInForm.
  destruct (String.eqb_spec (JsString.join tag_sep (t0 :: ts)) "") as [E|_].
  { exfalso. revert E. apply join_nonempty, (H t0 (or_introl eq_refl)). }
  change tag_sep with (String "|" "||"). rewrite split_join.
  - apply filter_truthy_id. intros t Ht. apply (H t Ht).
  - discriminate.
  - intros t n Ht. apply (H t Ht).
Qed.

(** The tag input.  For tags that are non-empty and contain no ['|'],
    the hidden field gives back the tags written into it; [addTag] appends
    a new tag and leaves a present one alone; [removeTag] drops every copy
    of the tag. *)
Theorem tag_input_spec ts tag :
  (forall t, In t ts -> tag_ok t) -> tag_ok tag ->
  getTagsFromInput (setTagsInForm ts) = ts /\
  getTagsFromInput (addTag tag (setTagsInForm ts)) =
    (if tag \in ts then ts else ts ++ [tag])%list /\
  getTagsFromInput (removeTag tag (setTagsInForm ts)) =
    List.filter (fun t => negb (String.eqb t tag)) ts.
Proof.
  intros Hts Ht. pose proof (tags_roundtrip ts Hts) as R. split_and!; [done| |].
  - unfold addTag. rewrite R. destruct (tag \in ts); [done|].
    apply tags_roundtrip. intros t [Hin|[<-|[]]]%in_app_or; auto.
  - unfold removeTag. rewrite R. apply tags_roundtrip.
    intros t [Hin _]%filter_In. auto.
Qed.

(** ** The handlers against the store's laws *)

Section LibFacts.
Context {St : Type} `{DocStoreLaws St}.

(** Documents are stored under their own id. *)
Definition store_wf (st : St) : Prop :=
    forall u k b, doc_get st u k = Some b -> id b = k.

Lemma store_wf_set st u k b :
    store_wf st -> id b = k -> store_wf (doc_set u k b st).
  Proof.
    intros W Hk u' k' b'. rewrite doc_get_set. destruct (decide _) as [E|_]; [|apply W].
    injection E as -> ->. by intros [= <-].
  Qed.

Lemma store_wf_delete st u k : store_wf st -> store_wf (doc_delete u k st).
  Proof. intros W u' k' b'. rewrite doc_get_delete. destruct (decide _); [done|apply W]. Qed.

Lemma get_set_other st u k b u' k' :
    (u', k') <> (u, k) -> doc_get (doc_set u k b st) u' k' = doc_get st u' k'.
  Proof. intros Hne. rewrite doc_get_set. by destruct (decide _). Qed.

Lemma get_delete_other st u k u' k' :
    (u', k') <> (u, k) -> doc_get (doc_delete u k st) u' k' = doc_get st u' k'.
  Proof. intros Hne. rewrite doc_get_delete. by destruct (decide _). Qed.

Lemma find_book_id k bs b : find_book k bs = Some b -> id b = k.
  Proof. intros [_ E]%find_some. by apply String.eqb_eq. Qed.

(** The activity log is a queue of the 20 newest entries. *)
Lemma addActivity_log t (s : @LibState St) :
    (length (ls_activity s) <= 20)%nat ->
    ls_activity (addActivity t s) =
      firstn 20 ({| act_text := t; act_time := ls_now s |} :: ls_activity s).
  Proof.
    intros Hl. unfold addActivity, set_activity. cbn [ls_activity ls_now].
    change (length (?x :: ?l)) with (S (length l)).
    destruct (Nat.ltb_spec 20 (S (length (ls_activity s)))).
    - rewrite removelast_firstn_len.
      replace (pred (length _)) with 20%nat by (simpl; lia). reflexivity.
    - symmetry. apply firstn_all2. simpl. lia.
  Qed.

(** Saving a new book (no book being edited) with a non-empty title
      while signed in as [u] writes one document under the fresh id, whose
      title is the trimmed title, whose author is the trimmed author or
      "Unknown", stamped with the current time and rating and the tags of
      the tag input; no other document changes, and the in-memory list
      waits for the snapshot. *)
Theorem saveBook_new fm k (s : @LibState St) u :
    JsString.trim (f_title fm) <> "" -> ls_user s = Some u -> ls_editing s = None ->
    (exists b, doc_get (ls_store (saveBook fm k s)) u k = Some b /\ id b = k /\
       title b = JsString.trim (f_title fm) /\
       author b = (if String.eqb (JsString.trim (f_author fm)) "" then "Unknown"
                   else JsString.trim (f_author fm)) /\
       dateAdded b = ls_now s /\ updatedAt b = ls_now s /\ rating b = ls_rating s /\
       tags b = getTagsFromInput (f_tags fm)) /\
    (forall u' k', (u', k') <> (u, k) ->
       doc_get (ls_store (saveBook fm k s)) u' k' = doc_get (ls_store s) u' k') /\
    ls_books (saveBook fm k s) = ls_books s /\ ls_sync (saveBook fm k s) = DotSynced.
  Proof.
    intros Ht Hu He. unfold saveBook.
    destruct (String.eqb_spec (JsString.trim (f_title fm)) "") as [|_]; [contradiction|].
    rewrite Hu, He. unfold saveBookToFirestore. rewrite Hu. simpl. split_and!; try done.
    - eexists. rewrite doc_get_set. destruct (decide _) as [_|C]; [|by destruct C].
      split_and!; reflexivity.
    - intros u' k' Hne. by apply get_set_other.
  Qed.

(** Saving while editing a book that is in [books] overwrites that
      book's document with the form's fields over the existing book: the
      id and [dateAdded] are kept, [updatedAt] is the current time; no
      other document changes. *)
Theorem saveBook_edit fm k (s : @LibState St) u eid e :
    JsString.trim (f_title fm) <> "" -> ls_user s = Some u -> ls_editing s = Some eid ->
    find_book eid (ls_books s) = Some e ->
    doc_get (ls_store (saveBook fm k s)) u eid =
      Some (set_updatedAt (ls_now s) (bookData fm (ls_rating s) e)) /\
    id e = eid /\
    (forall u' k', (u', k') <> (u, eid) ->
       doc_get (ls_store (saveBook fm k s)) u' k' = doc_get (ls_store s) u' k') /\
    ls_books (saveBook fm k s) = ls_books s.
  Proof.
    intros Ht Hu He Hf. pose proof (find_book_id _ _ _ Hf) as Hid. unfold saveBook.
    destruct (String.eqb_spec (JsString.trim (f_title fm)) "") as [|_]; [contradiction|].
    rewrite Hu, He, Hf. unfold saveBookToFirestore. rewrite Hu. simpl.
    change (id (set_updatedAt _ (bookData _ _ e))) with (id e). rewrite Hid.
    split_and!; try done.
    - rewrite doc_get_set. destruct (decide _) as [_|C]; [done|by destruct C].
    - intros u' k' Hne. by apply get_set_other.
  Qed.

(** [saveBook] refuses an empty (after trimming) title and a
      signed-out user: no document is written, the log and the list are
      unchanged, and an error toast is shown. *)
Theorem saveBook_rejects fm k (s : @LibState St) :
    JsString.trim (f_title fm) = "" \/ ls_user s = None ->
    ls_store (saveBook fm k s) = ls_store s /\ ls_books (saveBook fm k s) = ls_books s /\
    ls_activity (saveBook fm k s) = ls_activity s /\
    exists msg, ls_toast (saveBook fm k s) = Some (msg, "error").
  Proof.
    intros Hc. unfold saveBook.
    destruct (String.eqb_spec (JsString.trim (f_title fm)) "") as [|Hne]; [by eauto|].
    destruct Hc as [|Hu]; [contradiction|]. rewrite Hu. simpl. eauto.
  Qed.

(** C27: editing a book that has left [books] meanwhile (deleted on
      another device): [{...undefined, ...bookData}] has no id, so nothing
      is written and the sync dot shows an error, yet the success toast
      "updated" is shown and the update is logged. *)
Theorem saveBook_lost_edit fm k (s : @LibState St) u eid :
    JsString.trim (f_title fm) <> "" -> ls_user s = Some u -> ls_editing s = Some eid ->
    find_book eid (ls_books s) = None ->
    ls_store (saveBook fm k s) = ls_store s /\ ls_sync (saveBook fm k s) = DotError /\
    exists msg, ls_toast (saveBook fm k s) = Some (msg, "success").
  Proof.
    intros Ht Hu He Hf. unfold saveBook.
    destruct (String.eqb_spec (JsString.trim (f_title fm)) "") as [|_]; [contradiction|].
    rewrite Hu, He, Hf. unfold saveBookToFirestore_noid. rewrite Hu. simpl. eauto.
  Qed.

(** Deleting the book being edited: without confirmation nothing
      changes; with it, its document is removed and no other one. *)
Theorem deleteCurrentBook_spec (s : @LibState St) u eid b :
    ls_user s = Some u -> ls_editing s = Some eid -> find_book eid (ls_books s) = Some b ->
    deleteCurrentBook false s = s /\
    doc_get (ls_store (deleteCurrentBook true s)) u eid = None /\
    (forall u' k', (u', k') <> (u, eid) ->
       doc_get (ls_store (deleteCurrentBook true s)) u' k' = doc_get (ls_store s) u' k').
  Proof.
    intros Hu He Hf. unfold deleteCurrentBook. rewrite He, Hf. split; [done|].
    unfold deleteBookFromFirestore. simpl. rewrite Hu. simpl. split.
    - rewrite doc_get_delete. by destruct (decide _) as [_|C]; [|destruct C].
    - intros u' k' Hne. by apply get_delete_other.
  Qed.

(** ** The library invariant *)

Definition lib_inv (s : @LibState St) : Prop :=
    store_wf (ls_store s) /\ List.NoDup (map id (ls_books s)) /\
    (length (ls_activity s) <= 20)%nat.

Inductive lib_reachable : @LibState St -> Prop :=
  | lib_reach_init s :
      store_wf (ls_store s) -> ls_books s = [] -> ls_activity s = [] -> lib_reachable s
  | lib_reach_step s e : lib_reachable s -> lib_reachable (lib_step s e).

Lemma addActivity_inv t s : lib_inv s -> lib_inv (addActivity t s).
  Proof.
    intros (W & N & A). split_and!; [exact W|exact N|].
    rewrite addActivity_log by done. rewrite length_firstn. lia.
  Qed.

Lemma showToast_inv m k s : lib_inv s -> lib_inv (showToast m k s).
  Proof. done. Qed.

Lemma set_sync_inv d s : lib_inv s -> lib_inv (set_sync d s).
  Proof. done. Qed.

Lemma saveBookToFirestore_inv b s : lib_inv s -> lib_inv (saveBookToFirestore b s).
  Proof.
    intros (W & N & A). unfold saveBookToFirestore. destruct (ls_user s); [|done].
    split_and!; [apply store_wf_set|..]; done.
  Qed.

Lemma deleteBookFromFirestore_inv k s : lib_inv s -> lib_inv (deleteBookFromFirestore k s).
  Proof.
    intros (W & N & A). unfold deleteBookFromFirestore. destruct (ls_user s); [|done].
    split_and!; [apply store_wf_delete|..]; done.
  Qed.

(** A snapshot lists each document once, under the id it carries. *)
Lemma books_of_snapshot_ids docs :
    List.NoDup (map fst docs) -> List.NoDup (map id (Sync.books_of_snapshot docs)).
  Proof.
    intros Hnd. unfold Sync.books_of_snapshot.
    eapply Permutation_NoDup; [apply Permutation_map; symmetry; apply js_sort_perm|].
    rewrite map_map. exact Hnd.
  Qed.

Lemma books_snapshot_inv s : lib_inv s -> lib_inv (books_snapshot s).
  Proof.
    intros (W & N & A). unfold books_snapshot. destruct (ls_user s); [|done].
    split_and!; [done| |done]. apply books_of_snapshot_ids, doc_list_NoDup.
  Qed.

Create HintDb lib_inv.
Local Hint Resolve addActivity_inv showToast_inv set_sync_inv saveBookToFirestore_inv
    deleteBookFromFirestore_inv books_snapshot_inv : lib_inv.

Lemma lib_step_inv s e : lib_inv s -> lib_inv (lib_step s e).
  Proof.
    intros I. destruct e; simpl.
    - unfold saveBook, saveBookToFirestore_noid. repeat case_match; auto with lib_inv.
    - unfold deleteCurrentBook. repeat case_match; auto with lib_inv.
    - unfold saveCollection, saveCollectionToFirestore. repeat case_match; auto with lib_inv; apply I.
    - apply I.
    - unfold openEditModal. case_match; apply I.
    - auto with lib_inv.
  Qed.

(** C29: in every state reached from a store whose documents carry their
      own ids, by any sequence of saves, deletions, collection saves,
      modal openings and book snapshots: every stored document still
      carries its key as id, no two books in [books] share an id (the
      spec's identity invariant), and the activity log holds at most 20
      entries. *)
Theorem lib_invariant s :
    lib_reachable s ->
    (forall u k b, doc_get (ls_store s) u k = Some b -> id b = k) /\
    List.NoDup (map id (ls_books s)) /\ (length (ls_activity s) <= 20)%nat.
  Proof.
    induction 1 as [s W B A|s e _ IH].
    - split_and!; [done| rewrite B; constructor | rewrite A; simpl; lia].
    - by apply lib_step_inv.
  Qed.

(** [addActivity] puts the new entry first and keeps the 20 newest
      entries, without touching the store or the book list. *)
Theorem addActivity_queue t (s : @LibState St) :
    (length (ls_activity s) <= 20)%nat ->
    ls_activity (addActivity t s) =
      firstn 20 ({| act_text := t; act_time := ls_now s |} :: ls_activity s) /\
    ls_store (addActivity t s) = ls_store s /\ ls_books (addActivity t s) = ls_books s.
  Proof. intros Hl. split_and!; [by apply addActivity_log|done|done]. Qed.

End LibFacts.

(** ** Concrete runs on the [gmap] store *)

Definition form_dune : BookForm :=
  {| f_title := "  Dune "; f_author := " "; f_genre := "SciFi"; f_isbn := "";
     f_status := st_read; f_date_read := "2024-03-02"; f_date_started := "";
     f_tags := "sf|||classic"; f_pages := "412"; f_pages_read := "";
     f_own_physical := true; f_own_digital := false; f_own_borrowed := false;
     f_copies := ""; f_borrowed_from := ""; f_notes := ""; f_cover_url := "";
     f_collections := []; f_desc := "" |}.

Definition lib_s0 : @LibState GStore :=
  {| ls_user := Some "alice"; ls_books := []; ls_store := ∅; ls_cols := [];
     ls_editing := None; ls_rating := 5; ls_sync := DotSynced; ls_activity := [];
     ls_toast := None; ls_now := 1000 |}.

Definition dune_b1 : Book := sample_book "b1" "Dune" "Frank Herbert" "SciFi" st_read 4 [] "" 7.

(** Editing [b1], whose document is in the store. *)
Definition lib_s1 : @LibState GStore :=
  {| ls_user := Some "alice"; ls_books := [dune_b1];
     ls_store := doc_set "alice" "b1" dune_b1 ∅; ls_cols := [];
     ls_editing := Some "b1"; ls_rating := 5; ls_sync := DotSynced; ls_activity := [];
     ls_toast := None; ls_now := 2000 |}.

Lemma no_pipe_check t :
  forallb (fun c => negb (Ascii.eqb c "|"%char)) (list_ascii_of_string t) = true ->
  forall n, String.get n t <> Some "|"%char.
Proof.
  induction t as [|c t IH]; simpl; [discriminate|].
  intros [Hc Ht]%andb_true_iff [|n]; simpl.
  - intros [= ->]. discriminate Hc.
  - by apply IH.
Qed.

Ltac tag_ok_tac := split; [discriminate|apply no_pipe_check; reflexivity].

Lemma tag_input_spec_witness :
  getTagsFromInput (addTag "new" (setTagsInForm ["sf"; "classic"])) = ["sf"; "classic"; "new"].
Proof.
  destruct (tag_input_spec ["sf"; "classic"] "new") as [_ [E _]].
  - intros t Ht. repeat destruct Ht as [<-|Ht]; [tag_ok_tac|tag_ok_tac|destruct Ht].
  - tag_ok_tac.
  - rewrite E. vm_compute. reflexivity.
Defined.

(** A tag ending in ['|'] merges with the separator after it. *)
Example tag_with_pipe_corrupted :
  getTagsFromInput (setTagsInForm ["a|"; "b"]) = ["a"; "|b"].
Proof. vm_compute. reflexivity. Qed.

Lemma saveBook_new_witness :
  exists b, doc_get (ls_store (saveBook form_dune "b1" lib_s0)) "alice" "b1" = Some b /\
    title b = "Dune" /\ author b = "Unknown".
Proof.
  destruct (saveBook_new form_dune "b1" lib_s0 "alice") as [[b (Hg & _ & Ht & Ha & _)] _];
    [vm_compute; discriminate|reflexivity|reflexivity|].
  exists b. rewrite Ht, Ha. split_and!; [exact Hg|vm_compute; reflexivity|vm_compute; reflexivity].
Defined.

Lemma saveBook_edit_witness :
  doc_get (ls_store (saveBook form_dune "zz" lib_s1)) "alice" "b1" =
    Some (set_updatedAt 2000 (bookData form_dune 5 dune_b1)).
Proof.
  destruct (saveBook_edit form_dune "zz" lib_s1 "alice" "b1" dune_b1) as [E _];
    [vm_compute; discriminate|reflexivity|reflexivity|vm_compute; reflexivity|exact E].
Defined.

Lemma saveBook_rejects_witness :
  ls_store (saveBook {| f_title := "   "; f_author := ""; f_genre := ""; f_isbn := "";
     f_status := st_want; f_date_read := ""; f_date_started := ""; f_tags := "";
     f_pages := ""; f_pages_read := ""; f_own_physical := false; f_own_digital := false;
     f_own_borrowed := false; f_copies := ""; f_borrowed_from := ""; f_notes := "";
     f_cover_url := ""; f_collections := []; f_desc := "" |} "b9" lib_s0) = ls_store lib_s0.
Proof.
  match goal with |- ls_store (saveBook ?fm _ _) = _ =>
    destruct (saveBook_rejects fm "b9" lib_s0) as [E _]; [left; vm_compute; reflexivity|exact E]
  end.
Defined.

Lemma saveBook_lost_edit_witness :
  ls_sync (saveBook form_dune "zz" (set_lib_books [] lib_s1)) = DotError.
Proof.
  destruct (saveBook_lost_edit form_dune "zz" (set_lib_books [] lib_s1) "alice" "b1")
    as [_ [E _]]; [vm_compute; discriminate|reflexivity|reflexivity|reflexivity|exact E].
Defined.

Lemma deleteCurrentBook_spec_witness :
  doc_get (ls_store (deleteCurrentBook true lib_s1)) "alice" "b1" = None.
Proof.
  destruct (deleteCurrentBook_spec lib_s1 "alice" "b1" dune_b1) as [_ [E _]];
    [reflexivity|reflexivity|vm_compute; reflexivity|exact E].
Defined.

Lemma lib_invariant_witness :
  List.NoDup (map id (ls_books (lib_step (lib_step lib_s0 (LSaveBook form_dune "b1")) LSnapshot))).
Proof.
  destruct (lib_invariant (lib_step (lib_step lib_s0 (LSaveBook form_dune "b1")) LSnapshot))
    as [_ [N _]]; [|exact N].
  apply lib_reach_step, lib_reach_step, lib_reach_init; [|reflexivity|reflexivity].
  intros u k b H. vm_compute in H. discriminate H.
Defined.

Lemma addActivity_queue_witness :
  ls_activity (addActivity "x" lib_s0) = [{| act_text := "x"; act_time := 1000 |}].
Proof.
  destruct (addActivity_queue "x" lib_s0) as [E _]; [simpl; lia|]. rewrite E. reflexivity.
Defined.

End Library.
