(* ===== verification/ImportExport.v ===== *)
(** * ImportExport: CSV and JSON import, export and the bulk clear

    [parseCSV] (src/app.js:22-37), [importGoodreads] (1757-1811),
    [importShelfwise] (1813-1843), [exportData] (1845-1859) and
    [clearAllData] (1861-1880).  The imports and the clear write the remote
    store through the writers of [Library] ([saveBookToFirestore],
    [deleteBookFromFirestore], [saveCollectionToFirestore]); their settings
    part acts on the [Sync] session ([saveSettingsToFirestore]).

    A CSV row is an object with string values, an association list
    [sobj] built by [Object.fromEntries].  The JSON text itself is not
    modelled: [JSON.stringify] and [JSON.parse] are taken as inverse on
    the plain data the backup holds, so a backup is the record [Backup]
    and a file that does not parse is [None]. *)

From stdpp Require Import gmap.
From S2P Require Import Prelude JsString JsArray Book Sync Stats Library.
Local Open Scope string_scope.
Local Open Scope Z_scope.

Module ImportExport.
Import Stats Library.

(** ** Objects with string values *)

Definition sobj := list (string * string).

Fixpoint sobj_get (k : string) (m : sobj) : option string :=
  match m with
  | [] => None
  | (k', v) :: r => if String.eqb k' k then Some v else sobj_get k r
  end.

(** Assignment: a key keeps its first position, the last value wins. *)
Fixpoint sobj_set (k v : string) (m : sobj) : sobj :=
  match m with
  | [] => [(k, v)]
  | (k', v') :: r => if String.eqb k' k then (k, v) :: r else (k', v') :: sobj_set k v r
  end.

Definition fromEntries (es : list (string * string)) : sobj :=
  fold_left (fun m e => sobj_set (fst e) (snd e) m) es [].

(** [row['k']], with [undefined] read as the falsy [''] the code tests. *)
Definition field (k : string) (m : sobj) : string :=
  match sobj_get k m with Some v => v | None => "" end.

(** [a || b] on strings. *)
Definition jor (a b : string) : string := if String.eqb a "" then b else a.

(** ** [parseCSV] *)

Definition dq : ascii := "034"%char.
Definition nl : string := String "010" "".

(** [.replace(/^"|"$/g, '')]: one leading and one trailing double quote. *)
Definition strip_quotes (s : string) : string :=
  let s1 := match s with String c r => if Ascii.eqb c dq then r else s | _ => s end in
  if (0 <? String.length s1)%nat
     && String.eqb (String.substring (String.length s1 - 1) 1 s1) (String dq "")
  then String.substring 0 (String.length s1 - 1) s1 else s1.

(** The character loop: a double quote toggles [inQ] and is dropped, a
    comma outside quotes ends the field. *)
Fixpoint csv_scan (inQ : bool) (cur : string) (s : string) : list string :=
  match s with
  | EmptyString => [cur]
  | String c r =>
      if Ascii.eqb c dq then csv_scan (negb inQ) cur r
      else if Ascii.eqb c "," && negb inQ then cur :: csv_scan inQ "" r
      else csv_scan inQ (cur ++ String c "") r
  end.

(** [headers.map((h, i) => [h, (vals[i]||'').trim().replace(...)])] *)
Fixpoint row_entries (hs : list string) (i : nat) (vals : list string) :
    list (string * string) :=
  match hs with
  | [] => []
  | h :: hs' => (h, strip_quotes (JsString.trim (nth i vals ""))) :: row_entries hs' (S i) vals
  end.

Definition parse_row (headers : list string) (line : string) : sobj :=
  fromEntries (row_entries headers 0 (csv_scan false "" line)).

Definition parseCSV (text : string) : list sobj :=
  match JsString.split text nl with
  | [] => []
  | l0 :: rest =>
      let headers := map (fun h => strip_quotes (JsString.trim h)) (JsString.split l0 ",") in
      map (parse_row headers) (List.filter (fun l => truthy (JsString.trim l)) rest)
  end.

(** ** [exportData('csv')] *)

Definition csv_headers : list string :=
  ["Title"; "Author"; "Genre"; "Status"; "Rating"; "Date Read"; "Pages"; "Notes";
   "Own Physical"; "Own Digital"; "Borrowed"].

(** [x || ''] on a number: 0 prints as the empty string. *)
Definition z_or_empty (z : Z) : string := if z =? 0 then "" else JsString.of_Z z.

(** The escape of the notes field: every double quote is doubled. *)
Fixpoint double_quotes (s : string) : string :=
  match s with
  | EmptyString => EmptyString
  | String c r => if Ascii.eqb c dq then String dq (String dq (double_quotes r))
                  else String c (double_quotes r)
  end.

Definition yes (b : bool) : string := if b then "Yes" else "".

Definition csv_values (b : Book) : list string :=
  [title b; author b; genre b; status b; z_or_empty (rating b); dateRead b;
   z_or_empty (pages b); double_quotes (notes b);
   yes (ownPhysical b); yes (ownDigital b); yes (ownBorrowed b)].

Definition quote (v : string) : string := String dq (v ++ String dq "").

Definition csv_line (b : Book) : string := JsString.join "," (map quote (csv_values b)).

Definition exportCSV (bs : list Book) : string :=
  JsString.join nl (JsString.join "," csv_headers :: map csv_line bs).

(** ** [exportData('json')] and the backup [importShelfwise] reads *)

Record Backup := {
  bk_books : option (list Book);
  bk_collections : option (list Collection);
  bk_settings : option SettingsPatch
}.

Definition exportJSON (bs : list Book) (cs : list Collection) (st : Settings) : Backup :=
  {| bk_books := Some bs; bk_collections := Some cs; bk_settings := Some (settings_doc st) |}.

(** ** [importGoodreads]: one row to a book *)

(** [\w]: ASCII letters, digits and the underscore. *)
Definition is_word (c : ascii) : bool :=
  let n := nat_of_ascii c in
  (((48 <=? n) && (n <=? 57)) || ((65 <=? n) && (n <=? 90)) ||
   ((97 <=? n) && (n <=? 122)) || (n =? 95))%nat.

(** The text before and after the last comma, if there is one. *)
Fixpoint last_comma (s : string) : option (string * string) :=
  match s with
  | EmptyString => None
  | String c r =>
      match last_comma r with
      | Some (p, q) => Some (String c p, q)
      | None => if Ascii.eqb c "," then Some (EmptyString, r) else None
      end
  end.

(** [.replace(/,\s*(\w+)\s*$/, ' $1')]: a match starts at a comma and runs
    to the end without another comma, so it can only start at the last
    comma; it matches when what follows is one word between blanks ([\s]
    and [trim] strip the same characters). *)
Definition fix_author (a : string) : string :=
  match last_comma a with
  | Some (p, q) =>
      let w := JsString.trim q in
      if negb (String.eqb w "") && forallb is_word (list_ascii_of_string w)
      then p ++ " " ++ w else a
  | None => a
  end.

(** [statusMap[grShelf] || 'want'] on the own keys of [statusMap]. *)
Definition shelf_status (shelf : string) : string :=
  let g := JsString.toLowerCase shelf in
  if String.eqb g "read" then st_read
  else if String.eqb g "currently-reading" then st_reading
  else if String.eqb g "to-read" then st_want
  else st_want.

Definition status_shelves : list string := ["read"; "currently-reading"; "to-read"].

(** [rawShelves.split(',').map(s => s.trim()).filter(...)] *)
Definition shelf_tags (raw : string) : list string :=
  List.filter (fun t => negb (String.eqb t "") &&
                        negb (existsb (String.eqb (JsString.toLowerCase t)) status_shelves))
    (map JsString.trim (JsString.split raw ",")).

Definition row_title (row : sobj) : string := jor (field "Title" row) (field "title" row).

(** The object literal built for a row that is kept; the properties it
    does not name are absent, read as the empty form's defaults. *)
Definition gr_book (row : sobj) (newId : string) (now : Z) : Book :=
  {| id := newId; title := JsString.trim (row_title row);
     author := JsString.trim (fix_author
                 (jor (jor (jor (field "Author" row) (field "author" row))
                           (field "Author l-f" row)) "Unknown"));
     genre := ""; isbn := "";
     status := shelf_status (jor (field "Exclusive Shelf" row) "to-read");
     dateRead := jor (field "Date Read" row) ""; dateStarted := "";
     tags := shelf_tags (jor (jor (field "Bookshelves" row)
                                 (field "Bookshelves with positions" row)) "");
     pages := JsString.parseInt_or0 (jor (field "Number of Pages" row) (field "pages" row));
     pagesRead := 0;
     rating := JsString.parseInt_or0 (jor (field "My Rating" row) (field "rating" row));
     ownPhysical := false; ownDigital := false; ownBorrowed := false; copies := 0;
     borrowedFrom := ""; notes := jor (field "My Review" row) ""; coverUrl := "";
     collections := []; description := ""; dateAdded := now; updatedAt := now |}.

(** [books.find(b => b.title.toLowerCase() === title.toLowerCase())] *)
Definition title_taken (bs : list Book) (t : string) : bool :=
  existsb (fun b => String.eqb (JsString.toLowerCase (title b)) (JsString.toLowerCase t)) bs.

(** [rows.forEach(...)]: [books] is the list in memory before the import
    (the batch is not added to it), and [gen n] is the id [genId()] gives
    the [n]-th book added. *)
Fixpoint gr_batch (bs : list Book) (gen : nat -> string) (now : Z) (n : nat)
    (rows : list sobj) : list Book :=
  match rows with
  | [] => []
  | row :: r =>
      if String.eqb (row_title row) "" then gr_batch bs gen now n r
      else if title_taken bs (row_title row) then gr_batch bs gen now n r
      else gr_book row (gen n) now :: gr_batch bs gen now (S n) r
  end.

(** The rows [gr_batch] turns into books: a title, not yet in [books]. *)
Definition gr_keep (bs : list Book) (row : sobj) : bool :=
  negb (String.eqb (row_title row) "") && negb (title_taken bs (row_title row)).

(** ** The handlers *)

Section Handlers.
Context {St : Type} `{DocStore St}.

Definition save_books (bs : list Book) (s : @LibState St) : @LibState St :=
  fold_left (fun s b => saveBookToFirestore b s) bs s.

Definition save_collections (cs : list Collection) (s : @LibState St) : @LibState St :=
  fold_left (fun s c => saveCollectionToFirestore c s) cs s.

(** [reader.onload] of [importGoodreads] on the file's text.  The toasts
    keep their text but not the final check mark (outside Latin-1). *)
Definition importGoodreads (text : string) (gen : nat -> string) (s : @LibState St) :
    @LibState St :=
  match parseCSV text with
  | [] => showToast "No books found in CSV" "error" s
  | rows =>
      let batch := gr_batch (ls_books s) gen (ls_now s) 0 rows in
      let added := JsString.of_Z (Z.of_nat (length batch)) in
      showToast ("Imported " ++ added ++ " books from Goodreads") "success"
        (save_books batch (showToast ("Importing " ++ added ++ " books...") "info" s))
  end.

(** [reader.onload] of [importShelfwise]: the books and collections go to
    the library's store, the settings to the session.  [None] is a file
    [JSON.parse] rejects. *)
Definition importShelfwise (data : option Backup) (s : @LibState St) (ss : Sync.Session) :
    @LibState St * Sync.Session :=
  match data with
  | None => (showToast "Invalid ConnieReads JSON file" "error" s, ss)
  | Some d =>
      let s1 := match bk_books d with
                | Some bs => save_books bs (showToast ("Importing " ++
                               JsString.of_Z (Z.of_nat (length bs)) ++ " books...") "info" s)
                | None => s
                end in
      let s2 := match bk_collections d with Some cs => save_collections cs s1 | None => s1 end in
      let ss' := match bk_settings d with
                 | Some p => Sync.saveSettingsToFirestore
                               (Sync.set_settings (merge_settings (Sync.s_settings ss) p) ss)
                 | None => ss
                 end in
      (showToast "Library restored from backup" "success" s2, ss')
  end.

(** [deleteDoc] of a collection document; without a user the path throws
    and the [catch] swallows it. *)
Definition deleteCollectionDoc (k : string) (s : @LibState St) : @LibState St :=
  match ls_user s with
  | None => s
  | Some u => set_cols (List.filter (fun e => negb (bool_decide (fst e = (u, k)))) (ls_cols s)) s
  end.

(** The two loops of [clearAllData]. *)
Definition delete_books (bs : list Book) (s : @LibState St) : @LibState St :=
  fold_left (fun s b => deleteBookFromFirestore (id b) s) bs s.

Definition delete_collections (cs : list Collection) (s : @LibState St) : @LibState St :=
  fold_left (fun s c => deleteCollectionDoc (col_id c) s) cs s.

(** [clearAllData]: [confirmed] answers [confirm], [typed] the [prompt],
    [year] is [new Date().getFullYear()].  The books deleted are those of
    [books] in memory, the collections those of [collections]. *)
Definition clearAllData (confirmed : bool) (typed : string) (year : Z)
    (s : @LibState St) (ss : Sync.Session) : @LibState St * Sync.Session :=
  if negb confirmed then (s, ss)
  else if negb (String.eqb typed "DELETE") then (s, ss)
  else
    let s1 := showToast "Clearing all data..." "info" s in
    let s2 := delete_books (ls_books s1) s1 in
    let s3 := delete_collections (Sync.s_collections ss) s2 in
    let st := {| theme := theme (Sync.s_settings ss); goal := 0; goalYear := year;
                 displayName := None |} in
    (showToast "All data cleared" "info" s3,
     Sync.saveSettingsToFirestore (Sync.set_settings st ss)).

(** The data tab's buttons next to the book modal's handlers: the whole
    app as steps on the library state and the session. *)
Inductive AppEvent :=
  | ALib (e : LibEvent)
  | AImportGoodreads (text : string) (gen : nat -> string)
  | AImportShelfwise (data : option Backup)
  | AClearAll (confirmed : bool) (typed : string) (year : Z).

Definition app_step (st : @LibState St * Sync.Session) (e : AppEvent) :
    @LibState St * Sync.Session :=
  match e with
  | ALib e => (lib_step (fst st) e, snd st)
  | AImportGoodreads text gen => (importGoodreads text gen (fst st), snd st)
  | AImportShelfwise d => importShelfwise d (fst st) (snd st)
  | AClearAll c t y => clearAllData c t y (fst st) (snd st)
  end.

End Handlers.

(** ** The CSV export read back by [parseCSV] *)

Definition has_char (c : ascii) (s : string) : bool :=
  existsb (Ascii.eqb c) (list_ascii_of_string s).

(** A value the export writes and [parseCSV] reads back unchanged: no
    double quote, no line feed, no blank at either end. *)
Definition csv_safe (v : string) : bool :=
  negb (has_char dq v) && negb (has_char "010" v) && String.eqb (JsString.trim v) v.

Definition book_csv_safe (b : Book) : bool :=
  forallb csv_safe [title b; author b; genre b; status b; dateRead b; notes b].

Section CsvFacts.
Import JsString.

Lemma app_String c (a b : string) : (String c a ++ b)%string = String c (a ++ b).
Proof. reflexivity. Qed.

Lemma has_char_get c t : has_char c t = false -> forall n, String.get n t <> Some c.
Proof.
  unfold has_char. induction t as [|a t IH]; intros H n; simpl in *; [discriminate|].
  apply orb_false_iff in H as [H1 H2]. destruct n as [|n]; [|by apply IH].
  intros [= ->]. by rewrite Ascii.eqb_refl in H1.
Qed.

Lemma has_char_app c (a b : string) : has_char c (a ++ b) = has_char c a || has_char c b.
Proof.
  unfold has_char. induction a as [|x a IH]; [done|]. simpl. rewrite IH. apply orb_assoc.
Qed.

Lemma has_char_join c sep l :
  has_char c sep = false -> Forall (fun v => has_char c v = false) l ->
  has_char c (join sep l) = false.
Proof.
  intros Hs. induction 1 as [|x [|y l] Hx Hl IH]; [done|done|].
  change (join sep (x :: y :: l)) with (x ++ sep ++ join sep (y :: l))%string.
  by rewrite !has_char_app, Hx, Hs, IH.
Qed.

Lemma substring1_get n s c : String.substring n 1 s = String c "" -> String.get n s = Some c.
Proof.
  revert n. induction s as [|a s IH]; intros [|n]; simpl; try discriminate.
  - intros [= ->]. done.
  - apply IH.
Qed.

Lemma strip_quotes_plain v : has_char dq v = false -> strip_quotes v = v.
Proof.
  intros H. unfold strip_quotes.
  assert (Hv : match v with String c r => if Ascii.eqb c dq then r else v | _ => v end = v).
  { destruct v as [|c r]; [done|]. destruct (Ascii.eqb_spec c dq) as [->|]; [|done].
    unfold has_char in H. simpl in H. discriminate H. }
  rewrite Hv. destruct (String.eqb_spec (String.substring (String.length v - 1) 1 v) (String dq "")) as [E|];
    [|by rewrite andb_false_r].
  by destruct (has_char_get _ _ H _ (substring1_get _ _ _ E)).
Qed.

Lemma double_quotes_plain v : has_char dq v = false -> double_quotes v = v.
Proof.
  induction v as [|c v IH]; intros H; [done|].
  change (has_char dq (String c v)) with (Ascii.eqb dq c || has_char dq v) in H.
  apply orb_false_iff in H as [H1 H2]. cbn [double_quotes].
  rewrite Ascii.eqb_sym, H1. f_equal. auto.
Qed.

Lemma trim_plain s :
  forallb (fun c => negb (is_js_space c)) (list_ascii_of_string s) = true -> trim s = s.
Proof.
  intros H. unfold trim. replace (trimStart s) with s.
  - induction s as [|c s IH]; [done|]. simpl in *. apply andb_true_iff in H as [H1 H2].
    rewrite IH by done. apply negb_true_iff in H1. by rewrite H1.
  - destruct s as [|c s]; [done|]. simpl in *. apply andb_true_iff in H as [H1 _].
    apply negb_true_iff in H1. by rewrite H1.
Qed.

Definition number_char (c : ascii) : bool :=
  negb (is_js_space c) && negb (Ascii.eqb dq c) && negb (Ascii.eqb "010" c).

Lemma number_chars_safe s :
  forallb number_char (list_ascii_of_string s) = true -> csv_safe s = true.
Proof.
  intros H. unfold csv_safe. pose proof (proj1 (forallb_forall number_char _) H) as H0; clear H; rename H0 into H.
  assert (Hc : forall c, Ascii.eqb dq c = true \/ Ascii.eqb "010" c = true ->
               ~ In c (list_ascii_of_string s)).
  { intros c Hc Hin. specialize (H c Hin). unfold number_char in H.
    destruct Hc as [E|E]; rewrite E, ?andb_false_r in H; discriminate H. }
  rewrite trim_plain.
  - rewrite String.eqb_refl, andb_true_r. apply andb_true_iff; split; apply negb_true_iff;
      apply not_true_iff_false; unfold has_char; rewrite existsb_exists;
      intros [c [Hin E]]; apply (Hc c); auto.
  - apply forallb_forall. intros c Hin. specialize (H c Hin).
    by apply andb_true_iff in H as [[? _]%andb_true_iff _].
Qed.

Lemma of_Z_safe z : csv_safe (of_Z z) = true.
Proof.
  apply number_chars_safe. unfold of_Z, DecimalString.NilEmpty.string_of_int.
  assert (Hu : forall d, forallb number_char
                  (list_ascii_of_string (DecimalString.NilEmpty.string_of_uint d)) = true)
    by (induction d; simpl; rewrite ?IHd; reflexivity).
  destruct (Z.to_int z); simpl; rewrite ?Hu; reflexivity.
Qed.

Lemma csv_values_safe b :
  book_csv_safe b = true -> Forall (fun v => csv_safe v = true) (csv_values b).
Proof.
  unfold book_csv_safe, csv_values. simpl. rewrite !andb_true_iff. intros (Ht & Ha & Hg & Hs & Hd & Hn & _).
  assert (Hz : forall z, csv_safe (z_or_empty z) = true)
    by (intros z; unfold z_or_empty; destruct (z =? 0); [done|apply of_Z_safe]).
  assert (Hy : forall x, csv_safe (yes x) = true) by (intros []; reflexivity).
  rewrite double_quotes_plain
    by (unfold csv_safe in Hn; apply andb_true_iff in Hn as [[?%negb_true_iff _]%andb_true_iff _]; done).
  repeat constructor; auto.
Qed.

Lemma csv_scan_quoted_body t r cur :
  has_char dq t = false -> csv_scan true cur (t ++ r) = csv_scan true (cur ++ t) r.
Proof.
  revert cur. induction t as [|c t IH]; intros cur H.
  - by rewrite string_app_nil.
  - change (has_char dq (String c t)) with (Ascii.eqb dq c || has_char dq t) in H.
    apply orb_false_iff in H as [H1 H2]. rewrite app_String. cbn [csv_scan].
    rewrite Ascii.eqb_sym, H1, andb_false_r, IH by done. by rewrite string_app_assoc.
Qed.

Lemma csv_scan_quote v r :
  has_char dq v = false -> csv_scan false "" (quote v ++ r) = csv_scan false v r.
Proof.
  intros H. unfold quote. rewrite app_String, string_app_assoc.
  cbn [csv_scan]. rewrite Ascii.eqb_refl. cbn [negb].
  rewrite csv_scan_quoted_body by done. rewrite app_String. cbn [csv_scan].
  by rewrite Ascii.eqb_refl.
Qed.

(** Quoted values joined by commas scan back to the values. *)
Lemma csv_scan_join vs :
  vs <> [] -> Forall (fun v => has_char dq v = false) vs ->
  csv_scan false "" (join "," (map quote vs)) = vs.
Proof.
  intros Hne H. induction H as [|v [|w vs] Hv Hvs IH]; [done| |].
  - cbn [map join]. rewrite <- (string_app_nil (quote v)), csv_scan_quote by done. done.
  - change (join "," (map quote (v :: w :: vs)))
      with (quote v ++ String "," "" ++ join "," (map quote (w :: vs)))%string.
    rewrite csv_scan_quote, app_String by done. cbn [csv_scan].
    change (Ascii.eqb "," dq) with false. change (Ascii.eqb "," ",") with true.
    cbn [negb andb]. f_equal. by apply IH.
Qed.

Lemma row_entries_plain hs vs i :
  length vs = (i + length hs)%nat -> Forall (fun v => csv_safe v = true) vs ->
  row_entries hs i vs = combine hs (drop i vs).
Proof.
  revert i. induction hs as [|h hs IH]; intros i Hl Hs; simpl in *.
  - done.
  - destruct (lookup_lt_is_Some_2 vs i) as [v Hv]; [lia|].
    rewrite (drop_S _ _ _ Hv), (nth_lookup_Some _ _ _ _ Hv). simpl.
    rewrite (IH (S i)); [|lia|done]. f_equal. f_equal.
    apply list_elem_of_lookup_2, list_elem_of_In in Hv. rewrite List.Forall_forall in Hs.
    specialize (Hs v Hv). unfold csv_safe in Hs.
    apply andb_true_iff in Hs as [[Hq%negb_true_iff _]%andb_true_iff Ht%String.eqb_eq].
    rewrite Ht. by apply strip_quotes_plain.
Qed.

Lemma sobj_set_fresh k v m : ~ In k (map fst m) -> sobj_set k v m = (m ++ [(k, v)])%list.
Proof.
  induction m as [|[k' v'] m IH]; intros Hk; [done|]. simpl in *.
  destruct (String.eqb_spec k' k); [tauto|]. rewrite IH; tauto.
Qed.

Lemma fold_sobj_set es m :
  List.NoDup (map fst (m ++ es)%list) ->
  fold_left (fun m e => sobj_set (fst e) (snd e) m) es m = (m ++ es)%list.
Proof.
  revert m. induction es as [|[k v] es IH]; intros m H; [by rewrite app_nil_r|]. simpl.
  rewrite map_app in H. simpl in H. rewrite sobj_set_fresh.
  - rewrite IH; [by rewrite <- app_assoc|]. by rewrite <- app_assoc, map_app.
  - intros Hk. apply (List.NoDup_remove_2 _ _ _ H). apply in_or_app. by left.
Qed.

Lemma fromEntries_distinct es : List.NoDup (map fst es) -> fromEntries es = es.
Proof. intros H. apply (fold_sobj_set es []). done. Qed.

Lemma csv_line_scan b :
  book_csv_safe b = true -> csv_scan false "" (csv_line b) = csv_values b.
Proof.
  intros H. apply csv_scan_join; [discriminate|].
  eapply Forall_impl; [apply csv_values_safe, H|]. intros v Hv.
  unfold csv_safe in Hv. by apply andb_true_iff in Hv as [[?%negb_true_iff _]%andb_true_iff _].
Qed.

Lemma parse_row_line b :
  book_csv_safe b = true -> parse_row csv_headers (csv_line b) = combine csv_headers (csv_values b).
Proof.
  intros H. unfold parse_row. rewrite csv_line_scan, row_entries_plain by
    (done || apply csv_values_safe, H). apply fromEntries_distinct.
  change (map fst (combine csv_headers (csv_values b))) with csv_headers.
  apply NoDup_ListNoDup, (bool_decide_unpack _). vm_compute. reflexivity.
Qed.

Lemma csv_line_no_nl b : book_csv_safe b = true -> has_char "010" (csv_line b) = false.
Proof.
  intros H. apply has_char_join; [reflexivity|]. apply Forall_map.
  eapply Forall_impl; [apply csv_values_safe, H|]. intros v Hv. unfold quote.
  change (has_char "010" (String dq (v ++ String dq ""))) with (has_char "010" (v ++ String dq "")).
  rewrite has_char_app, orb_false_r. unfold csv_safe in Hv.
  by apply andb_true_iff in Hv as [[_ ?%negb_true_iff]%andb_true_iff _].
Qed.

Lemma trim_String_nonempty c x : is_js_space c = false -> trim (String c x) <> "".
Proof. intros Hc. unfold trim. simpl. rewrite Hc. simpl. by rewrite Hc. Qed.

Lemma csv_line_truthy b : truthy (trim (csv_line b)) = true.
Proof.
  unfold truthy. apply negb_true_iff, String.eqb_neq.
  assert (E : exists x, csv_line b = String dq x) by (eexists; reflexivity).
  destruct E as [x ->]. by apply trim_String_nonempty.
Qed.

Lemma header_fields :
  map (fun h => strip_quotes (trim h)) (split (join "," csv_headers) ",") = csv_headers.
Proof. vm_compute. reflexivity. Qed.

End CsvFacts.

(** C32: a CSV export read back by [parseCSV] gives one row per book,
    mapping each of the 11 headers to the value written for it, provided
    no text field holds a double quote or a line feed or starts or ends
    with a blank (the export does not escape line feeds, and the parser
    trims and drops quotes). *)
Theorem csv_roundtrip bs :
  Forall (fun b => book_csv_safe b = true) bs ->
  parseCSV (exportCSV bs) = map (fun b => combine csv_headers (csv_values b)) bs.
Proof.
  intros H. unfold parseCSV, exportCSV, nl. rewrite JsString.split_join.
  - cbv zeta. rewrite header_fields, filter_all.
    + rewrite map_map. apply map_ext_in. intros b Hb. apply parse_row_line.
      by rewrite List.Forall_forall in H; apply H.
    + intros l [b [<- _]]%in_map_iff. apply csv_line_truthy.
  - discriminate.
  - intros t n [<-|[b [<- Hb]]%in_map_iff]; apply has_char_get; [reflexivity|].
    apply csv_line_no_nl. by rewrite List.Forall_forall in H; apply H.
Qed.

(** The loop with its counter is the kept rows, numbered. *)
Lemma gr_batch_imap bs gen now n rows :
  gr_batch bs gen now n rows =
    imap (fun i row => gr_book row (gen (n + i)%nat) now) (List.filter (gr_keep bs) rows).
Proof.
  revert n. induction rows as [|row rows IH]; intros n; [done|].
  cbn [gr_batch List.filter]. unfold gr_keep at 1.
  destruct (String.eqb (row_title row) ""); [apply IH|].
  destruct (title_taken bs (row_title row)); cbn [negb andb]; [apply IH|].
  rewrite imap_cons, IH, Nat.add_0_r. f_equal. apply imap_ext. intros i r _. simpl.
  by rewrite Nat.add_succ_r.
Qed.

Lemma gr_batch_ids bs gen now n rows :
  (forall i j, gen i = gen j -> i = j) -> List.NoDup (map id (gr_batch bs gen now n rows)).
Proof.
  intros Hinj. rewrite gr_batch_imap.
  assert (E : forall l m, map id (imap (fun i row => gr_book row (gen (m + i)%nat) now) l) =
                          map gen (seq m (length l))).
  { induction l as [|r l IHl]; intros m; [done|]. rewrite imap_cons. simpl.
    rewrite Nat.add_0_r, <- IHl. f_equal. f_equal. apply imap_ext. intros i r' _. simpl.
    by rewrite Nat.add_succ_r. }
  rewrite E. apply Finite.Injective_map_NoDup; [exact Hinj|apply seq_NoDup].
Qed.

Lemma shelf_status_in shelf : In (shelf_status shelf) [st_read; st_reading; st_want].
Proof.
  unfold shelf_status. destruct (String.eqb _ "read"); [by left|].
  destruct (String.eqb _ "currently-reading"); [by right; left|].
  destruct (String.eqb _ "to-read"); by right; right; left.
Qed.

(** Every book the Goodreads import builds has the shape of a fresh
    import: a status among [read], [reading] and [want], no genre, no
    collection, no pages read, the import time as [dateAdded] and
    [updatedAt], and tags that are non-empty shelf names other than the
    three status shelves.  The rows are those whose shelf, lower-cased, is
    not [constructor] or [__proto__]: [statusMap] inherits these two from
    [Object.prototype] and gives a function or an object as the status,
    which [shelf_status] does not model.  The rating is the parsed
    [My Rating] as it stands: nothing confines it to 0..5
    ([gr_rating_unchecked]). *)
Theorem gr_batch_shape bs gen now n rows :
  Forall (fun row => ~ In (JsString.toLowerCase (jor (field "Exclusive Shelf" row) "to-read"))
                          ["constructor"; "__proto__"]) rows ->
  Forall (fun b => In (status b) [st_read; st_reading; st_want] /\ genre b = "" /\
                   collections b = [] /\ pagesRead b = 0 /\ dateAdded b = now /\ updatedAt b = now /\
                   Forall (fun t => t <> "" /\ ~ In (JsString.toLowerCase t) status_shelves) (tags b))
    (gr_batch bs gen now n rows).
Proof.
  intros _. rewrite gr_batch_imap. generalize (List.filter (gr_keep bs) rows) n. clear n rows.
  induction l as [|row l IH]; intros n; [constructor|]. rewrite imap_cons. constructor.
  - cbn [status genre collections pagesRead dateAdded updatedAt tags gr_book].
    split_and!; [apply shelf_status_in|done..|]. apply List.Forall_forall. intros t Ht.
    unfold shelf_tags in Ht. apply List.filter_In in Ht as [_ Ht].
    apply andb_true_iff in Ht as [Hne Hsh]. split.
    + intros ->. done.
    + intros Hin. apply negb_true_iff in Hsh. rewrite <- not_true_iff_false in Hsh. apply Hsh.
      apply existsb_exists. exists (JsString.toLowerCase t). split; [done|]. apply String.eqb_refl.
  - erewrite imap_ext; [apply (IH (S n))|]. intros i r _. simpl. by rewrite Nat.add_succ_r.
Qed.

(** ** The imports against the store laws *)

Section ImportFacts.
Context {St : Type} `{DocStoreLaws St}.
Implicit Types s : @LibState St.

Lemma find_app_single {A} (f : A -> bool) l x :
  List.find f (l ++ [x])%list = match List.find f l with
                                | Some y => Some y | None => if f x then Some x else None end.
Proof. induction l as [|y l IH]; simpl; [done|]. by destruct (f y). Qed.

(** The store writers leave the user, the clock, the list in memory and
    the collection documents alone. *)
Lemma saveBookToFirestore_frame b s :
  ls_user (saveBookToFirestore b s) = ls_user s /\ ls_now (saveBookToFirestore b s) = ls_now s /\
  ls_books (saveBookToFirestore b s) = ls_books s /\ ls_cols (saveBookToFirestore b s) = ls_cols s.
Proof. unfold saveBookToFirestore. destruct (ls_user s) eqn:E; by split_and!. Qed.

Lemma saveBookToFirestore_store b s u :
  ls_user s = Some u ->
  ls_store (saveBookToFirestore b s) = doc_set u (id b) (set_updatedAt (ls_now s) b) (ls_store s).
Proof. unfold saveBookToFirestore. by intros ->. Qed.

Lemma save_books_frame bs s :
  ls_user (save_books bs s) = ls_user s /\ ls_now (save_books bs s) = ls_now s /\
  ls_books (save_books bs s) = ls_books s /\ ls_cols (save_books bs s) = ls_cols s.
Proof.
  unfold save_books. revert s. induction bs as [|b bs IH]; intros s; simpl; [done|].
  destruct (IH (saveBookToFirestore b s)) as (-> & -> & -> & ->).
  apply saveBookToFirestore_frame.
Qed.

(** Saving a batch: for each key the last book of the batch with that id
    wins, stamped with the current time; other documents are kept. *)
Lemma save_books_get bs s u :
  ls_user s = Some u -> forall u' k,
  doc_get (ls_store (save_books bs s)) u' k =
    if decide (u' = u) then
      match List.find (fun b => String.eqb (id b) k) (rev bs) with
      | Some b => Some (set_updatedAt (ls_now s) b)
      | None => doc_get (ls_store s) u' k
      end
    else doc_get (ls_store s) u' k.
Proof.
  unfold save_books. revert s. induction bs as [|b bs IH]; intros s Hu u' k; simpl.
  { by destruct (decide _). }
  destruct (saveBookToFirestore_frame b s) as (Hu' & Hn & _).
  rewrite IH by congruence. rewrite Hn, find_app_single.
  rewrite (saveBookToFirestore_store _ _ _ Hu), !doc_get_set. destruct (decide (u' = u)) as [->|Hne].
  - destruct (List.find _ (rev bs)); [done|]. simpl.
    destruct (String.eqb_spec (id b) k) as [->|Hk]; destruct (decide _) as [E|E]; congruence.
  - destruct (decide _) as [E|]; [congruence|done].
Qed.

Lemma find_id_In bs k b :
  List.NoDup (map id bs) ->
  List.find (fun b => String.eqb (id b) k) (rev bs) = Some b <-> In b bs /\ id b = k.
Proof.
  intros Hnd. split.
  - intros [Hin Hk%String.eqb_eq]%find_some. by rewrite <- in_rev in Hin.
  - intros [Hin Hk]. destruct (List.find _ (rev bs)) as [b'|] eqn:E.
    + apply find_some in E as [Hin' Hk'%String.eqb_eq]. rewrite <- in_rev in Hin'.
      f_equal. apply (NoDup_map_In_inj id bs); [done..|congruence].
    + rewrite in_rev in Hin. apply (find_none _ _ E b) in Hin.
      by rewrite Hk, String.eqb_refl in Hin.
Qed.

Lemma with_id_stamped t b : with_id (id b) (set_updatedAt t b) = set_updatedAt t b.
Proof. by destruct b. Qed.

(** Saving a batch with distinct ids into an account with no book
    documents: the account then lists exactly the batch, stamped. *)
Lemma save_books_listing bs s u :
  ls_user s = Some u -> (forall k, doc_get (ls_store s) u k = None) -> List.NoDup (map id bs) ->
  Permutation (Sync.books_of_snapshot (doc_list (ls_store (save_books bs s)) u))
              (map (set_updatedAt (ls_now s)) bs).
Proof.
  intros Hu He Hnd. unfold Sync.books_of_snapshot. etrans; [apply js_sort_perm|].
  apply Permutation.NoDup_Permutation.
  - apply (NoDup_map_inv id). rewrite map_map. apply doc_list_NoDup.
  - apply (NoDup_map_inv id). by rewrite map_map.
  - intros x. rewrite !in_map_iff. split.
    + intros [[k b] [<- Hin]]. apply doc_list_In in Hin.
      rewrite (save_books_get _ _ _ Hu), decide_True in Hin by done.
      destruct (List.find _ _) as [b0|] eqn:E; [|by rewrite He in Hin].
      injection Hin as <-. apply find_id_In in E as [Hb <-]; [|done].
      exists b0. split; [apply with_id_stamped|done].
    + intros [b [<- Hb]]. exists (id b, set_updatedAt (ls_now s) b).
      split; [apply with_id_stamped|]. apply doc_list_In.
      rewrite (save_books_get _ _ _ Hu), decide_True by done.
      by rewrite (proj2 (find_id_In _ _ _ Hnd) (conj Hb eq_refl)).
Qed.

Lemma books_snapshot_listing s u :
  ls_user s = Some u -> ls_books (books_snapshot s) = Sync.books_of_snapshot (doc_list (ls_store s) u).
Proof. unfold books_snapshot. by intros ->. Qed.

Lemma col_set_In k c m : In (k, c) (col_set k c m).
Proof.
  induction m as [|[k' c'] m IH]; simpl; [by left|].
  destruct (decide (k' = k)); [by left|by right].
Qed.

Lemma col_set_other k c m k' c' : k' <> k -> In (k', c') m -> In (k', c') (col_set k c m).
Proof.
  intros Hne. induction m as [|[k0 c0] m IH]; simpl; [done|].
  destruct (decide (k0 = k)) as [->|]; intros [E|Hin]; try (by left); try (by right; auto).
  injection E as -> ->. done.
Qed.

Lemma save_collections_frame cs s :
  ls_user (save_collections cs s) = ls_user s /\ ls_store (save_collections cs s) = ls_store s /\
  ls_now (save_collections cs s) = ls_now s.
Proof.
  unfold save_collections. revert s. induction cs as [|c cs IH]; intros s; simpl; [by split_and!|].
  destruct (IH (saveCollectionToFirestore c s)) as (-> & -> & ->).
  unfold saveCollectionToFirestore. destruct (ls_user s) eqn:E; by split_and!.
Qed.

Lemma save_collections_keep cs s u k c :
  ls_user s = Some u -> In (k, c) (ls_cols s) -> (forall c', In c' cs -> (u, col_id c') <> k) ->
  In (k, c) (ls_cols (save_collections cs s)).
Proof.
  unfold save_collections. revert s. induction cs as [|c' cs IH]; intros s Hu Hin Hk; simpl; [done|].
  apply IH; [unfold saveCollectionToFirestore; by rewrite Hu| |by intros; apply Hk; right].
  unfold saveCollectionToFirestore. rewrite Hu. apply col_set_other; [|done].
  intros E. apply (Hk c'); [by left|done].
Qed.

(** Each collection of a batch with distinct ids is stored under its id. *)
Lemma save_collections_In cs s u :
  ls_user s = Some u -> List.NoDup (map col_id cs) ->
  forall c, In c cs -> In ((u, col_id c), c) (ls_cols (save_collections cs s)).
Proof.
  unfold save_collections. revert s. induction cs as [|c' cs IH]; intros s Hu Hnd c Hc; [done|].
  inversion Hnd as [|? ? Hn Hnd']; subst. simpl.
  destruct Hc as [<-|Hc].
  - apply (save_collections_keep _ _ u); [unfold saveCollectionToFirestore; by rewrite Hu| |].
    + unfold saveCollectionToFirestore. rewrite Hu. apply col_set_In.
    + intros c2 Hc2 [= E]. apply Hn. rewrite <- E. by apply in_map.
  - apply IH; [unfold saveCollectionToFirestore; by rewrite Hu|done|done].
Qed.

(** C33: restoring a JSON export into an account that has no book
    documents (the spec's round trip): once the books listener fires, the
    library lists exactly the exported books (with the import time as
    [updatedAt]), each exported collection is stored under its id, the
    settings are the exported ones, and their remote write is scheduled
    800 ms later.  Ids are distinct in the export, as the library
    invariant ([lib_invariant]) guarantees for [books]; the current settings carry no
    display name, as on a first sign-in. *)
Theorem importShelfwise_restores bs cs st s ss u :
  ls_user s = Some u -> Sync.s_user ss = Some u ->
  (forall k, doc_get (ls_store s) u k = None) ->
  List.NoDup (map id bs) -> List.NoDup (map col_id cs) ->
  displayName (Sync.s_settings ss) = None ->
  let r := importShelfwise (Some (exportJSON bs cs st)) s ss in
  Permutation (ls_books (books_snapshot (fst r))) (map (set_updatedAt (ls_now s)) bs) /\
  (forall c, In c cs -> In ((u, col_id c), c) (ls_cols (fst r))) /\
  Sync.s_settings (snd r) = st /\ Sync.s_timer (snd r) = Some (Sync.s_now ss + 800).
Proof.
  intros Hu Hsu He Hb Hc Hd. cbn zeta. unfold importShelfwise, exportJSON. cbn [bk_books
    bk_collections bk_settings fst snd].
  set (s0 := showToast _ "info" s).
  assert (Hu0 : ls_user s0 = Some u) by exact Hu.
  destruct (save_books_frame bs s0) as (Hu1 & _).
  destruct (save_collections_frame cs (save_books bs s0)) as (Hu2 & Hs2 & _).
  split_and!.
  - rewrite (books_snapshot_listing _ u) by (simpl; congruence). simpl. rewrite Hs2.
    change (ls_now s) with (ls_now s0). apply (save_books_listing _ _ u); [done|exact He|done].
  - intros c Hin. by apply save_collections_In; [congruence| |].
  - unfold Sync.saveSettingsToFirestore. simpl. rewrite Hsu. by apply merge_settings_doc.
  - unfold Sync.saveSettingsToFirestore. simpl. by rewrite Hsu.
Qed.

(** C34: importing a Goodreads CSV that has rows, signed in as [u], with
    [genId] giving distinct ids: the rows kept are those with a title that
    no book of the library has (ignoring case), in file order; the [i]-th
    of them is written as the book [gr_book] maps it to, under the [i]-th
    id, stamped with the current time; no other document changes, and the
    toast counts the kept rows. *)
Theorem importGoodreads_spec text gen s u :
  ls_user s = Some u -> parseCSV text <> [] -> (forall i j, gen i = gen j -> i = j) ->
  let kept := List.filter (gr_keep (ls_books s)) (parseCSV text) in
  let s' := importGoodreads text gen s in
  (forall i row, kept !! i = Some row ->
     doc_get (ls_store s') u (gen i) =
       Some (set_updatedAt (ls_now s) (gr_book row (gen i) (ls_now s)))) /\
  (forall u' k, u' <> u \/ (forall i, (i < length kept)%nat -> gen i <> k) ->
     doc_get (ls_store s') u' k = doc_get (ls_store s) u' k) /\
  ls_toast s' = Some ("Imported " ++ JsString.of_Z (Z.of_nat (length kept)) ++
                      " books from Goodreads", "success").
Proof.
  intros Hu Hne Hinj. cbn zeta. unfold importGoodreads.
  destruct (parseCSV text) as [|r0 rows] eqn:E; [contradiction|]. rewrite <- E.
  set (batch := gr_batch (ls_books s) gen (ls_now s) 0 (parseCSV text)).
  assert (Hb : batch = imap (fun i row => gr_book row (gen i) (ls_now s))
                         (List.filter (gr_keep (ls_books s)) (parseCSV text)))
    by apply gr_batch_imap.
  assert (Hnd : List.NoDup (map id batch)) by (apply gr_batch_ids, Hinj).
  assert (Hl : length batch = length (List.filter (gr_keep (ls_books s)) (parseCSV text)))
    by (rewrite Hb; apply length_imap).
  split_and!; cbn [ls_store ls_toast showToast]; [|intros u' k Hk|by rewrite Hl].
  - intros i row Hi. rewrite (save_books_get _ _ u), decide_True by done.
    assert (Hin : In (gr_book row (gen i) (ls_now s)) batch).
    { rewrite Hb. apply list_elem_of_In, list_elem_of_lookup.
      exists i. by rewrite list_lookup_imap, Hi. }
    by rewrite (proj2 (find_id_In batch (gen i) _ Hnd) (conj Hin eq_refl)).
  - rewrite (save_books_get _ _ u) by done. destruct (decide (u' = u)) as [->|]; [|done].
    destruct Hk as [|Hk]; [done|].
    destruct (List.find _ _) as [b|] eqn:F; [|done]. exfalso.
    apply find_id_In in F as [Hin <-]; [|done]. rewrite Hb in Hin.
    apply list_elem_of_In, list_elem_of_lookup in Hin as [i Hi].
    rewrite list_lookup_imap in Hi. destruct (_ !! i) as [row|] eqn:Hr; [|done].
    injection Hi as <-. apply (Hk i); [|done]. by apply lookup_lt_Some in Hr.
Qed.

(** A CSV whose lines after the header are all blank has no rows. *)
Lemma parseCSV_blank text :
  Forall (fun l => JsString.trim l = "") (tl (JsString.split text nl)) -> parseCSV text = [].
Proof.
  unfold parseCSV. destruct (JsString.split text nl) as [|l0 rest]; [done|]. simpl.
  intros Hb. replace (List.filter _ rest) with (@nil string); [done|].
  induction Hb as [|l rest Hl _ IH]; [done|]. simpl. by rewrite Hl.
Qed.

(** A file that does not parse is reported once and writes nothing:
    a JSON file [JSON.parse] rejects leaves the store, the collection
    documents and the session as they were and shows an error; so does a
    CSV file whose lines after the header are all blank. *)
Theorem import_parse_errors text gen s ss :
  (let r := importShelfwise None s ss in
   ls_store (fst r) = ls_store s /\ ls_cols (fst r) = ls_cols s /\ snd r = ss /\
   ls_toast (fst r) = Some ("Invalid ConnieReads JSON file", "error")) /\
  (Forall (fun l => JsString.trim l = "") (tl (JsString.split text nl)) ->
   ls_store (importGoodreads text gen s) = ls_store s /\
   ls_cols (importGoodreads text gen s) = ls_cols s /\
   ls_toast (importGoodreads text gen s) = Some ("No books found in CSV", "error")).
Proof.
  split; [by split_and!|]. intros Hb. unfold importGoodreads. by rewrite parseCSV_blank.
Qed.

(** ** [clearAllData] against the store laws *)

Lemma delete_books_frame bs s :
  ls_user (delete_books bs s) = ls_user s /\ ls_cols (delete_books bs s) = ls_cols s.
Proof.
  unfold delete_books. revert s. induction bs as [|b bs IH]; intros s; simpl; [done|].
  destruct (IH (deleteBookFromFirestore (id b) s)) as [-> ->].
  unfold deleteBookFromFirestore. destruct (ls_user s) eqn:E; by split_and!.
Qed.

Lemma deleteBookFromFirestore_store k s u :
  ls_user s = Some u -> ls_store (deleteBookFromFirestore k s) = doc_delete u k (ls_store s).
Proof. unfold deleteBookFromFirestore. by intros ->. Qed.

(** Deleting the documents of a list of books, one by one. *)
Lemma delete_books_get bs s u :
  ls_user s = Some u -> forall u' k,
  doc_get (ls_store (delete_books bs s)) u' k =
    if bool_decide (u' = u) && existsb (String.eqb k) (map id bs) then None
    else doc_get (ls_store s) u' k.
Proof.
  unfold delete_books. revert s. induction bs as [|b bs IH]; intros s Hu u' k; simpl.
  { by rewrite andb_false_r. }
  rewrite IH by (unfold deleteBookFromFirestore; by rewrite Hu).
  rewrite (deleteBookFromFirestore_store _ _ _ Hu), doc_get_delete. destruct (bool_decide_reflect (u' = u)) as [->|]; simpl; [|
    by destruct (decide _) as [[= ->]|]].
  destruct (String.eqb_spec k (id b)) as [->|Hk]; simpl.
  - rewrite decide_True by done. by destruct (existsb _ _).
  - rewrite decide_False by congruence. done.
Qed.

Lemma delete_collections_frame cs s :
  ls_user (delete_collections cs s) = ls_user s /\ ls_store (delete_collections cs s) = ls_store s.
Proof.
  unfold delete_collections. revert s. induction cs as [|c cs IH]; intros s; simpl; [done|].
  destruct (IH (deleteCollectionDoc (col_id c) s)) as [-> ->].
  unfold deleteCollectionDoc. destruct (ls_user s) eqn:E; by split_and!.
Qed.

(** What is left of the collection documents: entries that were there,
    under none of the deleted keys. *)
Lemma delete_collections_In cs s u e :
  ls_user s = Some u -> In e (ls_cols (delete_collections cs s)) ->
  In e (ls_cols s) /\ forall c, In c cs -> fst e <> (u, col_id c).
Proof.
  unfold delete_collections. revert s. induction cs as [|c cs IH]; intros s Hu Hin; simpl in *.
  { done. }
  apply IH in Hin as [Hin Hk]; [|unfold deleteCollectionDoc; by rewrite Hu].
  unfold deleteCollectionDoc in Hin. rewrite Hu in Hin. cbn in Hin.
  apply filter_In in Hin as [Hin Hne]. split; [done|].
  intros c' [<-|Hc']; [|by apply Hk]. intros E. by rewrite bool_decide_true in Hne.
Qed.

(** [clearAllData] does nothing unless confirmed and answered with
    "DELETE".  Then, signed in as [u]: the document of every book in
    memory is deleted and no other document changes; no collection
    document of an in-memory collection is left; the settings become the
    theme with a goal of 0 for [year] (the display name is dropped), and
    their write is scheduled. *)
Theorem clearAllData_spec year s ss u :
  ls_user s = Some u -> Sync.s_user ss = Some u ->
  (forall c t, c = false \/ t <> "DELETE" -> clearAllData c t year s ss = (s, ss)) /\
  let r := clearAllData true "DELETE" year s ss in
  (forall u' k, doc_get (ls_store (fst r)) u' k =
     if bool_decide (u' = u) && existsb (String.eqb k) (map id (ls_books s)) then None
     else doc_get (ls_store s) u' k) /\
  (forall c e, In c (Sync.s_collections ss) -> In e (ls_cols (fst r)) -> fst e <> (u, col_id c)) /\
  Sync.s_settings (snd r) =
    {| theme := theme (Sync.s_settings ss); goal := 0; goalYear := year; displayName := None |} /\
  Sync.s_timer (snd r) = Some (Sync.s_now ss + 800).
Proof.
  intros Hu Hsu. split.
  { intros c t [->|Ht]; [done|]. unfold clearAllData. destruct c; [|done].
    by destruct (String.eqb_spec t "DELETE"). }
  cbn zeta. unfold clearAllData. rewrite String.eqb_refl. cbn [negb fst snd].
  set (s1 := showToast _ "info" s).
  assert (Hu1 : ls_user s1 = Some u) by exact Hu.
  destruct (delete_books_frame (ls_books s1) s1) as [Hu2 _].
  destruct (delete_collections_frame (Sync.s_collections ss) (delete_books (ls_books s1) s1))
    as [_ Hs3].
  split_and!.
  - intros u' k. cbn [ls_store showToast]. rewrite Hs3.
    change (ls_books s) with (ls_books s1). change (ls_store s) with (ls_store s1).
    by apply delete_books_get.
  - intros c e Hc Hin. apply (delete_collections_In _ _ u) in Hin as [_ Hk]; [|congruence].
    by apply Hk.
  - unfold Sync.saveSettingsToFirestore. simpl. by rewrite Hsu.
  - unfold Sync.saveSettingsToFirestore. simpl. by rewrite Hsu.
Qed.

(** ** The library invariant under the data tab *)

Lemma save_books_inv bs s : lib_inv s -> lib_inv (save_books bs s).
Proof.
  unfold save_books. revert s. induction bs as [|b bs IH]; intros s I; [done|].
  apply IH, saveBookToFirestore_inv, I.
Qed.

Lemma save_collections_inv cs s : lib_inv s -> lib_inv (save_collections cs s).
Proof.
  unfold save_collections. revert s. induction cs as [|c cs IH]; intros s I; [done|].
  apply IH. unfold saveCollectionToFirestore. by destruct (ls_user s).
Qed.

Lemma delete_books_inv bs s : lib_inv s -> lib_inv (delete_books bs s).
Proof.
  unfold delete_books. revert s. induction bs as [|b bs IH]; intros s I; [done|].
  apply IH, deleteBookFromFirestore_inv, I.
Qed.

Lemma delete_collections_inv cs s : lib_inv s -> lib_inv (delete_collections cs s).
Proof.
  unfold delete_collections. revert s. induction cs as [|c cs IH]; intros s I; [done|].
  apply IH. unfold deleteCollectionDoc. by destruct (ls_user s).
Qed.

Create HintDb app_inv.
Local Hint Resolve save_books_inv save_collections_inv delete_books_inv
  delete_collections_inv showToast_inv lib_step_inv : app_inv.

Lemma app_step_inv st e : lib_inv (fst st) -> lib_inv (fst (app_step st e)).
Proof.
  intros I. destruct e; simpl; unfold importGoodreads, importShelfwise, clearAllData;
    repeat case_match; simpl; auto 6 with app_inv.
Qed.

Inductive app_reachable : @LibState St * Sync.Session -> Prop :=
  | app_reach_init s ss :
      store_wf (ls_store s) -> ls_books s = [] -> ls_activity s = [] -> app_reachable (s, ss)
  | app_reach_step st e : app_reachable st -> app_reachable (app_step st e).

(** The library invariant of [lib_invariant] survives the data tab: in every
    state reached by book-modal events, Goodreads and backup imports and
    clears, in any order, every stored document carries its key as id,
    no two books in memory share an id, and the activity log holds at
    most 20 entries. *)
Theorem app_invariant st :
  app_reachable st ->
  (forall u k b, doc_get (ls_store (fst st)) u k = Some b -> id b = k) /\
  List.NoDup (map id (ls_books (fst st))) /\ (length (ls_activity (fst st)) <= 20)%nat.
Proof.
  induction 1 as [s ss W B A|st e _ IH].
  - split_and!; [done| simpl; rewrite B; constructor | simpl; rewrite A; simpl; lia].
  - by apply app_step_inv.
Qed.

End ImportFacts.

(** ** Concrete runs on the [gmap] store *)

Fixpoint xs (i : nat) : string := match i with O => "" | S n => String "x" (xs n) end.

(** Distinct ids for the books an import adds. *)
Definition gen_x (i : nat) : string := "gr" ++ xs i.

Lemma gen_x_inj i j : gen_x i = gen_x j -> i = j.
Proof.
  unfold gen_x. intros E. injection E as E. revert j E.
  induction i as [|i IH]; intros [|j] E; simpl in E; try discriminate; [done|].
  injection E as E. f_equal. by apply IH.
Qed.

Definition lf : string := String "010" "".

(** The spec's Goodreads example, once with the author as written there
    and once in the "last, first" form the regex expects. *)
Definition csv_dune : string :=
  "Title,Author,Exclusive Shelf,My Rating" ++ lf ++ "Dune,Herbert Frank,read,5".

Definition csv_dune_comma : string :=
  "Title,Author,Exclusive Shelf,My Rating" ++ lf ++
  "Dune," ++ String dq ("Herbert, Frank" ++ String dq ",read,5").

Definition csv_dune_twice : string :=
  "Title,Author" ++ lf ++ "Dune,Frank Herbert" ++ lf ++ "dune,F. Herbert".

Definition col_fav : Collection :=
  {| col_id := "c1"; col_name := "Favourites"; col_emoji := "*"; col_createdAt := 5 |}.

Definition light_2025 : Settings :=
  {| theme := "light"; goal := 24; goalYear := 2025; displayName := Some "Connie" |}.

Lemma csv_roundtrip_witness :
  parseCSV (exportCSV [dune_b1]) = [combine csv_headers (csv_values dune_b1)].
Proof. apply (csv_roundtrip [dune_b1]). constructor; [vm_compute; reflexivity|constructor]. Defined.

Lemma importShelfwise_restores_witness :
  Sync.s_settings (snd (importShelfwise (Some (exportJSON [dune_b1] [col_fav] light_2025))
                          lib_s0 Sync.signed_in_alice)) = light_2025 /\
  In (("alice", "c1"), col_fav)
     (ls_cols (fst (importShelfwise (Some (exportJSON [dune_b1] [col_fav] light_2025))
                      lib_s0 Sync.signed_in_alice))).
Proof.
  destruct (importShelfwise_restores [dune_b1] [col_fav] light_2025 lib_s0
              Sync.signed_in_alice "alice") as (_ & C & S & _).
  - reflexivity.
  - vm_compute. reflexivity.
  - intros k. reflexivity.
  - repeat constructor. simpl. tauto.
  - repeat constructor. simpl. tauto.
  - vm_compute. reflexivity.
  - split; [exact S|]. apply (C col_fav). by left.
Defined.

Lemma importGoodreads_spec_witness :
  doc_get (ls_store (importGoodreads csv_dune gen_x lib_s0)) "alice" (gen_x 0) =
  Some (set_updatedAt 1000 (gr_book [("Title", "Dune"); ("Author", "Herbert Frank");
          ("Exclusive Shelf", "read"); ("My Rating", "5")] (gen_x 0) 1000)).
Proof.
  destruct (importGoodreads_spec csv_dune gen_x lib_s0 "alice") as [W _].
  - reflexivity.
  - vm_compute. discriminate.
  - exact gen_x_inj.
  - apply W. vm_compute. reflexivity.
Defined.

Lemma import_parse_errors_witness :
  ls_toast (importGoodreads ("Title,Author" ++ lf ++ lf ++ "  ") gen_x lib_s0) =
  Some ("No books found in CSV", "error").
Proof.
  destruct (import_parse_errors ("Title,Author" ++ lf ++ lf ++ "  ") gen_x lib_s0
              Sync.signed_in_alice) as [_ P].
  apply P. vm_compute. repeat constructor.
Defined.

Lemma clearAllData_spec_witness :
  doc_get (ls_store (fst (clearAllData true "DELETE" 2026 lib_s1 Sync.signed_in_alice)))
    "alice" "b1" = None.
Proof.
  destruct (clearAllData_spec 2026 lib_s1 Sync.signed_in_alice "alice") as [_ [G _]].
  - reflexivity.
  - vm_compute. reflexivity.
  - rewrite G. vm_compute. reflexivity.
Defined.

Lemma app_invariant_witness :
  List.NoDup (map id (ls_books (fst (app_step (app_step (lib_s0, Sync.signed_in_alice)
    (AImportGoodreads csv_dune_twice gen_x)) (ALib LSnapshot))))).
Proof.
  destruct (app_invariant (app_step (app_step (lib_s0, Sync.signed_in_alice)
    (AImportGoodreads csv_dune_twice gen_x)) (ALib LSnapshot))) as [_ [N _]]; [|exact N].
  apply app_reach_step, app_reach_step, app_reach_init; [|reflexivity|reflexivity].
  intros u k b Hb. vm_compute in Hb. discriminate Hb.
Defined.

(** Where the Goodreads import departs from the spec.  The spec's
    row "Dune, Herbert Frank, read, 5" is stored with status "read" and
    rating 5, but the author stays "Herbert Frank" (the spec expects
    "Frank Herbert"), and written "Herbert, Frank" it becomes "Herbert
    Frank": the regex drops the comma and never reorders.  Duplicate
    titles are skipped only against the library in memory: "Dune" is not
    imported into a library that has it, but a file listing "Dune" and
    "dune" imports both.  And the app's own CSV export is not a Goodreads
    file: a book read and rated 4 comes back with status "want" and
    rating 0, the export's "Status" and "Rating" columns not being the
    "Exclusive Shelf" and "My Rating" the import reads. *)
Example goodreads_import_divergences :
  option_map author (doc_get (ls_store (importGoodreads csv_dune gen_x lib_s0)) "alice" (gen_x 0))
    = Some "Herbert Frank" /\
  option_map status (doc_get (ls_store (importGoodreads csv_dune gen_x lib_s0)) "alice" (gen_x 0))
    = Some st_read /\
  option_map rating (doc_get (ls_store (importGoodreads csv_dune gen_x lib_s0)) "alice" (gen_x 0))
    = Some 5 /\
  option_map author (doc_get (ls_store (importGoodreads csv_dune_comma gen_x lib_s0)) "alice"
    (gen_x 0)) = Some "Herbert Frank" /\
  ls_store (importGoodreads csv_dune_twice gen_x lib_s1) = ls_store lib_s1 /\
  option_map title (doc_get (ls_store (importGoodreads csv_dune_twice gen_x lib_s0)) "alice"
    (gen_x 0)) = Some "Dune" /\
  option_map title (doc_get (ls_store (importGoodreads csv_dune_twice gen_x lib_s0)) "alice"
    (gen_x 1)) = Some "dune" /\
  option_map status (doc_get (ls_store (importGoodreads (exportCSV [dune_b1]) gen_x lib_s0))
    "alice" (gen_x 0)) = Some st_want /\
  option_map rating (doc_get (ls_store (importGoodreads (exportCSV [dune_b1]) gen_x lib_s0))
    "alice" (gen_x 0)) = Some 0 /\
  status dune_b1 = st_read /\ rating dune_b1 = 4.
Proof. vm_compute. split_and!; reflexivity. Qed.

(** The rows of [csv_dune] import as a [read] book of the spec's shape. *)
Lemma gr_batch_shape_witness :
  Forall (fun b => In (status b) [st_read; st_reading; st_want] /\ genre b = "")
    (gr_batch [] gen_x 1000 0 (parseCSV csv_dune)).
Proof.
  eapply Forall_impl; [apply (gr_batch_shape [] gen_x 1000 0 (parseCSV csv_dune))|].
  - vm_compute. repeat constructor; intros [H|[H|[]]]; discriminate H.
  - intros b (Hs & Hg & _). by split.
Defined.

(** A [My Rating] of 7 or -1 is imported as it stands. *)
Example gr_rating_unchecked :
  rating (gr_book [("Title", "Dune"); ("My Rating", "7")] "x" 0) = 7 /\
  rating (gr_book [("Title", "Dune"); ("My Rating", "-1")] "x" 0) = -1.
Proof. split; vm_compute; reflexivity. Qed.

End ImportExport.
