(* ===== verification/Modal.v ===== *)
(** * Modal: the add/edit book form between openings

    The book modal's inputs are DOM state that outlives each opening.
    [openAddModal] (src/app.js:511-536) clears them with [clearBookForm]
    (631-650) and fills in a search result, [openEditModal] (538-583)
    writes a book's fields into them, [renderCollectionCheckboxes]
    (697-710) checks the boxes of the selected collections, and
    [setRating] (686-689) toggles the star rating; [saveBook] then reads
    the inputs back ([Library.bookData]).  The form is the record
    [Library.BookForm], passed from one handler to the next; the state of
    [Library] carries [editingBookId] and [currentRating]. *)

From S2P Require Import Prelude JsString JsArray Book Stats Library ImportExport.
Local Open Scope string_scope.
Local Open Scope Z_scope.

Module Modal.
Import Stats Library ImportExport.

(** [renderCollectionCheckboxes(selected)]: one box per collection in
    memory, in that order, checked when its id is selected; [saveBook]
    reads the ids of the checked boxes. *)
Definition renderCollectionCheckboxes (cols : list Collection) (selected : list string) :
    list string :=
  map col_id (List.filter (fun c => col_id c \in selected) cols).

(** [clearBookForm]: every input emptied, the status back to "want", the
    ownership boxes unchecked.  The description display's text is not
    cleared (only hidden), and the collection boxes are redrawn later by
    the caller. *)
Definition clearBookForm (fm : BookForm) : BookForm :=
  {| f_title := ""; f_author := ""; f_genre := ""; f_isbn := ""; f_status := st_want;
     f_date_read := ""; f_date_started := ""; f_tags := ""; f_pages := "";
     f_pages_read := ""; f_own_physical := false; f_own_digital := false;
     f_own_borrowed := false; f_copies := ""; f_borrowed_from := ""; f_notes := "";
     f_cover_url := ""; f_collections := f_collections fm; f_desc := f_desc fm |}.

(** The fields [openAddModal] reads from a search result ([prefill]);
    [p_tags] is [None] when the result has no [tags] property. *)
Record Prefill := {
  p_title : string; p_author : string; p_genre : string; p_isbn : string;
  p_pages : Z; p_coverUrl : string; p_tags : option (list string); p_description : string
}.

(** [if (x.description) textContent = x.description]: an empty
    description leaves the previous text in place. *)
Definition desc_display (d : string) (fm : BookForm) : string :=
  if String.eqb d "" then f_desc fm else d.

Definition fill_prefill (p : Prefill) (fm : BookForm) : BookForm :=
  {| f_title := p_title p; f_author := p_author p; f_genre := p_genre p;
     f_isbn := p_isbn p; f_status := f_status fm; f_date_read := f_date_read fm;
     f_date_started := f_date_started fm;
     f_tags := match p_tags p with Some ts => setTagsInForm ts | None => f_tags fm end;
     f_pages := z_or_empty (p_pages p); f_pages_read := f_pages_read fm;
     f_own_physical := f_own_physical fm; f_own_digital := f_own_digital fm;
     f_own_borrowed := f_own_borrowed fm; f_copies := f_copies fm;
     f_borrowed_from := f_borrowed_from fm; f_notes := f_notes fm;
     f_cover_url := p_coverUrl p; f_collections := f_collections fm;
     f_desc := desc_display (p_description p) fm |}.

Definition set_form_collections (cs : list string) (fm : BookForm) : BookForm :=
  {| f_title := f_title fm; f_author := f_author fm; f_genre := f_genre fm;
     f_isbn := f_isbn fm; f_status := f_status fm; f_date_read := f_date_read fm;
     f_date_started := f_date_started fm; f_tags := f_tags fm; f_pages := f_pages fm;
     f_pages_read := f_pages_read fm; f_own_physical := f_own_physical fm;
     f_own_digital := f_own_digital fm; f_own_borrowed := f_own_borrowed fm;
     f_copies := f_copies fm; f_borrowed_from := f_borrowed_from fm; f_notes := f_notes fm;
     f_cover_url := f_cover_url fm; f_collections := cs; f_desc := f_desc fm |}.

(** The inputs after [openAddModal(prefill)], [cols] being [collections]. *)
Definition openAddModal_form (prefill : option Prefill) (cols : list Collection)
    (fm : BookForm) : BookForm :=
  let f0 := clearBookForm fm in
  let f1 := match prefill with Some p => fill_prefill p f0 | None => f0 end in
  set_form_collections (renderCollectionCheckboxes cols []) f1.

(** The inputs after [openEditModal] of book [b] (without [clearBookForm]:
    every input is overwritten, the description display only when the
    book has one). *)
Definition openEditModal_form (b : Book) (cols : list Collection) (fm : BookForm) : BookForm :=
  {| f_title := title b; f_author := author b; f_genre := genre b; f_isbn := isbn b;
     f_status := jor (status b) st_want; f_date_read := dateRead b;
     f_date_started := dateStarted b; f_tags := setTagsInForm (tags b);
     f_pages := z_or_empty (pages b); f_pages_read := z_or_empty (pagesRead b);
     f_own_physical := ownPhysical b; f_own_digital := ownDigital b;
     f_own_borrowed := ownBorrowed b; f_copies := z_or_empty (copies b);
     f_borrowed_from := borrowedFrom b; f_notes := notes b; f_cover_url := coverUrl b;
     f_collections := renderCollectionCheckboxes cols (collections b);
     f_desc := desc_display (description b) fm |}.

(** [setRating(val)]: clicking the current rating clears it. *)
Definition setRating (val currentRating : Z) : Z :=
  if currentRating =? val then 0 else val.

(** ** The modal as steps on the library state and the form *)

Section Steps.
Context {St : Type} `{DocStore St}.

Definition open_add (prefill : option Prefill) (cols : list Collection)
    (st : @LibState St * BookForm) : @LibState St * BookForm :=
  (openAddModal (fst st), openAddModal_form prefill cols (snd st)).

(** [openEditModal] returns early, touching nothing, for an unknown id. *)
Definition open_edit (bookId : string) (cols : list Collection)
    (st : @LibState St * BookForm) : @LibState St * BookForm :=
  match find_book bookId (ls_books (fst st)) with
  | None => st
  | Some b => (openEditModal bookId (fst st), openEditModal_form b cols (snd st))
  end.

Definition rate (val : Z) (st : @LibState St * BookForm) : @LibState St * BookForm :=
  (set_modal (ls_editing (fst st)) (setRating val (ls_rating (fst st))) (fst st), snd st).

(** [addFromSearch(index)]: the result at [index] of the last search. *)
Definition addFromSearch (results : list Prefill) (index : nat) (cols : list Collection)
    (st : @LibState St * BookForm) : @LibState St * BookForm :=
  open_add (nth_error results index) cols st.

(** The user typing into the inputs, then pressing Save. *)
Definition save_form (edit : BookForm -> BookForm) (newId : string)
    (st : @LibState St * BookForm) : @LibState St * BookForm :=
  (saveBook (edit (snd st)) newId (fst st), edit (snd st)).

End Steps.

(** ** Editing without changes *)

(** The books the form shows and reads back unchanged: text fields with no
    surrounding blanks, a title and an author, a status, tags the tag
    field can hold, non-negative numbers (a physical copy count of 0 is
    read back as 1), and a description. *)
Definition form_stable (b : Book) : Prop :=
  title b <> "" /\ JsString.trim (title b) = title b /\
  author b <> "" /\ JsString.trim (author b) = author b /\
  JsString.trim (genre b) = genre b /\ JsString.trim (isbn b) = isbn b /\ status b <> "" /\
  (forall t, In t (tags b) -> tag_ok t) /\ 0 <= pages b /\ 0 <= pagesRead b /\
  0 <= copies b /\ (copies b = 0 -> ownPhysical b = false) /\
  JsString.trim (borrowedFrom b) = borrowedFrom b /\ JsString.trim (notes b) = notes b /\
  JsString.trim (coverUrl b) = coverUrl b /\ description b <> "".

Lemma int_or_z_or_empty z d : 0 <= z -> (z = 0 -> d = 0) -> int_or (z_or_empty z) d = z.
Proof.
  intros Hz Hd. unfold z_or_empty, int_or. destruct (Z.eqb_spec z 0) as [->|Hne].
  - by rewrite Hd.
  - rewrite JsString.parseInt_of_Z by lia. by destruct (Z.eqb_spec z 0).
Qed.

Lemma jor_nonempty a b : a <> "" -> jor a b = a.
Proof. unfold jor. by destruct (String.eqb_spec a ""). Qed.

Lemma desc_display_nonempty d fm : d <> "" -> desc_display d fm = d.
Proof. unfold desc_display. by destruct (String.eqb_spec d ""). Qed.

(** Reading back the form [openEditModal] wrote gives the book itself. *)
Lemma bookData_edit_form b cols fm :
  form_stable b -> renderCollectionCheckboxes cols (collections b) = collections b ->
  bookData (openEditModal_form b cols fm) (rating b) b = b.
Proof.
  intros (Ht0 & Ht & Ha0 & Ha & Hg & Hi & Hs & Htg & Hp & Hpr & Hc & Hc0 & Hbf & Hn & Hcu & Hd)
    Hcol.
  unfold bookData, openEditModal_form. cbn [f_title f_author f_genre f_isbn f_status
    f_date_read f_date_started f_tags f_pages f_pages_read f_own_physical f_own_digital
    f_own_borrowed f_copies f_borrowed_from f_notes f_cover_url f_collections f_desc].
  rewrite Ht, Ha, Hg, Hi, Hbf, Hn, Hcu, Hcol, tags_roundtrip, jor_nonempty,
    desc_display_nonempty by done.
  rewrite !int_or_z_or_empty by (done || (intros E; by rewrite Hc0)).
  destruct (String.eqb_spec (author b) "") as [|_]; [done|]. by destruct b.
Qed.

(** The user typing a title into the empty add form. *)
Definition typed_title (t : string) (fm : BookForm) : BookForm :=
  {| f_title := t; f_author := f_author fm; f_genre := f_genre fm;
     f_isbn := f_isbn fm; f_status := f_status fm; f_date_read := f_date_read fm;
     f_date_started := f_date_started fm; f_tags := f_tags fm; f_pages := f_pages fm;
     f_pages_read := f_pages_read fm; f_own_physical := f_own_physical fm;
     f_own_digital := f_own_digital fm; f_own_borrowed := f_own_borrowed fm;
     f_copies := f_copies fm; f_borrowed_from := f_borrowed_from fm; f_notes := f_notes fm;
     f_cover_url := f_cover_url fm; f_collections := f_collections fm; f_desc := f_desc fm |}.

Section ModalFacts.
Context {St : Type} `{DocStoreLaws St}.

Lemma set_updatedAt_twice t b : set_updatedAt t (set_updatedAt t b) = set_updatedAt t b.
Proof. by destruct b. Qed.

Lemma openEditModal_found (s : @LibState St) b :
  find_book (id b) (ls_books s) = Some b -> openEditModal (id b) s = set_modal (Some (id b)) (rating b) s.
Proof. unfold openEditModal. by intros ->. Qed.

(** C39: opening a book for editing and saving without touching the form
    writes the same book back (only [updatedAt] becomes the current
    time), for a book the form can represent ([form_stable]) whose
    collections are, in order, collections in memory. *)
Theorem edit_save_roundtrip (s : @LibState St) fm u b cols k :
  ls_user s = Some u -> find_book (id b) (ls_books s) = Some b ->
  form_stable b -> renderCollectionCheckboxes cols (collections b) = collections b ->
  doc_get (ls_store (fst (save_form (fun f => f) k (open_edit (id b) cols (s, fm))))) u (id b) =
    Some (set_updatedAt (ls_now s) b).
Proof.
  intros Hu Hf Hs Hc. unfold save_form, open_edit. cbn [fst snd]. rewrite Hf.
  cbn [fst snd]. rewrite openEditModal_found by done. unfold saveBook.
  pose proof Hs as (Ht0 & Ht & _). cbn [f_title openEditModal_form]. rewrite Ht.
  destruct (String.eqb_spec (title b) "") as [|_]; [contradiction|].
  cbn [ls_user ls_editing ls_books ls_rating ls_now set_modal]. rewrite Hu, Hf.
  rewrite bookData_edit_form by done. unfold saveBookToFirestore. cbn [ls_user set_modal].
  rewrite Hu. cbn. rewrite doc_get_set, decide_True by done. by rewrite set_updatedAt_twice.
Qed.

(** A new book's document holds the form's fields over a fresh base. *)
Lemma saveBook_new_doc fm k (s : @LibState St) u :
  JsString.trim (f_title fm) <> "" -> ls_user s = Some u -> ls_editing s = None ->
  doc_get (ls_store (saveBook fm k s)) u k = Some (bookData fm (ls_rating s) (new_book_base k (ls_now s))).
Proof.
  intros Ht Hu He. unfold saveBook.
  destruct (String.eqb_spec (JsString.trim (f_title fm)) "") as [|_]; [contradiction|].
  rewrite Hu, He. unfold saveBookToFirestore. rewrite Hu. cbn.
  rewrite doc_get_set. by destruct (decide _) as [_|C]; [|destruct C].
Qed.

(** C40: the description display is never cleared, and [saveBook] reads
    it even when hidden.  For any signed-in state, after opening a book
    [b1] that has a description for editing: opening a book [b2] that has
    none and saving it without a change writes [b1]'s description into
    [b2]'s document; opening the add form instead and saving a typed
    title writes it into the new book. *)
Theorem stale_description (s : @LibState St) fm u b1 b2 cols k t :
  ls_user s = Some u -> find_book (id b1) (ls_books s) = Some b1 ->
  find_book (id b2) (ls_books s) = Some b2 ->
  description b1 <> "" -> description b2 = "" -> JsString.trim (title b2) <> "" ->
  JsString.trim t <> "" ->
  option_map description (doc_get (ls_store (fst (save_form (fun f => f) k
      (open_edit (id b2) cols (open_edit (id b1) cols (s, fm)))))) u (id b2)) = Some (description b1) /\
  option_map description (doc_get (ls_store (fst (save_form (typed_title t) k
      (open_add None cols (open_edit (id b1) cols (s, fm)))))) u k) = Some (description b1).
Proof.
  intros Hu H1 H2 Hd1 Hd2 Ht2 Ht. unfold save_form, open_edit, open_add. cbn [fst snd]. rewrite H1.
  cbn [fst snd]. rewrite openEditModal_found by done. cbn [ls_books set_modal]. rewrite H2.
  cbn [fst snd]. rewrite openEditModal_found by done. split.
  - set (s' := set_modal (Some (id b2)) (rating b2) (set_modal (Some (id b1)) (rating b1) s)).
    set (fm' := openEditModal_form b2 cols (openEditModal_form b1 cols fm)).
    rewrite (proj1 (saveBook_edit fm' k s' u (id b2) b2 Ht2 Hu eq_refl H2)). cbn.
    unfold desc_display. rewrite Hd2. cbn. by rewrite desc_display_nonempty.
  - rewrite saveBook_new_doc by done. cbn. by rewrite desc_display_nonempty.
Qed.

End ModalFacts.

(** ** Concrete runs on the [gmap] store *)

Definition dune_desc : Book :=
  {| id := "b1"; title := "Dune"; author := "Frank Herbert"; genre := "SciFi";
     isbn := "9780441013593"; status := st_read; dateRead := "2024-03-02"; dateStarted := "";
     tags := ["sf"]; pages := 412; pagesRead := 0; rating := 5; ownPhysical := true;
     ownDigital := false; ownBorrowed := false; copies := 2; borrowedFrom := "";
     notes := "Reread"; coverUrl := ""; collections := []; description := "A desert planet.";
     dateAdded := 7; updatedAt := 7 |}.

Definition emma_b2 : Book := sample_book "b2" "Emma" "Jane Austen" "" st_want 0 [] "" 8.

Definition lib_s2 : @LibState GStore :=
  {| ls_user := Some "alice"; ls_books := [dune_desc; emma_b2];
     ls_store := doc_set "alice" "b2" emma_b2 (doc_set "alice" "b1" dune_desc ∅);
     ls_cols := []; ls_editing := None; ls_rating := 0; ls_sync := DotSynced;
     ls_activity := []; ls_toast := None; ls_now := 3000 |}.

Lemma edit_save_roundtrip_witness :
  doc_get (ls_store (fst (save_form (fun f => f) "k"
    (open_edit (id dune_desc) [] (lib_s2, form_dune))))) "alice" "b1" =
  Some (set_updatedAt 3000 dune_desc).
Proof.
  apply (edit_save_roundtrip lib_s2 form_dune "alice" dune_desc [] "k").
  - reflexivity.
  - reflexivity.
  - unfold form_stable. cbn. split_and!; try discriminate; try reflexivity; try lia.
    intros t [<-|[]]. split; [discriminate|apply no_pipe_check; reflexivity].
  - reflexivity.
Defined.

(** After Dune (with a description), Emma (without) is saved unchanged
    and a new book is added: both get Dune's description. *)
Lemma stale_description_witness :
  option_map description (doc_get (ls_store (fst (save_form (fun f => f) "k"
    (open_edit "b2" [] (open_edit "b1" [] (lib_s2, form_dune)))))) "alice" "b2") =
    Some "A desert planet." /\
  option_map description (doc_get (ls_store (fst (save_form (typed_title "Persuasion") "n1"
    (open_add None [] (open_edit "b1" [] (lib_s2, form_dune)))))) "alice" "n1") =
    Some "A desert planet.".
Proof.
  exact (stale_description lib_s2 form_dune "alice" dune_desc emma_b2 [] _ "Persuasion"
           eq_refl eq_refl eq_refl ltac:(discriminate) eq_refl ltac:(vm_compute; discriminate)
           ltac:(vm_compute; discriminate)).
Defined.

End Modal.
