(* ===== verification/Catalog.v ===== *)
(** * Catalog: the book search and its provider fallback

    [searchBooks] (src/app.js:922-973) asks Hardcover first
    ([searchHardcover], 857-895) and falls back to Open Library
    ([searchOpenLibrary], 898-920) when Hardcover fails or finds nothing;
    each maps the provider's JSON to a search result.  [addFromSearch]
    (999-1002) opens the add form on a result of the last search.

    The HTTP exchange is I/O: a provider's answer is the parsed JSON body
    as records of the fields the code reads ([None] for an absent field),
    or [None] as a whole when [fetch] throws, the status is not OK or the
    body is not JSON (the three ways the code's [try] ends in its
    [catch]). *)

From Stdlib Require DecimalPos DecimalString.
From S2P Require Import Prelude JsString JsArray Book Stats Library ImportExport Modal.
Local Open Scope string_scope.
Local Open Scope Z_scope.

Module Catalog.
Import Stats Library ImportExport Modal.

(** The object both providers' [map] callbacks return. *)
Record SearchResult := {
  sr_id : string; sr_title : string; sr_author : string; sr_genre : string;
  sr_pages : Z; sr_description : string; sr_isbn : string; sr_publisher : string;
  sr_coverUrl : string; sr_source : string
}.

(** [x || d] on an optional string and an optional number. *)
Definition sor (o : option string) (d : string) : string :=
  match o with Some s => jor s d | None => d end.

Definition zor (o : option Z) (d : Z) : Z :=
  match o with Some z => if z =? 0 then d else z | None => d end.

(** ** Hardcover *)

Record HcEdition := {
  ed_isbn_13 : option string; ed_isbn_10 : option string; ed_pages_count : option Z;
  ed_image_url : option string; ed_publisher_name : option string
}.

(** A book of [data.books]; [hb_contributions] lists [c.author?.name]. *)
Record HcBook := {
  hb_id : Z; hb_title : option string; hb_contributions : option (list (option string));
  hb_edition : option HcEdition; hb_cached_image_url : option string;
  hb_description : option string
}.

(** [ed?.f]: absent when the edition is. *)
Definition ed_get {A} (f : HcEdition -> option A) (e : option HcEdition) : option A :=
  match e with Some ed => f ed | None => None end.

(** [.map(c => c.author?.name).filter(Boolean).join(', ') || 'Unknown'] *)
Definition hc_author (cs : option (list (option string))) : string :=
  jor (JsString.join ", "
         (List.filter truthy (map (fun o => match o with Some n => n | None => "" end)
                                  (match cs with Some l => l | None => [] end))))
      "Unknown".

Definition hc_result (b : HcBook) : SearchResult :=
  let ed := hb_edition b in
  {| sr_id := JsString.of_Z (hb_id b); sr_title := sor (hb_title b) "Unknown Title";
     sr_author := hc_author (hb_contributions b); sr_genre := "";
     sr_pages := zor (ed_get ed_pages_count ed) 0;
     sr_description := sor (hb_description b) "";
     sr_isbn := sor (ed_get ed_isbn_13 ed) (sor (ed_get ed_isbn_10 ed) (JsString.of_Z (hb_id b)));
     sr_publisher := sor (ed_get ed_publisher_name ed) "";
     sr_coverUrl := sor (hb_cached_image_url b) (sor (ed_get ed_image_url ed) "");
     sr_source := "hardcover" |}.

(** [searchHardcover]: [None] is a rejected promise; [data.data?.books]
    absent gives no results. *)
Definition searchHardcover (resp : option (option (list HcBook))) : option (list SearchResult) :=
  match resp with
  | None => None
  | Some books => Some (map hc_result (match books with Some l => l | None => [] end))
  end.

(** ** Open Library *)

Record OlDoc := {
  ol_key : option string; ol_title : option string; ol_author_name : option (list string);
  ol_isbn : option (list string); ol_pages_median : option Z;
  ol_subject : option (list string); ol_publisher : option (list string);
  ol_cover_i : option Z
}.

Definition arr (o : option (list string)) : list string :=
  match o with Some l => l | None => [] end.

(** [(xs || [])[0] || ''] *)
Definition first_or_empty (o : option (list string)) : string :=
  match arr o with x :: _ => x | [] => "" end.

Definition ol_cover (cover : option Z) (isbn : string) : string :=
  match cover with
  | Some c => if c =? 0 then (if truthy isbn then "https://covers.openlibrary.org/b/isbn/" ++
                                isbn ++ "-L.jpg" else "")
              else "https://covers.openlibrary.org/b/id/" ++ JsString.of_Z c ++ "-L.jpg"
  | None => if truthy isbn then "https://covers.openlibrary.org/b/isbn/" ++ isbn ++ "-L.jpg"
            else ""
  end.

Definition ol_result (d : OlDoc) : SearchResult :=
  let isbn := first_or_empty (ol_isbn d) in
  {| sr_id := sor (ol_key d) isbn; sr_title := sor (ol_title d) "Unknown Title";
     sr_author := jor (JsString.join ", " (arr (ol_author_name d))) "Unknown";
     sr_genre := JsString.join ", " (firstn 2 (arr (ol_subject d)));
     sr_pages := zor (ol_pages_median d) 0; sr_description := "";
     sr_isbn := isbn; sr_publisher := first_or_empty (ol_publisher d);
     sr_coverUrl := ol_cover (ol_cover_i d) isbn; sr_source := "openlibrary" |}.

Definition searchOpenLibrary (resp : option (option (list OlDoc))) : option (list SearchResult) :=
  match resp with
  | None => None
  | Some docs => Some (map ol_result (match docs with Some l => l | None => [] end))
  end.

(** ** [searchBooks] *)

(** What the results grid shows. *)
Inductive SearchView :=
  | ViewEmpty
  | ViewNoResults (q : string)
  | ViewResults (rs : list SearchResult) (source : string).

Record SearchState := {
  ss_input : string;                  (* the discover-search box *)
  ss_last : list SearchResult;        (* [lastSearchResults] *)
  ss_view : SearchView
}.

(** [searchBooks(query)] with the two providers' answers.  Open Library
    is asked only when Hardcover gave nothing; its answer is then used. *)
Definition searchBooks (query : option string) (hc : option (option (list HcBook)))
    (ol : option (option (list OlDoc))) (s : SearchState) : SearchState :=
  let q := JsString.trim (match query with Some x => jor x (ss_input s) | None => ss_input s end) in
  if String.eqb q "" then s else
  let '(r1, src1) := match searchHardcover hc with
                     | Some rs => (rs, "hardcover")
                     | None => ([], "")
                     end in
  let '(r2, src2) := match r1 with
                     | [] => match searchOpenLibrary ol with
                             | Some rs => (rs, "openlibrary")
                             | None => (r1, src1)
                             end
                     | _ => (r1, src1)
                     end in
  match r2 with
  | [] => {| ss_input := q; ss_last := ss_last s; ss_view := ViewNoResults q |}
  | _ => {| ss_input := q; ss_last := r2; ss_view := ViewResults r2 src2 |}
  end.

(** The search result as [openAddModal]'s [prefill]: it has no [tags]. *)
Definition to_prefill (r : SearchResult) : Prefill :=
  {| p_title := sr_title r; p_author := sr_author r; p_genre := sr_genre r;
     p_isbn := sr_isbn r; p_pages := sr_pages r; p_coverUrl := sr_coverUrl r;
     p_tags := None; p_description := sr_description r |}.

(** [addFromSearch(index)] on the results of the last search that found
    any. *)
Definition addFromSearch_last {St : Type} `{DocStore St} (index : nat) (cols : list Collection)
    (cs : SearchState) (st : @LibState St * BookForm) : @LibState St * BookForm :=
  addFromSearch (map to_prefill (ss_last cs)) index cols st.

(** ** Properties *)

Lemma string_of_uint_nonempty d :
  d <> Decimal.Nil -> DecimalString.NilEmpty.string_of_uint d <> "".
Proof. destruct d; simpl; congruence. Qed.

Lemma of_Z_nonempty z : JsString.of_Z z <> "".
Proof.
  unfold JsString.of_Z. destruct z as [|p|p]; simpl; [discriminate| |discriminate].
  apply string_of_uint_nonempty. intros E.
  pose proof (DecimalPos.Unsigned.of_to p) as F. rewrite E in F. discriminate.
Qed.

Lemma jor_nonempty_r a b : b <> "" -> jor a b <> "".
Proof. unfold jor. by destruct (String.eqb_spec a ""). Qed.

Lemma sor_nonempty o d : d <> "" -> sor o d <> "".
Proof. destruct o; [apply jor_nonempty_r|done]. Qed.

(** Every Hardcover result has a title, an author and an ISBN (the book's
    id when the edition has none). *)
Lemma hc_result_nonempty b :
  sr_title (hc_result b) <> "" /\ sr_author (hc_result b) <> "" /\ sr_isbn (hc_result b) <> "".
Proof.
  split_and!; simpl; [apply sor_nonempty; discriminate|apply jor_nonempty_r; discriminate|].
  apply sor_nonempty, sor_nonempty, of_Z_nonempty.
Qed.

(** Every Open Library result has a title and an author. *)
Lemma ol_result_nonempty d : sr_title (ol_result d) <> "" /\ sr_author (ol_result d) <> "".
Proof. split; simpl; [apply sor_nonempty|apply jor_nonempty_r]; discriminate. Qed.

Lemma searchBooks_blank query hc ol s :
  JsString.trim (match query with Some x => jor x (ss_input s) | None => ss_input s end) = "" ->
  searchBooks query hc ol s = s.
Proof. intros E. unfold searchBooks. by rewrite E. Qed.

(** C4: the search with a non-blank query [q]: when Hardcover answers
    with at least one book, its results are shown (and kept for
    [addFromSearch]) whatever Open Library would say; otherwise Open
    Library's results are shown when it answers with any; otherwise "no
    results for q" is shown and the previous results are kept.  The last
    case covers both providers failing and both answering with nothing:
    the code does not tell a failed lookup from an empty one. *)
Theorem searchBooks_spec query hc ol s q :
  JsString.trim (match query with Some x => jor x (ss_input s) | None => ss_input s end) = q ->
  q <> "" ->
  (forall bs, hc = Some bs -> bs <> None -> bs <> Some [] ->
     exists l, bs = Some l /\
     searchBooks query hc ol s =
       {| ss_input := q; ss_last := map hc_result l; ss_view := ViewResults (map hc_result l) "hardcover" |}) /\
  (forall ds, (hc = None \/ hc = Some None \/ hc = Some (Some [])) -> ol = Some (Some ds) -> ds <> [] ->
     searchBooks query hc ol s =
       {| ss_input := q; ss_last := map ol_result ds; ss_view := ViewResults (map ol_result ds) "openlibrary" |}) /\
  ((hc = None \/ hc = Some None \/ hc = Some (Some [])) ->
   (ol = None \/ ol = Some None \/ ol = Some (Some [])) ->
     searchBooks query hc ol s = {| ss_input := q; ss_last := ss_last s; ss_view := ViewNoResults q |}).
Proof.
  intros Hq Hne. unfold searchBooks. rewrite Hq.
  destruct (String.eqb_spec q "") as [|_]; [contradiction|]. split_and!.
  - intros [l|] -> H1 H2; [|done]. exists l. split; [done|]. simpl.
    by destruct l as [|b l]; [|reflexivity].
  - intros ds Hh -> Hd. destruct ds as [|d ds]; [done|].
    by destruct Hh as [->|[->| ->]].
  - intros Hh Ho. by destruct Hh as [->|[->| ->]]; destruct Ho as [->|[->| ->]].
Qed.

(** ** Concrete runs *)

Definition search0 : SearchState := {| ss_input := ""; ss_last := []; ss_view := ViewEmpty |}.

Definition ol_dune : OlDoc :=
  {| ol_key := Some "/works/OL893415W"; ol_title := Some "Dune";
     ol_author_name := Some ["Frank Herbert"]; ol_isbn := Some ["9780441013593"];
     ol_pages_median := Some 604; ol_subject := Some ["Science fiction"; "Dune"; "Arrakis"];
     ol_publisher := Some ["Ace"]; ol_cover_i := None |}.

Lemma searchBooks_spec_witness :
  searchBooks (Some " dune ") None (Some (Some [ol_dune])) search0 =
  {| ss_input := "dune"; ss_last := [ol_result ol_dune];
     ss_view := ViewResults [ol_result ol_dune] "openlibrary" |}.
Proof.
  destruct (searchBooks_spec (Some " dune ") None (Some (Some [ol_dune])) search0 "dune")
    as [_ [P _]]; [reflexivity|discriminate|].
  apply (P [ol_dune]); [left; reflexivity|reflexivity|discriminate].
Defined.

End Catalog.
