(* ===== verification/AuthBoot.v ===== *)
(** * AuthBoot: delivering the auth state to the app (src/firebase.js)

    src/firebase.js registers the [onAuthStateChanged] listener
    (firebase.js:24-42).  When the app's [window._onAuthReady] exists, the
    new user is handed over at once; otherwise a [setInterval] poller
    checks every 100 ms, hands the user over as soon as the handler
    exists, and gives up after its 51st check.  Each auth change that
    finds the app not ready starts its own poller.

    The state [Boot] holds the clock, whether [_onAuthReady] is set
    ([b_ready]: app.js has run line 414), [window._fbUser], the running
    pollers in creation order, the users handed to [_onAuthReady] in
    order, and the [console.error] count.  Timers fire in order of due
    time, ties in creation order; at one instant, due timers fire before
    an external event. *)

From S2P Require Import Prelude JsString Book Sync.
Local Open Scope Z_scope.

Module AuthBoot.

Local Tactic Notation "destruct_ltb" "as" simple_intropattern(p) :=
  match goal with |- context [Nat.ltb ?a ?b] => destruct (Nat.ltb_spec a b) as p end.
Local Tactic Notation "destruct_ltb" := destruct_ltb as [?|?].

(** One [setInterval] poller: the user its closure holds, its [retries]
    counter and the time of its next firing. *)
Record Poller := mkPoller { p_user : option string; p_retries : nat; p_due : Z }.

Record Boot := mkBoot {
  b_now : Z;
  b_ready : bool;                      (* [window._onAuthReady] is set *)
  b_fbUser : option string;            (* [window._fbUser] *)
  b_pollers : list Poller;             (* the intervals not yet cleared *)
  b_delivered : list (option string);  (* calls of [_onAuthReady(user)] *)
  b_errors : nat                       (* [console.error] calls *)
}.

Definition boot_init (now : Z) : Boot :=
  {| b_now := now; b_ready := false; b_fbUser := None; b_pollers := [];
     b_delivered := []; b_errors := 0 |}.

Definition set_pollers (ps : list Poller) (s : Boot) : Boot :=
  {| b_now := b_now s; b_ready := b_ready s; b_fbUser := b_fbUser s; b_pollers := ps;
     b_delivered := b_delivered s; b_errors := b_errors s |}.

Definition set_now (t : Z) (s : Boot) : Boot :=
  {| b_now := t; b_ready := b_ready s; b_fbUser := b_fbUser s; b_pollers := b_pollers s;
     b_delivered := b_delivered s; b_errors := b_errors s |}.

Definition deliver (u : option string) (s : Boot) : Boot :=
  {| b_now := b_now s; b_ready := b_ready s; b_fbUser := b_fbUser s; b_pollers := b_pollers s;
     b_delivered := b_delivered s ++ [u]; b_errors := b_errors s |}.

Definition log_error (s : Boot) : Boot :=
  {| b_now := b_now s; b_ready := b_ready s; b_fbUser := b_fbUser s; b_pollers := b_pollers s;
     b_delivered := b_delivered s; b_errors := S (b_errors s) |}.

(** app.js runs [window._onAuthReady = async (user) => ...]. *)
Definition script_ready (s : Boot) : Boot :=
  {| b_now := b_now s; b_ready := true; b_fbUser := b_fbUser s; b_pollers := b_pollers s;
     b_delivered := b_delivered s; b_errors := b_errors s |}.

(** The [onAuthStateChanged] callback (firebase.js:24-42). *)
Definition onAuthStateChanged (u : option string) (s : Boot) : Boot :=
  let s1 := {| b_now := b_now s; b_ready := b_ready s; b_fbUser := u;
               b_pollers := b_pollers s; b_delivered := b_delivered s;
               b_errors := b_errors s |} in
  if b_ready s then deliver u s1
  else set_pollers (b_pollers s ++ [{| p_user := u; p_retries := 0; p_due := b_now s + 100 |}])%list s1.

(** One firing of the interval callback (firebase.js:31-40):
    [retries++], then hand over and clear, or give up and clear after
    the 51st check, or wait 100 ms more.  [pre] and [post] are the
    pollers created before and after it. *)
Definition fire (pre : list Poller) (p : Poller) (post : list Poller) (s : Boot) : Boot :=
  let s0 := set_now (p_due p) s in
  let r := S (p_retries p) in
  if b_ready s then deliver (p_user p) (set_pollers (pre ++ post)%list s0)
  else if (50 <? r)%nat then log_error (set_pollers (pre ++ post)%list s0)
  else set_pollers (pre ++ {| p_user := p_user p; p_retries := r; p_due := p_due p + 100 |}
                        :: post)%list s0.

(** ** The timer queue *)

Fixpoint min_due (ps : list Poller) : option Z :=
  match ps with
  | [] => None
  | p :: r => match min_due r with
              | Some d => Some (Z.min (p_due p) d)
              | None => Some (p_due p)
              end
  end.

(** The first poller whose due time is [d], with those before and after. *)
Fixpoint split_due (d : Z) (ps : list Poller) : option (list Poller * Poller * list Poller) :=
  match ps with
  | [] => None
  | p :: r => if p_due p =? d then Some ([], p, r)
              else match split_due d r with
                   | Some (a, q, b) => Some (p :: a, q, b)
                   | None => None
                   end
  end.

(** The next timer to fire by time [t], if any. *)
Definition next_due (t : Z) (ps : list Poller) : option (list Poller * Poller * list Poller) :=
  match min_due ps with
  | Some d => if d <=? t then split_due d ps else None
  | None => None
  end.

(** Fire the due timers one after the other, at most [fuel] of them. *)
Fixpoint fire_due (fuel : nat) (t : Z) (s : Boot) : Boot :=
  match fuel with
  | O => s
  | S f => match next_due t (b_pollers s) with
           | None => s
           | Some (pre, p, post) => fire_due f t (fire pre p post s)
           end
  end.

(** Each poller fires at most 51 times: the number of pollers plus their
    remaining checks bounds the firings to come. *)
Definition measure (s : Boot) : nat :=
  length (b_pollers s) + list_sum (map (fun p => 51 - p_retries p)%nat (b_pollers s)).

(** Let the clock run to [t]. *)
Definition advance (t : Z) (s : Boot) : Boot := set_now t (fire_due (measure s) t s).

Inductive BootEvent := AuthChanged (u : option string) | ScriptReady | Wait.

(** An external event at time [t], after the timers due by then. *)
Definition boot_step (s : Boot) (e : Z * BootEvent) : Boot :=
  let s1 := advance (fst e) s in
  match snd e with
  | AuthChanged u => onAuthStateChanged u s1
  | ScriptReady => script_ready s1
  | Wait => s1
  end.

Definition boot_run (es : list (Z * BootEvent)) (s : Boot) : Boot := fold_left boot_step es s.

(** ** The app behind [_onAuthReady] *)

(** Each hand-over is the event [Sync.AuthReady] of the session. *)
Definition app_session (b : Boot) (s : Sync.Session) : Sync.Session :=
  Sync.run (map Sync.AuthReady (b_delivered b)) s.

(** ** The firing loop terminates *)

Lemma split_due_app d ps a q b : split_due d ps = Some (a, q, b) -> ps = (a ++ q :: b)%list.
Proof.
  revert a. induction ps as [|p ps IH]; intros a; simpl; [discriminate|].
  destruct (Z.eqb_spec (p_due p) d); [by intros [= <- <- <-]|].
  destruct (split_due d ps) as [[[a' q'] b']|] eqn:E; [|discriminate].
  intros [= <- <- <-]. simpl. f_equal. by apply IH.
Qed.

Lemma next_due_app t ps a q b : next_due t ps = Some (a, q, b) -> ps = (a ++ q :: b)%list.
Proof.
  unfold next_due. destruct (min_due ps); [|discriminate].
  destruct (_ <=? t); [apply split_due_app|discriminate].
Qed.

Lemma remaining_app (l1 l2 : list Poller) :
  list_sum (map (fun p => 51 - p_retries p)%nat (l1 ++ l2)) =
  (list_sum (map (fun p => 51 - p_retries p)%nat l1) +
   list_sum (map (fun p => 51 - p_retries p)%nat l2))%nat.
Proof. by rewrite map_app, list_sum_app. Qed.

(** Every firing uses up one check or clears a poller. *)
Lemma fire_measure t s a p b :
  next_due t (b_pollers s) = Some (a, p, b) -> (measure (fire a p b s) < measure s)%nat.
Proof.
  intros E. apply next_due_app in E. unfold measure, fire. rewrite E.
  destruct (b_ready s); [|destruct_ltb];
    cbn [b_pollers deliver set_pollers log_error set_now];
    rewrite ?length_app, !remaining_app;
    change (list_sum (map ?g (?x :: ?l))) with (g x + list_sum (map g l))%nat;
    cbn [length p_retries]; lia.
Qed.

Lemma fire_due_idle fuel t s : next_due t (b_pollers s) = None -> fire_due fuel t s = s.
Proof. destruct fuel; simpl; [done|]. by intros ->. Qed.

Lemma fire_due_enough fuel t s :
  (measure s <= fuel)%nat -> next_due t (b_pollers (fire_due fuel t s)) = None.
Proof.
  revert s. induction fuel as [|f IH]; intros s Hf; simpl.
  - destruct (b_pollers s) as [|p ps] eqn:E; [done|]. unfold measure in Hf. rewrite E in Hf.
    simpl in Hf. lia.
  - destruct (next_due t (b_pollers s)) as [[[a p] b]|] eqn:E; [|done].
    apply IH. pose proof (fire_measure _ _ _ _ _ E). lia.
Qed.

Lemma fire_due_more fuel k t s :
  (measure s <= fuel)%nat -> fire_due (fuel + k) t s = fire_due fuel t s.
Proof.
  revert s. induction fuel as [|f IH]; intros s Hf.
  - apply fire_due_idle. pose proof (fire_due_enough 0 t s Hf) as E. exact E.
  - simpl. destruct (next_due t (b_pollers s)) as [[[a p] b]|] eqn:E; [|done].
    apply IH. pose proof (fire_measure _ _ _ _ _ E). lia.
Qed.

(** C35: letting the clock run always terminates: the timers due by [t]
    all fire within [measure s] firings (each poller is cleared by its
    51st check), after which none is due and more fuel changes nothing,
    so [advance] is the full run of the event loop up to [t]. *)
Theorem advance_terminates t s :
  next_due t (b_pollers (advance t s)) = None /\
  forall fuel, (measure s <= fuel)%nat -> fire_due fuel t s = fire_due (measure s) t s.
Proof.
  split; [apply fire_due_enough; lia|].
  intros fuel Hf. replace fuel with (measure s + (fuel - measure s))%nat by lia.
  by apply fire_due_more.
Qed.

(** ** One poller *)

Section OnePoller.
Variables (u : option string) (c : Z).

(** The poller the auth change at time [c] started, after [k] checks. *)
Definition poller_at (k : nat) : Poller := mkPoller u k (c + 100 * Z.of_nat (S k)).

Lemma next_due_single t k :
  next_due t [poller_at k] = if c + 100 * Z.of_nat (S k) <=? t then Some ([], poller_at k, []) else None.
Proof.
  unfold next_due. simpl. destruct (_ <=? t); [|done]. by rewrite Z.eqb_refl.
Qed.

Lemma fire_due_nil fuel t s : b_pollers s = [] -> fire_due fuel t s = s.
Proof. intros E. apply fire_due_idle. by rewrite E. Qed.

(** While the app is not ready, the poller keeps checking until time [t]
    and is still waiting, or has given up if [t] is past its 51st check. *)
Lemma poller_waits fuel k t s :
  b_pollers s = [poller_at k] -> b_ready s = false -> (k <= 50)%nat -> (52 - k <= fuel)%nat ->
  let s' := fire_due fuel t s in
  b_ready s' = false /\ b_delivered s' = b_delivered s /\ b_fbUser s' = b_fbUser s /\
  ((t < c + 5100 /\ b_errors s' = b_errors s /\
    exists k', (k <= k' <= 50)%nat /\ t < c + 100 * Z.of_nat (S k') /\ b_pollers s' = [poller_at k']) \/
   (c + 5100 <= t /\ b_pollers s' = [] /\ b_errors s' = S (b_errors s))).
Proof.
  revert k s. induction fuel as [|f IH]; intros k s Hp Hr Hk Hf; [lia|]. cbn zeta. simpl.
  rewrite Hp, next_due_single. destruct (Z.leb_spec (c + 100 * Z.of_nat (S k)) t) as [Hd|Hd].
  - unfold fire. rewrite Hr. cbn [poller_at p_retries p_user p_due].
    destruct_ltb as [Hk'|Hk'].
    + rewrite fire_due_nil by done. cbn. split_and!; [done..|]. right. split_and!; try done; lia.
    + assert (Hq : mkPoller u (S k) (c + 100 * Z.of_nat (S k) + 100) = poller_at (S k)).
      { unfold poller_at. f_equal. lia. }
      rewrite Hq. destruct (IH (S k) (set_pollers [poller_at (S k)] (set_now (c + 100 * Z.of_nat (S k)) s)))
        as (R & D & U & H); [done|done|lia|lia|].
      split_and!; [done..|]. destruct H as [(Ht & E & k' & Hk2 & Hlt & P)|H]; [|by right].
      left. split_and!; try done. exists k'. split_and!; try done; lia.
  - split_and!; [done..|]. left. split_and!; try done; [lia|]. exists k. split_and!; try done; lia.
Qed.

(** Once the app is ready, the waiting poller hands its user over at its
    next check. *)
Lemma poller_delivers fuel k t s :
  b_pollers s = [poller_at k] -> b_ready s = true -> c + 100 * Z.of_nat (S k) <= t -> (1 <= fuel)%nat ->
  b_delivered (fire_due fuel t s) = (b_delivered s ++ [u])%list /\ b_pollers (fire_due fuel t s) = [] /\
  b_errors (fire_due fuel t s) = b_errors s.
Proof.
  intros Hp Hr Ht Hf. destruct fuel as [|f]; [lia|]. simpl. rewrite Hp, next_due_single.
  destruct (Z.leb_spec (c + 100 * Z.of_nat (S k)) t); [|lia].
  unfold fire. rewrite Hr. rewrite fire_due_nil by done. done.
Qed.

End OnePoller.

(** The state after the first auth change of a fresh page at [t0]. *)
Lemma first_auth_change u t0 :
  boot_step (boot_init t0) (t0, AuthChanged u) = mkBoot t0 false u [poller_at u t0 0] [] 0%nat.
Proof. unfold poller_at. cbn. repeat f_equal; lia. Qed.

Ltac boot_simpl := cbn [b_now b_ready b_fbUser b_pollers b_delivered b_errors set_now script_ready fst snd] in *.

(** C30: the auth state of a page that loads reaches the app.  After an
    auth change at [t0], if the app script is ready at [r] before the
    51st check of the poller (at [t0 + 5100]), the user is handed over
    exactly once by [t0 + 5100] and the poller is cleared; if the app is
    ready only at [t0 + 5100] or later, the poller has given up with one
    logged error and the user is never handed over. *)
Theorem auth_state_delivered u t0 r t :
  t0 <= r -> r <= t -> t0 + 5100 <= t ->
  let s := boot_run [(t0, AuthChanged u); (r, ScriptReady); (t, Wait)] (boot_init t0) in
  (r < t0 + 5100 -> b_delivered s = [u] /\ b_pollers s = [] /\ b_errors s = 0%nat) /\
  (t0 + 5100 <= r -> b_delivered s = [] /\ b_pollers s = [] /\ b_errors s = 1%nat).
Proof.
  intros H0 H1 H2. cbv zeta. unfold boot_run. cbn [fold_left]. rewrite first_auth_change.
  set (s1 := mkBoot t0 false u [poller_at u t0 0] [] 0%nat).
  unfold boot_step, advance. boot_simpl.
  destruct (poller_waits u t0 (measure s1) 0 r s1)
    as (Rd & D & _ & [(Hlt & E & k & Hk & Hk2 & P)|(Hge & P & E)]);
    [done|done|lia|by apply Nat.leb_le|..];
    set (X := fire_due (measure s1) r s1) in *; set (Y := script_ready (set_now r X));
    split; intros; [|lia|lia|].
  - destruct (poller_delivers u t0 (measure Y) k t Y) as (D' & P' & E');
      [done|done|lia|unfold measure, Y; boot_simpl; rewrite P; cbn; lia|].
    rewrite D', P', E'. unfold Y. boot_simpl. by rewrite D, E.
  - rewrite fire_due_nil; unfold Y; boot_simpl; [|done]. by rewrite D, P, E.
Qed.

(** The app ready at 3 s after an auth change at 0: the user arrives. *)
Lemma auth_state_delivered_witness :
  b_delivered (boot_run [(0, AuthChanged (Some "ana")); (3000, ScriptReady); (9000, Wait)] (boot_init 0))
  = [Some "ana"].
Proof.
  exact (proj1 (proj1 (auth_state_delivered (Some "ana") 0 3000 9000 ltac:(lia) ltac:(lia) ltac:(lia))
                 ltac:(lia))).
Defined.

(** ** Composition with the app session *)

Lemma onAuthReady_user u s : Sync.s_user (Sync.step (Sync.AuthReady u) s) = u.
Proof.
  destruct u as [u|]; [|done]. cbn [Sync.step Sync.onAuthReady].
  unfold Sync.subscribeToData, Sync.loadSettings. cbn [Sync.s_user Sync.set_user].
  by destruct (Sync.remote_doc u _).
Qed.

(** The app ends with the user handed over last. *)
Lemma app_session_user b s :
  Sync.s_user (app_session b s) = List.last (b_delivered b) (Sync.s_user s).
Proof.
  unfold app_session, Sync.run. induction (b_delivered b) as [|u l IH] using rev_ind; [done|].
  rewrite map_app, fold_left_app, List.last_last. apply onAuthReady_user.
Qed.

(** ** Two pollers racing *)

Lemma fire_wait pre p post s :
  b_ready s = false -> (S (p_retries p) <= 50)%nat ->
  fire pre p post s = set_pollers (pre ++ mkPoller (p_user p) (S (p_retries p)) (p_due p + 100) :: post)%list
                        (set_now (p_due p) s).
Proof. intros Hr Hk. unfold fire. rewrite Hr. by destruct_ltb; [lia|]. Qed.

Lemma fire_ready pre p post s :
  b_ready s = true -> fire pre p post s = deliver (p_user p) (set_pollers (pre ++ post)%list (set_now (p_due p) s)).
Proof. unfold fire. by intros ->. Qed.

Lemma poller_next u c k : mkPoller u (S k) (p_due (poller_at u c k) + 100) = poller_at u c (S k).
Proof. unfold poller_at. cbn [p_due]. f_equal. lia. Qed.

Lemma next_due_pair_first t x y :
  p_due x < p_due y -> p_due x <= t -> next_due t [x; y] = Some ([], x, [y]).
Proof.
  intros Hxy Ht. unfold next_due. cbn [min_due]. rewrite Z.min_l by lia.
  rewrite (proj2 (Z.leb_le _ _) Ht). cbn [split_due]. by rewrite Z.eqb_refl.
Qed.

Lemma next_due_pair_second t x y :
  p_due y < p_due x -> p_due y <= t -> next_due t [x; y] = Some ([x], y, []).
Proof.
  intros Hxy Ht. unfold next_due. cbn [min_due]. rewrite Z.min_r by lia.
  rewrite (proj2 (Z.leb_le _ _) Ht). cbn [split_due].
  rewrite (proj2 (Z.eqb_neq (p_due x) (p_due y))) by lia. by rewrite Z.eqb_refl.
Qed.

Lemma next_due_pair_none t x y : t < p_due x -> t < p_due y -> next_due t [x; y] = None.
Proof. intros Hx Hy. unfold next_due. cbn [min_due]. by rewrite (proj2 (Z.leb_gt _ t)) by lia. Qed.

Section TwoPollers.
Variables (u0 u1 : option string) (a b : Z).
Hypothesis Hab : a < b < a + 100.

(** The pollers of the changes at [a] and [b] alternate, the older
    first, while the app is not ready: at any time before the older
    one's 51st check, either both have made [k] checks, or the older one
    has made [k + 1] and the newer [k]. *)
Lemma two_wait fuel j t s :
  b_pollers s = [poller_at u0 a j; poller_at u1 b j] -> b_ready s = false ->
  b + 100 * Z.of_nat j <= t -> t < a + 5100 -> (102 <= fuel + 2 * j)%nat ->
  let s' := fire_due fuel t s in
  b_ready s' = false /\ b_delivered s' = b_delivered s /\ b_errors s' = b_errors s /\
  b_fbUser s' = b_fbUser s /\
  exists k, (b_pollers s' = [poller_at u0 a k; poller_at u1 b k] /\
             b + 100 * Z.of_nat k <= t < a + 100 * Z.of_nat (S k)) \/
            (b_pollers s' = [poller_at u0 a (S k); poller_at u1 b k] /\
             a + 100 * Z.of_nat (S k) <= t < b + 100 * Z.of_nat (S k)).
Proof.
  revert j s. induction fuel as [fuel IH] using (well_founded_induction lt_wf).
  intros j s Hp Hr Hb Ha Hf. cbv zeta. destruct fuel as [|f]; [lia|].
  cbn [fire_due]. rewrite Hp.
  destruct (Z.ltb_spec t (a + 100 * Z.of_nat (S j))) as [H1|H1].
  { rewrite next_due_pair_none by (cbn; lia). split_and!; try done. exists j. left. by split_and!. }
  rewrite next_due_pair_first by (cbn; lia). rewrite fire_wait by (cbn; done || lia).
  cbn [p_user p_retries poller_at]. rewrite poller_next. cbn [app].
  set (s1 := set_pollers _ _).
  destruct (Z.ltb_spec t (b + 100 * Z.of_nat (S j))) as [H2|H2].
  { rewrite (fire_due_idle f t s1) by (apply next_due_pair_none; cbn; lia).
    split_and!; try done. exists j. right. by split_and!. }
  destruct f as [|f]; [lia|]. cbn [fire_due s1 set_pollers b_pollers].
  rewrite next_due_pair_second by (cbn; lia). rewrite fire_wait by (cbn; done || lia).
  cbn [p_user p_retries poller_at]. rewrite poller_next. cbn [app].
  destruct (IH f ltac:(lia) (S j) (set_pollers [poller_at u0 a (S j); poller_at u1 b (S j)]
                        (set_now (b + 100 * Z.of_nat (S j)) s1))) as (R & D & E & U & k & Hk);
    [done|done|lia|lia|lia|].
  split_and!; try done. by exists k.
Qed.

(** Once the app is ready, the poller due first hands its user over,
    then the other. *)
Lemma two_deliver fuel t s x y :
  b_pollers s = [x; y] -> b_ready s = true -> p_due x <> p_due y ->
  p_due x <= t -> p_due y <= t -> (2 <= fuel)%nat ->
  b_delivered (fire_due fuel t s) =
    (b_delivered s ++ (if p_due x <? p_due y then [p_user x; p_user y] else [p_user y; p_user x]))%list /\
  b_pollers (fire_due fuel t s) = [] /\ b_errors (fire_due fuel t s) = b_errors s.
Proof.
  intros Hp Hr Hne Hx Hy Hf. destruct fuel as [|[|f]]; [lia|lia|]. cbn [fire_due]. rewrite Hp.
  destruct (Z.ltb_spec (p_due x) (p_due y)) as [Hlt|Hge].
  - rewrite next_due_pair_first by done. rewrite fire_ready by done. cbn.
    rewrite (proj2 (Z.leb_le _ _) Hy), Z.eqb_refl. rewrite fire_ready by (cbn; exact Hr).
    rewrite fire_due_nil by done. cbn. by rewrite <- app_assoc.
  - rewrite next_due_pair_second by lia. rewrite fire_ready by done. cbn.
    rewrite (proj2 (Z.leb_le _ _) Hx), Z.eqb_refl. rewrite fire_ready by (cbn; exact Hr).
    rewrite fire_due_nil by done. cbn. by rewrite <- app_assoc.
Qed.

End TwoPollers.

Lemma fire_fbUser pre p post s : b_fbUser (fire pre p post s) = b_fbUser s.
Proof. unfold fire. by repeat case_match. Qed.

Lemma fire_due_fbUser fuel t s : b_fbUser (fire_due fuel t s) = b_fbUser s.
Proof.
  revert s. induction fuel as [|f IH]; intros s; [done|]. cbn [fire_due].
  destruct (next_due t (b_pollers s)) as [[[pre p] post]|]; [|done]. by rewrite IH, fire_fbUser.
Qed.

(** Two auth changes less than 100 ms apart on a page whose app is not
    ready, then the app ready at [r] and a wait until [t]. *)
Lemma second_auth_change u0 u1 a b :
  a < b < a + 100 ->
  boot_step (mkBoot a false u0 [poller_at u0 a 0] [] 0%nat) (b, AuthChanged u1) =
  mkBoot b false u1 [poller_at u0 a 0; poller_at u1 b 0] [] 0%nat.
Proof.
  intros Hab. unfold boot_step, advance. cbn [fst snd].
  rewrite fire_due_idle by (cbn; unfold next_due; cbn; by rewrite (proj2 (Z.leb_gt _ _)) by lia).
  unfold poller_at. cbn. repeat f_equal; lia.
Qed.

Lemma race_run u0 u1 a b r t :
  a < b < a + 100 ->
  boot_run [(a, AuthChanged u0); (b, AuthChanged u1); (r, ScriptReady); (t, Wait)] (boot_init a) =
  advance t (script_ready (advance r (mkBoot b false u1 [poller_at u0 a 0; poller_at u1 b 0] [] 0%nat))).
Proof.
  intros Hab. unfold boot_run. cbn [fold_left]. rewrite first_auth_change, second_auth_change by done.
  reflexivity.
Qed.

(** C22: the pollers are not cancelled by a newer auth change, and the
    user handed over last wins.  The page reports [u0] at [a] before the
    app is ready, the state changes to [u1] at [b] (a sign-in or
    sign-out elsewhere, less than 100 ms later), and the app is ready at
    [r], before the first poller gives up: both users are handed over,
    and the stale [u0] comes last exactly when [r] falls, modulo 100 ms,
    between the two pollers' checks.  The app then ends with [u0] while
    Firebase holds [u1]; with [u0] the signed-out state, it shows no
    books. *)
Theorem auth_race_signed_out u0 u1 a b r t s :
  a < b < a + 100 -> b <= r < a + 5100 -> r + 100 <= t ->
  let bt := boot_run [(a, AuthChanged u0); (b, AuthChanged u1); (r, ScriptReady); (t, Wait)]
                     (boot_init a) in
  let stale := (r - a) mod 100 <? b - a in
  b_fbUser bt = u1 /\ b_pollers bt = [] /\ b_errors bt = 0%nat /\
  b_delivered bt = (if stale then [u1; u0] else [u0; u1]) /\
  Sync.s_user (app_session bt s) = (if stale then u0 else u1) /\
  (stale = true -> u0 = None -> Sync.s_books (app_session bt s) = []).
Proof.
  intros Hab Hr Ht. cbv zeta. rewrite race_run by done.
  set (s2 := mkBoot b false u1 _ _ _).
  destruct (two_wait u0 u1 a b Hab (measure s2) 0 r s2) as (R & D & E & U & k & Hk);
    [done|done|cbn; lia|lia|cbn; lia|].
  unfold advance at 2. set (X := fire_due (measure s2) r s2) in *.
  set (Y := script_ready (set_now r X)). unfold advance.
  assert (HY : b_pollers Y = b_pollers X /\ b_ready Y = true /\ b_delivered Y = [] /\
               b_errors Y = 0%nat /\ b_fbUser Y = u1) by (unfold Y; boot_simpl; by rewrite D, E, U).
  destruct HY as (PY & RY & DY & EY & UY).
  destruct Hk as [(P & Hk)|(P & Hk)]; rewrite P in PY.
  - destruct (two_deliver (measure Y) t Y (poller_at u0 a k) (poller_at u1 b k)) as (D' & P' & E');
      [done|done|cbn; lia|cbn; lia|cbn; lia|unfold measure; rewrite PY; cbn; lia|].
    rewrite <- (Z.mod_unique_pos (r - a) 100 (Z.of_nat k) (r - a - 100 * Z.of_nat k)) by lia.
    rewrite (proj2 (Z.ltb_ge (r - a - 100 * Z.of_nat k) (b - a))) by lia.
    rewrite (proj2 (Z.ltb_lt (p_due (poller_at u0 a k)) _)) in D' by (cbn; lia).
    cbn [b_fbUser b_pollers b_delivered b_errors set_now]. fold X Y. rewrite D', P', E', DY, EY, fire_due_fbUser, UY.
    split_and!; [done..| |discriminate]. rewrite app_session_user. cbn [b_delivered set_now]. fold X Y. by rewrite D', DY.
  - destruct (two_deliver (measure Y) t Y (poller_at u0 a (S k)) (poller_at u1 b k)) as (D' & P' & E');
      [done|done|cbn; lia|cbn; lia|cbn; lia|unfold measure; rewrite PY; cbn; lia|].
    rewrite <- (Z.mod_unique_pos (r - a) 100 (Z.of_nat (S k)) (r - a - 100 * Z.of_nat (S k))) by lia.
    rewrite (proj2 (Z.ltb_lt (r - a - 100 * Z.of_nat (S k)) (b - a))) by lia.
    rewrite (proj2 (Z.ltb_ge (p_due (poller_at u0 a (S k))) _)) in D' by (cbn; lia).
    cbn [b_fbUser b_pollers b_delivered b_errors set_now]. fold X Y. rewrite D', P', E', DY, EY, fire_due_fbUser, UY.
    split_and!; [done..| |].
    + rewrite app_session_user. cbn [b_delivered set_now]. fold X Y. by rewrite D', DY.
    + intros _ ->. unfold app_session. cbn [b_delivered set_now]. fold X Y. rewrite D', DY. cbn. by destruct u1.
Qed.

(** No user at 0, a sign-in at 50 ms, the app ready at 120 ms: the
    poller of the sign-in checks at 150 ms, the stale one at 200 ms, and
    the app ends signed out. *)
Lemma auth_race_signed_out_witness :
  b_delivered (boot_run [(0, AuthChanged None); (50, AuthChanged (Some "ana")); (120, ScriptReady);
                         (9000, Wait)] (boot_init 0)) = [Some "ana"; None].
Proof.
  destruct (auth_race_signed_out None (Some "ana") 0 50 120 9000 (Sync.init_session 2026 0))
    as (_ & _ & _ & H & _); [lia|lia|lia|]. exact H.
Defined.

End AuthBoot.
