(* ===== verification/Summary.v ===== *)
(** * Summary: the cards, most-read authors, reading summary and format
    breakdown of [renderStats]

    The parts of [renderStats] (src/app.js:1531-1714) that Stats.v leaves
    out: the four cards at the top (total, read, average rating, genres),
    the most-read authors list built from the object [authorData], the
    reading summary (books this year, pages read, average days per book)
    and the format breakdown.  The averages and the thousands of pages are
    binary64 quotients printed with [toFixed(1)] or rounded with
    [Math.round] ([JsNumber]).

    [authorData[b.author]] reads inherited properties: for an author named
    like a property of [Object.prototype] the entry is a function (or the
    prototype itself), [.books.push] throws a TypeError and [renderStats]
    stops there, so the authors list, the reading summary and the format
    breakdown are not rendered.  [render_summary] returns [None] then. *)

From S2P Require Import Prelude JsString JsNumber JsArray Book Stats.
Local Open Scope string_scope.
Local Open Scope Z_scope.

Module Summary.

Import JsNumber.

(** ** The cards (src/app.js:1532-1541) *)

(** [rated.reduce((s, b) => s + b.rating, 0)]: integer ratings add exactly. *)
Definition sum_ratings (bs : list Book) : Z := fold_left (fun s b => s + rating b) bs 0.

(** The text of [s-avg-rating] before the star: [(sum / rated.length).toFixed(1)],
    or [None] for the dash when no read book is rated. *)
Definition avg_rating_text (bs : list Book) : option string :=
  match Stats.rated bs with
  | [] => None
  | rs => toFixed1 (js_div (sum_ratings rs) (Z.of_nat (length rs)))
  end.

(** [new Set(readBooks.map(b => b.genre).filter(Boolean)).size] *)
Definition genre_count (bs : list Book) : nat :=
  length (set_values (List.filter Stats.truthy (map genre (Stats.readBooks bs)))).

Record Cards := mkCards { c_total : nat; c_read : nat; c_avg : option string; c_genres : nat }.

Definition stat_cards (bs : list Book) : Cards :=
  mkCards (length bs) (length (Stats.readBooks bs)) (avg_rating_text bs) (genre_count bs).

(** ** Most-read authors (src/app.js:1642-1668) *)

Record AuthorData := mkAuthorData {
  ad_count : Z; ad_books : list Book; ad_totalRating : Z; ad_ratedCount : Z }.

(** The own and inherited properties of [Object.prototype]; reading one
    of them from a fresh object gives a function or the prototype. *)
Definition proto_keys : list string :=
  ["constructor"; "__defineGetter__"; "__defineSetter__"; "hasOwnProperty";
   "__lookupGetter__"; "__lookupSetter__"; "isPrototypeOf"; "propertyIsEnumerable";
   "toString"; "valueOf"; "__proto__"; "toLocaleString"].

(** [count++], [books.push(b)], and [if (b.rating) { totalRating +=
    b.rating; ratedCount++; }] on one entry. *)
Definition add_book (d : AuthorData) (b : Book) : AuthorData :=
  mkAuthorData (ad_count d + 1) (ad_books d ++ [b])%list
    (if rating b =? 0 then ad_totalRating d else ad_totalRating d + rating b)
    (if rating b =? 0 then ad_ratedCount d else ad_ratedCount d + 1).

(** One [readBooks.forEach] step; [None] is the TypeError of [.books.push]
    on an inherited entry. *)
Definition author_step (acc : option (list (string * AuthorData))) (b : Book)
  : option (list (string * AuthorData)) :=
  match acc with
  | None => None
  | Some m =>
      if String.eqb (author b) "" then Some m
      else match obj_get (author b) m with
           | Some d => Some (obj_set (author b) (add_book d b) m)
           | None =>
               if author b \in proto_keys then None
               else Some (obj_set (author b) (add_book (mkAuthorData 0 [] 0 0) b) m)
           end
  end.

Definition author_table (bs : list Book) : option (list (string * AuthorData)) :=
  fold_left author_step (Stats.readBooks bs) (Some []).

(** [Object.entries(authorData).sort((a,b) => b[1].count - a[1].count).slice(0, 8)] *)
Definition top_author_entries (m : list (string * AuthorData)) : list (string * AuthorData) :=
  js_slice 8 (js_sort (cmp_desc (fun e : string * AuthorData => ad_count (snd e))) (object_entries m)).

Record AuthorRow := mkAuthorRow {
  ar_author : string; ar_count : Z; ar_avg : option string; ar_sample : option Book }.

(** One row: [avgRating] ([None] for [null]) and [sampleBook]. *)
Definition author_row (e : string * AuthorData) : AuthorRow :=
  let d := snd e in
  mkAuthorRow (fst e) (ad_count d)
    (if ad_ratedCount d =? 0 then None else toFixed1 (js_div (ad_totalRating d) (ad_ratedCount d)))
    (match List.find (fun b => Stats.truthy (coverUrl b)) (ad_books d) with
     | Some b => Some b
     | None => head (ad_books d)
     end).

(** ** Reading summary (src/app.js:1670-1695) *)

(** [readBooks.reduce((s, b) => s + (b.pages || 0), 0)] *)
Definition totalPages (bs : list Book) : Z := fold_left (fun s b => s + pages b) (Stats.readBooks bs) 0.

(** [totalPages > 1000 ? (totalPages/1000).toFixed(1)+'k' : totalPages] *)
Definition pages_text (t : Z) : option string :=
  if 1000 <? t then option_map (fun s => s ++ "k") (toFixed1 (js_div t 1000))
  else Some (JsString.of_Z t).

Definition is_digit (c : ascii) : bool :=
  match JsString.digit_val 10 c with Some _ => true | None => false end.

Definition digit_string (s : string) : bool := forallb is_digit (list_ascii_of_string s).

Definition leap (y : Z) : bool := ((y mod 4 =? 0) && negb (y mod 100 =? 0)) || (y mod 400 =? 0).

Definition days_in_month (y m : Z) : Z :=
  if m =? 2 then (if leap y then 29 else 28)
  else if (m =? 4) || (m =? 6) || (m =? 9) || (m =? 11) then 30 else 31.

(** Days from 1970-01-01 to the proleptic Gregorian date [y-m-d]. *)
Definition days_from_civil (y m d : Z) : Z :=
  let y' := if m <=? 2 then y - 1 else y in
  let era := y' / 400 in
  let yoe := y' - era * 400 in
  let doy := (153 * ((m + 9) mod 12) + 2) / 5 + d - 1 in
  let doe := yoe * 365 + yoe / 4 - yoe / 100 + doy in
  era * 146097 + doe - 719468.

Definition char_is (s : string) (i : nat) (c : ascii) : bool :=
  match String.get i s with Some c' => Ascii.eqb c' c | None => false end.

Definition num (s : string) : Z := JsString.digits_value 10 (JsString.take_digits 10 s).

(** [new Date(s)] for the date-only ISO form [YYYY-MM-DD] of the date
    inputs: midnight UTC, in days since the epoch.  Any other string is
    [None] (NaN); engines parse some other forms by their own rules, which
    is not modelled. *)
Definition iso_day (s : string) : option Z :=
  if (String.length s =? 10)%nat && char_is s 4 "-" && char_is s 7 "-"
     && digit_string (JsString.substring s 0 4) && digit_string (JsString.substring s 5 7)
     && digit_string (JsString.substring s 8 10)
  then let y := num (JsString.substring s 0 4) in
       let m := num (JsString.substring s 5 7) in
       let d := num (JsString.substring s 8 10) in
       if (1 <=? m) && (m <=? 12) && (1 <=? d) && (d <=? days_in_month y m)
       then Some (days_from_civil y m d) else None
  else None.

(** [(new Date(b.dateRead) - new Date(b.dateStarted)) / 86400000], counted
    when positive: both dates are midnights, so the quotient is a whole
    number of days ([JsNumber.js_div_exact]); NaN counts 0. *)
Definition span (b : Book) : Z :=
  match iso_day (dateRead b), iso_day (dateStarted b) with
  | Some r, Some st => Z.max 0 (r - st)
  | _, _ => 0
  end.

Definition booksWithDates (bs : list Book) : list Book :=
  List.filter (fun b => Stats.truthy (dateStarted b) && Stats.truthy (dateRead b)) (Stats.readBooks bs).

Definition total_days (ws : list Book) : Z := fold_left (fun s b => s + span b) ws 0.

(** [avgDays]: [Math.round(totalDays / booksWithDates.length)], or 0. *)
Definition avg_days (bs : list Book) : Z :=
  match booksWithDates bs with
  | [] => 0
  | ws => match js_round (js_div (total_days ws) (Z.of_nat (length ws))) with
          | Some v => v
          | None => 0
          end
  end.

Record ReadingSummary := mkReadingSummary {
  rs_this_year : nat; rs_pages : option string; rs_avg_days : Z }.

Definition reading_summary (cy : Z) (bs : list Book) : ReadingSummary :=
  mkReadingSummary (length (Stats.readThisYear cy bs)) (pages_text (totalPages bs)) (avg_days bs).

(** ** Format breakdown (src/app.js:1697-1713) *)

Record Formats := mkFormats { f_physical : nat; f_digital : nat; f_borrowed : nat }.

Definition format_counts (bs : list Book) : Formats :=
  mkFormats (length (List.filter ownPhysical bs)) (length (List.filter ownDigital bs))
            (length (List.filter ownBorrowed bs)).

(** ** The lower part of the page *)

Record SummaryView := mkSummaryView {
  sv_authors : list AuthorRow; sv_reading : ReadingSummary; sv_formats : Formats }.

(** What [renderStats] draws after the charts; [None] when it throws in
    the [authorData] loop. *)
Definition render_summary (cy : Z) (bs : list Book) : option SummaryView :=
  match author_table bs with
  | None => None
  | Some m => Some (mkSummaryView (map author_row (top_author_entries m))
                                  (reading_summary cy bs) (format_counts bs))
  end.

(** ** The authors table *)

Lemma sum_from l acc : fold_left (fun s b => s + rating b) l acc = acc + fold_left (fun s b => s + rating b) l 0.
Proof.
  revert acc. induction l as [|b l IH]; intros acc; simpl; [lia|]. rewrite IH, (IH (0 + rating b)). lia.
Qed.

Lemma sum_ratings_app l1 l2 : sum_ratings (l1 ++ l2) = sum_ratings l1 + sum_ratings l2.
Proof. unfold sum_ratings. by rewrite fold_left_app, sum_from. Qed.

(** The entry [authorData[k]] should hold after the books [l]. *)
Definition data_of (l : list Book) (k : string) : AuthorData :=
  let bk := List.filter (fun b => String.eqb (author b) k) l in
  mkAuthorData (Z.of_nat (length bk)) bk (sum_ratings bk)
               (Z.of_nat (length (List.filter (fun b => negb (rating b =? 0)) bk))).

Lemma data_of_snoc l b k :
  data_of (l ++ [b]) k = if String.eqb (author b) k then add_book (data_of l k) b else data_of l k.
Proof.
  unfold data_of, add_book. rewrite List.filter_app. cbn [List.filter].
  destruct (String.eqb (author b) k); [|by rewrite app_nil_r].
  rewrite List.filter_app, !length_app, sum_ratings_app. cbn [List.filter length].
  unfold sum_ratings at 2. cbn [fold_left].
  destruct (Z.eqb_spec (rating b) 0); cbn [negb length]; cbn [ad_count ad_books ad_totalRating ad_ratedCount]; f_equal; lia.
Qed.

Lemma data_of_absent l k : ~ In k (map author l) -> data_of l k = mkAuthorData 0 [] 0 0.
Proof.
  intros Hk. unfold data_of.
  replace (List.filter (fun b => String.eqb (author b) k) l) with (@nil Book); [done|].
  symmetry. apply filter_none. intros b Hb. apply String.eqb_neq. intros <-. apply Hk. by apply in_map.
Qed.

(** The table after the books [l]: distinct keys, one per non-empty
    author of [l], holding [data_of l]. *)
Definition table_ok (l : list Book) (m : list (string * AuthorData)) : Prop :=
  List.NoDup (map fst m) /\
  forall k d, In (k, d) m <-> k <> "" /\ In k (map author l) /\ d = data_of l k.

Lemma table_get_some l m k d : table_ok l m -> obj_get k m = Some d ->
  k <> "" /\ In k (map author l) /\ d = data_of l k.
Proof. intros [_ Hm] G. apply Hm. by apply obj_get_Some_In. Qed.

Lemma table_get_none l m k : table_ok l m -> obj_get k m = None -> k <> "" -> ~ In k (map author l).
Proof.
  intros [Hnd Hm] G Hk Hin. assert (In (k, data_of l k) m) by (by apply Hm).
  rewrite (obj_get_In k (data_of l k)) in G by done. discriminate.
Qed.

Lemma table_skip l m b : table_ok l m -> author b = "" -> table_ok (l ++ [b]) m.
Proof.
  intros [Hnd Hm] Ha. split; [done|]. intros k d. rewrite Hm, map_app, in_app_iff, data_of_snoc, Ha.
  cbn [map In]. destruct (String.eqb_spec "" k) as [<-|Hk]; [tauto|].
  split; [tauto|]. intros (Hk' & [Hin|[E|[]]] & ->); [tauto|congruence].
Qed.

Lemma table_set l m b d : table_ok l m -> author b <> "" -> d = data_of (l ++ [b]) (author b) ->
  table_ok (l ++ [b]) (obj_set (author b) d m).
Proof.
  intros [Hnd Hm] Ha ->. split; [by apply obj_set_NoDup|]. intros k d'.
  rewrite obj_set_In by done. rewrite map_app, in_app_iff. cbn [map In].
  destruct (String.eqb_spec (author b) k) as [<-|Hne].
  - split; [intros [[_ ->]|[[] _]]; tauto|intros (_ & _ & ->); by left].
  - rewrite Hm, !data_of_snoc, (proj2 (String.eqb_neq _ _) Hne). split; [intros [[]|[_ H]]; [congruence|tauto]|].
    intros (Hk & [Hin|[E|[]]] & ->); [by right|congruence].
Qed.

Lemma not_proto_empty : ~ In "" proto_keys.
Proof. cbn. intuition discriminate. Qed.

Lemma author_fold l :
  match fold_left author_step l (Some []) with
  | None => exists b, In b l /\ In (author b) proto_keys
  | Some m => table_ok l m /\ forall b, In b l -> ~ In (author b) proto_keys
  end.
Proof.
  induction l as [|b l IH] using rev_ind.
  { cbn. split; [split; [constructor|intros k d; cbn; tauto]|tauto]. }
  rewrite fold_left_app. cbn [fold_left].
  destruct (fold_left author_step l (Some [])) as [m|] eqn:F; cbn [author_step];
    [|destruct IH as (b' & Hb' & Hp); exists b'; split; [apply in_or_app; by left|done]].
  destruct IH as [Hok Hfree].
  assert (Hl : forall P : Book -> Prop, (forall b', In b' l -> P b') -> P b -> forall b', In b' (l ++ [b]) -> P b')
    by (intros P H1 H2 b' [Hb'|[<-|[]]]%in_app_or; auto).
  destruct (String.eqb_spec (author b) "") as [Ha|Ha].
  { split; [by apply table_skip|]. apply Hl; [done|]. rewrite Ha. apply not_proto_empty. }
  destruct (obj_get (author b) m) as [d|] eqn:G.
  - destruct (table_get_some _ _ _ _ Hok G) as (_ & Hin & ->). split.
    + apply table_set; [done|done|]. by rewrite data_of_snoc, String.eqb_refl.
    + apply Hl; [done|]. apply in_map_iff in Hin as (b'' & E & Hb''). rewrite <- E. by apply Hfree.
  - destruct (author b \in proto_keys) eqn:P.
    + exists b. split; [apply in_or_app; right; by left|by apply js_includes_In].
    + split; [|apply Hl; [done|by apply js_includes_false]].
      apply table_set; [done|done|]. rewrite data_of_snoc, String.eqb_refl, data_of_absent; [done|].
      by apply (table_get_none l m).
Qed.

(** C23: the most-read authors list.  [renderStats] throws in the
    [authorData] loop exactly when a read book's author is named like a
    property of [Object.prototype] (toString, constructor, ...).
    Otherwise [authorData] has one entry per non-empty author of the read
    books, in first-encountered order, holding that author's read books in
    order, their number, the sum of their ratings and the number of rated
    ones; the list shows at most 8 of them, and no author left out has
    more books than an author shown. *)
Theorem most_read_authors_spec bs :
  (author_table bs = None <-> exists b, In b (Stats.readBooks bs) /\ In (author b) proto_keys) /\
  (forall m, author_table bs = Some m ->
     List.NoDup (map fst m) /\
     (forall k d, In (k, d) m <->
        k <> "" /\ In k (map author (Stats.readBooks bs)) /\ d = data_of (Stats.readBooks bs) k) /\
     (length (top_author_entries m) <= 8)%nat /\
     (forall e e', In e (top_author_entries m) -> In e' m -> ~ In e' (top_author_entries m) ->
        ad_count (snd e') <= ad_count (snd e))).
Proof.
  pose proof (author_fold (Stats.readBooks bs)) as H. unfold author_table.
  destruct (fold_left author_step (Stats.readBooks bs) (Some [])) as [m|] eqn:F.
  - destruct H as [[Hnd Hm] Hfree]. split.
    + split; [done|]. intros (b & Hb & Hp). exfalso. by apply (Hfree b).
    + intros m' [= <-]. split_and!; [done|done|apply firstn_le_length|].
      intros e e' He He' Hn. unfold top_author_entries in *.
      pose proof (js_slice_dropped (cmp_desc (fun e : string * AuthorData => ad_count (snd e))) 8
                    (object_entries m) e e' He ltac:(by apply object_entries_In) Hn) as Hc.
      unfold cmp_desc in Hc. lia.
  - split; [split; [intros _; exact H|done]|]. intros m' [=].
Qed.

(** ** The average rating card *)

Lemma sum_ratings_bounds l : List.Forall (fun b => 1 <= rating b <= 5) l ->
  Z.of_nat (length l) <= sum_ratings l <= 5 * Z.of_nat (length l).
Proof.
  induction l as [|b l IH]; intros H; [cbn; lia|]. inversion H as [|? ? Hb Hl]; subst.
  change (b :: l) with ([b] ++ l)%list. rewrite sum_ratings_app, length_app. specialize (IH Hl).
  change (sum_ratings [b]) with (0 + rating b). cbn [length]. lia.
Qed.

(** C7: the average rating card.  With no rated read book it shows the
    dash; otherwise, when the ratings are at most 5 and fewer than 2^40
    books are rated, it shows [n / 10] with [10 <= n <= 50], where [n] is
    ten times the mean rating rounded half up, except at a tie [x.x5],
    where the binary quotient decides (20 ratings summing to 23, mean
    1.15, show 1.1; 4 ratings summing to 5, mean 1.25, show 1.3). *)
Theorem avg_rating_card bs :
  List.Forall (fun b => rating b <= 5) (Stats.rated bs) -> Z.of_nat (length (Stats.rated bs)) < 2 ^ 40 ->
  (Stats.rated bs = [] -> avg_rating_text bs = None) /\
  (Stats.rated bs <> [] ->
   exists n, avg_rating_text bs = Some (fixed1 n) /\ 10 <= n <= 50 /\
     let s := sum_ratings (Stats.rated bs) in let c := Z.of_nat (length (Stats.rated bs)) in
     ((20 * s + c) mod (2 * c) <> 0 -> n = (20 * s + c) / (2 * c))).
Proof.
  intros H5 Hc. unfold avg_rating_text. split; [by intros ->|]. intros Hne.
  assert (Hb : List.Forall (fun b => 1 <= rating b <= 5) (Stats.rated bs)).
  { rewrite List.Forall_forall in *. intros b Hb. pose proof (Stats.rated_pos _ _ Hb). specialize (H5 b Hb). lia. }
  destruct (Stats.rated bs) as [|r rs] eqn:E; [done|]. clear Hne H5.
  apply sum_ratings_bounds in Hb. cbn [length] in *.
  set (s := sum_ratings (r :: rs)) in *. set (c := Z.of_nat (S (length rs))) in *.
  assert (Hc1 : 1 <= c) by (unfold c; lia).
  change (2 ^ 40) with 1099511627776 in Hc.
  destruct (tenths_div s c) as (n & Hn & Hnt & Hv); [lia|change (2 ^ 51) with 2251799813685248; lia|
    change (2 ^ 53) with 9007199254740992; lia|].
  destruct (toFixed1_div s c) as (n' & Hn' & Hf); [lia|change (2 ^ 51) with 2251799813685248; lia|
    change (2 ^ 53) with 9007199254740992; lia|].
  rewrite Hn in Hn'. injection Hn' as <-. exists n. split; [done|]. cbv zeta. split; [|done].
  assert (10 <= (20 * s + c) / (2 * c)) by (apply Z.div_le_lower_bound; lia).
  assert ((20 * s + c) / (2 * c) < 51) by (apply Z.div_lt_upper_bound; lia).
  destruct Hv as [ -> | -> ]; [lia|].
  destruct (Z.eq_dec ((20 * s + c) mod (2 * c)) 0) as [Ht|Ht]; [|specialize (Hnt Ht); lia].
  pose proof (Z.div_mod (20 * s + c) (2 * c) ltac:(lia)) as Hdm. rewrite Ht, Z.add_0_r in Hdm.
  assert (11 <= (20 * s + c) / (2 * c)) by nia. lia.
Qed.

(** ** The reading summary *)

Lemma total_days_from ws acc : fold_left (fun s b => s + span b) ws acc = acc + total_days ws.
Proof.
  unfold total_days. revert acc. induction ws as [|w ws IH]; intros acc; cbn [fold_left]; [lia|].
  rewrite IH, (IH (0 + span w)). lia.
Qed.

Lemma total_days_nonneg ws : 0 <= total_days ws.
Proof.
  induction ws as [|w ws IH]; [done|]. unfold total_days. cbn [fold_left].
  rewrite total_days_from. assert (0 <= span w) by (unfold span; repeat case_match; lia). lia.
Qed.

(** C21: the reading summary.  The average days per book is the total of
    the positive spans (a negative or unparseable span counts 0 but the
    book still counts) divided by the number of read books with both dates,
    rounded half up, ties included, although the quotient is a binary64
    number; it is 0 (shown as a dash) without such books.  The pages read
    show as the integer up to 1000 and above it as [n / 10] followed by
    [k], [n] the pages in hundreds rounded half up, except at a tie
    [x50], where the binary quotient decides (1150 pages show 1.1k, 1250
    show 1.3k). *)
Theorem reading_summary_spec bs :
  let ws := booksWithDates bs in
  0 <= total_days ws /\
  (ws = [] -> avg_days bs = 0) /\
  (ws <> [] -> total_days ws < 2 ^ 51 -> Z.of_nat (length ws) < 2 ^ 53 ->
     avg_days bs = (2 * total_days ws + Z.of_nat (length ws)) / (2 * Z.of_nat (length ws))) /\
  (forall t, t <= 1000 -> pages_text t = Some (JsString.of_Z t)) /\
  (forall t, 1000 < t < 2 ^ 47 -> exists n, pages_text t = Some (fixed1 n ++ "k") /\
     ((20 * t + 1000) mod 2000 <> 0 -> n = (20 * t + 1000) / 2000) /\
     (n = (20 * t + 1000) / 2000 \/ n = (20 * t + 1000) / 2000 - 1)).
Proof.
  cbv zeta. split_and!.
  - apply total_days_nonneg.
  - unfold avg_days. by intros ->.
  - intros Hne Ht Hl. unfold avg_days. destruct (booksWithDates bs) as [|w ws] eqn:E; [done|].
    rewrite js_round_div; [done| |cbn [length] in *; lia]. split; [apply total_days_nonneg|done].
  - intros t Ht. unfold pages_text. by replace (1000 <? t) with false by lia.
  - intros t Ht. unfold pages_text. replace (1000 <? t) with true by lia.
    change (2 ^ 47) with 140737488355328 in Ht.
    destruct (tenths_div t 1000) as (n & Hn & Hnt & Hv); [lia|change (2 ^ 51) with 2251799813685248; lia|
      change (2 ^ 53) with 9007199254740992; lia|].
    destruct (toFixed1_div t 1000) as (n' & Hn' & Hf); [lia|change (2 ^ 51) with 2251799813685248; lia|
      change (2 ^ 53) with 9007199254740992; lia|].
    rewrite Hn in Hn'. injection Hn' as <-. exists n. rewrite Hf. split; [done|]. split; [done|].
    by replace (2 * 1000) with 2000 in * by lia.
Qed.

(** ** Concrete runs *)

(** The book [b] with the dates it was started and finished. *)
Definition with_dates (started read : string) (b : Book) : Book :=
  {| id := id b; title := title b; author := author b; genre := genre b; isbn := isbn b;
     status := status b; dateRead := read; dateStarted := started; tags := tags b;
     pages := pages b; pagesRead := pagesRead b; rating := rating b;
     ownPhysical := ownPhysical b; ownDigital := ownDigital b; ownBorrowed := ownBorrowed b;
     copies := copies b; borrowedFrom := borrowedFrom b; notes := notes b; coverUrl := coverUrl b;
     collections := collections b; description := description b; dateAdded := dateAdded b;
     updatedAt := updatedAt b |}.

Definition summary_sample : list Book :=
  [with_dates "2024-02-25" "2024-03-02" (sample_book "1" "Dune" "Frank Herbert" "SciFi" st_read 5 [] "" 1);
   with_dates "2024-05-01" "2024-05-10" (sample_book "2" "Ubik" "Philip K. Dick" "SciFi" st_read 4 [] "" 2);
   with_dates "2024-06-10" "2024-06-01" (sample_book "3" "Emma" "Jane Austen" "Romance" st_read 0 [] "" 3)].

Lemma avg_rating_card_witness : avg_rating_text summary_sample = Some (fixed1 45).
Proof.
  destruct (proj2 (avg_rating_card summary_sample
    ltac:(apply List.Forall_forall; intros b Hb; vm_compute in Hb;
          destruct Hb as [<-|[<-|[]]]; vm_compute; discriminate)
    ltac:(vm_compute; reflexivity)) ltac:(vm_compute; discriminate)) as (n & E & _ & Hn).
  rewrite E, Hn; [reflexivity|]. vm_compute. discriminate.
Defined.

(** Spans of 6, 9 and -9 days (the last counts 0): [Math.round(15 / 3)]. *)
Lemma reading_summary_spec_witness : avg_days summary_sample = 5.
Proof.
  destruct (reading_summary_spec summary_sample) as (_ & _ & H & _).
  rewrite H; [reflexivity|vm_compute; discriminate|vm_compute; reflexivity|vm_compute; reflexivity].
Defined.

(** An author named [toString] stops [renderStats] before the lists. *)
Example toString_author_stops_render :
  render_summary 2024 [sample_book "1" "Dune" "toString" "SciFi" st_read 5 [] "2024-03-02" 1] = None.
Proof. vm_compute. reflexivity. Qed.

(** [toFixed(1)] on binary quotients: 23 / 20 = 1.15 shows 1.1, 5 / 4 =
    1.25 shows 1.3; 1150 pages show 1.1k and 1250 show 1.3k. *)
Example toFixed_ties :
  toFixed1 (js_div 23 20) = Some "1.1" /\ toFixed1 (js_div 5 4) = Some "1.3" /\
  pages_text 1150 = Some "1.1k" /\ pages_text 1250 = Some "1.3k".
Proof. split_and!; vm_compute; reflexivity. Qed.

End Summary.
