(* ===== verification/Dashboard.v ===== *)
(** * Dashboard: [refreshDashboard], [timeAgo] and [renderCollections]

    The dashboard page (src/app.js:1423-1528) shows the status counts, the
    reading goal of the current calendar year, the books being read with
    their progress, the first five wished-for books, the first eight
    entries of the activity log with their age ([timeAgo], 8-14), one pill
    per collection, and the library count ([updateLibCount]).  The
    collections page ([renderCollections], 1390-1414) draws one card per
    collection with its first four covers.

    The quotients of [timeAgo], of the days left and of the reading
    progress are binary64 divisions followed by [Math.floor],
    [Math.ceil] or [Math.round] ([JsNumber]).  [new Date(year, 11, 31) -
    new Date()] is the difference of the local midnight starting December
    31 and the local time now, both counted in local milliseconds since
    1970 ([now_local]: [Date.now()] plus the zone's offset, taken equal at
    both instants).  [refreshDashboard] returns [None] only when one of its
    numbers is not finite, which the bounds of [refreshDashboard_spec]
    exclude. *)

From S2P Require Import Prelude JsString JsNumber Book Stats Summary Library.
Local Open Scope string_scope.
Local Open Scope Z_scope.

Module Dashboard.

Import JsNumber.

(** ** [timeAgo] (src/app.js:8-14) *)

(** [Math.floor((Date.now() - ts) / 1000)] seconds, then minutes, hours or
    days, each a [Math.floor] of a binary64 quotient. *)
Definition timeAgo (now ts : Z) : option string :=
  s ← js_floor (js_div (now - ts) 1000);
  if s <? 60 then Some "just now"
  else if s <? 3600 then (m ← js_floor (js_div s 60); Some (JsString.of_Z m ++ "m ago"))
  else if s <? 86400 then (h ← js_floor (js_div s 3600); Some (JsString.of_Z h ++ "h ago"))
  else (d ← js_floor (js_div s 86400); Some (JsString.of_Z d ++ "d ago")).

(** ** The goal card (src/app.js:1435-1453) *)

Definition day_ms : Z := 86400000.

(** [new Date(year, 11, 31)]: the local midnight that starts December 31. *)
Definition dec31_start (year : Z) : Z := Summary.days_from_civil year 12 31 * day_ms.

(** [Math.ceil((new Date(year, 11, 31) - new Date()) / 86400000)] *)
Definition daysLeft (year now_local : Z) : option Z :=
  js_ceil (js_div (dec31_start year - now_local) day_ms).

(** [goal-meta-text]: the books to go and the days left, or the
    achievement with the count. *)
Inductive GoalMeta := ToGo (remaining days : Z) | Achieved (n : Z).

(** [NoGoal] is the dash and [no goal set]; [GoalSet pct n goal meta] the
    percentage (also the width of the bar), [n/goal books] and the meta
    text. *)
Inductive GoalCard := NoGoal | GoalSet (pct n goal : Z) (meta : GoalMeta).

(** [const goal = settings.goal || 0; if (goal > 0) { ... }]: [n] is
    [readThisYear.length] of the current year; [settings.goalYear] is not
    read.  [daysLeft] is computed before the test of [remaining] but only
    shown when books remain. *)
Definition goal_card (year now_local n goal : Z) : option GoalCard :=
  if 0 <? goal then
    pct ← Stats.goal_pct n goal;
    let remaining := goal - n in
    if 0 <? remaining then (d ← daysLeft year now_local; Some (GoalSet pct n goal (ToGo remaining d)))
    else Some (GoalSet pct n goal (Achieved n))
  else Some NoGoal.

(** ** The books being read (src/app.js:1455-1477) *)

(** [book.pages && book.pagesRead ? Math.round((book.pagesRead / book.pages) * 100) : 0] *)
Definition progress (b : Book) : option Z :=
  if (pages b =? 0) || (pagesRead b =? 0) then Some 0
  else js_round (js_mul (js_div (pagesRead b) (pages b)) (js_num 100)).

(** [progress ? progress + '%' : 'In Progress'] *)
Definition progress_label (p : Z) : string :=
  if p =? 0 then "In Progress" else JsString.of_Z p ++ "%".

(** One row: the book and its progress. *)
Definition reading_row (b : Book) : option (Book * Z) :=
  p ← progress b; Some (b, p).

(** ** Counts, activity and collections *)

(** [`${n} book${n !== 1 ? 's' : ''}`] *)
Definition books_text (n : nat) : string :=
  JsString.of_Z (Z.of_nat n) ++ " book" ++ (if (n =? 1)%nat then "" else "s").

(** One activity row: its text and [timeAgo(a.time)]. *)
Definition activity_row (now : Z) (a : Library.Activity) : option (string * string) :=
  t ← timeAgo now (Library.act_time a); Some (Library.act_text a, t).

(** [books.filter(b => (b.collections || []).includes(col.id))] *)
Definition col_books (c : Collection) (bs : list Book) : list Book :=
  List.filter (fun b => existsb (String.eqb (col_id c)) (collections b)) bs.

(** A dashboard pill: the collection and its count. *)
Definition pill (bs : list Book) (c : Collection) : Collection * nat :=
  (c, length (col_books c bs)).

(** A card of the collections page: the first four covers, the [+k]
    badge when more books follow, and the count text. *)
Record CollectionCard := mkCollectionCard {
  cc_col : Collection; cc_covers : list Book; cc_more : option nat; cc_count : string }.

Definition collection_card (bs : list Book) (c : Collection) : CollectionCard :=
  let cb := col_books c bs in
  mkCollectionCard c (firstn 4 cb)
    (if (4 <? length cb)%nat then Some (length cb - 4)%nat else None)
    (books_text (length cb)).

(** [renderCollections]: one card per collection, then the add card. *)
Definition renderCollections (bs : list Book) (cs : list Collection) : list CollectionCard :=
  map (collection_card bs) cs.

(** ** [refreshDashboard] (src/app.js:1423-1528) *)

(** What the dashboard shows.  An empty [dv_current], [dv_want],
    [dv_activity] or [dv_pills] is the placeholder text of that list. *)
Record DashView := mkDashView {
  dv_total : nat; dv_read : nat; dv_read_year : nat; dv_reading : nat;
  dv_year : Z;
  dv_goal : GoalCard;
  dv_current : list (Book * Z);
  dv_want_count : string;
  dv_want : list Book;
  dv_activity : list (string * string);
  dv_pills : list (Collection * nat);
  dv_lib_count : nat }.

Definition reading_books (bs : list Book) : list Book :=
  List.filter (fun b => String.eqb (status b) st_reading) bs.

Definition want_books (bs : list Book) : list Book :=
  List.filter (fun b => String.eqb (status b) st_want) bs.

(** [year] is [new Date().getFullYear()], [now] is [Date.now()] and
    [now_local] the local time in milliseconds. *)
Definition refreshDashboard (year now now_local : Z) (st : Settings) (bs : list Book)
    (cs : list Collection) (log : list Library.Activity) : option DashView :=
  let ry := Stats.readThisYear year bs in
  let want := want_books bs in
  g ← goal_card year now_local (Z.of_nat (length ry)) (goal st);
  cur ← mapM reading_row (reading_books bs);
  acts ← mapM (activity_row now) (firstn 8 log);
  Some (mkDashView (length bs) (length (Stats.readBooks bs)) (length ry) (length (reading_books bs))
          year g cur (books_text (length want)) (firstn 5 want) acts (map (pill bs) cs)
          (length bs)).

(** ** Reference texts in integer arithmetic *)

(** The text [timeAgo] should give [s] seconds after the event. *)
Definition ago_text (s : Z) : string :=
  if s <? 60 then "just now"
  else if s <? 3600 then JsString.of_Z (s / 60) ++ "m ago"
  else if s <? 86400 then JsString.of_Z (s / 3600) ++ "h ago"
  else JsString.of_Z (s / 86400) ++ "d ago".

(** ** [timeAgo] and the days left *)

Local Ltac num_lits :=
  change (2 ^ 51) with 2251799813685248 in *; change (2 ^ 53) with 9007199254740992 in *;
  change (2 ^ 40) with 1099511627776 in *.

Lemma timeAgo_floor now ts : Z.abs (now - ts) < 2 ^ 51 ->
  timeAgo now ts = Some (ago_text ((now - ts) / 1000)).
Proof.
  intros Hd. unfold timeAgo, ago_text.
  rewrite js_floor_div by (num_lits; lia). cbn [mbind option_bind].
  assert (Hs : Z.abs ((now - ts) / 1000) < 2 ^ 51) by (num_lits; Z.div_mod_to_equations; lia).
  set (s := (now - ts) / 1000) in *. destruct (s <? 60); [done|].
  by destruct (s <? 3600); [|destruct (s <? 86400)]; rewrite js_floor_div by (num_lits; lia).
Qed.

Lemma daysLeft_days year now_local : Z.abs (dec31_start year - now_local) < 2 ^ 51 ->
  daysLeft year now_local = Some (Summary.days_from_civil year 12 31 - now_local / day_ms).
Proof.
  intros H. unfold daysLeft. rewrite js_ceil_div by (unfold day_ms; num_lits; lia). f_equal.
  unfold dec31_start in *. set (D := Summary.days_from_civil year 12 31).
  replace (- (D * day_ms - now_local)) with (now_local + - D * day_ms) by ring.
  rewrite Z.div_add by (unfold day_ms; lia). lia.
Qed.

(** ** The reading progress *)

(** [v] is [T = floor(100 n / g + 1/2)] or, at a tie, [T - 1]: in both
    cases [2 g v <= 200 n + g <= 2 g (v + 1)]. *)
Lemma round_sandwich n g v : 0 < g ->
  ((200 * n + g) mod (2 * g) <> 0 -> v = (200 * n + g) / (2 * g)) ->
  (v = (200 * n + g) / (2 * g) \/ v = (200 * n + g) / (2 * g) - 1) ->
  2 * g * v <= 200 * n + g <= 2 * g * (v + 1).
Proof.
  intros Hg Hne Hv.
  pose proof (Z.div_mod (200 * n + g) (2 * g) ltac:(lia)).
  pose proof (Z.mod_pos_bound (200 * n + g) (2 * g) ltac:(lia)).
  destruct (Z.eq_dec ((200 * n + g) mod (2 * g)) 0) as [Ht|Ht].
  - destruct Hv as [-> | ->]; lia.
  - rewrite (Hne Ht). lia.
Qed.

Lemma progress_round b : 0 < pagesRead b < 2 ^ 40 -> 0 < pages b < 2 ^ 53 ->
  exists p, progress b = Some p /\
    let T := (200 * pagesRead b + pages b) / (2 * pages b) in
    ((200 * pagesRead b + pages b) mod (2 * pages b) <> 0 -> p = T) /\ (p = T \/ p = T - 1).
Proof.
  intros Hr Hp. unfold progress.
  destruct (Z.eqb_spec (pages b) 0), (Z.eqb_spec (pagesRead b) 0); try lia. cbn [orb].
  destruct (js_round_pct (pagesRead b) (pages b)) as (v & Hv & Hne & Hor); [lia|done|].
  by exists v.
Qed.

(** ** The lists of the dashboard *)

Lemma mapM_map {A B} (f : A -> option B) (g : A -> B) l :
  (forall x, In x l -> f x = Some (g x)) -> mapM f l = Some (map g l).
Proof.
  induction l as [|x l IH]; intros Hf; [done|]. cbn [mapM map].
  rewrite Hf by (left; done). cbn [mbind option_bind]. rewrite IH by (intros y Hy; apply Hf; by right).
  done.
Qed.

Lemma pill_card bs c :
  snd (pill bs c) = (length (cc_covers (collection_card bs c)) +
                     default 0 (cc_more (collection_card bs c)))%nat.
Proof.
  unfold pill, collection_card. cbn [snd cc_covers cc_more]. rewrite length_firstn.
  destruct (Nat.ltb_spec 4 (length (col_books c bs)));
    [rewrite Nat.min_l by lia|rewrite Nat.min_r by lia]; simpl; lia.
Qed.

Lemma goal_pct_some n g : 0 <= n < 2 ^ 40 -> 0 < g < 2 ^ 53 -> exists p, Stats.goal_pct n g = Some p.
Proof.
  intros Hn Hg. destruct (js_round_pct n g) as (v & Hv & _); [done|done|].
  exists (Z.min 100 v). unfold Stats.goal_pct. by rewrite Hv.
Qed.

Lemma goal_card_some year now_local n g : 0 <= n < 2 ^ 40 -> g < 2 ^ 53 ->
  Z.abs (dec31_start year - now_local) < 2 ^ 51 ->
  exists c, goal_card year now_local n g = Some c /\ (g <= 0 -> c = NoGoal) /\
    (0 < g -> exists pct, Stats.goal_pct n g = Some pct /\
       c = GoalSet pct n g (if n <? g then ToGo (g - n) (Summary.days_from_civil year 12 31 - now_local / day_ms)
                            else Achieved n)).
Proof.
  intros Hn Hg Hd. unfold goal_card. destruct (Z.ltb_spec 0 g) as [Hg0|Hg0].
  2: { exists NoGoal. split_and!; [done|done|lia]. }
  destruct (goal_pct_some n g) as [pct Hp]; [done|lia|]. rewrite Hp. cbn [mbind option_bind].
  destruct (Z.ltb_spec 0 (g - n)), (Z.ltb_spec n g); try lia.
  - rewrite daysLeft_days by done. cbn [mbind option_bind]. eexists. split_and!; [done|lia|eauto].
  - eexists. split_and!; [done|lia|eauto].
Qed.

Lemma progress_zero b : pagesRead b = 0 \/ pages b = 0 -> progress b = Some 0.
Proof. unfold progress. intros [-> | ->]; [by destruct (pages b =? 0)|done]. Qed.

Lemma progress_some b : 0 <= pagesRead b < 2 ^ 40 -> 0 <= pages b < 2 ^ 53 -> is_Some (progress b).
Proof.
  intros Hr Hp. destruct (Z.eq_dec (pagesRead b) 0), (Z.eq_dec (pages b) 0);
    try (rewrite progress_zero by auto; by eexists).
  destruct (progress_round b) as (p & -> & _); [lia|lia|by eexists].
Qed.

Lemma readThisYear_length year bs : (length (Stats.readThisYear year bs) <= length bs)%nat.
Proof.
  unfold Stats.readThisYear, Stats.readBooks. etransitivity; apply List.filter_length_le.
Qed.

(** ** Properties *)

(** [timeAgo] computes in binary64 what it means in integers: for an
    event at most 2^51 ms away, the seconds, minutes, hours and days it
    prints are the integer quotients of the elapsed milliseconds, since no
    binary64 quotient it floors crosses an integer. *)
Theorem timeAgo_spec now ts : Z.abs (now - ts) < 2 ^ 51 ->
  timeAgo now ts = Some (ago_text ((now - ts) / 1000)).
Proof. apply timeAgo_floor. Qed.

(** C28: The progress of a book being read is 0 when it has no pages or no
    pages read; otherwise it is [100 pagesRead / pages] rounded half up,
    except at a tie, where the binary64 product may round to one less.  It
    lies in [0, 100] when [pagesRead <= pages], and it is not clamped: it
    exceeds 100 when [200 pagesRead > 201 pages]. *)
Theorem progress_spec b : 0 <= pagesRead b < 2 ^ 40 -> 0 <= pages b < 2 ^ 53 ->
  exists p, progress b = Some p /\ 0 <= p /\
    (pagesRead b = 0 \/ pages b = 0 -> p = 0) /\
    (0 < pagesRead b -> 0 < pages b ->
       ((200 * pagesRead b + pages b) mod (2 * pages b) <> 0 ->
          p = (200 * pagesRead b + pages b) / (2 * pages b)) /\
       (p = (200 * pagesRead b + pages b) / (2 * pages b) \/
        p = (200 * pagesRead b + pages b) / (2 * pages b) - 1)) /\
    (pagesRead b <= pages b -> p <= 100) /\
    (0 < pages b -> 201 * pages b < 200 * pagesRead b -> 100 < p).
Proof.
  intros Hr Hp. destruct (Z.eq_dec (pagesRead b) 0), (Z.eq_dec (pages b) 0);
    try (exists 0; rewrite progress_zero by auto; split_and!; intros; first [done | lia | exfalso; lia]).
  destruct (progress_round b) as (p & Hpr & Hne & Hor); [lia|lia|].
  pose proof (round_sandwich (pagesRead b) (pages b) p ltac:(lia) Hne Hor) as [Hs1 Hs2].
  exists p. split_and!; [done| | lia | by intros | |].
  - assert (0 < p + 1) by (apply (lt_cancel_l (2 * pages b)); lia). lia.
  - intros Hle. assert (p < 101) by (apply (lt_cancel_l (2 * pages b)); lia). lia.
  - intros Hp0 Hgt. assert (101 < p + 1) by (apply (lt_cancel_l (2 * pages b)); lia). lia.
Qed.

(** C5: Under bounds that exclude non-finite numbers, [refreshDashboard]
    renders: the counts are those of the books; the goal card is the dash
    without a goal and otherwise the capped percentage of [Stats.goal_pct],
    with the books to go and the days from today to December 31 of the
    current year ([settings.goalYear] plays no part), or the achievement;
    each book being read is listed with its progress; the wish list shows
    the first five wished-for books; the activity list the first eight log
    entries with their integer-arithmetic age; and each collection pill
    counts the books the collection's card on the collections page shows
    as covers plus its [+k] badge. *)
Theorem refreshDashboard_spec year now now_local st bs cs log :
  Z.of_nat (length bs) < 2 ^ 40 -> goal st < 2 ^ 53 ->
  Z.abs (dec31_start year - now_local) < 2 ^ 51 ->
  Forall (fun b => 0 <= pagesRead b < 2 ^ 40 /\ 0 <= pages b < 2 ^ 53) (reading_books bs) ->
  Forall (fun a => Z.abs (now - Library.act_time a) < 2 ^ 51) (firstn 8 log) ->
  let n := Z.of_nat (length (Stats.readThisYear year bs)) in
  exists v, refreshDashboard year now now_local st bs cs log = Some v /\
    dv_total v = length bs /\ dv_lib_count v = length bs /\
    dv_read v = length (Stats.readBooks bs) /\ dv_reading v = length (reading_books bs) /\
    (goal st <= 0 -> dv_goal v = NoGoal) /\
    (0 < goal st -> exists pct, Stats.goal_pct n (goal st) = Some pct /\
       dv_goal v = GoalSet pct n (goal st)
         (if n <? goal st then ToGo (goal st - n) (Summary.days_from_civil year 12 31 - now_local / day_ms)
          else Achieved n)) /\
    Forall2 (fun b r => fst r = b /\ progress b = Some (snd r)) (reading_books bs) (dv_current v) /\
    dv_want v = firstn 5 (want_books bs) /\
    dv_activity v = map (fun a => (Library.act_text a, ago_text ((now - Library.act_time a) / 1000)))
                        (firstn 8 log) /\
    map fst (dv_pills v) = cs /\
    map snd (dv_pills v) =
      map (fun cc => length (cc_covers cc) + default 0 (cc_more cc))%nat (renderCollections bs cs).
Proof.
  intros Hbs Hg Hd Hrd Hlog n.
  pose proof (readThisYear_length year bs).
  destruct (goal_card_some year now_local n (goal st)) as (c & Hc & Hc0 & Hc1); [lia|done|done|].
  destruct (mapM_is_Some_2 reading_row (reading_books bs)) as [cur Hcur].
  { eapply Forall_impl; [exact Hrd|]. intros b [Hr Hp]. unfold compose, reading_row.
    destruct (progress_some b Hr Hp) as [p ->]. by eexists. }
  rewrite List.Forall_forall in Hlog.
  unfold refreshDashboard. fold n. rewrite Hc. cbn [mbind option_bind]. rewrite Hcur.
  cbn [mbind option_bind]. rewrite (mapM_map _ (fun a => (Library.act_text a,
    ago_text ((now - Library.act_time a) / 1000)))).
  2: { intros a Ha. unfold activity_row. by rewrite timeAgo_floor by auto. }
  eexists. split; [reflexivity|]. cbn [dv_total dv_lib_count dv_read dv_reading dv_goal dv_current
    dv_want dv_activity dv_pills]. split_and!; try done.
  - eapply Forall2_impl; [by apply mapM_Some_1|]. intros b [b' p]. unfold reading_row.
    destruct (progress b); cbn; intros; by simplify_eq.
  - rewrite map_map. apply List.map_id.
  - unfold renderCollections. rewrite !map_map. apply map_ext. apply pill_card.
Qed.

(** ** Witnesses *)

Local Ltac closed := vm_compute; repeat split; first [reflexivity | discriminate | intros [=]].
Local Ltac forall_closed :=
  apply List.Forall_forall; intros ? Hin; vm_compute in Hin;
  repeat (destruct Hin as [<-|Hin]; [closed|]); destruct Hin.

(** A book with pages, pages read and collections. *)
Definition paged_book (i st dr : string) (pg pr : Z) (cols : list string) : Book :=
  {| id := i; title := i; author := "A"; genre := ""; isbn := ""; status := st; dateRead := dr;
     dateStarted := ""; tags := []; pages := pg; pagesRead := pr; rating := 0;
     ownPhysical := false; ownDigital := false; ownBorrowed := false; copies := 0;
     borrowedFrom := ""; notes := ""; coverUrl := ""; collections := cols; description := "";
     dateAdded := 0; updatedAt := 0 |}.

(** 450 of 300 pages read. *)
Definition over_read : Book := paged_book "o" st_reading "" 300 450 [].

Definition dash_books : list Book :=
  [over_read; paged_book "r" st_read "2025-03-01" 0 0 ["fav"];
   paged_book "w" st_want "" 0 0 ["fav"]; paged_book "z" st_reading "" 0 0 []].
Definition dash_cols : list Collection := [mkCollection "fav" "Favourites" "*" 0].
Definition dash_log : list Library.Activity := [{| Library.act_text := "Added"; Library.act_time := 0 |}].
Definition dash_settings : Settings := mkSettings "dark" 12 2025 None.

(** Noon on December 30, 2025, local time. *)
Definition dec30_noon : Z := dec31_start 2025 - day_ms + 43200000.

(** Two hours after the event: [2h ago]. *)
Lemma timeAgo_spec_witness : timeAgo 7200000 0 = Some "2h ago".
Proof. rewrite (timeAgo_spec 7200000 0) by closed. vm_compute. reflexivity. Defined.

(** 450 of 300 pages: a progress of 150%. *)
Lemma progress_spec_witness : progress over_read = Some 150.
Proof.
  destruct (progress_spec over_read) as (p & Hp & _ & _ & Hr & _); [closed|closed|].
  destruct (Hr ltac:(closed) ltac:(closed)) as [Hne _]. rewrite Hp, (Hne ltac:(closed)). closed.
Defined.

(** One book read in 2025 of a goal of 12: 8%, 11 to go, 1 day left on
    December 30 at noon. *)
Lemma refreshDashboard_spec_witness :
  exists v, refreshDashboard 2025 7200000 dec30_noon dash_settings dash_books dash_cols dash_log = Some v /\
    dv_goal v = GoalSet 8 1 12 (ToGo 11 1).
Proof.
  destruct (refreshDashboard_spec 2025 7200000 dec30_noon dash_settings dash_books dash_cols dash_log)
    as (v & Hv & _ & _ & _ & _ & _ & Hg & _); [closed|closed|closed|forall_closed|forall_closed|].
  exists v. split; [done|]. destruct (Hg ltac:(closed)) as (pct & Hp & ->).
  vm_compute in Hp. injection Hp as <-. closed.
Defined.

End Dashboard.
