(* ===== verification/AuthForms.v ===== *)
(** * AuthForms: the sign-in page, the user header and the display name

    The auth handlers of src/app.js (309-393) read the sign-in and sign-up
    forms, check them, and call the authentication provider; the
    provider's answer arrives later, and the auth state change it causes
    reaches the app through firebase.js as a call of [_onAuthReady]
    (414-437), which fills the user header ([updateUserUI], 395-411)
    before it loads the settings.  [saveDisplayName] (1736-1744) stores a
    name in the settings and refreshes the header.

    The page state [AuthPage] holds the session of [Sync], the provider's
    user object ([currentUser], whose uid the session holds), the header,
    the two error lines of the forms, the last toast and the provider
    calls awaiting an answer.  A provider call is a [Pending] entry; its
    answer is the event [Answer i r] for the [i]-th pending call, so that
    the answers and the auth change can come in any order.
    [friendlyAuthError] reads the own keys of its map (the provider's
    codes are never named like an [Object.prototype] property). *)

From S2P Require Import Prelude JsString Book Sync ImportExport.
Local Open Scope string_scope.
Local Open Scope Z_scope.

Module AuthForms.

(** ** The provider's user and the header *)

(** The properties of a Firebase [User] the code reads; [""] for null. *)
Record AuthUser := mkAuthUser {
  au_uid : string; au_displayName : string; au_email : string; au_photoURL : string }.

(** [user.email?.split('@')[0]] *)
Definition email_prefix (e : string) : string := hd "" (JsString.split e "@").

(** [user.displayName || settings.displayName || user.email?.split('@')[0] || 'Reader'] *)
Definition header_name (usr : AuthUser) (st : Settings) : string :=
  ImportExport.jor (au_displayName usr)
    (ImportExport.jor (default "" (displayName st))
       (ImportExport.jor (email_prefix (au_email usr)) "Reader")).

(** [c.toUpperCase()] of one Latin-1 code unit: a-z and U+00E0..U+00FE
    (except U+00F7, the division sign) map to the code unit 32 lower, and
    U+00DF (sharp s) to [SS]; U+00B5 (micro) and U+00FF map outside
    Latin-1 ([None]). *)
Definition upper_char (c : ascii) : option string :=
  let n := nat_of_ascii c in
  if (((97 <=? n) && (n <=? 122)) || ((224 <=? n) && (n <=? 254) && negb (n =? 247)))%nat
  then Some (String (ascii_of_nat (n - 32)) "")
  else if (n =? 223)%nat then Some "SS"
  else if ((n =? 181) || (n =? 255))%nat then None
  else Some (String c "").

(** The avatar: the photo, or the upper-cased first character of the
    name ([displayName[0].toUpperCase()]). *)
Inductive Avatar := AvatarPhoto (url : string) | AvatarInitial (s : option string).

Definition avatar (usr : AuthUser) (n : string) : Avatar :=
  if String.eqb (au_photoURL usr) "" then
    AvatarInitial (match n with String c _ => upper_char c | EmptyString => None end)
  else AvatarPhoto (au_photoURL usr).

(** The sidebar name, the avatar, and the first word of the greeting. *)
Record UserUI := mkUserUI { ui_name : string; ui_avatar : Avatar; ui_greeting : string }.

(** [updateUserUI(user)]: nothing without a user. *)
Definition updateUserUI (u : option AuthUser) (st : Settings) (prev : UserUI) : UserUI :=
  match u with
  | None => prev
  | Some usr =>
      let n := header_name usr st in
      mkUserUI n (avatar usr n) (hd "" (JsString.split n " "))
  end.

(** The profile panel's field ([showSettingsPanel('profile')], 1731):
    [settings.displayName || currentUser?.displayName || ''] *)
Definition profile_name (st : Settings) (u : option AuthUser) : string :=
  ImportExport.jor (default "" (displayName st))
    (match u with Some usr => au_displayName usr | None => "" end).

(** ** The provider calls *)

(** [friendlyAuthError(code)] *)
Definition friendlyAuthError (code : string) : string :=
  if String.eqb code "auth/invalid-email" then "Invalid email address."
  else if String.eqb code "auth/user-not-found" then "No account found with this email."
  else if String.eqb code "auth/wrong-password" then "Incorrect password."
  else if String.eqb code "auth/email-already-in-use" then "An account already exists with this email."
  else if String.eqb code "auth/weak-password" then "Password must be at least 6 characters."
  else if String.eqb code "auth/too-many-requests" then "Too many attempts. Please try again later."
  else if String.eqb code "auth/network-request-failed" then "Network error. Check your connection."
  else if String.eqb code "auth/invalid-credential" then "Invalid email or password."
  else "Something went wrong. Please try again.".

(** A call awaiting the provider: sign-in, sign-up with the trimmed name
    read before the call, Google's popup, a password reset. *)
Inductive Pending := PSignIn | PSignUp (name : string) | PGoogle | PReset.

(** The provider's answer: the promise resolves, or rejects with [e.code]. *)
Inductive AuthResult := AuthOk | AuthErr (code : string).

Record AuthPage := mkAuthPage {
  ap_session : Sync.Session;
  ap_user : option AuthUser;
  ap_ui : UserUI;
  ap_signin_error : option string;   (* [signin-error] when shown *)
  ap_signup_error : option string;   (* [signup-error] when shown *)
  ap_toast : option (string * string);
  ap_pending : list Pending }.

Definition set_session (s : Sync.Session) (p : AuthPage) : AuthPage :=
  mkAuthPage s (ap_user p) (ap_ui p) (ap_signin_error p) (ap_signup_error p) (ap_toast p) (ap_pending p).
Definition set_user_ui (u : option AuthUser) (ui : UserUI) (p : AuthPage) : AuthPage :=
  mkAuthPage (ap_session p) u ui (ap_signin_error p) (ap_signup_error p) (ap_toast p) (ap_pending p).
Definition set_signin_error (e : option string) (p : AuthPage) : AuthPage :=
  mkAuthPage (ap_session p) (ap_user p) (ap_ui p) e (ap_signup_error p) (ap_toast p) (ap_pending p).
Definition set_signup_error (e : option string) (p : AuthPage) : AuthPage :=
  mkAuthPage (ap_session p) (ap_user p) (ap_ui p) (ap_signin_error p) e (ap_toast p) (ap_pending p).
Definition set_toast (t : string * string) (p : AuthPage) : AuthPage :=
  mkAuthPage (ap_session p) (ap_user p) (ap_ui p) (ap_signin_error p) (ap_signup_error p) (Some t) (ap_pending p).
Definition set_pending (l : list Pending) (p : AuthPage) : AuthPage :=
  mkAuthPage (ap_session p) (ap_user p) (ap_ui p) (ap_signin_error p) (ap_signup_error p) (ap_toast p) l.

Definition call (c : Pending) (p : AuthPage) : AuthPage := set_pending (ap_pending p ++ [c])%list p.

(** ** The handlers up to their provider call *)

(** [authSignIn] (315-326): the error line is hidden, then the guard. *)
Definition authSignIn (email_raw password : string) (p : AuthPage) : AuthPage :=
  let email := JsString.trim email_raw in
  let p1 := set_signin_error None p in
  if String.eqb email "" || String.eqb password ""
  then set_signin_error (Some "Please fill in all fields") p1
  else call PSignIn p1.

(** [authSignUp] (328-345) *)
Definition authSignUp (name_raw email_raw password : string) (p : AuthPage) : AuthPage :=
  let name := JsString.trim name_raw in
  let email := JsString.trim email_raw in
  let p1 := set_signup_error None p in
  if String.eqb email "" || String.eqb password ""
  then set_signup_error (Some "Please fill in all fields") p1
  else call (PSignUp name) p1.

(** [authWithGoogle] (347-355) *)
Definition authWithGoogle (p : AuthPage) : AuthPage := call PGoogle p.

(** [authForgotPassword] (357-366): the error line is not hidden first. *)
Definition authForgotPassword (email_raw : string) (p : AuthPage) : AuthPage :=
  if String.eqb (JsString.trim email_raw) "" then set_signin_error (Some "Enter your email address first") p
  else call PReset p.

(** ** The continuations after the provider's answer *)

Definition set_display_name (name : string) (x : Settings) : Settings :=
  {| theme := theme x; goal := goal x; goalYear := goalYear x; displayName := Some name |}.

Definition answer (c : Pending) (r : AuthResult) (p : AuthPage) : AuthPage :=
  match c, r with
  | PSignIn, AuthOk => p
  | PSignIn, AuthErr code => set_signin_error (Some (friendlyAuthError code)) p
  | PSignUp name, AuthOk =>
      if String.eqb name "" then p
      else let s := ap_session p in
           set_session (Sync.saveSettingsToFirestore
                          (Sync.set_settings (set_display_name name (Sync.s_settings s)) s)) p
  | PSignUp _, AuthErr code => set_signup_error (Some (friendlyAuthError code)) p
  | PGoogle, AuthOk => p
  | PGoogle, AuthErr code =>
      if String.eqb code "auth/popup-closed-by-user" then p
      else set_toast ("Google sign-in failed: " ++ friendlyAuthError code, "error") p
  | PReset, AuthOk => set_toast ("Password reset email sent!", "success") p
  | PReset, AuthErr code => set_signin_error (Some (friendlyAuthError code)) p
  end.

(** ** The auth change and the display name *)

(** [_onAuthReady(user)]: the header is filled from the settings in
    memory, before [loadSettings] runs. *)
Definition onAuthReady_ui (u : option AuthUser) (p : AuthPage) : AuthPage :=
  let s := ap_session p in
  let p1 := set_user_ui u (updateUserUI u (Sync.s_settings s) (ap_ui p)) p in
  set_session (Sync.onAuthReady (option_map au_uid u) s) p1.

(** [`Display name updated to "${name}"`] *)
Definition updated_text (name : string) : string :=
  "Display name updated to " ++ String ImportExport.dq (name ++ String ImportExport.dq "").

(** [saveDisplayName] (1736-1744) with its header refresh and toasts. *)
Definition saveDisplayName_ui (raw : string) (p : AuthPage) : AuthPage :=
  let name := JsString.trim raw in
  if String.eqb name "" then set_toast ("Please enter a display name", "error") p
  else let s := Sync.saveDisplayName raw (ap_session p) in
       set_toast (updated_text name, "success")
         (set_user_ui (ap_user p) (updateUserUI (ap_user p) (Sync.s_settings s) (ap_ui p))
            (set_session s p)).

(** ** Events *)

Inductive PageEvent :=
| SubmitSignIn (email password : string)
| SubmitSignUp (name email password : string)
| ClickGoogle
| ClickForgot (email : string)
| Answer (i : nat) (r : AuthResult)
| AuthChange (u : option AuthUser)
| SaveName (raw : string)
| Clock (t : Z).

(** The [i]-th pending call answered; no such call, no change. *)
Definition answer_nth (i : nat) (r : AuthResult) (p : AuthPage) : AuthPage :=
  match nth_error (ap_pending p) i with
  | Some c => answer c r (set_pending (delete i (ap_pending p)) p)
  | None => p
  end.

Definition page_step (e : PageEvent) (p : AuthPage) : AuthPage :=
  match e with
  | SubmitSignIn em pw => authSignIn em pw p
  | SubmitSignUp n em pw => authSignUp n em pw p
  | ClickGoogle => authWithGoogle p
  | ClickForgot em => authForgotPassword em p
  | Answer i r => answer_nth i r p
  | AuthChange u => onAuthReady_ui u p
  | SaveName raw => saveDisplayName_ui raw p
  | Clock t => set_session (Sync.tick t (ap_session p)) p
  end.

Definition page_run (es : list PageEvent) (p : AuthPage) : AuthPage :=
  fold_left (fun p e => page_step e p) es p.

(** ** The form guards *)

(** The three guards of the auth forms.  Submitting the sign-in or
    sign-up form with an email that is blank after trimming, or with an
    empty password, calls no provider and shows [Please fill in all
    fields] in that form; asking for a password reset with a blank email
    calls no provider and shows [Enter your email address first].  The
    session is left alone in each case. *)
Theorem auth_form_guards p email pw name :
  (JsString.trim email = "" \/ pw = "") ->
  let q1 := page_step (SubmitSignIn email pw) p in
  let q2 := page_step (SubmitSignUp name email pw) p in
  ap_pending q1 = ap_pending p /\ ap_session q1 = ap_session p /\
  ap_signin_error q1 = Some "Please fill in all fields" /\
  ap_pending q2 = ap_pending p /\ ap_session q2 = ap_session p /\
  ap_signup_error q2 = Some "Please fill in all fields" /\
  (JsString.trim email = "" ->
     let q3 := page_step (ClickForgot email) p in
     ap_pending q3 = ap_pending p /\ ap_signin_error q3 = Some "Enter your email address first").
Proof.
  intros Hg. cbn [page_step]. unfold authSignIn, authSignUp, authForgotPassword.
  assert (Hb : (String.eqb (JsString.trim email) "" || String.eqb pw "")%bool = true).
  { destruct Hg as [-> | ->]; [done|]. apply orb_true_r. }
  rewrite Hb. split_and!; try done. intros ->. done.
Qed.

(** ** Sign-up and the auth change race *)

Lemma save_settings_of_local x s :
  Sync.s_settings (Sync.saveSettingsToFirestore (Sync.saveLocal (Sync.set_settings x s))) = x.
Proof. unfold Sync.saveSettingsToFirestore. by destruct (Sync.s_user _). Qed.

Section SignUpRace.
Variables (p : AuthPage) (usr : AuthUser) (name : string) (t : Z).
Hypothesis Hu : Sync.s_user (ap_session p) = None.
Hypothesis Htm : Sync.s_timer (ap_session p) = None.
Hypothesis Hr : Sync.remote_doc (au_uid usr) (Sync.s_remote (ap_session p)) = None.
Hypothesis Hp : ap_pending p = [PSignUp name].
Hypothesis Hn : name <> "".
Hypothesis Hclock : Sync.s_now (ap_session p) + 800 <= t.

(** C16: whether a name given at sign-up reaches the user's settings
    document depends on the order of two events: the provider's answer
    to [createUserWithEmailAndPassword] and the auth change it causes.
    For a signed-out session with no pending settings write and a new
    user without a settings document: if the auth change comes first,
    [saveSettingsToFirestore] schedules the write and the document holds
    the name once 800 ms have passed; if the answer comes first,
    [saveSettingsToFirestore] returns at once for want of a user, the
    name stays in memory only, and no document is written. *)
Theorem signup_name_race :
  Sync.remote_doc (au_uid usr) (Sync.s_remote (ap_session
    (page_run [AuthChange (Some usr); Answer 0 AuthOk; Clock t] p))) =
    Some (set_display_name name (Sync.s_settings (ap_session p))) /\
  let q := page_run [Answer 0 AuthOk; AuthChange (Some usr); Clock t] p in
  Sync.remote_doc (au_uid usr) (Sync.s_remote (ap_session q)) = None /\
  displayName (Sync.s_settings (ap_session q)) = Some name.
Proof.
  unfold page_run, page_step, onAuthReady_ui, answer_nth, Sync.onAuthReady, Sync.loadSettings.
  split; cbn; rewrite Hp; cbn [nth_error answer]; destruct (String.eqb_spec name "") as [|_];
    try done; unfold Sync.tick, Sync.saveSettingsToFirestore; cbn.
  - rewrite Hr. cbn. destruct (Z.ltb_spec t (Sync.s_now (ap_session p))); [lia|].
    destruct (Z.leb_spec (Sync.s_now (ap_session p) + 800) t); [|lia].
    unfold Sync.write_settings. cbn. by rewrite String.eqb_refl.
  - rewrite Hu. cbn. rewrite Hr. cbn. rewrite Htm.
    by destruct (Z.ltb_spec t (Sync.s_now (ap_session p))).
Qed.

End SignUpRace.

(** ** The display name in the header *)

(** C17: [saveDisplayName] stores the new name in the settings, says so in
    its toast, and shows it in the profile field; but the header it
    refreshes prefers the provider's [displayName], so for a user whose
    account has one (a Google sign-in) the sidebar and the greeting keep
    the provider's name. *)
Theorem saveDisplayName_header p usr raw :
  ap_user p = Some usr -> au_displayName usr <> "" -> JsString.trim raw <> "" ->
  let q := page_step (SaveName raw) p in
  ui_name (ap_ui q) = au_displayName usr /\
  displayName (Sync.s_settings (ap_session q)) = Some (JsString.trim raw) /\
  profile_name (Sync.s_settings (ap_session q)) (ap_user q) = JsString.trim raw /\
  ap_toast q = Some (updated_text (JsString.trim raw), "success").
Proof.
  intros Hu Hd Hn. cbn [page_step]. unfold saveDisplayName_ui.
  destruct (String.eqb_spec (JsString.trim raw) "") as [|_]; [done|].
  assert (Hs : displayName (Sync.s_settings (Sync.saveDisplayName raw (ap_session p))) =
               Some (JsString.trim raw)).
  { unfold Sync.saveDisplayName. destruct (String.eqb_spec (JsString.trim raw) "") as [|_]; [done|].
    unfold Sync.save. by rewrite save_settings_of_local. }
  cbn [ap_ui ap_session ap_user ap_toast set_toast set_user_ui set_session].
  unfold updateUserUI, header_name, profile_name, ImportExport.jor. rewrite Hu, Hs. cbn [ui_name].
  destruct (String.eqb_spec (au_displayName usr) "") as [|_]; [done|].
  cbn. destruct (String.eqb_spec (JsString.trim raw) "") as [|_]; done.
Qed.

(** ** Witnesses *)

Definition ui0 : UserUI := mkUserUI "" (AvatarInitial None) "".

(** A fresh signed-out page. *)
Definition page0 : AuthPage := mkAuthPage (Sync.init_session 2025 0) None ui0 None None None [].

(** The same page after submitting the sign-up form with the name Ada. *)
Definition signup_page : AuthPage := set_pending [PSignUp "Ada"] page0.

Definition ada : AuthUser := mkAuthUser "u1" "" "ada@example.com" "".

(** Ada signed in with Google, her account named Ada Lovelace. *)
Definition google_ada : AuthUser := mkAuthUser "u1" "Ada Lovelace" "ada@example.com" "https://photo".
Definition google_page : AuthPage :=
  onAuthReady_ui (Some google_ada) page0.

Lemma auth_form_guards_witness :
  ap_signin_error (page_step (SubmitSignIn "  " "secret") page0) = Some "Please fill in all fields".
Proof.
  destruct (auth_form_guards page0 "  " "secret" "Ada") as (_ & _ & H & _); [left; reflexivity|].
  exact H.
Defined.

(** Answered before the auth change, Ada's sign-up name is never written. *)
Lemma signup_name_race_witness :
  Sync.remote_doc "u1" (Sync.s_remote (ap_session
    (page_run [Answer 0 AuthOk; AuthChange (Some ada); Clock 800] signup_page))) = None.
Proof.
  destruct (signup_name_race signup_page ada "Ada" 800) as [_ [H _]];
    first [reflexivity | discriminate | vm_compute; discriminate | exact H].
Defined.

(** Renaming herself Ada leaves the header at Ada Lovelace. *)
Lemma saveDisplayName_header_witness :
  ui_name (ap_ui (page_step (SaveName " Ada ") google_page)) = "Ada Lovelace".
Proof.
  destruct (saveDisplayName_header google_page google_ada " Ada ") as [H _];
    [reflexivity|discriminate|vm_compute; discriminate|exact H].
Defined.

End AuthForms.
