(* ===== verification/Cover.v ===== *)
(** * Cover: the cover refresh of the book form and its preview

    [refreshCover] (src/app.js:772-838) collects candidate cover URLs for
    the title, author and ISBN of the book form: Open Library by ISBN
    (large, medium), the covers of up to three or five Hardcover books,
    Open Library by title, and the covers and ISBNs of three Open Library
    search results.  It removes duplicates with [[...new Set(sources)]],
    bumps the per-book press counter [coverRefreshAttempts[key]], puts the
    candidate at [counter % uniq.length] into the cover URL input and
    redraws the preview ([updateCoverPreview], 665-678).  [encodeURIComponent]
    is the ECMAScript function (ECMA-262 19.2.6.5) on Latin-1 code units;
    [getBestCoverUrl] (842-853) is the legacy helper for Google Books
    items.

    [refreshCover] awaits two fetches between the bump of the counter and
    its read: the handler is two steps, [refreshCover_start] (up to the
    first [await]) and [refreshCover_finish] (after both answers), and a
    second press may run its start between them.  Each answer is the
    parsed body as records of the fields the code reads ([Catalog.HcBook],
    [Catalog.OlDoc]), or [None] when the fetch rejects, the status is not
    OK or the body is not JSON.  [coverRefreshAttempts] is an object, so a
    key named like a property of [Object.prototype] reads a function or
    the prototype: the counter is NaN for such a key ([None]) and no
    number is stored under it.  Toast texts are written with the UTF-8
    bytes of their non-ASCII characters. *)

From S2P Require Import Prelude JsString Html JsArray Book Stats Library ImportExport Modal Catalog Summary Spine.
Local Open Scope string_scope.
Local Open Scope Z_scope.

Module Cover.
Import Stats Library Catalog Spine.

(** ** [encodeURIComponent] *)

(** The characters it keeps: letters, digits and [- _ . ! ~ * ' ( )]. *)
Definition uri_unreserved (c : ascii) : bool :=
  let n := nat_of_ascii c in
  ((48 <=? n) && (n <=? 57))%nat || ((65 <=? n) && (n <=? 90))%nat
  || ((97 <=? n) && (n <=? 122))%nat
  || existsb (Ascii.eqb c) (list_ascii_of_string "-_.!~*'()").

(** An upper-case hexadecimal digit. *)
Definition hex_digit (n : nat) : ascii :=
  ascii_of_nat (if (n <? 10)%nat then 48 + n else 55 + n)%nat.

(** [%XY] for one byte. *)
Definition pct (b : nat) : string :=
  String "%" (String (hex_digit (b / 16)) (String (hex_digit (b mod 16)) EmptyString)).

(** One code unit: kept, or the percent-encoded bytes of its UTF-8 form
    (one byte below 128, two from 128 to 255). *)
Definition encode_char (c : ascii) : string :=
  let n := nat_of_ascii c in
  if uri_unreserved c then String c EmptyString
  else if (n <? 128)%nat then pct n
  else pct (192 + n / 64) ++ pct (128 + n mod 64).

Fixpoint encodeURIComponent (s : string) : string :=
  match s with
  | EmptyString => EmptyString
  | String c r => encode_char c ++ encodeURIComponent r
  end.

(** ** The candidates *)

(** [if (x) sources.push(x)] for an optional string. *)
Definition push_truthy (o : option string) : list string :=
  match o with Some u => if truthy u then [u] else [] | None => [] end.

Definition ol_isbn_url (isbn size : string) : string :=
  "https://covers.openlibrary.org/b/isbn/" ++ isbn ++ "-" ++ size ++ ".jpg".

(** [b.cached_image?.url], then [b.default_physical_edition?.image?.url]. *)
Definition hc_cover_urls (b : HcBook) : list string :=
  push_truthy (hb_cached_image_url b) ++ push_truthy (ed_get ed_image_url (hb_edition b)).

(** [(hcData.data?.books || []).forEach(...)] after an OK answer. *)
Definition hc_cover_sources (hc : option (option (list HcBook))) : list string :=
  match hc with
  | Some bs => flat_map hc_cover_urls (match bs with Some l => l | None => [] end)
  | None => []
  end.

(** [if (doc.cover_i) ...] and [const docIsbn = (doc.isbn || [])[0]; if (docIsbn) ...] *)
Definition ol_doc_urls (d : OlDoc) : list string :=
  (match ol_cover_i d with
   | Some c => if c =? 0 then [] else ["https://covers.openlibrary.org/b/id/" ++ JsString.of_Z c ++ "-L.jpg"]
   | None => []
   end) ++
  (let i := first_or_empty (ol_isbn d) in if truthy i then [ol_isbn_url i "L"] else []).

Definition ol_cover_sources (ol : option (option (list OlDoc))) : list string :=
  match ol with
  | Some ds => flat_map ol_doc_urls (match ds with Some l => l | None => [] end)
  | None => []
  end.

Definition ol_title_url (title : string) : string :=
  "https://covers.openlibrary.org/b/title/" ++ encodeURIComponent title ++ "-L.jpg".

(** [sources] in the order the four steps push them. *)
Definition cover_sources (title isbn : string) (hc : option (option (list HcBook)))
    (ol : option (option (list OlDoc))) : list string :=
  (if truthy isbn then [ol_isbn_url isbn "L"; ol_isbn_url isbn "M"] else []) ++
  hc_cover_sources hc ++ [ol_title_url title] ++ ol_cover_sources ol.

(** ** The requests *)

Definition hc_fields : string :=
  " { cached_image { url } default_physical_edition { image { url } } } }".

(** [query ${hcQuery}]: by ISBN, or by title with its double quotes removed. *)
Definition hc_query (isbn title : string) : string :=
  "query " ++
  if truthy isbn then
    "{ books(where: {default_physical_edition: {isbn_13: {_eq: " ++
    String Html.dq (isbn ++ String Html.dq ("}}}, limit: 3)" ++ hc_fields))
  else
    "{ books(where: {title: {_ilike: " ++
    String Html.dq ("%" ++ Html.replace_char Html.dq "" title ++ String "%" (String Html.dq
      ("}}, order_by: {users_count: desc}, limit: 5)" ++ hc_fields))).

(** [search.json?q=${olQ}&...] with [olQ] the encoded title and author. *)
Definition ol_search_url (title author : string) : string :=
  "https://openlibrary.org/search.json?q=" ++
  encodeURIComponent (title ++ (if truthy author then " " ++ author else "")) ++
  "&limit=3&fields=cover_i,isbn".

(** ** The press counter *)

(** [isbn || `${title}_${author}`] *)
Definition cover_key (title author isbn : string) : string :=
  if truthy isbn then isbn else title ++ "_" ++ author.

(** [coverRefreshAttempts[key] = (coverRefreshAttempts[key] || 0) + 1]:
    an inherited key gives a string, stored (or, for [__proto__],
    ignored) but never a number. *)
Definition bump (key : string) (m : obj) : obj :=
  match obj_get key m with
  | Some v => obj_set key (v + 1) m
  | None => if key \in Summary.proto_keys then m else obj_set key 1 m
  end.

(** ** The preview *)

(** What [#modal-cover-preview] shows. *)
Inductive Preview := PreviewCover (v : CoverView) | PreviewSpine (v : SpineView) | PreviewBooks.

(** [updateCoverPreview()] on the trimmed inputs. *)
Definition updateCoverPreview (fm : BookForm) : option Preview :=
  let url := JsString.trim (f_cover_url fm) in
  let title := JsString.trim (f_title fm) in
  let author := JsString.trim (f_author fm) in
  if truthy url then PreviewCover <$> bookCoverImg title author url "spine-lg"
  else if truthy title then PreviewSpine <$> bookSpineHTML title author "spine-lg"
  else Some PreviewBooks.

(** ** [refreshCover] *)

Record CoverState := mkCoverState {
  cs_attempts : obj;                    (* [coverRefreshAttempts] *)
  cs_form : BookForm;                   (* the inputs of the book modal *)
  cs_preview : Preview;                 (* [#modal-cover-preview] *)
  cs_toasts : list (string * string);   (* the [showToast] calls, in order *)
  cs_fetches : list string              (* the requests sent, in order *)
}.

Definition toast (msg kind : string) (s : CoverState) : CoverState :=
  mkCoverState (cs_attempts s) (cs_form s) (cs_preview s) (cs_toasts s ++ [(msg, kind)]) (cs_fetches s).

Definition fetch (req : string) (s : CoverState) : CoverState :=
  mkCoverState (cs_attempts s) (cs_form s) (cs_preview s) (cs_toasts s) (cs_fetches s ++ [req]).

Definition set_attempts (m : obj) (s : CoverState) : CoverState :=
  mkCoverState m (cs_form s) (cs_preview s) (cs_toasts s) (cs_fetches s).

Definition set_cover_url (u : string) (fm : BookForm) : BookForm :=
  {| f_title := f_title fm; f_author := f_author fm; f_genre := f_genre fm;
     f_isbn := f_isbn fm; f_status := f_status fm; f_date_read := f_date_read fm;
     f_date_started := f_date_started fm; f_tags := f_tags fm; f_pages := f_pages fm;
     f_pages_read := f_pages_read fm; f_own_physical := f_own_physical fm;
     f_own_digital := f_own_digital fm; f_own_borrowed := f_own_borrowed fm;
     f_copies := f_copies fm; f_borrowed_from := f_borrowed_from fm; f_notes := f_notes fm;
     f_cover_url := u; f_collections := f_collections fm; f_desc := f_desc fm |}.

(** The constants of a press that the second step reads. *)
Record PendingPress := mkPending { pd_title : string; pd_author : string; pd_isbn : string; pd_key : string }.

(** Up to the first [await]: the guard, the bump, the toast and the
    Hardcover request. *)
Definition refreshCover_start (s : CoverState) : CoverState * option PendingPress :=
  let fm := cs_form s in
  let title := JsString.trim (f_title fm) in
  let author := JsString.trim (f_author fm) in
  let isbn := JsString.trim (f_isbn fm) in
  if negb (truthy title) && negb (truthy isbn) then (toast "Enter a title or ISBN first" "error" s, None)
  else
    let key := cover_key title author isbn in
    (fetch (hc_query isbn title)
       (toast "Searching for cover..." "info" (set_attempts (bump key (cs_attempts s)) s)),
     Some (mkPending title author isbn key)).

(** [idx + 1] and [uniq[idx]] printed: NaN and [undefined] for a NaN index. *)
Definition num_text (o : option Z) : string :=
  match o with Some z => JsString.of_Z z | None => "NaN" end.

Definition pick (uniq : list string) (idx : option Z) : string :=
  match idx with
  | Some i => match js_index uniq i with Some u => u | None => "undefined" end
  | None => "undefined"
  end.

(** [[...new Set(sources)]] *)
Definition candidates (title isbn : string) (hc : option (option (list HcBook)))
    (ol : option (option (list OlDoc))) : list string :=
  JsArray.set_values (cover_sources title isbn hc ol).

(** [coverRefreshAttempts[key] % uniq.length]: [%] of a positive count,
    NaN for a count that is not a number. *)
Definition cover_index (uniq : list string) (cnt : option Z) : option Z :=
  (fun v => Z.rem v (Z.of_nat (length uniq))) <$> cnt.

Definition cover_toast (idx : option Z) (n : nat) : string :=
  "Cover " ++ num_text (Z.add 1 <$> idx) ++ " of " ++ JsString.of_Z (Z.of_nat n) ++
  " — check preview ↑".

Definition no_covers_msg : string := "No covers found — try pasting a URL manually.".

(** After both answers: the Open Library search request, the candidates,
    the second read of the counter, the input, the preview and the toast.
    [None] is a TypeError of the preview (which [bookSpineHTML_some]
    excludes). *)
Definition refreshCover_finish (p : PendingPress) (hc : option (option (list HcBook)))
    (ol : option (option (list OlDoc))) (s : CoverState) : option CoverState :=
  let s1 := fetch (ol_search_url (pd_title p) (pd_author p)) s in
  let uniq := candidates (pd_title p) (pd_isbn p) hc ol in
  match uniq with
  | [] => Some (toast no_covers_msg "error" s1)
  | _ =>
      let idx := cover_index uniq (obj_get (pd_key p) (cs_attempts s1)) in
      let fm := set_cover_url (pick uniq idx) (cs_form s1) in
      pv ← updateCoverPreview fm;
      Some (toast (cover_toast idx (length uniq)) "success"
              (mkCoverState (cs_attempts s1) fm pv (cs_toasts s1) (cs_fetches s1)))
  end.

(** A press whose answers arrive before any other event. *)
Definition refreshCover (hc : option (option (list HcBook))) (ol : option (option (list OlDoc)))
    (s : CoverState) : option CoverState :=
  match refreshCover_start s with
  | (s1, None) => Some s1
  | (s1, Some p) => refreshCover_finish p hc ol s1
  end.

(** ** Presses and answers as events *)

(** The events of the page: a press of the refresh button, and the
    answers to the [i]-th press still waiting for them. *)
Inductive CoverEvent :=
  | Press
  | Answers (i : nat) (hc : option (option (list HcBook))) (ol : option (option (list OlDoc))).

(** One event on the state and the presses waiting for their answers;
    answers for no waiting press change nothing. *)
Definition cover_step (st : CoverState * list PendingPress) (e : CoverEvent)
    : option (CoverState * list PendingPress) :=
  let '(s, ps) := st in
  match e with
  | Press =>
      match refreshCover_start s with
      | (s1, Some p) => Some (s1, (ps ++ [p])%list)
      | (s1, None) => Some (s1, ps)
      end
  | Answers i hc ol =>
      match nth_error ps i with
      | Some p => s1 ← refreshCover_finish p hc ol s; Some (s1, delete i ps)
      | None => Some st
      end
  end.

Fixpoint cover_run (es : list CoverEvent) (st : CoverState * list PendingPress)
    : option (CoverState * list PendingPress) :=
  match es with
  | [] => Some st
  | e :: es' => st' ← cover_step st e; cover_run es' st'
  end.

(** ** [getBestCoverUrl] *)

(** [s.replace(pat, rep)] with a string pattern: the first occurrence. *)
Fixpoint replace_first (pat rep s : string) : string :=
  if String.prefix pat s then rep ++ String.substring (String.length pat) (String.length s) s
  else match s with
       | EmptyString => EmptyString
       | String c r => String c (replace_first pat rep r)
       end.

Record IndustryId := mkIndustryId { ii_type : string; ii_identifier : option string }.

Record VolumeInfo := mkVolumeInfo {
  vi_thumbnail : option string;                      (* [imageLinks?.thumbnail] *)
  vi_identifiers : option (list IndustryId)          (* [industryIdentifiers] *)
}.

(** [isbns.find(i => i.type === ty)?.identifier] *)
Definition find_identifier (ty : string) (ids : list IndustryId) : option string :=
  match List.find (fun i => String.eqb (ii_type i) ty) ids with
  | Some i => ii_identifier i
  | None => None
  end.

Definition getBestCoverUrl (info : option VolumeInfo) : string :=
  let ids := match info with Some v => default [] (vi_identifiers v) | None => [] end in
  let thumb := match info with Some v => vi_thumbnail v | None => None end in
  match push_truthy (find_identifier "ISBN_13" ids), push_truthy (find_identifier "ISBN_10" ids),
        push_truthy thumb with
  | [i13], _, _ => ol_isbn_url i13 "L"
  | _, [i10], _ => ol_isbn_url i10 "L"
  | _, _, [t] => replace_first "&edge=curl" "" (replace_first "http:" "https:" t)
  | _, _, _ => ""
  end.

(** ** Reference: percent-decoding *)

Definition hex_val (c : ascii) : option nat :=
  let n := nat_of_ascii c in
  if ((48 <=? n) && (n <=? 57))%nat then Some (n - 48)%nat
  else if ((65 <=? n) && (n <=? 70))%nat then Some (n - 55)%nat
  else if ((97 <=? n) && (n <=? 102))%nat then Some (n - 87)%nat
  else None.

(** The decoding of percent-encoded UTF-8 into Latin-1 code units: one
    byte below 128, or a lead byte 0xC2 or 0xC3 and a continuation byte;
    anything else has no decoding. *)
Fixpoint percent_decode (s : string) : option string :=
  match s with
  | EmptyString => Some EmptyString
  | String "%" (String h1 (String h2 r)) =>
      match hex_val h1, hex_val h2 with
      | Some a, Some b =>
          let b1 := (a * 16 + b)%nat in
          if (b1 <? 128)%nat then String (ascii_of_nat b1) <$> percent_decode r
          else if ((194 <=? b1) && (b1 <=? 195))%nat then
            match r with
            | String "%" (String k1 (String k2 r')) =>
                match hex_val k1, hex_val k2 with
                | Some c, Some d =>
                    let b2 := (c * 16 + d)%nat in
                    if ((128 <=? b2) && (b2 <? 192))%nat
                    then String (ascii_of_nat ((b1 - 192) * 64 + (b2 - 128))) <$> percent_decode r'
                    else None
                | _, _ => None
                end
            | _ => None
            end
          else None
      | _, _ => None
      end
  | String "%" _ => None
  | String c r => String c <$> percent_decode r
  end.

(** ** Lemmas on the encoding *)

(** Each of the 256 code units decodes back, whatever follows it. *)
Lemma percent_decode_encode_char c r :
  percent_decode (encode_char c ++ r) = String c <$> percent_decode r.
Proof.
  destruct c as [[] [] [] [] [] [] [] []];
    cbv beta iota zeta delta [encode_char uri_unreserved pct hex_digit]; cbn; reflexivity.
Qed.

Lemma encode_char_safe c :
  forallb (fun d => uri_unreserved d || Ascii.eqb d "%") (list_ascii_of_string (encode_char c)) = true.
Proof. destruct c as [[] [] [] [] [] [] [] []]; vm_compute; reflexivity. Qed.

Lemma string_app_inv_head (a b c : string) : a ++ b = a ++ c -> b = c.
Proof. induction a as [|x a IH]; [done|]. intros E. apply IH. by injection E. Qed.

Lemma string_app_inv_tail (a b c : string) : a ++ c = b ++ c -> a = b.
Proof.
  intros E. apply (f_equal list_ascii_of_string) in E. rewrite !Html.list_ascii_app in E.
  apply app_inv_tail in E. rewrite <- (string_of_list_ascii_of_string a), E.
  apply string_of_list_ascii_of_string.
Qed.

(** ** Lemmas *)

(** The Open Library title URL is always a candidate. *)
Lemma cover_sources_title title isbn hc ol : In (ol_title_url title) (cover_sources title isbn hc ol).
Proof. unfold cover_sources. rewrite !in_app_iff. simpl. tauto. Qed.

Lemma candidates_nonnil title isbn hc ol : candidates title isbn hc ol <> [].
Proof.
  unfold candidates. intros E. pose proof (proj2 (proj2 (set_values_spec _) _) (cover_sources_title title isbn hc ol)).
  by rewrite E in H.
Qed.

Lemma updateCoverPreview_some fm : exists pv, updateCoverPreview fm = Some pv.
Proof.
  unfold updateCoverPreview.
  destruct (truthy _); [destruct (bookCoverImg_some (JsString.trim (f_title fm)) (JsString.trim (f_author fm))
                                    (JsString.trim (f_cover_url fm)) "spine-lg") as [v ->]; by eexists|].
  destruct (truthy _); [|by eexists].
  destruct (bookSpineHTML_some (JsString.trim (f_title fm)) (JsString.trim (f_author fm)) "spine-lg") as [v ->].
  by eexists.
Qed.

(** The bump adds one to the count of its key, and leaves the others. *)
Lemma bump_get key m : ~ In key Summary.proto_keys ->
  obj_get key (bump key m) = Some (opt0 (obj_get key m) + 1).
Proof.
  intros Hk. unfold bump. destruct (obj_get key m) eqn:E; rewrite ?obj_get_set, ?String.eqb_refl; [done|].
  rewrite (proj2 (js_includes_false _ _) Hk), obj_get_set, String.eqb_refl. done.
Qed.

Lemma bump_proto key m : In key Summary.proto_keys -> obj_get key m = None -> bump key m = m.
Proof. intros Hk E. unfold bump. rewrite E, (proj2 (js_includes_In _ _) Hk). done. Qed.

Lemma set_cover_url_fields u fm :
  f_title (set_cover_url u fm) = f_title fm /\ f_author (set_cover_url u fm) = f_author fm /\
  f_isbn (set_cover_url u fm) = f_isbn fm /\ f_cover_url (set_cover_url u fm) = u.
Proof. done. Qed.

(** The candidate at a count modulo their number. *)
Lemma pick_mod uniq c : uniq <> [] ->
  pick uniq (Some (c mod Z.of_nat (length uniq))) = nth (Z.to_nat (c mod Z.of_nat (length uniq))) uniq "".
Proof.
  intros Hu. unfold pick, js_index.
  assert (0 < Z.of_nat (length uniq)) by (destruct uniq; [done|simpl; lia]).
  pose proof (Z.mod_pos_bound c (Z.of_nat (length uniq)) H).
  destruct (Z.leb_spec 0 (c mod Z.of_nat (length uniq))); [|lia].
  destruct (nth_error uniq _) eqn:E.
  - symmetry. by apply nth_error_nth.
  - apply nth_error_None in E. lia.
Qed.

Lemma cover_index_some uniq c : uniq <> [] -> 0 <= c ->
  cover_index uniq (Some c) = Some (c mod Z.of_nat (length uniq)).
Proof.
  intros Hu Hc. unfold cover_index. simpl. f_equal. apply Z.rem_mod_nonneg; [lia|].
  destruct uniq; [done|simpl; lia].
Qed.

(** The first step of a press with a title or an ISBN. *)
Lemma refreshCover_start_go s title author isbn :
  JsString.trim (f_title (cs_form s)) = title -> JsString.trim (f_author (cs_form s)) = author ->
  JsString.trim (f_isbn (cs_form s)) = isbn -> truthy title || truthy isbn = true ->
  refreshCover_start s =
    (fetch (hc_query isbn title)
       (toast "Searching for cover..." "info"
          (set_attempts (bump (cover_key title author isbn) (cs_attempts s)) s)),
     Some (mkPending title author isbn (cover_key title author isbn))).
Proof. intros <- <- <- H. unfold refreshCover_start. by destruct (truthy _), (truthy _). Qed.

(** The second step: the candidate at the counter read then. *)
Lemma refreshCover_finish_spec p hc ol s uniq :
  candidates (pd_title p) (pd_isbn p) hc ol = uniq ->
  let idx := cover_index uniq (obj_get (pd_key p) (cs_attempts s)) in
  exists s', refreshCover_finish p hc ol s = Some s' /\
    cs_attempts s' = cs_attempts s /\
    cs_form s' = set_cover_url (pick uniq idx) (cs_form s) /\
    updateCoverPreview (cs_form s') = Some (cs_preview s') /\
    cs_toasts s' = (cs_toasts s ++ [(cover_toast idx (length uniq), "success")])%list.
Proof.
  intros Hu idx. subst idx. pose proof (candidates_nonnil (pd_title p) (pd_isbn p) hc ol) as Hn.
  unfold refreshCover_finish. rewrite Hu in *. destruct uniq as [|u us]; [done|].
  match goal with |- context [updateCoverPreview ?fm] =>
    destruct (updateCoverPreview_some fm) as [pv Hpv]; rewrite Hpv end.
  by eexists.
Qed.

Lemma cover_run_app es1 es2 st :
  cover_run (es1 ++ es2) st = cover_run es1 st ≫= cover_run es2.
Proof.
  revert st. induction es1 as [|e es1 IH]; intros st; [done|]. simpl.
  destruct (cover_step st e); [apply IH|done].
Qed.

Lemma bind_some {A B} (x : A) (f : A -> option B) : Some x ≫= f = f x.
Proof. done. Qed.

Lemma cover_run_cons e es st : cover_run (e :: es) st = cover_step st e ≫= cover_run es.
Proof. done. Qed.

(** Take the events of a run one at a time. *)
Ltac run_steps := repeat first [rewrite bind_some | rewrite cover_run_cons | rewrite app_nil_l].

(** A press with a title or an ISBN waits for its answers. *)
Lemma press_step s ps title author isbn :
  JsString.trim (f_title (cs_form s)) = title -> JsString.trim (f_author (cs_form s)) = author ->
  JsString.trim (f_isbn (cs_form s)) = isbn -> truthy title || truthy isbn = true ->
  cover_step (s, ps) Press =
    Some (fetch (hc_query isbn title)
            (toast "Searching for cover..." "info"
               (set_attempts (bump (cover_key title author isbn) (cs_attempts s)) s)),
          (ps ++ [mkPending title author isbn (cover_key title author isbn)])%list).
Proof. intros. cbn [cover_step]. by rewrite (refreshCover_start_go s title author isbn). Qed.

Lemma answers_step s p ps hc ol :
  cover_step (s, p :: ps) (Answers 0 hc ol) = refreshCover_finish p hc ol s ≫= (fun s1 => Some (s1, ps)).
Proof. done. Qed.

(** The hypotheses shared by the theorems on presses: the trimmed
    inputs, a title or an ISBN, a key that is not a property of
    [Object.prototype], and the count [c] before. *)
Definition press_ready (s : CoverState) (title author isbn : string) (c : Z) : Prop :=
  JsString.trim (f_title (cs_form s)) = title /\ JsString.trim (f_author (cs_form s)) = author /\
  JsString.trim (f_isbn (cs_form s)) = isbn /\ truthy title || truthy isbn = true /\
  ~ In (cover_key title author isbn) Summary.proto_keys /\
  opt0 (obj_get (cover_key title author isbn) (cs_attempts s)) = c /\ 0 <= c.

(** One press answered before the next one. *)
Lemma press_round s title author isbn hc ol c :
  press_ready s title author isbn c ->
  let uniq := candidates title isbn hc ol in
  exists s', cover_run [Press; Answers 0 hc ol] (s, []) = Some (s', []) /\
    press_ready s' title author isbn (c + 1) /\
    f_cover_url (cs_form s') = nth (Z.to_nat ((c + 1) mod Z.of_nat (length uniq))) uniq "" /\
    updateCoverPreview (cs_form s') = Some (cs_preview s') /\
    cs_toasts s' = (cs_toasts s ++ [("Searching for cover...", "info");
                     (cover_toast (Some ((c + 1) mod Z.of_nat (length uniq))) (length uniq), "success")])%list.
Proof.
  intros (Ht & Ha & Hi & Hg & Hk & Hc & Hc0) uniq.
  run_steps. rewrite (press_step s [] title author isbn) by done. run_steps. rewrite answers_step.
  destruct (refreshCover_finish_spec (mkPending title author isbn (cover_key title author isbn)) hc ol
              (fetch (hc_query isbn title) (toast "Searching for cover..." "info"
                 (set_attempts (bump (cover_key title author isbn) (cs_attempts s)) s))) uniq)
    as (s' & -> & Hat & Hf & Hpv & Htt); [done|].
  pose proof (candidates_nonnil title isbn hc ol) as Hn. fold uniq in Hn.
  cbn [cs_attempts cs_toasts cs_form fetch toast set_attempts pd_key] in Hat, Hf, Htt.
  rewrite bump_get, Hc, cover_index_some in Hf, Htt by (done || lia). rewrite pick_mod in Hf by done.
  exists s'. run_steps. cbn [cover_run]. unfold press_ready. rewrite Hf in Hpv |- *. rewrite Hat, Htt.
  cbn [f_title f_author f_isbn f_cover_url set_cover_url]. rewrite bump_get, Hc by done.
  split_and!; try done; try lia. by rewrite <- app_assoc.
Qed.

Lemma bump_twice key m c : ~ In key Summary.proto_keys -> opt0 (obj_get key m) = c ->
  obj_get key (bump key (bump key m)) = Some (c + 2).
Proof. intros Hk Hc. rewrite !bump_get by done. simpl. rewrite Hc. f_equal. lia. Qed.

Lemma proto_keys_truthy k : In k Summary.proto_keys -> truthy k = true.
Proof. intros H. repeat destruct H as [<-|H]; done. Qed.

Lemma cover_key_isbn title author isbn : truthy isbn = true -> cover_key title author isbn = isbn.
Proof. unfold cover_key. by intros ->. Qed.

(** ** Properties *)

(** C10: successive presses walk the candidates from the second one: with
    a title or an ISBN, a key that is not a property of [Object.prototype]
    and [c] earlier presses, the [j]-th of [k] further presses (each
    answered before the next) toasts [Cover ((c + j) % n) + 1 of n]; after
    them the counter is [c + k], the input holds the candidate at
    [(c + k) % n] and the preview draws it.  From a fresh key the first
    press shows the second candidate: the Open Library ISBN cover that
    the code calls the most reliable comes only at press [n]. *)
Theorem refreshCover_kth_press s title author isbn hc ol c k :
  press_ready s title author isbn c ->
  let uniq := candidates title isbn hc ol in
  let n := Z.of_nat (length uniq) in
  exists s', cover_run (concat (repeat [Press; Answers 0 hc ol] k)) (s, []) = Some (s', []) /\
    press_ready s' title author isbn (c + Z.of_nat k) /\
    cs_toasts s' = (cs_toasts s ++ concat (map (fun j => [("Searching for cover...", "info");
                      (cover_toast (Some ((c + Z.of_nat j) mod n)) (length uniq), "success")])
                      (seq 1 k)))%list /\
    ((1 <= k)%nat -> f_cover_url (cs_form s') = nth (Z.to_nat ((c + Z.of_nat k) mod n)) uniq "" /\
                     updateCoverPreview (cs_form s') = Some (cs_preview s')).
Proof.
  intros Hr uniq n. revert s c Hr. induction k as [|k IH]; intros s c Hr.
  - exists s. rewrite Z.add_0_r, app_nil_r. split_and!; [done|done|done|lia].
  - destruct (press_round s title author isbn hc ol c Hr) as (s1 & E1 & H1 & Hu1 & Hp1 & Ht1).
    destruct (IH s1 (c + 1) H1) as (s2 & E2 & H2 & Ht2 & Hl2).
    exists s2. cbn [repeat concat]. rewrite cover_run_app, E1. cbn [mbind option_bind].
    replace (c + Z.of_nat (S k)) with (c + 1 + Z.of_nat k) by lia.
    split_and!; [done|done| |].
    + rewrite Ht2, Ht1, <- app_assoc. f_equal. cbn [seq map concat app]. f_equal. f_equal.
      rewrite <- (seq_shift k 1), map_map. f_equal. apply map_ext. intros j.
      by replace (c + Z.of_nat (S j)) with (c + 1 + Z.of_nat j) by lia.
    + intros _. destruct k as [|k]; [|apply Hl2; lia].
      cbn in E2. simplify_eq. rewrite Z.add_0_r. by split.
Qed.

(** C11: the counter is read again after the answers, so a second press
    before the first one's answers makes both show the same candidate:
    two starts and then the two answers leave the counter at [c + 2], toast
    [Cover ((c + 2) % n) + 1 of n] twice and show the candidate at
    [(c + 2) % n]; the one at [(c + 1) % n] is never shown. *)
Theorem refreshCover_double_press s title author isbn hc ol c :
  press_ready s title author isbn c ->
  let uniq := candidates title isbn hc ol in
  let i := (c + 2) mod Z.of_nat (length uniq) in
  exists s', cover_run [Press; Press; Answers 0 hc ol; Answers 0 hc ol] (s, []) = Some (s', []) /\
    press_ready s' title author isbn (c + 2) /\
    f_cover_url (cs_form s') = nth (Z.to_nat i) uniq "" /\
    cs_toasts s' = (cs_toasts s ++ [("Searching for cover...", "info"); ("Searching for cover...", "info");
                     (cover_toast (Some i) (length uniq), "success");
                     (cover_toast (Some i) (length uniq), "success")])%list.
Proof.
  intros (Ht & Ha & Hi & Hg & Hk & Hc & Hc0) uniq i.
  pose proof (candidates_nonnil title isbn hc ol) as Hn. fold uniq in Hn.
  pose proof (bump_twice _ _ _ Hk Hc) as H2.
  run_steps. rewrite (press_step s [] title author isbn) by done. run_steps.
  rewrite (press_step _ _ title author isbn) by done. run_steps. cbn [app]. rewrite answers_step.
  match goal with |- context [refreshCover_finish ?p hc ol ?st] =>
    destruct (refreshCover_finish_spec p hc ol st uniq) as (s3 & -> & Ha3 & Hf3 & _ & Ht3); [done|] end.
  run_steps. rewrite answers_step.
  match goal with |- context [refreshCover_finish ?p hc ol ?st] =>
    destruct (refreshCover_finish_spec p hc ol st uniq) as (s4 & -> & Ha4 & Hf4 & _ & Ht4); [done|] end.
  run_steps. cbn [cover_run]. exists s4.
  cbn [cs_attempts cs_toasts cs_form fetch toast set_attempts pd_key] in Ha3, Hf3, Ht3, Ha4, Hf4, Ht4.
  rewrite Ha3 in Ha4, Hf4, Ht4. rewrite H2, cover_index_some in Hf3, Ht3, Hf4, Ht4 by (done || lia).
  rewrite Ht3 in Ht4. rewrite Hf3 in Hf4. rewrite pick_mod in Hf4 by done.
  unfold press_ready. rewrite Hf4, Ha4, Ht4, H2. cbn [f_title f_author f_isbn f_cover_url set_cover_url].
  split_and!; try done; try lia. by rewrite <- !app_assoc.
Qed.

(** C18: a press always ends and never says that no cover was found: the
    candidates always hold the Open Library title URL (and begin with the
    large Open Library ISBN cover when there is an ISBN), so [uniq] is
    never empty and the branch of [No covers found] is dead; the preview
    never throws. *)
Theorem refreshCover_never_empty hc ol s :
  (forall title isbn, In (ol_title_url title) (candidates title isbn hc ol) /\
     (truthy isbn = true -> head (candidates title isbn hc ol) = Some (ol_isbn_url isbn "L"))) /\
  exists s' added, refreshCover hc ol s = Some s' /\ cs_toasts s' = (cs_toasts s ++ added)%list /\
    ~ In (no_covers_msg, "error") added.
Proof.
  split.
  - intros title isbn. split; [apply set_values_spec, cover_sources_title|].
    intros H. unfold candidates, cover_sources. by rewrite H.
  - unfold refreshCover, refreshCover_start.
    match goal with |- context [if ?b then _ else _] => destruct b end.
    + eexists _, _. split_and!; [done|done|]. intros [E|[]]. inversion E.
    + match goal with |- context [refreshCover_finish ?p hc ol ?st] =>
        destruct (refreshCover_finish_spec p hc ol st _ eq_refl) as (s' & -> & _ & _ & _ & Ht) end.
      cbn [cs_toasts fetch toast set_attempts] in Ht. rewrite <- app_assoc in Ht.
      eexists s', _. split_and!; [done|exact Ht|]. intros [E|[E|[]]]; inversion E.
Qed.

(** C25: an ISBN named like a property of [Object.prototype]
    ([constructor], [toString], [__proto__], ...) makes the counter read
    an inherited property: [(f || 0) + 1] is a string, the index is NaN,
    the cover input gets the text [undefined], whose image the preview
    then loads, and the toast says [Cover NaN of n]. *)
Theorem refreshCover_proto_key hc ol s isbn :
  JsString.trim (f_isbn (cs_form s)) = isbn -> In isbn Summary.proto_keys ->
  obj_get isbn (cs_attempts s) = None ->
  let uniq := candidates (JsString.trim (f_title (cs_form s))) isbn hc ol in
  exists s', refreshCover hc ol s = Some s' /\ cs_attempts s' = cs_attempts s /\
    f_cover_url (cs_form s') = "undefined" /\
    cs_toasts s' = (cs_toasts s ++ [("Searching for cover...", "info");
                                    (cover_toast None (length uniq), "success")])%list.
Proof.
  intros Hi Hk Hn uniq. pose proof (proto_keys_truthy _ Hk) as Ht.
  unfold refreshCover. rewrite (refreshCover_start_go s _ _ isbn eq_refl eq_refl Hi)
    by (rewrite Ht; apply orb_true_r).
  rewrite cover_key_isbn by done.
  match goal with |- context [refreshCover_finish ?p hc ol ?st] =>
    destruct (refreshCover_finish_spec p hc ol st uniq) as (s' & -> & Ha & Hf & _ & Htt); [done|] end.
  exists s'. cbn [cs_attempts cs_toasts cs_form fetch toast set_attempts pd_key] in Ha, Hf, Htt.
  rewrite bump_proto in Ha, Hf, Htt by done. rewrite Hn in Hf, Htt. rewrite Hf, Htt, <- app_assoc.
  by split_and!.
Qed.

(** C31: the title goes into the Open Library title URL as one path
    segment: [encodeURIComponent] leaves only letters, digits,
    [- _ . ! ~ * ' ( )] and percent escapes (no [/], [?], [#] or [&] of the
    title reaches the URL), its escapes decode back to the title, and so
    two titles with the same URL are the same title. *)
Theorem ol_title_url_segment title :
  (forall d, In d (list_ascii_of_string (encodeURIComponent title)) ->
     uri_unreserved d = true \/ d = "%"%char) /\
  percent_decode (encodeURIComponent title) = Some title /\
  (forall t', ol_title_url t' = ol_title_url title -> t' = title).
Proof.
  assert (Hd : forall t, percent_decode (encodeURIComponent t) = Some t).
  { induction t as [|c r IH]; [done|]. cbn [encodeURIComponent].
    by rewrite percent_decode_encode_char, IH. }
  split_and!; [|apply Hd|].
  - intros d. induction title as [|c r IH]; [intros []|]. cbn [encodeURIComponent].
    rewrite Html.list_ascii_app, in_app_iff. intros [H|H]; [|by apply IH].
    pose proof (proj1 (forallb_forall _ _) (encode_char_safe c) d H) as Hs.
    apply orb_true_iff in Hs as [Hs|Hs]; [by left|right; by apply Ascii.eqb_eq].
  - intros t' E. unfold ol_title_url in E. apply string_app_inv_head, string_app_inv_tail in E.
    apply (f_equal percent_decode) in E. rewrite !Hd in E. by injection E.
Qed.

(** ** Witnesses *)

(** The book form with a title, an author and an ISBN. *)
Definition cover_form (isbn : string) : BookForm :=
  {| f_title := " Dune "; f_author := "Frank Herbert"; f_genre := ""; f_isbn := isbn;
     f_status := "want"; f_date_read := ""; f_date_started := ""; f_tags := ""; f_pages := "";
     f_pages_read := ""; f_own_physical := false; f_own_digital := false;
     f_own_borrowed := false; f_copies := ""; f_borrowed_from := ""; f_notes := "";
     f_cover_url := ""; f_collections := []; f_desc := "" |}.

Definition cover_s0 (isbn : string) : CoverState := mkCoverState [] (cover_form isbn) PreviewBooks [] [].

Definition dune_isbn : string := "9780441013593".

Lemma cover_s0_ready : press_ready (cover_s0 dune_isbn) "Dune" "Frank Herbert" dune_isbn 0.
Proof. split_and!; try reflexivity; try lia. apply js_includes_false. reflexivity. Qed.

(** With Hardcover finding nothing and Open Library failing there are
    three candidates; the first press shows the second, the medium ISBN
    cover. *)
Lemma refreshCover_kth_press_witness :
  exists s', cover_run (concat (repeat [Press; Answers 0 (Some (Some [])) None] 1)) (cover_s0 dune_isbn, [])
             = Some (s', []) /\ f_cover_url (cs_form s') = ol_isbn_url dune_isbn "M".
Proof.
  pose proof (refreshCover_kth_press (cover_s0 dune_isbn) "Dune" "Frank Herbert" dune_isbn
                (Some (Some [])) None 0 1 cover_s0_ready) as W.
  cbv zeta in W. destruct W as (s' & E & _ & _ & Hu).
  exists s'. split; [exact E|]. rewrite (proj1 (Hu (le_n 1))). vm_compute. reflexivity.
Defined.

(** Two quick presses both show the third candidate, the title URL. *)
Lemma refreshCover_double_press_witness :
  exists s', cover_run [Press; Press; Answers 0 (Some (Some [])) None; Answers 0 (Some (Some [])) None]
               (cover_s0 dune_isbn, []) = Some (s', []) /\ f_cover_url (cs_form s') = ol_title_url "Dune".
Proof.
  pose proof (refreshCover_double_press (cover_s0 dune_isbn) "Dune" "Frank Herbert" dune_isbn
                (Some (Some [])) None 0 cover_s0_ready) as W.
  cbv zeta in W. destruct W as (s' & E & _ & Hu & _).
  exists s'. split; [exact E|]. rewrite Hu. vm_compute. reflexivity.
Defined.

(** The ISBN [constructor] puts [undefined] into the cover input. *)
Lemma refreshCover_proto_key_witness :
  exists s', refreshCover None None (cover_s0 "constructor") = Some s' /\
             f_cover_url (cs_form s') = "undefined".
Proof.
  pose proof (refreshCover_proto_key None None (cover_s0 "constructor") "constructor") as W.
  destruct W as (s' & E & _ & Hu & _); [reflexivity|by left|reflexivity|].
  by exists s'.
Defined.

(** With an ISBN the first candidate is the large Open Library cover. *)
Lemma refreshCover_never_empty_witness :
  head (candidates "Dune" dune_isbn None None) = Some (ol_isbn_url dune_isbn "L").
Proof. apply (proj2 (proj1 (refreshCover_never_empty None None (cover_s0 dune_isbn)) "Dune" dune_isbn)). reflexivity. Defined.

(** A title with a slash and a question mark stays one segment. *)
Lemma ol_title_url_segment_witness :
  ~ In "/"%char (list_ascii_of_string (encodeURIComponent "Why? / How")).
Proof.
  intros H. destruct (proj1 (ol_title_url_segment "Why? / How") "/"%char H) as [E|E]; [|discriminate].
  vm_compute in E. discriminate.
Defined.

End Cover.
