(* ===== verification/Scanner.v ===== *)
(** * Scanner: the barcode scanner handlers (src/app.js:40-155)

    app.js is a classic script, so of two top-level function declarations
    with one name the later one is the function: [closeScanner] (152-155),
    [stopCamera] (139-150), [addScannedBook] (133-137) and the async
    [handleISBNDetected] (57-131) replace the stubs of lines 47-55, and
    [openScanner] (44-46) only shows a toast.  The later functions read
    [scannerAnimFrame], [zxingReader] and [scannerInterval], which no
    declaration of the script binds: reading one throws a ReferenceError.

    The handlers run in [JsM], a state-and-exception monad on the
    scanner's state: an exception ends the handler and keeps the effects
    made before it (an event handler's exception, or the rejection of the
    async handler's promise, is only logged).  [isbn_lookup] is the
    Hardcover-then-Open-Library lookup of lines 65-115 on the parsed
    answers. *)

From S2P Require Import Prelude JsString JsArray Book Stats Library ImportExport Modal Catalog.
Local Open Scope string_scope.
Local Open Scope Z_scope.

Module Scanner.
Import Stats Library ImportExport Modal Catalog.

(** ** The lookup of a scanned ISBN *)

(** [found]: [sf_title] is [b.title], which Hardcover may leave out. *)
Record ScanFound := mkScanFound {
  sf_id : string; sf_title : option string; sf_author : string; sf_pages : Z;
  sf_description : string; sf_isbn : string; sf_publisher : string; sf_coverUrl : string }.

(** The fields of [openlibrary.org/isbn/{isbn}.json] the code reads. *)
Record OlEdition := mkOlEdition {
  oe_title : option string; oe_number_of_pages : option Z;
  oe_publishers : option (list string); oe_covers : option (list Z) }.

(** [found = {...}] from the first Hardcover book (80-91). *)
Definition hc_found (isbn : string) (b : HcBook) : ScanFound :=
  let ed := hb_edition b in
  mkScanFound (JsString.of_Z (hb_id b)) (hb_title b) (hc_author (hb_contributions b))
    (zor (ed_get ed_pages_count ed) 0) (sor (hb_description b) "")
    (sor (ed_get ed_isbn_13 ed) isbn) (sor (ed_get ed_publisher_name ed) "")
    (sor (hb_cached_image_url b) (sor (ed_get ed_image_url ed) "")).

(** [found = {...}] from the Open Library edition (101-112). *)
Definition ol_found (isbn : string) (d : OlEdition) : ScanFound :=
  let isbn_url := "https://covers.openlibrary.org/b/isbn/" ++ isbn ++ "-L.jpg" in
  mkScanFound isbn (Some (sor (oe_title d) "Unknown Title")) "Unknown"
    (zor (oe_number_of_pages d) 0) "" isbn (first_or_empty (oe_publishers d))
    (match oe_covers d with
     | Some (c :: _) => if c =? 0 then isbn_url
                        else "https://covers.openlibrary.org/b/id/" ++ JsString.of_Z c ++ "-L.jpg"
     | _ => isbn_url
     end).

Inductive Lookup := Found (f : ScanFound) | NotFound | LookupFailed.

(** Hardcover's answer ([None]: the fetch or its JSON threw, caught at
    line 93), then, without a book, Open Library's ([None]: its fetch or
    JSON threw, caught by the outer [catch]; [Some None]: not OK). *)
Definition isbn_lookup (isbn : string) (hc : option (option (list HcBook)))
    (ol : option (option OlEdition)) : Lookup :=
  match hc with
  | Some (Some (b :: _)) => Found (hc_found isbn b)
  | _ =>
      match ol with
      | None => LookupFailed
      | Some None => NotFound
      | Some (Some d) => Found (ol_found isbn d)
      end
  end.

(** [scannedBookData] as [openAddModal] reads it. *)
Definition scan_prefill (f : ScanFound) : Prefill :=
  {| p_title := sor (sf_title f) ""; p_author := sf_author f; p_genre := ""; p_isbn := sf_isbn f;
     p_pages := sf_pages f; p_coverUrl := sf_coverUrl f; p_tags := None;
     p_description := sf_description f |}.

(** [{ isbn, title: '', author: '', coverUrl: '' }]: the absent fields as
    the falsy values [openAddModal] turns them into. *)
Definition not_found (isbn : string) : ScanFound := mkScanFound "" (Some "") "" 0 "" isbn "" "".

(** ** The scanner's state *)

(** The texts and visibility of the scanner modal's result area. *)
Record ScanView := mkScanView {
  sv_status : string; sv_isbn : string; sv_result : bool; sv_preview : string; sv_add_btn : bool }.

Record ScannerState := mkScanner {
  sc_stream : bool;                     (* [scannerStream] is not null *)
  sc_data : option ScanFound;           (* [scannedBookData] *)
  sc_modal : bool;                      (* [scanner-modal] is open *)
  sc_view : ScanView;
  sc_toast : option (string * string);  (* the last [showToast] *)
  sc_add : option Prefill               (* the prefill of the last [openAddModal] *)
}.

Definition set_stream (b : bool) (s : ScannerState) : ScannerState :=
  mkScanner b (sc_data s) (sc_modal s) (sc_view s) (sc_toast s) (sc_add s).
Definition set_data (d : option ScanFound) (s : ScannerState) : ScannerState :=
  mkScanner (sc_stream s) d (sc_modal s) (sc_view s) (sc_toast s) (sc_add s).
Definition set_modal (b : bool) (s : ScannerState) : ScannerState :=
  mkScanner (sc_stream s) (sc_data s) b (sc_view s) (sc_toast s) (sc_add s).
Definition set_view (v : ScanView) (s : ScannerState) : ScannerState :=
  mkScanner (sc_stream s) (sc_data s) (sc_modal s) v (sc_toast s) (sc_add s).
Definition set_toast (t : string * string) (s : ScannerState) : ScannerState :=
  mkScanner (sc_stream s) (sc_data s) (sc_modal s) (sc_view s) (Some t) (sc_add s).
Definition set_add (p : Prefill) (s : ScannerState) : ScannerState :=
  mkScanner (sc_stream s) (sc_data s) (sc_modal s) (sc_view s) (sc_toast s) (Some p).

(** ** A state-and-exception monad *)

Inductive JsError := ReferenceError (name : string).

Definition JsM (A : Type) : Type := ScannerState -> ScannerState * (A + JsError).

#[local] Instance jsm_ret : MRet JsM := fun A x s => (s, inl x).
#[local] Instance jsm_bind : MBind JsM := fun A B f m s =>
  match m s with
  | (s', inl x) => f x s'
  | (s', inr e) => (s', inr e)
  end.

Definition throw {A} (e : JsError) : JsM A := fun s => (s, inr e).
Definition modify (f : ScannerState -> ScannerState) : JsM unit := fun s => (f s, inl tt).
Definition gets {A} (f : ScannerState -> A) : JsM A := fun s => (s, inl (f s)).

(** The script's top-level bindings that the scanner code reads
    ([let scannerStream], [let scannedBookData], lines 41-42). *)
Definition scanner_globals : list string := ["scannerStream"; "scannedBookData"].

(** Reading an identifier: a ReferenceError when nothing binds it. *)
Definition read_global (x : string) : JsM unit :=
  if x \in scanner_globals then mret tt else throw (ReferenceError x).

(** ** The handlers *)

Definition openScanner : JsM unit :=
  modify (set_toast ("Barcode scanner coming soon — please enter ISBN manually", "info")).

(** [cancelAnimationFrame(scannerAnimFrame)], [if (zxingReader) ...]
    (never assigned, so null), the tracks stopped and the video detached,
    and [scannerStream = null]. *)
Definition stopCamera : JsM unit :=
  _ ← read_global "scannerAnimFrame";
  _ ← read_global "zxingReader";
  modify (set_stream false).

Definition closeScanner : JsM unit :=
  _ ← stopCamera;
  modify (set_modal false).

Definition addScannedBook : JsM unit :=
  d ← gets sc_data;
  match d with
  | None => mret tt
  | Some f => _ ← closeScanner; modify (set_add (scan_prefill f))
  end.

(** [`"${title}" by ${author}`]: an absent title prints as [undefined]. *)
Definition found_text (f : ScanFound) : string :=
  String ImportExport.dq (default "undefined" (sf_title f) ++
                          String ImportExport.dq (" by " ++ sf_author f)).

Definition handleISBNDetected (isbn : string) (hc : option (option (list HcBook)))
    (ol : option (option OlEdition)) : JsM unit :=
  _ ← read_global "scannerInterval";
  _ ← stopCamera;
  _ ← modify (fun s => set_view (mkScanView "✅ Barcode detected!" isbn true "Looking up book..."
                                   (sv_add_btn (sc_view s))) s);
  match isbn_lookup isbn hc ol with
  | Found f =>
      modify (fun s => set_view (mkScanView (sv_status (sc_view s)) isbn true (found_text f) true)
                         (set_data (Some f) s))
  | NotFound =>
      modify (fun s => set_view (mkScanView (sv_status (sc_view s)) isbn true
                                   "Book not found in database. You can still add it manually." true)
                         (set_data (Some (not_found isbn)) s))
  | LookupFailed =>
      modify (fun s => set_view (mkScanView (sv_status (sc_view s)) isbn true
                                   "Lookup failed — check your connection." (sv_add_btn (sc_view s))) s)
  end.

(** ** The scanner as a transition system *)

Inductive ScanEvent :=
  | EvOpenScanner
  | EvCloseScanner
  | EvDetected (isbn : string) (hc : option (option (list HcBook))) (ol : option (option OlEdition))
  | EvAddScanned.

Definition scan_handler (e : ScanEvent) : JsM unit :=
  match e with
  | EvOpenScanner => openScanner
  | EvCloseScanner => closeScanner
  | EvDetected isbn hc ol => handleISBNDetected isbn hc ol
  | EvAddScanned => addScannedBook
  end.

Definition scan_step (s : ScannerState) (e : ScanEvent) : ScannerState := fst (scan_handler e s).

Definition scan0 : ScannerState :=
  mkScanner false None false (mkScanView "" "" false "" false) None None.

Inductive scan_reachable : ScannerState -> Prop :=
  | scan_init : scan_reachable scan0
  | scan_next s e : scan_reachable s -> scan_reachable (scan_step s e).

(** ** The handlers that throw *)

Lemma stopCamera_throws s : stopCamera s = (s, inr (ReferenceError "scannerAnimFrame")).
Proof. reflexivity. Qed.

Lemma closeScanner_throws s : closeScanner s = (s, inr (ReferenceError "scannerAnimFrame")).
Proof. reflexivity. Qed.

Lemma handleISBNDetected_throws isbn hc ol s :
  handleISBNDetected isbn hc ol s = (s, inr (ReferenceError "scannerInterval")).
Proof. reflexivity. Qed.

(** Without scanned data the add button returns; with it, it throws in
    [closeScanner] before [openAddModal]. *)
Lemma addScannedBook_spec s :
  addScannedBook s = (s, match sc_data s with None => inl tt | Some _ => inr (ReferenceError "scannerAnimFrame") end).
Proof. unfold addScannedBook. cbv [mbind jsm_bind gets]. by destruct (sc_data s). Qed.

(** An event keeps the scanned data, the add prefill and the result area. *)
Lemma scan_step_keeps s e : sc_data s = None ->
  sc_data (scan_step s e) = None /\ sc_add (scan_step s e) = sc_add s /\ sc_view (scan_step s e) = sc_view s.
Proof.
  intros Hd. unfold scan_step.
  destruct e; cbn [scan_handler];
    rewrite ?closeScanner_throws, ?handleISBNDetected_throws, ?addScannedBook_spec, ?Hd; done.
Qed.

(** ** Properties *)

(** C19: scanning never reaches the book form: in every state the
    scanner's events reach from the start, [scannedBookData] is null,
    [openAddModal] has not been called from the scanner and the result
    area is as it was, and in such a state a detected ISBN throws a
    ReferenceError on [scannerInterval] (the first line of
    [handleISBNDetected]) and closing the scanner one on
    [scannerAnimFrame], both changing nothing, while the add button
    returns at once. *)
Theorem scanner_never_adds s :
  scan_reachable s ->
  sc_data s = None /\ sc_add s = None /\ sc_view s = sc_view scan0 /\
  (forall isbn hc ol, handleISBNDetected isbn hc ol s = (s, inr (ReferenceError "scannerInterval"))) /\
  closeScanner s = (s, inr (ReferenceError "scannerAnimFrame")) /\ addScannedBook s = (s, inl tt).
Proof.
  intros Hr. assert (H : sc_data s = None /\ sc_add s = None /\ sc_view s = sc_view scan0).
  { induction Hr as [|s e _ (Hd & Ha & Hv)]; [done|].
    destruct (scan_step_keeps s e Hd) as (-> & -> & ->). done. }
  destruct H as (Hd & Ha & Hv). split_and!; try done.
  rewrite addScannedBook_spec, Hd. done.
Qed.

(** ** Witnesses *)

(** A detected ISBN that Open Library knows, then the add button. *)
Lemma scanner_never_adds_witness :
  sc_add (scan_step (scan_step scan0 (EvDetected "9780441013593" None (Some (Some (mkOlEdition
    (Some "Dune") (Some 412) None None))))) EvAddScanned) = None.
Proof. apply (scanner_never_adds _ (scan_next _ _ (scan_next _ _ scan_init))). Defined.

(** The lookup the ReferenceError cuts off: Open Library's edition. *)
Example isbn_lookup_sample :
  isbn_lookup "9780441013593" (Some (Some [])) (Some (Some (mkOlEdition (Some "Dune") (Some 412) (Some ["Ace"]) None)))
  = Found (mkScanFound "9780441013593" (Some "Dune") "Unknown" 412 "" "9780441013593" "Ace"
             "https://covers.openlibrary.org/b/isbn/9780441013593-L.jpg").
Proof. reflexivity. Qed.

End Scanner.
