(* ===== verification/Theme.v ===== *)
(** * Theme: [applyTheme] and [toggleTheme] (src/app.js:475-504)

    [settings.theme] is set by [setTheme] (modelled in [Sync]) from the
    theme swatches and by the legacy sidebar button [toggleTheme]; both
    call [applyTheme], which puts the theme (or [dark] for a name outside
    [THEMES]) into [data-theme], marks the swatch of that theme, and
    labels the sidebar button with the mode a click is meant to switch
    to.  [applyTheme]'s effect is the view [ThemeView] of the settings;
    the appearance panel of [showSettingsPanel] (1722-1727) marks the
    swatches again, from the raw theme name ([appearance_swatches]);
    [toggleTheme] is a step on [Sync]'s session.  The swatches are the
    [.theme-swatch] elements of the page, a list of theme names.
    [domContentLoaded] is the page's load handler (159-169): [loadLocal],
    [applyTheme], the goal fields and the settings toggle. *)

From S2P Require Import Prelude Book Sync.
Local Open Scope string_scope.

Module Theme.
Import Sync.

Definition THEMES : list string := ["dark"; "light"; "midnight"; "forest"; "rose"; "slate"].

(** [THEMES.includes(settings.theme) ? settings.theme : 'dark'] *)
Definition shown_theme (t : string) : string := if t \in THEMES then t else "dark".

(** What [applyTheme] leaves in the page: [data-theme], the swatches'
    [active] flags, and the sidebar button's text. *)
Record ThemeView := mkThemeView { tv_theme : string; tv_swatches : list (string * bool); tv_label : string }.

Definition applyTheme (swatches : list string) (st : Settings) : ThemeView :=
  let t := shown_theme (theme st) in
  mkThemeView t (map (fun s => (s, String.eqb s t)) swatches)
    (if negb (String.eqb t "light") then " Light Mode" else " Dark Mode").

(** [(theme === 'dark' || !THEMES.includes(theme)) ? 'light' : 'dark'] *)
Definition toggled (t : string) : string :=
  if String.eqb t "dark" || negb (t \in THEMES) then "light" else "dark".

(** [toggleTheme]: the new theme, [applyTheme] and [save]. *)
Definition toggleTheme (s : Session) : Session :=
  let x := s_settings s in
  save (set_settings {| theme := toggled (theme x); goal := goal x; goalYear := goalYear x;
                        displayName := displayName x |} s).

(** [showSettingsPanel('appearance')] (1722-1727): each swatch active
    exactly when it names [settings.theme]. *)
Definition appearance_swatches (swatches : list string) (st : Settings) : list (string * bool) :=
  map (fun s => (s, String.eqb s (theme st))) swatches.

(** What the [DOMContentLoaded] handler (159-169) shows besides the
    dashboard: the theme, the goal year, the goal field and the dark-mode
    toggle of the settings. *)
Record InitView := mkInitView {
  iv_theme : ThemeView; iv_goal_year : Z; iv_goal_input : option Z; iv_toggle_on : bool }.

(** [loadLocal()], [applyTheme()], the year, [if (settings.goal) ...]
    and the toggle [on] when [settings.theme === 'dark']. *)
Definition domContentLoaded (year : Z) (sw : list string) (s : Session) : Session * InitView :=
  let s1 := loadLocal s in
  let st := s_settings s1 in
  (s1, mkInitView (applyTheme sw st) year (if Z.eqb (goal st) 0 then None else Some (goal st))
         (String.eqb (theme st) "dark")).

(** ** Lemmas *)

Lemma shown_theme_in t : In (shown_theme t) THEMES.
Proof.
  unfold shown_theme. destruct (t \in THEMES) eqn:E; [by apply js_includes_In|]. by left.
Qed.

Lemma save_settings s : s_settings (save s) = s_settings s.
Proof. unfold save, saveSettingsToFirestore. by destruct (s_user _). Qed.

Lemma toggleTheme_theme s : theme (s_settings (toggleTheme s)) = toggled (theme (s_settings s)).
Proof. unfold toggleTheme. by rewrite save_settings. Qed.

(** ** Properties *)

(** C36: [applyTheme] always shows a theme of [THEMES], with exactly the
    swatches of that theme active, and the sidebar button reads
    [Light Mode] for every theme but [light]; yet a click on it switches
    to [light] only from [dark] or an unknown name: from [midnight],
    [forest], [rose] or [slate] the button labelled [Light Mode] switches
    to [dark]. *)
Theorem toggleTheme_label sw s :
  let v := applyTheme sw (s_settings s) in
  In (tv_theme v) THEMES /\
  (forall x b, In (x, b) (tv_swatches v) -> b = true <-> x = tv_theme v) /\
  (tv_label v = " Light Mode" <-> shown_theme (theme (s_settings s)) <> "light") /\
  (tv_label v = " Light Mode" ->
     tv_theme (applyTheme sw (s_settings (toggleTheme s))) = "light" <->
     theme (s_settings s) = "dark" \/ ~ In (theme (s_settings s)) THEMES).
Proof.
  intros v. set (t := theme (s_settings s)). split_and!.
  - apply shown_theme_in.
  - intros x b Hx. apply in_map_iff in Hx as (y & [= <- <-] & _). apply String.eqb_eq.
  - subst v. cbn [tv_label applyTheme]. fold t. destruct (String.eqb_spec (shown_theme t) "light") as [->|];
      cbn; split; congruence.
  - intros _. cbn [tv_theme applyTheme]. rewrite toggleTheme_theme. fold t. unfold toggled.
    destruct (String.eqb_spec t "dark") as [->|Hd]; [cbn; tauto|].
    destruct (t \in THEMES) eqn:E; cbn.
    + apply js_includes_In in E. split; [discriminate|]. intros [?|?]; contradiction.
    + apply js_includes_false in E. split; [intros _; right; exact E|done].
Qed.

(** The settings panel's swatches agree with [applyTheme]'s exactly when
    the stored theme is one of [THEMES]: for any other name [applyTheme]
    shows and marks [dark], and opening the appearance panel then leaves
    no swatch marked. *)
Theorem appearance_swatches_agree st :
  appearance_swatches THEMES st = tv_swatches (applyTheme THEMES st) <-> In (theme st) THEMES.
Proof.
  unfold appearance_swatches, applyTheme, shown_theme. cbn [tv_swatches].
  destruct (theme st \in THEMES) eqn:E.
  - apply js_includes_In in E. by split.
  - split; [|intros Hin; apply js_includes_false in E; contradiction]. intros Heq. injection Heq as Hd.
    assert (String.eqb "dark" (theme st) = true) as Hd' by exact Hd.
    left. symmetry. by apply String.eqb_eq in Hd'.
Qed.

(** A reload: the page starts afresh with the cache [saveLocal] wrote;
    [DOMContentLoaded] restores the books, the collections and the
    settings, shows the saved theme and goal, and turns the settings
    toggle on exactly when the page is dark under a known theme name:
    a stored name outside [THEMES] shows dark with the toggle off. *)
Theorem reload_restores sw s year now :
  let fresh := set_local (s_local (saveLocal s)) (init_session year now) in
  let '(s', v) := domContentLoaded year sw fresh in
  s_books s' = s_books s /\ s_collections s' = s_collections s /\ s_settings s' = s_settings s /\
  iv_theme v = applyTheme sw (s_settings s) /\
  iv_goal_input v = (if Z.eqb (goal (s_settings s)) 0 then None else Some (goal (s_settings s))) /\
  (iv_toggle_on v = true <-> tv_theme (iv_theme v) = "dark" /\ In (theme (s_settings s)) THEMES).
Proof.
  cbn zeta. unfold domContentLoaded, loadLocal. cbn [s_local saveLocal set_local].
  cbn [s_settings s_books s_collections set_settings set_collections set_books iv_theme iv_goal_input iv_toggle_on].
  rewrite merge_settings_doc by done. split_and!; try done. cbn [tv_theme applyTheme]. unfold shown_theme.
  destruct (String.eqb_spec (theme (s_settings s)) "dark") as [->|Hd]; [cbn; tauto|].
  destruct (theme (s_settings s) \in THEMES) eqn:E; split; try discriminate; intros [Ht Hin].
  - contradiction.
  - apply js_includes_false in E. contradiction.
Qed.

(** ** Witnesses *)

Definition midnight_session : Session :=
  set_settings {| theme := "midnight"; goal := 0; goalYear := 2026; displayName := None |}
    (init_session 2026 0).

(** Under [midnight] the button says [Light Mode]; a click does not give [light]. *)
Lemma toggleTheme_label_witness :
  tv_label (applyTheme THEMES (s_settings midnight_session)) = " Light Mode" /\
  tv_theme (applyTheme THEMES (s_settings (toggleTheme midnight_session))) <> "light".
Proof.
  pose proof (toggleTheme_label THEMES midnight_session) as W. cbv zeta in W.
  destruct W as (_ & _ & _ & Ht).
  assert (L : tv_label (applyTheme THEMES (s_settings midnight_session)) = " Light Mode") by reflexivity.
  split; [exact L|]. rewrite (Ht L). intros [H|H]; [discriminate|]. apply H. cbn. tauto.
Defined.

(** A theme name from another version of the app: [applyTheme] marks
    [dark], the appearance panel marks nothing. *)
Example appearance_unknown_theme :
  let st := {| theme := "sepia"; goal := 0; goalYear := 2026; displayName := None |} in
  appearance_swatches THEMES st <> tv_swatches (applyTheme THEMES st).
Proof. intros st. rewrite appearance_swatches_agree. cbn. intuition discriminate. Qed.

End Theme.
