(* ===== verification/Detail.v ===== *)
(** * Detail: the book card, the list item and the book detail

    [renderBookCard] and [renderBookListItem] (src/app.js:1262-1305) draw
    one book of the library view; [openBookDetail] (1318-1363) draws the
    detail modal of a book of [books].  Each is a view: the texts and
    flags the markup shows.  The escaped texts are [Html.escHtml] of the
    field; the texts the code interpolates without [escHtml] (the status
    class, the ownership line with [borrowedFrom], the collection names,
    the dates) are kept raw.  The card's animation delay
    ([(i * 0.03).toFixed(2)]) is presentation and is left out.

    ['★'.repeat(n)] throws a RangeError for a negative count:
    [js_repeat] returns [None] there.  A status is labelled through an
    object literal, so a status named like a property of
    [Object.prototype] is labelled with that inherited value ([None]). *)

From S2P Require Import Prelude JsString JsNumber Html Book Stats Library Summary Spine Dashboard ImportExport.
Local Open Scope string_scope.
Local Open Scope Z_scope.

Module Detail.
Import Library Spine Html Stats.

(** ** Helpers *)

Fixpoint rep_str (s : string) (n : nat) : string :=
  match n with O => EmptyString | S k => s ++ rep_str s k end.

(** [s.repeat(n)] for an integer [n]. *)
Definition js_repeat (s : string) (n : Z) : option string :=
  if n <? 0 then None else Some (rep_str s (Z.to_nat n)).

Definition full_star : string := "★".
Definition empty_star : string := "☆".

(** [statusLabel(s)] (line 7): [None] when [s] names an inherited
    property, whose value (a function or the prototype) is printed. *)
Definition statusLabel (s : string) : option string :=
  if String.eqb s "want" then Some "Want to Read"
  else if String.eqb s "reading" then Some "Reading"
  else if String.eqb s "read" then Some "Read"
  else if String.eqb s "dnf" then Some "DNF"
  else if String.eqb s "borrowed" then Some "Borrowed"
  else if s \in Summary.proto_keys then None
  else Some s.

(** [book.rating ? '★'.repeat(book.rating) : ''] *)
Definition card_stars (r : Z) : option string :=
  if r =? 0 then Some "" else js_repeat full_star r.

(** ** [renderBookCard] *)

Inductive Badge := BadgeBorrowed | BadgeOwned | NoBadge.

Definition owner_badge (b : Book) : Badge :=
  if ownBorrowed b then BadgeBorrowed
  else if ownPhysical b || ownDigital b then BadgeOwned else NoBadge.

Record CardView := mkCardView {
  cd_id : string; cd_cover : CoverView; cd_badge : Badge; cd_title : string; cd_author : string;
  cd_status : string; cd_label : option string; cd_stars : string; cd_tags : list string }.

Definition renderBookCard (b : Book) : option CardView :=
  stars ← card_stars (rating b);
  cover ← bookCoverImg (title b) (author b) (coverUrl b) "";
  Some (mkCardView (id b) cover (owner_badge b) (escHtml (title b)) (escHtml (author b))
          (status b) (statusLabel (status b)) stars (map escHtml (firstn 2 (tags b)))).

(** ** [renderBookListItem] *)

Inductive Own := OwnPhysical | OwnDigital | OwnBorrowed.

(** [[ownPhysical && ..., ownDigital && ..., ownBorrowed && ...].filter(Boolean)] *)
Definition own_tags (b : Book) : list Own :=
  (if ownPhysical b then [OwnPhysical] else []) ++ (if ownDigital b then [OwnDigital] else []) ++
  (if ownBorrowed b then [OwnBorrowed] else []).

Record ListView := mkListView {
  li_id : string; li_cover : CoverView; li_title : string; li_author : string;
  li_genre : option string; li_status : string; li_label : option string; li_own : list Own;
  li_tags : list string; li_stars : string; li_pages : option Z }.

Definition renderBookListItem (b : Book) : option ListView :=
  stars ← card_stars (rating b);
  cover ← bookCoverImg (title b) (author b) (coverUrl b) "";
  Some (mkListView (id b) cover (escHtml (title b)) (escHtml (author b))
          (if truthy (genre b) then Some (escHtml (genre b)) else None)
          (status b) (statusLabel (status b)) (own_tags b) (map escHtml (firstn 3 (tags b))) stars
          (if pages b =? 0 then None else Some (pages b))).

(** ** [openBookDetail] *)

(** [book.rating ? '★'.repeat(r) + '☆'.repeat(5 - r) : '☆☆☆☆☆'] *)
Definition detail_stars (r : Z) : option string :=
  if r =? 0 then Some (rep_str empty_star 5)
  else (s1 ← js_repeat full_star r; s2 ← js_repeat empty_star (5 - r); Some (s1 ++ s2)).

Definition sep : string := " &nbsp;·&nbsp; ".

(** [ownDetails]: not escaped. *)
Definition own_details (b : Book) : string :=
  JsString.join sep
    ((if ownPhysical b then ["📖 Physical Copy (" ++ JsString.of_Z (if copies b =? 0 then 1 else copies b) ++ ")"]
      else []) ++
     (if ownDigital b then ["💻 Digital Copy"] else []) ++
     (if ownBorrowed b then ["🤝 Borrowed" ++ (if truthy (borrowedFrom b) then " from " ++ borrowedFrom b else "")]
      else [])).

(** [colNames]: the emoji and name of each collection found, not escaped. *)
Definition col_names (cols : list Collection) (cids : list string) : string :=
  JsString.join ", "
    (flat_map (fun cid => match List.find (fun c => String.eqb (col_id c) cid) cols with
                          | Some c => [col_emoji c ++ " " ++ col_name c]
                          | None => []
                          end) cids).

(** [dateLine]: not escaped. *)
Definition date_line (b : Book) : string :=
  JsString.join sep
    ((if truthy (dateStarted b) then ["📅 Started: " ++ dateStarted b] else []) ++
     (if truthy (dateRead b) then ["✅ Finished: " ++ dateRead b] else [])).

(** The description: its first 400 code units escaped, and [...] after a longer one. *)
Definition desc_text (d : string) : option string :=
  if truthy d then Some (escHtml (JsString.substring d 0 400) ++
                         (if (400 <? String.length d)%nat then "..." else ""))
  else None.

Record DetailView := mkDetailView {
  dv_cover : CoverView; dv_title : string; dv_author : string; dv_status : string;
  dv_label : option string; dv_genre : option string; dv_stars : string;
  dv_pages : option (Z * option Z); dv_progress : Z; dv_own : string; dv_cols : string;
  dv_dates : string; dv_tags : list string; dv_desc : option string; dv_notes : option string }.

(** The outcomes: no such book (the handler returns), a RangeError of
    [repeat], a progress that is not a finite number (outside the ranges
    of [Dashboard.progress_some]), or the modal shown. *)
Inductive DetailOutcome := NoBook | DetailRangeError | DetailNonFinite | Shown (v : DetailView).

Definition openBookDetail (bookId : string) (bs : list Book) (cols : list Collection) : DetailOutcome :=
  match find_book bookId bs with
  | None => NoBook
  | Some b =>
      match bookCoverImg (title b) (author b) (coverUrl b) "spine-lg", detail_stars (rating b) with
      | Some cover, Some stars =>
          match Dashboard.progress b with
          | Some p =>
              Shown (mkDetailView cover (escHtml (title b)) (escHtml (author b)) (status b)
                       (statusLabel (status b)) (if truthy (genre b) then Some (escHtml (genre b)) else None)
                       stars (if pages b =? 0 then None
                              else Some (pages b, if pagesRead b =? 0 then None else Some (pagesRead b)))
                       p (own_details b) (col_names cols (collections b)) (date_line b)
                       (map escHtml (tags b)) (desc_text (description b))
                       (if truthy (notes b) then Some (escHtml (notes b)) else None))
          | None => DetailNonFinite
          end
      | _, _ => DetailRangeError
      end
  end.

(** ** Lemmas *)

Lemma card_stars_none r : card_stars r = None <-> r < 0.
Proof.
  unfold card_stars, js_repeat. destruct (Z.eqb_spec r 0) as [->|]; [split; [discriminate|lia]|].
  destruct (Z.ltb_spec r 0); split; (discriminate || lia || done).
Qed.

Lemma detail_stars_spec r :
  (detail_stars r = None <-> r < 0 \/ 5 < r) /\
  (0 <= r <= 5 -> detail_stars r = Some (rep_str full_star (Z.to_nat r) ++ rep_str empty_star (Z.to_nat (5 - r)))).
Proof.
  unfold detail_stars, js_repeat. destruct (Z.eqb_spec r 0) as [->|Hr]; [split; [split; [discriminate|lia]|done]|].
  destruct (Z.ltb_spec r 0); [|destruct (Z.ltb_spec (5 - r) 0)]; cbn;
    (split; [split; intros; (discriminate || lia || done) | intros; (lia || done)]).
Qed.

Lemma str_app_nil_r (s : string) : s ++ "" = s.
Proof. induction s as [|c s IH]; [done|]. change (String c (s ++ "") = String c s). by rewrite IH. Qed.

(** A member of a list is a piece of its [join]. *)
Lemma join_in sep' l x : In x l -> exists p q, JsString.join sep' l = p ++ x ++ q.
Proof.
  induction l as [|y l IH]; [done|]. intros [->|Hx].
  - destruct l as [|z l]; [exists "", ""; cbn; by rewrite str_app_nil_r|].
    exists "", (sep' ++ JsString.join sep' (z :: l)). done.
  - destruct (IH Hx) as (p & q & E). destruct l as [|z l]; [done|].
    exists (y ++ sep' ++ p), q. change (JsString.join sep' (y :: z :: l)) with (y ++ sep' ++ JsString.join sep' (z :: l)).
    rewrite E, <- !str_app_assoc. done.
Qed.

(** A goal [exists p q, join sep l = p ++ x ++ q] where [pre ++ x] is a
    member of [l]. *)
Ltac piece_of_join pre x :=
  match goal with |- exists p q, JsString.join ?sp ?l = _ =>
    destruct (join_in sp l (pre ++ x)) as (p & q & Eq);
    [rewrite ?in_app_iff; cbn; tauto|];
    exists (p ++ pre), q; rewrite Eq, <- !str_app_assoc; done
  end.

Lemma escaped_map_no_markup d l : (d = "<" \/ d = ">" \/ d = dq)%char ->
  forall t, In t (map escHtml l) -> ~ In d (list_ascii_of_string t).
Proof. intros Hd t Ht. apply in_map_iff in Ht as (u & <- & _). by apply escHtml_no_markup. Qed.

(** ** Properties *)

(** C24: ratings outside 0..5 break the views: the card and the list item
    throw a RangeError exactly for a negative rating (['★'.repeat(r)]),
    which stops the whole library grid, and the book detail throws
    exactly for a rating below 0 or above 5 (['☆'.repeat(5 - r)]), as a
    Goodreads import of a rating of 7 stores; for a rating in 0..5 the
    detail opens with [r] full and [5 - r] empty stars. *)
Theorem openBookDetail_rating bs cols b :
  find_book (id b) bs = Some b -> 0 <= pagesRead b < 2 ^ 40 -> 0 <= pages b < 2 ^ 53 ->
  (renderBookCard b = None <-> rating b < 0) /\ (renderBookListItem b = None <-> rating b < 0) /\
  (openBookDetail (id b) bs cols = DetailRangeError <-> rating b < 0 \/ 5 < rating b) /\
  (0 <= rating b <= 5 -> exists v, openBookDetail (id b) bs cols = Shown v /\
     dv_stars v = rep_str full_star (Z.to_nat (rating b)) ++ rep_str empty_star (Z.to_nat (5 - rating b))).
Proof.
  intros Hf Hr Hp. destruct (Dashboard.progress_some b Hr Hp) as [p Ep].
  destruct (bookCoverImg_some (title b) (author b) (coverUrl b) "") as [cv Ec].
  destruct (bookCoverImg_some (title b) (author b) (coverUrl b) "spine-lg") as [cv' Ec'].
  destruct (detail_stars_spec (rating b)) as [Hn Hs].
  unfold renderBookCard, renderBookListItem, openBookDetail. rewrite Hf, Ec, Ec', Ep.
  split_and!.
  - rewrite <- card_stars_none. by destruct (card_stars _).
  - rewrite <- card_stars_none. by destruct (card_stars _).
  - rewrite <- Hn. by destruct (detail_stars _).
  - intros Hb. rewrite (Hs Hb). by eexists.
Qed.

(** C9: the detail view escapes the title, author, genre, tags and notes
    (no [<], [>] or double quote remains in them), but puts the dates and
    the lender's name into the page verbatim: a date read or a
    [borrowedFrom] holding markup, as a Goodreads row or the form can
    give, is inserted as HTML. *)
Theorem openBookDetail_markup bookId bs cols b v :
  find_book bookId bs = Some b -> openBookDetail bookId bs cols = Shown v ->
  (forall d, (d = "<" \/ d = ">" \/ d = dq)%char ->
     ~ In d (list_ascii_of_string (dv_title v)) /\ ~ In d (list_ascii_of_string (dv_author v)) /\
     (forall g, dv_genre v = Some g -> ~ In d (list_ascii_of_string g)) /\
     (forall t, In t (dv_tags v) -> ~ In d (list_ascii_of_string t)) /\
     (forall n, dv_notes v = Some n -> ~ In d (list_ascii_of_string n))) /\
  (truthy (dateRead b) = true -> exists p q, dv_dates v = p ++ dateRead b ++ q) /\
  (ownBorrowed b = true -> truthy (borrowedFrom b) = true -> exists p q, dv_own v = p ++ borrowedFrom b ++ q).
Proof.
  intros Hf E. unfold openBookDetail in E. rewrite Hf in E.
  destruct (bookCoverImg (title b) (author b) (coverUrl b) "spine-lg"), (detail_stars (rating b)),
    (Dashboard.progress b); try discriminate.
  injection E as <-. cbn. split_and!.
  - intros d Hd. split_and!; try by apply escHtml_no_markup.
    + intros g Hg. destruct (truthy (genre b)); [|done]. injection Hg as <-. by apply escHtml_no_markup.
    + by apply escaped_map_no_markup.
    + intros n Hn. destruct (truthy (notes b)); [|done]. injection Hn as <-. by apply escHtml_no_markup.
  - intros Hd. unfold date_line. rewrite Hd. piece_of_join ("✅ Finished: ") (dateRead b).
  - intros Ho Hb. unfold own_details. rewrite Ho, Hb. piece_of_join ("🤝 Borrowed" ++ " from ") (borrowedFrom b).
Qed.

(** ** Witnesses *)

(** A Goodreads row with a rating and a date read holding markup. *)
Definition gr_row (r : string) : ImportExport.sobj :=
  [("Title", "Dune"); ("Author", "Frank Herbert"); ("My Rating", r);
   ("Date Read", "<img src=x onerror=alert(1)>")].

(** The book [importGoodreads] builds from it. *)
Definition gr_dune (r : string) : Book := ImportExport.gr_book (gr_row r) "g1" 1000.

(** An imported rating of 7 makes the detail throw. *)
Lemma openBookDetail_rating_witness : openBookDetail "g1" [gr_dune "7"] [] = DetailRangeError.
Proof.
  assert (Hr : pagesRead (gr_dune "7") = 0) by reflexivity.
  assert (Hp : pages (gr_dune "7") = 0) by reflexivity.
  destruct (openBookDetail_rating [gr_dune "7"] [] (gr_dune "7")) as (_ & _ & H & _);
    [reflexivity|lia|lia|].
  apply H. right. vm_compute. reflexivity.
Defined.

(** An imported date read holding markup reaches the detail unescaped. *)
Lemma openBookDetail_markup_witness :
  exists v p q, openBookDetail "g1" [gr_dune "4"] [] = Shown v /\
                dv_dates v = p ++ "<img src=x onerror=alert(1)>" ++ q.
Proof.
  assert (E : exists v, openBookDetail "g1" [gr_dune "4"] [] = Shown v) by (eexists; reflexivity).
  destruct E as [v E].
  destruct (openBookDetail_markup "g1" [gr_dune "4"] [] (gr_dune "4") v eq_refl E) as (_ & Hd & _).
  destruct (Hd eq_refl) as (p & q & Hq). exists v, p, q. split; [exact E|exact Hq].
Defined.

End Detail.
