(* ===== verification/Results.v ===== *)
(** * Results: the search results grid ([renderSearchResults], src/app.js:975-997)

    After [searchBooks] has results, [renderSearchResults] draws one card
    per result: its cover (the image, whose [src] is the raw [coverUrl],
    over a hidden spine, or the spine alone), the escaped title and
    author, and an add button marked [In Library] when some book of
    [books] has the same ISBN or the same title up to case; the grid then
    gets the line [N results via ...].  [search_page] composes this with
    the outcome [Catalog.searchBooks] leaves in [ss_view]. *)

From S2P Require Import Prelude JsString Html Book Stats Library ImportExport Modal Catalog Spine.
Local Open Scope string_scope.

Module Results.
Import Stats Catalog Spine Html.

(** ** A card *)

Inductive ResultCover := ResultImg (src alt : string) (fallback : SpineView) | ResultSpine (sp : SpineView).

Record ResultCard := mkResultCard {
  rc_index : nat; rc_cover : ResultCover; rc_title : string; rc_author : string; rc_in_lib : bool }.

(** [books.some(b => b.isbn === book.isbn || b.title.toLowerCase() === book.title.toLowerCase())] *)
Definition in_library (bs : list Book) (r : SearchResult) : bool :=
  existsb (fun b => String.eqb (isbn b) (sr_isbn r) ||
                    String.eqb (JsString.toLowerCase (title b)) (JsString.toLowerCase (sr_title r))) bs.

(** The card of the [i]-th result; [None] is a TypeError of the spine. *)
Definition result_card (bs : list Book) (i : nat) (r : SearchResult) : option ResultCard :=
  sp ← bookSpineHTML (sr_title r) (sr_author r) "";
  Some (mkResultCard i
          (if truthy (sr_coverUrl r) then ResultImg (sr_coverUrl r) (escHtml (sr_title r)) sp
           else ResultSpine sp)
          (escHtml (sr_title r)) (escHtml (sr_author r)) (in_library bs r)).

(** [results.map((book, i) => ...)] *)
Fixpoint result_cards (bs : list Book) (i : nat) (rs : list SearchResult) : option (list ResultCard) :=
  match rs with
  | [] => Some []
  | r :: rs' => c ← result_card bs i r; cs ← result_cards bs (S i) rs'; Some (c :: cs)
  end.

Inductive ResultsGrid := NoResultsFound | ResultCards (cards : list ResultCard).

Definition renderSearchResults (bs : list Book) (rs : list SearchResult) : option ResultsGrid :=
  match rs with
  | [] => Some NoResultsFound
  | _ => ResultCards <$> result_cards bs 0 rs
  end.

(** ** The page after a search *)

(** The source line: [`${results.length} results via ${sourceLabel}`]. *)
Definition source_line (n : nat) (source : string) : string :=
  JsString.of_Z (Z.of_nat n) ++ " results via " ++
  (if String.eqb source "hardcover" then "📗 Hardcover" else "📚 Open Library").

Inductive SearchPage :=
  | PageIdle
  | PageNoResults (q : string)                        (* the escaped query *)
  | PageResults (g : ResultsGrid) (status : string).

Definition search_page (bs : list Book) (s : SearchState) : option SearchPage :=
  match ss_view s with
  | ViewEmpty => Some PageIdle
  | ViewNoResults q => Some (PageNoResults (escHtml q))
  | ViewResults rs src => g ← renderSearchResults bs rs; Some (PageResults g (source_line (length rs) src))
  end.

(** ** Lemmas *)

Lemma in_library_spec bs r :
  in_library bs r = true <-> exists b, In b bs /\ (isbn b = sr_isbn r \/
    JsString.toLowerCase (title b) = JsString.toLowerCase (sr_title r)).
Proof.
  unfold in_library. rewrite existsb_exists. split; intros (b & Hb & H); exists b; split; try done.
  - apply orb_true_iff in H as [H|H]; [left|right]; by apply String.eqb_eq.
  - apply orb_true_iff. destruct H as [->| ->]; [left|right]; apply String.eqb_refl.
Qed.

(** Every result gets its card, in order. *)
Lemma result_cards_spec bs i rs :
  exists cs, result_cards bs i rs = Some cs /\ map rc_index cs = seq i (length rs) /\
    Forall2 (fun r c => rc_title c = escHtml (sr_title r) /\ rc_in_lib c = in_library bs r) rs cs.
Proof.
  revert i. induction rs as [|r rs IH]; intros i; [by exists []|].
  destruct (bookSpineHTML_some (sr_title r) (sr_author r) "") as [sp Esp].
  destruct (IH (S i)) as (cs & Ecs & Hi & Hf). cbn [result_cards]. unfold result_card. rewrite Esp.
  cbn [mbind option_bind]. rewrite Ecs. eexists. split; [reflexivity|]. split.
  - cbn. by rewrite Hi.
  - by constructor.
Qed.

(** ** Properties *)

(** C26: every result gets a card, in order, with its title escaped, and
    the card is marked [In Library] exactly when a book of [books] has
    the result's ISBN or its title up to case.  Books imported from
    Goodreads have an empty ISBN, and so do Open Library results without
    one: after any Goodreads import every such result is marked [In
    Library], whatever its title. *)
Theorem results_in_library bs rs :
  rs <> [] ->
  exists cards, renderSearchResults bs rs = Some (ResultCards cards) /\
    map rc_index cards = seq 0 (length rs) /\
    Forall2 (fun r c => rc_title c = escHtml (sr_title r) /\
       (rc_in_lib c = true <-> exists b, In b bs /\ (isbn b = sr_isbn r \/
             JsString.toLowerCase (title b) = JsString.toLowerCase (sr_title r))) /\
       (sr_isbn r = "" -> (exists row newId now, In (ImportExport.gr_book row newId now) bs) ->
          rc_in_lib c = true)) rs cards.
Proof.
  intros Hne. destruct (result_cards_spec bs 0 rs) as (cs & Ecs & Hi & Hf).
  exists cs. split; [destruct rs; [done|]; unfold renderSearchResults; by rewrite Ecs|].
  split; [done|]. eapply Forall2_impl; [exact Hf|]. intros r c [Ht Hl]. rewrite Hl, in_library_spec.
  split_and!; [done|done|]. intros Hr (row & newId & now & Hb). eexists. split; [exact Hb|]. by left.
Qed.

(** ** Witnesses *)

(** An Open Library result without ISBN. *)
Definition hobbit_doc : OlDoc :=
  {| ol_key := Some "/works/OL27482W"; ol_title := Some "The Hobbit"; ol_author_name := Some ["J.R.R. Tolkien"];
     ol_isbn := None; ol_pages_median := Some 310%Z; ol_subject := None; ol_publisher := None;
     ol_cover_i := None |}.

(** A library holding one Goodreads import. *)
Definition gr_library : list Book :=
  [ImportExport.gr_book [("Title", "Dune"); ("Author", "Frank Herbert")] "g1" 1000%Z].

(** The Hobbit is marked as already in a library that only holds Dune. *)
Lemma results_in_library_witness :
  exists cards c, renderSearchResults gr_library [ol_result hobbit_doc] = Some (ResultCards cards) /\
                  cards = [c] /\ rc_in_lib c = true.
Proof.
  destruct (results_in_library gr_library [ol_result hobbit_doc]) as (cards & E & _ & Hf); [discriminate|].
  inversion Hf as [|r c rs' cs' (_ & _ & Hg) Hnil]; subst. inversion Hnil; subst.
  exists [c], c. split_and!; [exact E|done|]. apply Hg; [reflexivity|].
  exists [("Title", "Dune"); ("Author", "Frank Herbert")], "g1", 1000%Z. by left.
Defined.

End Results.
