(* ===== verification/Page.v ===== *)
(** * Page: navigation and the debounced library grid

    [showPage] (src/app.js:441-461) activates a page, sets the title and
    the add button, closes the sidebar and redraws the page it opens;
    [renderLibrary] (1034-1039) debounces [_doRenderLibrary] by 50 ms, and
    [_doRenderLibrary]'s last part (1076-1099) draws the filtered and
    sorted books ([Filter.library_view]) as cards or list items
    ([Detail]) or the empty state, after [updateFilterBadge] (1146-1178)
    has drawn the filter badge and the active-filter summary.  The books
    snapshot re-renders the library only when its page is active
    (252-255); the filter panel's handlers, the search box, [setSortBy]
    and [setView] (1307-1315) call [renderLibrary].

    The state [PageState] holds the active page, the title, the add
    button, the sidebar, [currentView], the library UI of [Filter], the
    books, the 50 ms timer on a virtual clock, and the grid and badge
    last drawn.  A card that throws (a RangeError) leaves the grid's
    content as it was, after its class is set and the empty state hidden.
    The other pages' redraws ([refreshDashboard], [renderCollections],
    [renderStats], [updateLibCount]) are recorded in [pg_renders]; their
    contents are the functions of [Dashboard] and [Summary]. *)

From S2P Require Import Prelude JsString JsArray Html Book Stats Filter Sync Summary Spine Detail.
Local Open Scope string_scope.
Local Open Scope Z_scope.

Module Page.
Import Stats Filter Detail.

Definition pageTitles : list (string * string) :=
  [("dashboard", "Dashboard"); ("search", "Discover"); ("library", "My Library");
   ("collections", "Collections"); ("stats", "Statistics"); ("settings", "Settings")].

(** The pages of the document ([#page-...]). *)
Definition pages : list string := map fst pageTitles.

(** [pageTitles[page] || page]; an inherited property (a function) gives
    [None], its source text. *)
Definition page_title (page : string) : option string :=
  match find (fun kv => String.eqb (fst kv) page) pageTitles with
  | Some (_, t) => Some t
  | None => if page \in Summary.proto_keys then None else Some page
  end.

(** The [innerHTML] of [#library-grid]. *)
Inductive GridContent :=
  | GridBlank
  | GridCards (cs : list CardView)
  | GridList (ls : list ListView).

(** [#library-grid] and [#library-empty]: the grid's class and content,
    and the empty state's heading and text when it is shown (the grid is
    shown exactly when the empty state is not). *)
Record GridDom := mkGridDom {
  gd_class : string;
  gd_content : GridContent;
  gd_empty : option (string * string)
}.

(** [updateFilterBadge] (1146-1178): the count of [Filter], the filter
    button's [active] flag and the active-filter summary. *)
Record BadgeView := mkBadgeView { bv_count : nat; bv_btn_active : bool; bv_summary : string }.

Definition filter_parts (f : FilterPanel) : list string :=
  (if String.eqb (fp_status f) "all" then [] else ["Status: " ++ fp_status f]) ++
  (if fp_ownership f is [] then [] else ["Format: " ++ JsString.join ", " (fp_ownership f)]) ++
  (if fp_genres f is [] then [] else ["Genre: " ++ JsString.join ", " (fp_genres f)]) ++
  (if fp_authors f is [] then []
   else ["Author: " ++ JsString.join ", " (firstn 2 (fp_authors f)) ++
         (if (2 <? length (fp_authors f))%nat then "…" else "")]) ++
  (if fp_tags f is [] then [] else ["Tags: " ++ JsString.join ", " (fp_tags f)]) ++
  (if fp_rating f =? 0 then ["Unrated"]
   else if 0 <? fp_rating f then [JsString.of_Z (fp_rating f) ++ "★+"] else []).

Definition filter_summary (u : LibraryUi) : string :=
  if Nat.eqb (filter_badge_count u) 0 then "None"
  else JsString.join " · " (filter_parts (ui_fp u)).

Definition updateFilterBadge (u : LibraryUi) : BadgeView :=
  let n := filter_badge_count u in mkBadgeView n (negb (Nat.eqb n 0)) (filter_summary u).

Inductive Render := RDashboard | RCollections | RStats | RLibCount.

Record PageState := mkPageState {
  pg_page : option string;          (* the page with class [active] *)
  pg_title : option string;         (* [#page-title] *)
  pg_add_btn : bool;                (* [#add-book-btn] shown *)
  pg_sidebar : bool;                (* the sidebar open *)
  pg_view : string;                 (* [currentView] *)
  pg_ui : LibraryUi;                (* [fp], [lib-search], [currentSortBy] *)
  pg_books : list Book;             (* [books] *)
  pg_timer : option Z;              (* [_renderLibTimer]'s deadline *)
  pg_now : Z;                       (* the clock *)
  pg_dom : GridDom;
  pg_badge : option BadgeView;      (* [#filter-badge], the filter button, the summary *)
  pg_renders : list Render          (* the other redraws, in order *)
}.

Section Page.
Context (localeCompare : string -> string -> Z).

(** [_doRenderLibrary] from its filtering on: the empty state, or the
    grid shown with its class and the cards or list items; a card that
    throws leaves the content as it was, after the class is set. *)
Definition doRenderLibrary (view : string) (ui : LibraryUi) (bs : list Book) (d : GridDom) : GridDom :=
  match library_view localeCompare (ui_sortBy ui) (ui_search ui) (ui_fp ui) bs with
  | [] => mkGridDom (gd_class d) GridBlank
            (Some (if bs is [] then ("Your library is empty",
                                     "Search for books in Discover or use the + Add Book button.")
                   else ("No books match your filters", "Try clearing some filters.")))
  | filtered =>
      if String.eqb view "grid" then
        mkGridDom "books-grid" (default (gd_content d) (GridCards <$> mapM renderBookCard filtered)) None
      else
        mkGridDom "books-list" (default (gd_content d) (GridList <$> mapM renderBookListItem filtered)) None
  end.

Definition with_timer (t : option Z) (s : PageState) : PageState :=
  {| pg_page := pg_page s; pg_title := pg_title s; pg_add_btn := pg_add_btn s;
     pg_sidebar := pg_sidebar s; pg_view := pg_view s; pg_ui := pg_ui s; pg_books := pg_books s;
     pg_timer := t; pg_now := pg_now s; pg_dom := pg_dom s; pg_badge := pg_badge s; pg_renders := pg_renders s |}.

(** [renderLibrary()]: [clearTimeout] and a new 50 ms timer. *)
Definition renderLibrary (s : PageState) : PageState := with_timer (Some (pg_now s + 50)) s.

Definition set_nav (page title : option string) (add : bool) (s : PageState) : PageState :=
  {| pg_page := page; pg_title := title; pg_add_btn := add; pg_sidebar := false;
     pg_view := pg_view s; pg_ui := pg_ui s; pg_books := pg_books s; pg_timer := pg_timer s;
     pg_now := pg_now s; pg_dom := pg_dom s; pg_badge := pg_badge s; pg_renders := pg_renders s |}.

Definition add_render (r : Render) (s : PageState) : PageState :=
  {| pg_page := pg_page s; pg_title := pg_title s; pg_add_btn := pg_add_btn s;
     pg_sidebar := pg_sidebar s; pg_view := pg_view s; pg_ui := pg_ui s; pg_books := pg_books s;
     pg_timer := pg_timer s; pg_now := pg_now s; pg_dom := pg_dom s; pg_badge := pg_badge s;
     pg_renders := (pg_renders s ++ [r])%list |}.

(** [showPage(page)]: every page deactivated and [#page-<page>]
    activated if it exists, the title, the add button, [closeSidebar()],
    then the page's redraw. *)
Definition showPage (page : string) (s : PageState) : PageState :=
  let s1 := set_nav (if page \in pages then Some page else None) (page_title page)
              (negb (String.eqb page "settings")) s in
  if String.eqb page "dashboard" then add_render RDashboard s1
  else if String.eqb page "library" then renderLibrary s1
  else if String.eqb page "collections" then add_render RCollections s1
  else if String.eqb page "stats" then add_render RStats s1
  else s1.

(** [toggleSidebar()] *)
Definition toggleSidebar (s : PageState) : PageState :=
  {| pg_page := pg_page s; pg_title := pg_title s; pg_add_btn := pg_add_btn s;
     pg_sidebar := negb (pg_sidebar s); pg_view := pg_view s; pg_ui := pg_ui s;
     pg_books := pg_books s; pg_timer := pg_timer s; pg_now := pg_now s; pg_dom := pg_dom s; pg_badge := pg_badge s;
     pg_renders := pg_renders s |}.

Definition set_ui (u : LibraryUi) (s : PageState) : PageState :=
  {| pg_page := pg_page s; pg_title := pg_title s; pg_add_btn := pg_add_btn s;
     pg_sidebar := pg_sidebar s; pg_view := pg_view s; pg_ui := u; pg_books := pg_books s;
     pg_timer := pg_timer s; pg_now := pg_now s; pg_dom := pg_dom s; pg_badge := pg_badge s; pg_renders := pg_renders s |}.

(** [setView(view)] *)
Definition setView (v : string) (s : PageState) : PageState :=
  renderLibrary
    {| pg_page := pg_page s; pg_title := pg_title s; pg_add_btn := pg_add_btn s;
       pg_sidebar := pg_sidebar s; pg_view := v; pg_ui := pg_ui s; pg_books := pg_books s;
       pg_timer := pg_timer s; pg_now := pg_now s; pg_dom := pg_dom s; pg_badge := pg_badge s; pg_renders := pg_renders s |}.

(** The books snapshot (lines 249-257): [books] replaced by the sorted
    documents, [renderLibrary()] only if [#page-library] is active, then
    [refreshDashboard()] and [updateLibCount()]. *)
Definition onBooks (docs : list (string * Book)) (s : PageState) : PageState :=
  let s1 := {| pg_page := pg_page s; pg_title := pg_title s; pg_add_btn := pg_add_btn s;
               pg_sidebar := pg_sidebar s; pg_view := pg_view s; pg_ui := pg_ui s;
               pg_books := Sync.books_of_snapshot docs; pg_timer := pg_timer s; pg_now := pg_now s;
               pg_dom := pg_dom s; pg_badge := pg_badge s; pg_renders := pg_renders s |} in
  let s2 := match pg_page s with
            | Some p => if String.eqb p "library" then renderLibrary s1 else s1
            | None => s1
            end in
  add_render RLibCount (add_render RDashboard s2).

(** The clock moves to [t]: a timer due by then runs [_doRenderLibrary]
    on the state of that moment. *)
Definition tick_timer (t : Z) (s : PageState) : PageState :=
  if t <? pg_now s then s
  else
    let due := match pg_timer s with Some d => d <=? t | None => false end in
    {| pg_page := pg_page s; pg_title := pg_title s; pg_add_btn := pg_add_btn s;
       pg_sidebar := pg_sidebar s; pg_view := pg_view s; pg_ui := pg_ui s; pg_books := pg_books s;
       pg_timer := if due then None else pg_timer s; pg_now := t;
       pg_dom := if due then doRenderLibrary (pg_view s) (pg_ui s) (pg_books s) (pg_dom s)
                 else pg_dom s;
       pg_badge := if due then Some (updateFilterBadge (pg_ui s)) else pg_badge s;
       pg_renders := pg_renders s |}.

(** The events of the page: navigation, the sidebar, the filter panel,
    the search box and the sort select ([Filter.panel_handle], each
    followed by [renderLibrary()]), the view buttons, the books listener
    and the clock. *)
Inductive NavEvent :=
  | EvShowPage (page : string)
  | EvToggleSidebar
  | EvPanel (e : PanelEvent)
  | EvSetView (v : string)
  | EvBooks (docs : list (string * Book))
  | EvTick (t : Z).

Definition nav_step (s : PageState) (e : NavEvent) : PageState :=
  match e with
  | EvShowPage p => showPage p s
  | EvToggleSidebar => toggleSidebar s
  | EvPanel pe => renderLibrary (set_ui (panel_handle pe (pg_ui s)) s)
  | EvSetView v => setView v s
  | EvBooks docs => onBooks docs s
  | EvTick t => tick_timer t s
  end.

Definition nav_run (s : PageState) (es : list NavEvent) : PageState := fold_left nav_step es s.

(** The page as loaded: the markup is not part of src/; the dashboard is
    taken active, with no book and no render pending. *)
Definition nav0 : PageState :=
  {| pg_page := Some "dashboard"; pg_title := Some "Dashboard"; pg_add_btn := true;
     pg_sidebar := false; pg_view := "grid"; pg_ui := ui_init; pg_books := []; pg_timer := None;
     pg_now := 0; pg_dom := mkGridDom "books-grid" GridBlank None; pg_badge := None; pg_renders := [] |}.

Inductive nav_reachable : PageState -> Prop :=
  | nav_init : nav_reachable nav0
  | nav_next s e : nav_reachable s -> nav_reachable (nav_step s e).

(** The library page is up to date: drawing the grid again from the
    current state would change nothing, and the badge is that of the
    current filters. *)
Definition grid_current (s : PageState) : Prop :=
  doRenderLibrary (pg_view s) (pg_ui s) (pg_books s) (pg_dom s) = pg_dom s /\
  pg_badge s = Some (updateFilterBadge (pg_ui s)).

(** The invariant of the page: with no render pending on the library
    page the grid is up to date, and a pending timer is due within 50 ms. *)
Definition page_inv (s : PageState) : Prop :=
  (pg_timer s = None -> pg_page s = Some "library" -> grid_current s) /\
  (forall d, pg_timer s = Some d -> d <= pg_now s + 50).

(** ** Lemmas *)

Lemma doRenderLibrary_idem v u bs d :
  doRenderLibrary v u bs (doRenderLibrary v u bs d) = doRenderLibrary v u bs d.
Proof.
  unfold doRenderLibrary. destruct (library_view _ _ _ _ _) eqn:E; [reflexivity|].
  cbv beta iota. destruct (String.eqb v "grid");
    [destruct (mapM renderBookCard _)|destruct (mapM renderBookListItem _)]; reflexivity.
Qed.

(** An up-to-date grid in grid view shows the cards of the library view. *)
Lemma doRenderLibrary_cards v u bs d cs :
  doRenderLibrary v u bs d = d -> String.eqb v "grid" = true ->
  mapM renderBookCard (library_view localeCompare (ui_sortBy u) (ui_search u) (ui_fp u) bs) = Some cs ->
  cs <> [] -> d = mkGridDom "books-grid" (GridCards cs) None.
Proof.
  intros Hd Hv Hm Hne. rewrite <- Hd. unfold doRenderLibrary.
  destruct (library_view _ _ _ _ _); [injection Hm as <-; by destruct Hne|].
  cbv beta iota. by rewrite Hv, Hm.
Qed.

Lemma doRenderLibrary_empty v u bs d :
  doRenderLibrary v u bs d = d ->
  library_view localeCompare (ui_sortBy u) (ui_search u) (ui_fp u) bs = [] ->
  gd_content d = GridBlank /\ gd_empty d <> None.
Proof. intros Hd Hl. rewrite <- Hd. unfold doRenderLibrary. by rewrite Hl. Qed.

Lemma showPage_page p s : pg_page (showPage p s) = if p \in pages then Some p else None.
Proof.
  unfold showPage. destruct (String.eqb p "dashboard"); [done|].
  destruct (String.eqb p "library"); [done|]. destruct (String.eqb p "collections"); [done|].
  by destruct (String.eqb p "stats").
Qed.

Lemma showPage_timer p s :
  pg_timer (showPage p s) = if String.eqb p "library" then Some (pg_now s + 50) else pg_timer s.
Proof.
  unfold showPage. destruct (String.eqb_spec p "dashboard") as [->|_]; [done|].
  destruct (String.eqb p "library"); [done|]. destruct (String.eqb p "collections"); [done|].
  by destruct (String.eqb p "stats").
Qed.

Lemma showPage_now p s : pg_now (showPage p s) = pg_now s.
Proof.
  unfold showPage. destruct (String.eqb p "dashboard"); [done|].
  destruct (String.eqb p "library"); [done|]. destruct (String.eqb p "collections"); [done|].
  by destruct (String.eqb p "stats").
Qed.

Lemma renderLibrary_inv s : page_inv (renderLibrary s).
Proof. split; [discriminate|]. intros d [= <-]. cbn. lia. Qed.

Lemma add_render_inv r s : page_inv s -> page_inv (add_render r s).
Proof. done. Qed.

Lemma nav_inv_step s e : page_inv s -> page_inv (nav_step s e).
Proof.
  intros [H1 H2]. destruct e as [p| |pe|v|docs|t]; cbn [nav_step].
  - split.
    + intros Ht Hp. rewrite showPage_page in Hp. rewrite showPage_timer in Ht.
      destruct (p \in pages); [|done]. by simplify_eq.
    + intros d Hd. rewrite showPage_timer in Hd. rewrite showPage_now.
      destruct (String.eqb p "library"); [simplify_eq; lia|exact (H2 d Hd)].
  - split; [exact H1|exact H2].
  - apply renderLibrary_inv.
  - apply renderLibrary_inv.
  - unfold onBooks. apply add_render_inv, add_render_inv.
    destruct (pg_page s) as [p|] eqn:Ep; [destruct (String.eqb_spec p "library")|].
    + apply renderLibrary_inv.
    + split; [cbn; intros _ [= ?]; congruence|exact H2].
    + split; [cbn; intros _ [=]|exact H2].
  - unfold tick_timer. destruct (t <? pg_now s) eqn:Et; [by split|]. apply Z.ltb_ge in Et.
    destruct (pg_timer s) as [d|] eqn:Ed; [destruct (d <=? t) eqn:Edt|]; cbn.
    + split; [intros _ _; split; [apply doRenderLibrary_idem|reflexivity]|discriminate].
    + split; [discriminate|]. intros d' [= <-]. specialize (H2 d eq_refl). cbn. lia.
    + split; [exact H1|discriminate].
Qed.

Lemma nav_reachable_inv s : nav_reachable s -> page_inv s.
Proof.
  induction 1 as [|s e _ IH]; [|by apply nav_inv_step]. split; [intros _ [=]|discriminate].
Qed.

Lemma nav_run_reachable s es : nav_reachable s -> nav_reachable (nav_run s es).
Proof. revert s. induction es as [|e es IH]; intros s Hs; [exact Hs|]. apply IH. by constructor. Qed.

Lemma str_app_nonempty_l (x y : string) : x <> "" -> (x ++ y)%string <> "".
Proof. destruct x; [done|discriminate]. Qed.

Lemma str_app_nonempty_r (x y : string) : y <> "" -> (x ++ y)%string <> "".
Proof. destruct x; [done|discriminate]. Qed.

(** A join of non-empty pieces is empty only for no piece. *)
Lemma join_nil_iff sep l :
  Forall (fun x => x <> "") l -> JsString.join sep l = "" <-> l = [].
Proof.
  intros Hl. destruct l as [|x [|y r]]; [done| |]; inversion Hl as [|? ? Hx]; subst; cbn [JsString.join].
  - split; [intros; contradiction|discriminate].
  - split; [intros E; by apply str_app_nonempty_l in E|discriminate].
Qed.

Lemma filter_parts_nonempty f : Forall (fun x => x <> "") (filter_parts f).
Proof.
  unfold filter_parts. repeat apply Forall_app_2; repeat case_match; repeat constructor;
    first [discriminate | apply str_app_nonempty_l; discriminate | apply str_app_nonempty_r; discriminate].
Qed.

Lemma filter_parts_nil f : -1 <= fp_rating f -> filter_parts f = [] -> f = fp_init.
Proof.
  destruct f as [st own gs aus tgs r]. unfold filter_parts. cbn [fp_status fp_ownership fp_genres fp_authors fp_tags fp_rating].
  intros Hr H. repeat (case_match; simplify_eq/=).
  apply String.eqb_eq in H0. apply Z.eqb_neq in H1. apply Z.ltb_ge in H2.
  assert (r = -1) as -> by lia. by subst.
Qed.

(** ** Properties *)

(** C38: on the library page, whatever happened before, 50 ms without
    an event settle the grid: no render is pending, the page, view,
    filters and books are those of before, and the grid is up to date
    with them, and so are the filter badge and summary; in grid view it shows the cards of [library_view] when
    they all render, and the empty state when the view is empty. *)
Theorem library_grid_settles s :
  nav_reachable s -> pg_page s = Some "library" ->
  let s' := tick_timer (pg_now s + 50) s in
  pg_timer s' = None /\ pg_page s' = Some "library" /\
  (pg_view s', pg_ui s', pg_books s') = (pg_view s, pg_ui s, pg_books s) /\
  doRenderLibrary (pg_view s) (pg_ui s) (pg_books s) (pg_dom s') = pg_dom s' /\
  pg_badge s' = Some (updateFilterBadge (pg_ui s)) /\
  (forall cs, String.eqb (pg_view s) "grid" = true ->
     mapM renderBookCard (library_view localeCompare (ui_sortBy (pg_ui s)) (ui_search (pg_ui s))
                            (ui_fp (pg_ui s)) (pg_books s)) = Some cs ->
     cs <> [] -> pg_dom s' = mkGridDom "books-grid" (GridCards cs) None) /\
  (library_view localeCompare (ui_sortBy (pg_ui s)) (ui_search (pg_ui s)) (ui_fp (pg_ui s)) (pg_books s) = [] ->
     gd_content (pg_dom s') = GridBlank /\ gd_empty (pg_dom s') <> None).
Proof.
  intros Hr Hp s'. destruct (nav_reachable_inv s Hr) as [H1 H2].
  assert (Hc : pg_timer s' = None /\ (pg_view s', pg_ui s', pg_books s') = (pg_view s, pg_ui s, pg_books s) /\
               pg_page s' = pg_page s /\ grid_current s').
  { subst s'. unfold tick_timer. rewrite (proj2 (Z.ltb_ge (pg_now s + 50) (pg_now s)) ltac:(lia)).
    destruct (pg_timer s) as [d|] eqn:Ed; cbn.
    - rewrite (proj2 (Z.leb_le _ _) (H2 d eq_refl)). cbn. split_and!; try done.
      split; [apply doRenderLibrary_idem|reflexivity].
    - split_and!; try done. exact (H1 eq_refl Hp). }
  destruct Hc as (Ht & Hi & Hpg & Hg & Hbd). injection Hi as Hv Hu Hb.
  rewrite Hv, Hu, Hb in Hg. rewrite Hu in Hbd. rewrite Hp in Hpg. split_and!; try done; [by rewrite Hv, Hu, Hb|..].
  - intros cs Hvw Hm Hne. by eapply doRenderLibrary_cards.
  - intros Hl. by eapply doRenderLibrary_empty.
Qed.

(** The active-filter summary reads [None] without active filters; with
    well-formed filters it is the empty string exactly when a search is
    the only active filter: the search counts in the badge but adds no
    part to the summary. *)
Theorem filter_summary_search_only u :
  panel_wf (ui_fp u) ->
  (filter_summary u = "" <-> ui_fp u = fp_init /\ JsString.trim (ui_search u) <> "").
Proof.
  intros Hwf. unfold filter_summary. destruct (Nat.eqb_spec (filter_badge_count u) 0) as [H0|H0].
  - apply (badge_zero_iff u Hwf) in H0 as [_ Hs]. split; [discriminate|intros [_ ?]; contradiction].
  - rewrite join_nil_iff by apply filter_parts_nonempty. split.
    + intros Hp. apply filter_parts_nil in Hp; [|destruct Hwf as (_ & _ & _ & _ & _ & ?); lia].
      split; [exact Hp|]. intros Hs. apply H0, (badge_zero_iff u Hwf). tauto.
    + intros [-> _]. reflexivity.
Qed.

End Page.

(** ** Witnesses *)

Definition neg_book : Book :=
  sample_book "n" "Dune" "Frank Herbert" "SciFi" "read" (-1) [] "" 5.

(** The library page opened and one book snapshot, before the timer fires. *)
Definition lib_state : PageState :=
  nav_run code_unit_cmp nav0 [EvShowPage "library"; EvBooks [("1", Filter.lib_dune)]].

Lemma library_grid_settles_witness :
  exists cs, pg_dom (tick_timer code_unit_cmp 50 lib_state) = mkGridDom "books-grid" (GridCards cs) None /\
             length cs = 1%nat.
Proof.
  destruct (library_grid_settles code_unit_cmp lib_state) as (_ & _ & _ & _ & _ & Hc & _);
    [apply nav_run_reachable, nav_init|reflexivity|].
  eexists. split; [apply Hc; [reflexivity|reflexivity|discriminate]|reflexivity].
Defined.

(** Only a search: the badge shows 1 and the summary is empty. *)
Lemma filter_summary_search_only_witness :
  bv_count (updateFilterBadge (mkLibraryUi fp_init "dune" "dateAdded")) = 1%nat /\
  bv_summary (updateFilterBadge (mkLibraryUi fp_init "dune" "dateAdded")) = "".
Proof.
  split; [reflexivity|]. apply (filter_summary_search_only (mkLibraryUi fp_init "dune" "dateAdded") panel_wf_init).
  split; [reflexivity|]. vm_compute. discriminate.
Defined.

(** The empty library drawn, then a book whose card throws (a negative
    rating): the grid is shown, the empty state hidden, and the grid
    keeps the blank content of the empty state. *)
Example library_blank_after_throw :
  pg_dom (nav_run code_unit_cmp nav0
            [EvShowPage "library"; EvTick 50; EvBooks [("n", neg_book)]; EvTick 100]) =
  mkGridDom "books-grid" GridBlank None.
Proof. vm_compute. reflexivity. Qed.

End Page.
