(* ===== verification/Collections.v ===== *)
(** * Collections: the new-collection modal (src/app.js:1366-1388)

    [openNewCollectionModal] clears the name field and resets
    [selectedEmoji] to the default; [selectEmoji] sets [selectedEmoji] and
    the hidden [#col-emoji] input; [saveCollection] reads the name field
    and [selectedEmoji], and either keeps the modal open with an error
    toast or closes it and writes the collection ([Library.saveCollection]
    with [saveCollectionToFirestore]).  The modal's state is [ColModal];
    [col_step] runs one of its events on the modal and the library state.
    The emoji a collection gets is the one chosen since the modal was
    last opened ([chosen_emoji]). *)

From S2P Require Import Prelude JsString Book Library ImportExport.
Local Open Scope string_scope.

Module Collections.
Import Library.

Definition default_emoji : string := "📚".

(** [#collection-modal] open, the [#col-name] field, [selectedEmoji] and
    the [#col-emoji] input. *)
Record ColModal := mkColModal { cm_open : bool; cm_name : string; cm_selected : string; cm_input : string }.

(** [openNewCollectionModal()]: the [#col-emoji] input is left as it was. *)
Definition openNewCollectionModal (m : ColModal) : ColModal :=
  mkColModal true "" default_emoji (cm_input m).

(** [selectEmoji(el, emoji)] *)
Definition selectEmoji (e : string) (m : ColModal) : ColModal :=
  mkColModal (cm_open m) (cm_name m) e e.

Inductive ColEvent :=
  | COpen                   (* the New Collection button *)
  | CSelect (e : string)    (* an emoji option *)
  | CType (name : string)   (* typing in [#col-name] *)
  | CSave (newId : string). (* the Create button, [genId()] giving [newId] *)

Section Modal.
Context {S : Type} `{DocStore S}.

(** [saveCollection()]: an empty name leaves the modal open; otherwise
    [closeModal('collection-modal')] and the write. *)
Definition saveCollection_modal (newId : string) (m : ColModal) (s : LibState (S:=S)) : ColModal * LibState (S:=S) :=
  let s' := saveCollection (cm_name m) (cm_selected m) newId s in
  if String.eqb (JsString.trim (cm_name m)) "" then (m, s')
  else (mkColModal false (cm_name m) (cm_selected m) (cm_input m), s').

Definition col_step (ms : ColModal * LibState (S:=S)) (e : ColEvent) : ColModal * LibState (S:=S) :=
  let '(m, s) := ms in
  match e with
  | COpen => (openNewCollectionModal m, s)
  | CSelect em => (selectEmoji em m, s)
  | CType n => (mkColModal (cm_open m) n (cm_selected m) (cm_input m), s)
  | CSave k => saveCollection_modal k m s
  end.

Definition col_run (ms : ColModal * LibState (S:=S)) (es : list ColEvent) : ColModal * LibState (S:=S) :=
  fold_left col_step es ms.

(** The emoji the user has chosen: the default after each opening, then
    the last option clicked. *)
Definition chosen_emoji (e0 : string) (es : list ColEvent) : string :=
  fold_left (fun acc e => match e with COpen => default_emoji | CSelect em => em | _ => acc end) es e0.

(** ** Lemmas *)

Lemma col_step_selected ms e :
  cm_selected (fst (col_step ms e)) =
  match e with COpen => default_emoji | CSelect em => em | _ => cm_selected (fst ms) end.
Proof.
  destruct ms as [m s], e; cbn; try done. unfold saveCollection_modal. by case_match.
Qed.

Lemma col_run_selected ms es : cm_selected (fst (col_run ms es)) = chosen_emoji (cm_selected (fst ms)) es.
Proof.
  unfold col_run, chosen_emoji. revert ms. induction es as [|e es IH]; intros ms; [done|]. cbn [fold_left].
  rewrite (IH (col_step ms e)), col_step_selected. by destruct e.
Qed.

(** ** Properties *)

(** After any sequence of modal events, [selectedEmoji] is the emoji
    chosen since the modal was last opened, and a Create with a non-empty
    name, for a signed-in user, closes the modal and stores the collection
    under the user and the fresh id with the trimmed name and that
    emoji. *)
Theorem collection_emoji ms es k u :
  let '(m, s) := col_run ms es in
  cm_selected m = chosen_emoji (cm_selected (fst ms)) es /\
  (ls_user s = Some u -> JsString.trim (cm_name m) <> "" ->
   cm_open (fst (col_step (m, s) (CSave k))) = false /\
   In ((u, k), {| col_id := k; col_name := JsString.trim (cm_name m);
                  col_emoji := chosen_emoji (cm_selected (fst ms)) es; col_createdAt := ls_now s |})
      (ls_cols (snd (col_step (m, s) (CSave k))))).
Proof.
  pose proof (col_run_selected ms es) as Hsel. destruct (col_run ms es) as [m s]. cbn in Hsel.
  split; [exact Hsel|]. intros Hu Hn. rewrite <- Hsel. cbn [col_step]. unfold saveCollection_modal.
  apply String.eqb_neq in Hn. rewrite Hn. split; [done|]. cbn [snd].
  unfold saveCollection. rewrite Hn. cbn [ls_cols showToast]. unfold saveCollectionToFirestore.
  rewrite Hu. apply ImportExport.col_set_In.
Qed.

End Modal.

(** ** Witnesses *)

Definition modal0 : ColModal := mkColModal false "" default_emoji "".

(** A collection made with 🎯, then a second one with no emoji chosen. *)
Definition col_session : list ColEvent :=
  [COpen; CSelect "🎯"; CType "Classics"; CSave "c1"; COpen; CType " Sci-Fi "].

(** The second collection gets the default emoji back. *)
Lemma collection_emoji_witness :
  In (("alice", "c2"), {| col_id := "c2"; col_name := "Sci-Fi"; col_emoji := default_emoji;
                          col_createdAt := 1000%Z |})
     (ls_cols (snd (col_step (col_run (modal0, lib_s0) col_session) (CSave "c2")))).
Proof.
  pose proof (collection_emoji (modal0, lib_s0) col_session "c2" "alice") as W.
  destruct (col_run (modal0, lib_s0) col_session) as [m s] eqn:E.
  vm_compute in E. injection E as <- <-. destruct W as [_ W].
  apply W; [reflexivity|vm_compute; discriminate].
Defined.

End Collections.
